(** * Parfumelite ads dashboard: the worker's ingestion and reporting core

    A shallow embedding of [worker.js] (the Cloudflare Worker behind the
    dashboard) and of the tables of [schema.sql] it reads and writes.

    Conventions of the embedding.
    - A JavaScript string is its UTF-8 byte sequence (a [string]).  UTF-8 is
      self-synchronising, so [String.prototype.includes] on well-formed
      strings is the substring test on bytes.
    - A JavaScript number is a binary64 float (a primitive [float]).  Time
      values of [Date] and calendar arithmetic are integers of [Z]: every
      such quantity that occurs is below [2^53] in magnitude, or a multiple
      of a day, and is exact as a double.
    - An exception is a value ([exn]); code that can throw returns a sum.
    - The D1 store is a record of tables; a statement is a function on it. *)

From Stdlib Require Import ZArith List String Ascii Bool Lia Floats DecimalString.
Import ListNotations.

Set Warnings "-register-all,-inexact-float".

Local Open Scope string_scope.
Local Open Scope Z_scope.

(* ================================================================= *)
(** * Part I: definitions *)
(* ================================================================= *)

(** ** Strings *)

Module Str.

Definition code (c : ascii) : Z := Z.of_N (N_of_ascii c).

Definition chr (z : Z) : ascii := ascii_of_N (Z.to_N z).

Definition is_digit (c : ascii) : bool := (48 <=? code c) && (code c <=? 57).

Definition digit (c : ascii) : Z := code c - 48.

Definition is_ascii (c : ascii) : bool := code c <? 128.

(** [a-z] to [A-Z]; every other byte is left alone. *)
Definition upper_ascii (c : ascii) : ascii :=
  if (97 <=? code c) && (code c <=? 122) then chr (code c - 32) else c.

Definition lower_ascii (c : ascii) : ascii :=
  if (65 <=? code c) && (code c <=? 90) then chr (code c + 32) else c.

Fixpoint map (f : ascii -> ascii) (s : string) : string :=
  match s with
  | EmptyString => EmptyString
  | String c r => String (f c) (map f r)
  end.

(** [s.startsWith(p)]. *)
Fixpoint starts_with (p s : string) : bool :=
  match p, s with
  | EmptyString, _ => true
  | String a p', String b s' => Ascii.eqb a b && starts_with p' s'
  | String _ _, EmptyString => false
  end.

(** [s.includes(sub)]: [sub] occurs in [s] at some position. *)
Fixpoint includes (s sub : string) : bool :=
  starts_with sub s ||
  match s with
  | EmptyString => false
  | String _ s' => includes s' sub
  end.

(** The byte 0, the character U+0000. *)
Definition nul : ascii := chr 0.

(** The byte occurs in the string. *)
Fixpoint occurs (c : ascii) (s : string) : bool :=
  match s with
  | EmptyString => false
  | String a r => Ascii.eqb a c || occurs c r
  end.

(** [s.replace(/c/g, '')]: every occurrence of the character is removed. *)
Fixpoint remove_all (c : ascii) (s : string) : string :=
  match s with
  | EmptyString => EmptyString
  | String a r => if Ascii.eqb a c then remove_all c r else String a (remove_all c r)
  end.

(** [s.replace(c, d)] with a string pattern: the first occurrence only. *)
Fixpoint replace_first (c d : ascii) (s : string) : string :=
  match s with
  | EmptyString => EmptyString
  | String a r => if Ascii.eqb a c then String d r else String a (replace_first c d r)
  end.

(** The white space and line terminators that [parseInt] and [parseFloat]
    skip at the start of their argument, in UTF-8. *)
Definition white_space : list string :=
  [ String (chr 9) ""; String (chr 10) ""; String (chr 11) ""; String (chr 12) "";
    String (chr 13) ""; " ";
    String (chr 194) (String (chr 160) "");                        (* U+00A0 *)
    String (chr 225) (String (chr 154) (String (chr 128) ""));     (* U+1680 *)
    String (chr 226) (String (chr 128) (String (chr 128) ""));     (* U+2000 *)
    String (chr 226) (String (chr 128) (String (chr 129) ""));
    String (chr 226) (String (chr 128) (String (chr 130) ""));
    String (chr 226) (String (chr 128) (String (chr 131) ""));
    String (chr 226) (String (chr 128) (String (chr 132) ""));
    String (chr 226) (String (chr 128) (String (chr 133) ""));
    String (chr 226) (String (chr 128) (String (chr 134) ""));
    String (chr 226) (String (chr 128) (String (chr 135) ""));
    String (chr 226) (String (chr 128) (String (chr 136) ""));
    String (chr 226) (String (chr 128) (String (chr 137) ""));
    String (chr 226) (String (chr 128) (String (chr 138) ""));     (* U+200A *)
    String (chr 226) (String (chr 128) (String (chr 168) ""));     (* U+2028 *)
    String (chr 226) (String (chr 128) (String (chr 169) ""));     (* U+2029 *)
    String (chr 226) (String (chr 128) (String (chr 175) ""));     (* U+202F *)
    String (chr 226) (String (chr 129) (String (chr 159) ""));     (* U+205F *)
    String (chr 227) (String (chr 128) (String (chr 128) ""));     (* U+3000 *)
    String (chr 239) (String (chr 187) (String (chr 191) "")) ].   (* U+FEFF *)

Fixpoint drop (n : nat) (s : string) : string :=
  match n, s with
  | O, _ => s
  | S n', String _ r => drop n' r
  | S _, EmptyString => EmptyString
  end.

Definition leading_space (s : string) : option nat :=
  option_map String.length (List.find (fun w => starts_with w s) white_space).

(** [TrimString(s, start)].  The fuel is the length of the string: every
    step drops at least one byte. *)
Fixpoint trim_start_fuel (fuel : nat) (s : string) : string :=
  match fuel with
  | O => s
  | S fuel' =>
      match leading_space s with
      | Some n => trim_start_fuel fuel' (drop n s)
      | None => s
      end
  end.

Definition trim_start (s : string) : string := trim_start_fuel (String.length s) s.

End Str.

(** ** Numbers *)

Module Num.

(** The double nearest to an integer (ties to even). *)
Definition of_Z (z : Z) : float := SF2Prim (binary_normalize prec emax z 0 false).

(** The integer a finite float denotes, when it denotes one. *)
Definition to_Z (f : float) : option Z :=
  match Prim2SF f with
  | S754_zero _ => Some 0
  | S754_finite s m e =>
      if 0 <=? e then Some ((if s then -1 else 1) * (Z.pos m * 2 ^ e))
      else if Z.pos m mod 2 ^ (- e) =? 0
           then Some ((if s then -1 else 1) * (Z.pos m / 2 ^ (- e)))
           else None
  | _ => None
  end.

(** The integer part of a finite float: the float rounded toward zero. *)
Definition truncate (f : float) : option Z :=
  match Prim2SF f with
  | S754_zero _ => Some 0
  | S754_finite s m e =>
      Some ((if s then -1 else 1)
            * (if 0 <=? e then Z.pos m * 2 ^ e else Z.pos m / 2 ^ (- e)))
  | _ => None
  end.

(** The double nearest to [m * 10^e] (ties to even), with the sign [neg];
    the first tests cut off what is zero or infinite without computing a
    large power of ten. *)
Definition of_decimal (neg : bool) (m e : Z) : float :=
  if m <=? 0 then (if neg then neg_zero else zero)
  else if 400 <? e then (if neg then neg_infinity else infinity)
  else if Z.log2 m + 1 + e <? -400 then (if neg then neg_zero else zero)
  else if 0 <=? e then SF2Prim (binary_normalize prec emax ((if neg then -1 else 1) * (m * 10 ^ e)) 0 false)
  else
    let d := 10 ^ (- e) in
    let k := Z.max 0 (64 + (Z.log2 d + 1) - (Z.log2 m + 1)) in
    let q := (m * 2 ^ k) / d in
    let r := (m * 2 ^ k) mod d in
    let loc := if r =? 0 then loc_Exact else loc_Inexact (Z.compare (2 * r) d) in
    SF2Prim (binary_round_aux prec emax neg q (- k) loc).

Fixpoint read_digits (s : string) (acc n : Z) : Z * Z * string :=
  match s with
  | String c r =>
      if Str.is_digit c then read_digits r (10 * acc + Str.digit c) (n + 1) else (acc, n, s)
  | EmptyString => (acc, n, s)
  end.

Definition read_sign (s : string) : bool * string :=
  match s with
  | String "-" r => (true, r)
  | String "+" r => (false, r)
  | _ => (false, s)
  end.

(** [parseFloat(s)]: the longest prefix of the trimmed string that is a
    decimal literal, [NaN] when there is none. *)
Definition parseFloat (s : string) : float :=
  let t := Str.trim_start s in
  let '(neg, t1) := read_sign t in
  if Str.starts_with "Infinity" t1 then (if neg then neg_infinity else infinity)
  else
    let '(ip, ni, t2) := read_digits t1 0 0 in
    let '(fp, nf, t3) :=
      match t2 with
      | String "." r => read_digits r ip 0
      | _ => (ip, 0, t2)
      end in
    if ni + nf =? 0 then nan
    else
      let ex :=
        match t3 with
        | String c r =>
            if Ascii.eqb c "e" || Ascii.eqb c "E" then
              let '(eneg, r1) := read_sign r in
              let '(ev, ne, _) := read_digits r1 0 0 in
              if ne =? 0 then 0 else if eneg then - ev else ev
            else 0
        | EmptyString => 0
        end in
      of_decimal neg fp (ex - nf).

Definition hex_digit (c : ascii) : option Z :=
  let n := Str.code c in
  if Str.is_digit c then Some (n - 48)
  else if (97 <=? n) && (n <=? 102) then Some (n - 87)
  else if (65 <=? n) && (n <=? 70) then Some (n - 55)
  else None.

Fixpoint read_hex (s : string) (acc n : Z) : Z * Z :=
  match s with
  | String c r =>
      match hex_digit c with
      | Some d => read_hex r (16 * acc + d) (n + 1)
      | None => (acc, n)
      end
  | EmptyString => (acc, n)
  end.

Definition signed (neg : bool) (v : Z) : float :=
  if v =? 0 then (if neg then neg_zero else zero) else of_Z (if neg then - v else v).

(** [parseInt(s)] with no radix: base 16 after [0x], base 10 otherwise;
    the longest prefix of digits, [NaN] when there is none. *)
Definition parseInt (s : string) : float :=
  let t := Str.trim_start s in
  let '(neg, t1) := read_sign t in
  if Str.starts_with "0x" t1 || Str.starts_with "0X" t1 then
    let '(v, n) := read_hex (Str.drop 2 t1) 0 0 in
    if n =? 0 then nan else signed neg v
  else
    let '(v, n, _) := read_digits t1 0 0 in
    if n =? 0 then nan else signed neg v.

End Num.

(** ** JavaScript values *)

(** The primitive values a field of a parsed JSON row, a query parameter or
    a column of a result row can hold; [JUndefined] is what reading an
    absent property gives. *)
Inductive jsval : Type :=
| JUndefined
| JNull
| JBool (b : bool)
| JNum (f : float)
| JStr (s : string).

(** A thrown [Error]: its constructor's name and its [message]. *)
Record exn : Type := Throw { exn_name : string; message : string }.

Definition TypeError (msg : string) : exn := Throw "TypeError" msg.
Definition RangeError (msg : string) : exn := Throw "RangeError" msg.
Definition D1Error (msg : string) : exn := Throw "Error" msg.

(** What the engine supplies and the repository does not define.  The
    functions of the worker take the run time as a parameter where they
    reach one of these. *)
Record Runtime : Type := {
  (** [String.prototype.toUpperCase] on a maximal run of non-ASCII bytes
      (whole code points: Unicode's full case mapping is per code point). *)
  unicode_upper : string -> string;
  (** [Number::toString] of a number. *)
  Number_toString : float -> string;
  (** [Date.parse] on a string that is not an ISO date of the form
      [YYYY-MM-DD]: the time value, [None] for an invalid date. *)
  Date_parse_other : string -> option Z;
  (** [String.prototype.toLowerCase] on a string that is not all ASCII. *)
  unicode_lower : string -> string;
  (** The text SQLite stores for a real number in a [TEXT] column. *)
  sqlite_real_text : float -> string;
  (** [datetime('now')] as the store evaluates it for a statement, given
      the number of statements it completed before that one: the text of
      the store's clock at that moment. *)
  datetime_now : nat -> string
}.

Module JS.

(** [ToBoolean]. *)
Definition truthy (v : jsval) : bool :=
  match v with
  | JUndefined | JNull => false
  | JBool b => b
  | JNum f => negb (is_nan f || is_zero f)
  | JStr s => negb (String.eqb s "")
  end.

(** [a || b]. *)
Definition or_else (a b : jsval) : jsval := if truthy a then a else b.

(** [typeof v === 'number']. *)
Definition is_number (v : jsval) : bool :=
  match v with JNum _ => true | _ => false end.

(** [String(v)]. *)
Definition String_ (rt : Runtime) (v : jsval) : string :=
  match v with
  | JUndefined => "undefined"
  | JNull => "null"
  | JBool true => "true"
  | JBool false => "false"
  | JNum f => Number_toString rt f
  | JStr s => s
  end.

(** [parseInt(v)] on any value: the argument is converted to a string. *)
Definition parseInt (rt : Runtime) (v : jsval) : float := Num.parseInt (String_ rt v).

(** [a === b]. *)
Definition strict_eq (a b : jsval) : bool :=
  match a, b with
  | JUndefined, JUndefined | JNull, JNull => true
  | JBool x, JBool y => Bool.eqb x y
  | JNum x, JNum y => PrimFloat.eqb x y
  | JStr x, JStr y => String.eqb x y
  | _, _ => false
  end.

(** [s.toUpperCase()]: ASCII letters directly, each maximal run of
    non-ASCII bytes through the run time's table.  The accumulator holds
    the pending run, most recent byte first. *)
Fixpoint upper_from (rt : Runtime) (pending : string) (s : string) : string :=
  let flush := match pending with
               | EmptyString => EmptyString
               | _ => unicode_upper rt (String.string_of_list_ascii
                                          (List.rev (String.list_ascii_of_string pending)))
               end in
  match s with
  | EmptyString => flush
  | String c r =>
      if Str.is_ascii c then flush ++ String (Str.upper_ascii c) (upper_from rt EmptyString r)
      else upper_from rt (String c pending) r
  end.

Definition toUpperCase (rt : Runtime) (s : string) : string := upper_from rt EmptyString s.

Fixpoint all_ascii (s : string) : bool :=
  match s with
  | EmptyString => true
  | String c r => Str.is_ascii c && all_ascii r
  end.

(** [s.toLowerCase()]. *)
Definition toLowerCase (rt : Runtime) (s : string) : string :=
  if all_ascii s then Str.map Str.lower_ascii s else unicode_lower rt s.

(** Property read [row.name] on an object parsed from JSON. *)
Fixpoint get (row : list (string * jsval)) (name : string) : jsval :=
  match row with
  | [] => JUndefined
  | (k, v) :: rest => if String.eqb k name then v else get rest name
  end.

(** Any value of a parsed JSON document, or a primitive: what a function
    of the worker can be handed as an argument.  An array holds its
    elements, an object its members in order.  No value of a parsed document
    is a function, and its objects inherit from [Array.prototype] and
    [Object.prototype] alone. *)
Inductive value : Type :=
| Prim (v : jsval)
| Arr (items : list value)
| Obj (members : list (string * value)).

(** [ToBoolean]: every object is true. *)
Definition is_truthy (v : value) : bool :=
  match v with
  | Prim p => truthy p
  | Arr _ | Obj _ => true
  end.

(** The object has a member of that name of its own. *)
Definition has_member (name : string) (members : list (string * value)) : bool :=
  List.existsb (fun kv => String.eqb (fst kv) name) members.

Definition not_primitive : exn := TypeError "Cannot convert object to primitive value".

(** [String(v)].  An array is joined: [Array.prototype.toString] calls
    [join], which writes [null] and [undefined] as the empty string and
    converts every other element in turn.  An object is [[object Object]]
    by [Object.prototype.toString], unless it has a member [toString] of
    its own: that member is no function, so the conversion goes on to
    [valueOf] (a member that is no function either, or
    [Object.prototype.valueOf], which returns the object) and ends in a
    [TypeError]. *)
Fixpoint to_string (rt : Runtime) (v : value) : exn + string :=
  match v with
  | Prim p => inr (String_ rt p)
  | Arr items =>
      (fix join (l : list value) : exn + string :=
         match l with
         | [] => inr ""
         | x :: rest =>
             match (match x with
                    | Prim JUndefined | Prim JNull => inr ""
                    | _ => to_string rt x
                    end) with
             | inl e => inl e
             | inr s =>
                 match rest with
                 | [] => inr s
                 | _ :: _ =>
                     match join rest with
                     | inl e => inl e
                     | inr t => inr (s ++ "," ++ t)
                     end
                 end
             end
         end) items
  | Obj members =>
      if has_member "toString" members then inl not_primitive else inr "[object Object]"
  end.

(** No object that [String(v)] reads has a member [toString] of its
    own: the objects among the elements of [v], of their elements and so
    on, when [v] is an array, or [v] itself. *)
Fixpoint convertible (v : value) : bool :=
  match v with
  | Prim _ => true
  | Arr items =>
      (fix every (l : list value) : bool :=
         match l with
         | [] => true
         | x :: rest => convertible x && every rest
         end) items
  | Obj members => negb (has_member "toString" members)
  end.

End JS.

(** A JSON document, as [JSON.stringify] writes it. *)
Inductive json : Type :=
| JsNull
| JsBool (b : bool)
| JsNum (f : float)
| JsStr (s : string)
| JsArr (items : list json)
| JsObj (members : list (string * json)).

Module Json.

(** A property value handed to [JSON.stringify]: [None] is [undefined]. *)
Definition prop : Type := option json.

(** An object literal serialised: a property whose value is [undefined]
    is left out, every other property is kept in order. *)
Fixpoint object (props : list (string * prop)) : list (string * json) :=
  match props with
  | [] => []
  | (k, Some v) :: rest => (k, v) :: object rest
  | (_, None) :: rest => object rest
  end.

(** A number serialised: [NaN] and the infinities become [null], a zero
    of either sign is written [0]. *)
Definition number (f : float) : json :=
  if is_nan f || is_infinity f then JsNull
  else if is_zero f then JsNum 0
  else JsNum f.

Definition of_val (v : jsval) : prop :=
  match v with
  | JUndefined => None
  | JNull => Some JsNull
  | JBool b => Some (JsBool b)
  | JNum f => Some (number f)
  | JStr s => Some (JsStr s)
  end.

(** A row of the request, serialised again. *)
Definition of_row (row : list (string * jsval)) : json :=
  JsObj (object (List.map (fun kv => (fst kv, of_val (snd kv))) row)).

Fixpoint member (name : string) (members : list (string * json)) : option json :=
  match members with
  | [] => None
  | (k, v) :: rest => if String.eqb k name then Some v else member name rest
  end.

(** [Some v] when the document is an object with a member [name]. *)
Definition field (name : string) (doc : json) : option json :=
  match doc with
  | JsObj members => member name members
  | _ => None
  end.

End Json.

(** ** Calendar arithmetic and [Date] *)

Module Cal.

Definition msPerDay : Z := 86400000.

Definition is_leap (y : Z) : bool :=
  (y mod 4 =? 0) && (negb (y mod 100 =? 0) || (y mod 400 =? 0)).

(** Days of month [m] (1 to 12) in year [y]. *)
Definition days_in_month (y m : Z) : Z :=
  if m =? 2 then (if is_leap y then 29 else 28)
  else if (m =? 4) || (m =? 6) || (m =? 9) || (m =? 11) then 30
  else 31.

(** A date of the proleptic Gregorian calendar. *)
Definition valid_date (y m d : Z) : bool :=
  (1 <=? m) && (m <=? 12) && (1 <=? d) && (d <=? days_in_month y m).

(** The day number of a civil date, day 0 being 1970-01-01
    ([MakeDay], with the month counted from 1). *)
Definition days_from_civil (y m d : Z) : Z :=
  let y' := if m <=? 2 then y - 1 else y in
  let era := y' / 400 in
  let yoe := y' - era * 400 in
  let mp := if 2 <? m then m - 3 else m + 9 in
  let doy := (153 * mp + 2) / 5 + d - 1 in
  let doe := yoe * 365 + yoe / 4 - yoe / 100 + doy in
  era * 146097 + doe - 719468.

(** The civil date of a day number ([YearFromTime], [MonthFromTime]
    counted from 1, [DateFromTime]). *)
Definition civil_from_days (z : Z) : Z * Z * Z :=
  let z' := z + 719468 in
  let era := z' / 146097 in
  let doe := z' - era * 146097 in
  let yoe := (doe - doe / 1460 + doe / 36524 - doe / 146096) / 365 in
  let doy := doe - (365 * yoe + yoe / 4 - yoe / 100) in
  let mp := (5 * doy + 2) / 153 in
  let d := doy - (153 * mp + 2) / 5 + 1 in
  let m := if mp <? 10 then mp + 3 else mp - 9 in
  (yoe + era * 400 + (if m <=? 2 then 1 else 0), m, d).

(** Within an era of 400 years that starts on 1 March: the day on which
    year [y] of the era starts, and whether that year has 366 days. *)
Definition year_start (y : Z) : Z := 365 * y + y / 4 - y / 100.

Definition long_year (y : Z) : bool :=
  (y =? 399) || ((y + 1) mod 4 =? 0) && negb ((y + 1) mod 100 =? 0).

(** [Day(t)] and [WeekDay(t)] (0 is Sunday). *)
Definition Day (t : Z) : Z := t / msPerDay.
Definition WeekDay (t : Z) : Z := (Day t + 4) mod 7.

Definition YearFromTime (t : Z) : Z := fst (fst (civil_from_days (Day t))).
Definition MonthFromTime (t : Z) : Z := snd (fst (civil_from_days (Day t))) - 1.
Definition DateFromTime (t : Z) : Z := snd (civil_from_days (Day t)).

(** [TimeClip]. *)
Definition TimeClip (t : Z) : option Z :=
  if Z.abs t <=? 8640000000000000 then Some t else None.

(** The time value of midnight UTC on a civil date. *)
Definition utc (y m d : Z) : Z := days_from_civil y m d * msPerDay.

(** [Math.ceil(a / b)] for integers [a] and [b > 0]. *)
Definition ceil_div (a b : Z) : Z := - ((- a) / b).

(** *** Decimal fields of the ISO format *)

Definition digit_char (n : Z) : ascii := Str.chr (48 + n).

(** [n] written with exactly [k] decimal digits. *)
Fixpoint pad (k : nat) (n : Z) : string :=
  match k with
  | O => EmptyString
  | S k' => pad k' (n / 10) ++ String (digit_char (n mod 10)) EmptyString
  end.

(** The value of a string of decimal digits, [None] if a byte is not one. *)
Fixpoint digits_value (s : string) (acc : Z) : option Z :=
  match s with
  | EmptyString => Some acc
  | String c r => if Str.is_digit c then digits_value r (10 * acc + Str.digit c) else None
  end.

Definition iso_year (y : Z) : string :=
  if (0 <=? y) && (y <=? 9999) then pad 4 y
  else if y <? 0 then String "-" (pad 6 (- y))
  else String "+" (pad 6 y).

(** [YYYY-MM-DD] of a civil date, years outside 0 to 9999 in the
    expanded form with a sign and six digits. *)
Definition iso_date (y m d : Z) : string :=
  iso_year y ++ "-" ++ pad 2 m ++ "-" ++ pad 2 d.

(** [toISOString()] of a time value. *)
Definition toISOString (t : Z) : string :=
  let '(y, m, d) := civil_from_days (Day t) in
  let ms := t mod msPerDay in
  iso_date y m d ++ "T" ++ pad 2 (ms / 3600000) ++ ":" ++ pad 2 (ms / 60000 mod 60)
    ++ ":" ++ pad 2 (ms / 1000 mod 60) ++ "." ++ pad 3 (ms mod 1000) ++ "Z".

(** The date part of [toISOString()] at midnight UTC of day [n]. *)
Definition iso_of_day (n : Z) : string :=
  let '(y, m, d) := civil_from_days n in iso_date y m d.

(** The first [n] bytes of a string and the rest, if it has that many. *)
Fixpoint take (n : nat) (s : string) : option (string * string) :=
  match n with
  | O => Some (EmptyString, s)
  | S n' =>
      match s with
      | String c r =>
          match take n' r with
          | Some (front, rest) => Some (String c front, rest)
          | None => None
          end
      | EmptyString => None
      end
  end.

(** A field of exactly [n] decimal digits at the start of a string. *)
Definition field (n : nat) (s : string) : option (Z * string) :=
  match take n s with
  | Some (front, rest) =>
      match digits_value front 0 with
      | Some v => Some (v, rest)
      | None => None
      end
  | None => None
  end.

Definition expect (c : ascii) (s : string) : option string :=
  match s with
  | String a r => if Ascii.eqb a c then Some r else None
  | EmptyString => None
  end.

(** A year: four digits, or a sign and six digits ([-000000] is not one). *)
Definition parse_year (s : string) : option (Z * string) :=
  match s with
  | String c r =>
      if Ascii.eqb c "+" then field 6 r
      else if Ascii.eqb c "-" then
        match field 6 r with
        | Some (v, rest) => if v =? 0 then None else Some (- v, rest)
        | None => None
        end
      else field 4 s
  | EmptyString => None
  end.

(** The date-only ISO form naming a date of the calendar: [YYYY-MM-DD],
    or with an expanded year [+YYYYYY-MM-DD] or [-YYYYYY-MM-DD]. *)
Definition parse_iso_date (s : string) : option (Z * Z * Z) :=
  match parse_year s with
  | Some (y, r1) =>
      match expect "-" r1 with
      | Some r2 =>
          match field 2 r2 with
          | Some (m, r3) =>
              match expect "-" r3 with
              | Some r4 =>
                  match field 2 r4 with
                  | Some (d, EmptyString) =>
                      if valid_date y m d then Some (y, m, d) else None
                  | _ => None
                  end
              | None => None
              end
          | None => None
          end
      | None => None
      end
  | None => None
  end.

End Cal.

(** A [Date] object is its time value: milliseconds since the epoch, or
    [None] for an invalid date (a [NaN] time value).  The worker runs with
    the UTC time zone, so local time is UTC. *)
Definition Date : Type := option Z.

Module DateObj.

(** [new Date(s)]. *)
Definition of_string (rt : Runtime) (s : string) : Date :=
  match Cal.parse_iso_date s with
  | Some (y, m, d) => Cal.TimeClip (Cal.utc y m d)
  | None =>
      match Date_parse_other rt s with
      | Some t => Cal.TimeClip t
      | None => None
      end
  end.

(** [new Date(t)] on a time value. *)
Definition of_time (t : option Z) : Date :=
  match t with Some t => Cal.TimeClip t | None => None end.

(** The year that [new Date(year, 0, 1)] takes [year] for: a year from 0
    to 99 stands for 1900 + year. *)
Definition constructor_year (y : Z) : Z := if (0 <=? y) && (y <=? 99) then 1900 + y else y.

(** [new Date(year, 0, 1)]. *)
Definition jan_first (year : option Z) : Date :=
  match year with
  | Some y => Cal.TimeClip (Cal.utc (constructor_year y) 1 1)
  | None => None
  end.

Definition getTime (d : Date) : option Z := d.
Definition getFullYear (d : Date) : option Z := option_map Cal.YearFromTime d.
Definition getMonth (d : Date) : option Z := option_map Cal.MonthFromTime d.
Definition getDate (d : Date) : option Z := option_map Cal.DateFromTime d.
Definition getDay (d : Date) : option Z := option_map Cal.WeekDay d.

(** Arithmetic on numbers that may be [NaN]. *)
Definition lift2 (f : Z -> Z -> Z) (a b : option Z) : option Z :=
  match a, b with
  | Some x, Some y => Some (f x y)
  | _, _ => None
  end.

(** The prefix of a string before its first [T]: [s.split('T')[0]]. *)
Fixpoint before_T (s : string) : string :=
  match s with
  | EmptyString => EmptyString
  | String c r => if Ascii.eqb c "T" then EmptyString else String c (before_T r)
  end.

(** No byte of the string is [T]. *)
Fixpoint no_T (s : string) : bool :=
  match s with
  | EmptyString => true
  | String c r => negb (Ascii.eqb c "T") && no_T r
  end.

(** [d.toISOString()]: a [RangeError] on an invalid date. *)
Definition toISOString (d : Date) : exn + string :=
  match d with
  | Some t => inr (Cal.toISOString t)
  | None => inl (RangeError "Invalid time value")
  end.

End DateObj.

(** ** The D1 store *)

(** A value of the store, as a bound parameter arrives in it. *)
Inductive sqlval : Type :=
| VNull
| VInt (z : Z)
| VReal (f : float)
| VText (s : string).

(** A statement the store ran to completion. *)
Inductive statement : Type :=
| Select (table : string)
| Insert (table : string).

Module D1.

(** *** The tables of [schema.sql]

    The worker never reads or writes a column [created_at]: the store
    fills it with [datetime('now')].  The fact tables keep theirs below;
    that of [dim_campaign] is left out. *)

Record dim_campaign_row : Type := {
  campaign_id : Z;
  campaign_name : string;
  platform : sqlval;
  objective : sqlval
}.

Record dim_date_row : Type := {
  date_key : Z;
  full_date : string;
  year : Z;
  quarter : Z;
  month : Z;
  month_name : string;
  week_of_year : Z;
  day_of_month : Z;
  day_of_week : Z;
  day_name : string;
  is_weekend : Z
}.

Record dim_age_group_row : Type := { age_id : Z; age_range : string }.

Record dim_gender_row : Type := { gender_id : Z; gender : string }.

Record dim_region_row : Type := {
  region_id : Z;
  region_name : string;
  region_type : sqlval
}.

Record fact_ads_performance_row : Type := {
  pf_id : Z;
  pf_date_key : Z;
  pf_campaign_id : Z;
  pf_adset_name : sqlval;
  pf_ad_name : sqlval;
  pf_indicator : sqlval;
  pf_action_key : sqlval;
  pf_amount_spent : sqlval;
  pf_results : sqlval;
  pf_cost_per_result : sqlval;
  pf_impressions : sqlval;
  pf_created_at : string
}.

Record fact_ads_demographics_row : Type := {
  dm_id : Z;
  dm_date_key : Z;
  dm_campaign_id : Z;
  dm_action_key : sqlval;
  dm_age_id : Z;
  dm_gender_id : Z;
  dm_spend : sqlval;
  dm_impressions : sqlval;
  dm_created_at : string
}.

Record fact_ads_regions_row : Type := {
  rg_id : Z;
  rg_date_key : Z;
  rg_campaign_id : Z;
  rg_region_id : Z;
  rg_spend : sqlval;
  rg_impressions : sqlval;
  rg_created_at : string
}.

(** The state of the database: the rows of each table in insertion
    order, the counter [sqlite_sequence] keeps for each [AUTOINCREMENT]
    key, and the statements run so far, oldest first. *)
Record DB : Type := {
  dim_campaign : list dim_campaign_row;
  dim_date : list dim_date_row;
  dim_age_group : list dim_age_group_row;
  dim_gender : list dim_gender_row;
  dim_region : list dim_region_row;
  fact_ads_performance : list fact_ads_performance_row;
  fact_ads_demographics : list fact_ads_demographics_row;
  fact_ads_regions : list fact_ads_regions_row;
  seq_campaign : Z;
  seq_age_group : Z;
  seq_gender : Z;
  seq_region : Z;
  seq_performance : Z;
  seq_demographics : Z;
  seq_regions : Z;
  journal : list statement
}.

Definition empty : DB := {|
  dim_campaign := []; dim_date := []; dim_age_group := []; dim_gender := [];
  dim_region := []; fact_ads_performance := []; fact_ads_demographics := [];
  fact_ads_regions := [];
  seq_campaign := 0; seq_age_group := 0; seq_gender := 0; seq_region := 0;
  seq_performance := 0; seq_demographics := 0; seq_regions := 0;
  journal := []
|}.

(** The store after [schema.sql] ran on an empty database: the seven age
    groups and the three genders it inserts. *)
Definition seeded : DB := {|
  dim_campaign := []; dim_date := [];
  dim_age_group :=
    [ {| age_id := 1; age_range := "13-17" |}; {| age_id := 2; age_range := "18-24" |};
      {| age_id := 3; age_range := "25-34" |}; {| age_id := 4; age_range := "35-44" |};
      {| age_id := 5; age_range := "45-54" |}; {| age_id := 6; age_range := "55-64" |};
      {| age_id := 7; age_range := "65+" |} ];
  dim_gender :=
    [ {| gender_id := 1; gender := "female" |}; {| gender_id := 2; gender := "male" |};
      {| gender_id := 3; gender := "unknown" |} ];
  dim_region := []; fact_ads_performance := []; fact_ads_demographics := [];
  fact_ads_regions := [];
  seq_campaign := 0; seq_age_group := 7; seq_gender := 3; seq_region := 0;
  seq_performance := 0; seq_demographics := 0; seq_regions := 0;
  journal := []
|}.

(** The three fact tables together. *)
Definition facts (db : DB) :=
  (fact_ads_performance db, fact_ads_demographics db, fact_ads_regions db).

(** *** Computations on the store

    A call either returns or throws, and leaves a store behind either way:
    each statement commits on its own, nothing is rolled back. *)
Definition M (A : Type) : Type := DB -> (exn + A) * DB.

Definition ret {A : Type} (a : A) : M A := fun db => (inr a, db).

Definition throw {A : Type} (e : exn) : M A := fun db => (inl e, db).

Definition bind {A B : Type} (m : M A) (k : A -> M B) : M B :=
  fun db =>
    match m db with
    | (inr a, db') => k a db'
    | (inl e, db') => (inl e, db')
    end.

(** A computation that cannot touch the store, lifted. *)
Definition lift {A : Type} (r : exn + A) : M A := fun db => (r, db).

(** [m] leaves the observation [f] of the store as it was. *)
Definition keeps {X A : Type} (f : DB -> X) (m : M A) : Prop :=
  forall db, f (snd (m db)) = f db.

Definition log (st : statement) (db : DB) : DB := {|
  dim_campaign := dim_campaign db; dim_date := dim_date db;
  dim_age_group := dim_age_group db; dim_gender := dim_gender db;
  dim_region := dim_region db; fact_ads_performance := fact_ads_performance db;
  fact_ads_demographics := fact_ads_demographics db;
  fact_ads_regions := fact_ads_regions db;
  seq_campaign := seq_campaign db; seq_age_group := seq_age_group db;
  seq_gender := seq_gender db; seq_region := seq_region db;
  seq_performance := seq_performance db; seq_demographics := seq_demographics db;
  seq_regions := seq_regions db;
  journal := journal db ++ [st]
|}.

(** *** Binding parameters *)

(** What [bind] makes of a JavaScript value: [undefined] is refused, a
    boolean becomes the integer 0 or 1, a string a text; a number arrives
    as a real, also when its value is an integer, and [NaN] and the
    infinities arrive as [NULL]. *)
Definition bind_value (v : jsval) : exn + sqlval :=
  match v with
  | JUndefined =>
      inl (D1Error "D1_TYPE_ERROR: Type 'undefined' not supported for value 'undefined'")
  | JNull => inr VNull
  | JBool b => inr (VInt (if b then 1 else 0))
  | JNum f => if is_nan f || is_infinity f then inr VNull else inr (VReal f)
  | JStr s => inr (VText s)
  end.

(** The integer a value is for a column of integers, or in a comparison
    with one: an integer, or a real whose value is an integer that 64 bits
    hold. *)
Definition as_integer (v : sqlval) : option Z :=
  match v with
  | VInt z => Some z
  | VReal f =>
      match Num.to_Z f with
      | Some z =>
          if (-9223372036854775808 <? z) && (z <? 9223372036854775808) then Some z else None
      | None => None
      end
  | VNull | VText _ => None
  end.

(** The value a column hands back to JavaScript. *)
Definition to_js (v : sqlval) : jsval :=
  match v with
  | VNull => JNull
  | VInt z => JNum (Num.of_Z z)
  | VReal f => JNum f
  | VText s => JStr s
  end.

Definition Z_to_string (z : Z) : string := NilZero.string_of_int (Z.to_int z).

(** The text of a real.  A whole number other than zero with at most
    fifteen digits is written with [.0] after it (the format is [%!.15g]):
    7 is ['7.0'].  Every other real is written as the run time has it. *)
Definition real_text (rt : Runtime) (f : float) : string :=
  match Num.to_Z f with
  | Some z =>
      if (z =? 0) || (1000000000000000 <=? Z.abs z) then sqlite_real_text rt f
      else (Z_to_string z ++ ".0")%string
  | None => sqlite_real_text rt f
  end.

(** The text a [TEXT] column keeps for a bound value that is not [NULL]. *)
Definition text_affinity (rt : Runtime) (v : sqlval) : string :=
  match v with
  | VText s => s
  | VInt z => Z_to_string z
  | VReal f => real_text rt f
  | VNull => ""
  end.

(** What a column keeps of the value bound to it, by the type
    [schema.sql] declares for the column.  A [TEXT] column keeps a number
    as its text.  An [INTEGER] column keeps a real as the integer it is,
    when it is one, and a [REAL] column keeps an integer as a real.  The
    worker binds a number or [NULL] to every column of numbers; a text there
    is kept as it is. *)
Definition text_column (rt : Runtime) (v : sqlval) : sqlval :=
  match v with
  | VNull => VNull
  | _ => VText (text_affinity rt v)
  end.

Definition integer_column (v : sqlval) : sqlval :=
  match as_integer v with
  | Some z => VInt z
  | None => v
  end.

Definition real_column (v : sqlval) : sqlval :=
  match v with
  | VInt z => VReal (Num.of_Z z)
  | _ => v
  end.

(** *** Keys *)

Definition max_key {R : Type} (key : R -> Z) (rows : list R) : Z :=
  List.fold_right (fun r acc => Z.max (key r) acc) 0 rows.

(** The key [AUTOINCREMENT] gives the next row: one more than the largest
    key the table ever held. *)
Definition next_key {R : Type} (key : R -> Z) (rows : list R) (seq : Z) : Z :=
  Z.max seq (max_key key rows) + 1.

Definition constraint_failed (what : string) : exn :=
  D1Error ("D1_ERROR: " ++ what ++ ": SQLITE_CONSTRAINT").

(** *** Tables replaced *)

Definition set_dim_campaign (rows : list dim_campaign_row) (seq : Z) (db : DB) : DB := {|
  dim_campaign := rows; dim_date := dim_date db;
  dim_age_group := dim_age_group db; dim_gender := dim_gender db;
  dim_region := dim_region db; fact_ads_performance := fact_ads_performance db;
  fact_ads_demographics := fact_ads_demographics db;
  fact_ads_regions := fact_ads_regions db;
  seq_campaign := seq; seq_age_group := seq_age_group db;
  seq_gender := seq_gender db; seq_region := seq_region db;
  seq_performance := seq_performance db; seq_demographics := seq_demographics db;
  seq_regions := seq_regions db;
  journal := journal db
|}.

Definition set_dim_date (rows : list dim_date_row) (db : DB) : DB := {|
  dim_campaign := dim_campaign db; dim_date := rows;
  dim_age_group := dim_age_group db; dim_gender := dim_gender db;
  dim_region := dim_region db; fact_ads_performance := fact_ads_performance db;
  fact_ads_demographics := fact_ads_demographics db;
  fact_ads_regions := fact_ads_regions db;
  seq_campaign := seq_campaign db; seq_age_group := seq_age_group db;
  seq_gender := seq_gender db; seq_region := seq_region db;
  seq_performance := seq_performance db; seq_demographics := seq_demographics db;
  seq_regions := seq_regions db;
  journal := journal db
|}.

Definition set_dim_age_group (rows : list dim_age_group_row) (seq : Z) (db : DB) : DB := {|
  dim_campaign := dim_campaign db; dim_date := dim_date db;
  dim_age_group := rows; dim_gender := dim_gender db;
  dim_region := dim_region db; fact_ads_performance := fact_ads_performance db;
  fact_ads_demographics := fact_ads_demographics db;
  fact_ads_regions := fact_ads_regions db;
  seq_campaign := seq_campaign db; seq_age_group := seq;
  seq_gender := seq_gender db; seq_region := seq_region db;
  seq_performance := seq_performance db; seq_demographics := seq_demographics db;
  seq_regions := seq_regions db;
  journal := journal db
|}.

Definition set_dim_gender (rows : list dim_gender_row) (seq : Z) (db : DB) : DB := {|
  dim_campaign := dim_campaign db; dim_date := dim_date db;
  dim_age_group := dim_age_group db; dim_gender := rows;
  dim_region := dim_region db; fact_ads_performance := fact_ads_performance db;
  fact_ads_demographics := fact_ads_demographics db;
  fact_ads_regions := fact_ads_regions db;
  seq_campaign := seq_campaign db; seq_age_group := seq_age_group db;
  seq_gender := seq; seq_region := seq_region db;
  seq_performance := seq_performance db; seq_demographics := seq_demographics db;
  seq_regions := seq_regions db;
  journal := journal db
|}.

Definition set_dim_region (rows : list dim_region_row) (seq : Z) (db : DB) : DB := {|
  dim_campaign := dim_campaign db; dim_date := dim_date db;
  dim_age_group := dim_age_group db; dim_gender := dim_gender db;
  dim_region := rows; fact_ads_performance := fact_ads_performance db;
  fact_ads_demographics := fact_ads_demographics db;
  fact_ads_regions := fact_ads_regions db;
  seq_campaign := seq_campaign db; seq_age_group := seq_age_group db;
  seq_gender := seq_gender db; seq_region := seq;
  seq_performance := seq_performance db; seq_demographics := seq_demographics db;
  seq_regions := seq_regions db;
  journal := journal db
|}.

Definition set_fact_ads_performance (rows : list fact_ads_performance_row) (seq : Z)
    (db : DB) : DB := {|
  dim_campaign := dim_campaign db; dim_date := dim_date db;
  dim_age_group := dim_age_group db; dim_gender := dim_gender db;
  dim_region := dim_region db; fact_ads_performance := rows;
  fact_ads_demographics := fact_ads_demographics db;
  fact_ads_regions := fact_ads_regions db;
  seq_campaign := seq_campaign db; seq_age_group := seq_age_group db;
  seq_gender := seq_gender db; seq_region := seq_region db;
  seq_performance := seq; seq_demographics := seq_demographics db;
  seq_regions := seq_regions db;
  journal := journal db
|}.

Definition set_fact_ads_demographics (rows : list fact_ads_demographics_row) (seq : Z)
    (db : DB) : DB := {|
  dim_campaign := dim_campaign db; dim_date := dim_date db;
  dim_age_group := dim_age_group db; dim_gender := dim_gender db;
  dim_region := dim_region db; fact_ads_performance := fact_ads_performance db;
  fact_ads_demographics := rows;
  fact_ads_regions := fact_ads_regions db;
  seq_campaign := seq_campaign db; seq_age_group := seq_age_group db;
  seq_gender := seq_gender db; seq_region := seq_region db;
  seq_performance := seq_performance db; seq_demographics := seq;
  seq_regions := seq_regions db;
  journal := journal db
|}.

Definition set_fact_ads_regions (rows : list fact_ads_regions_row) (seq : Z)
    (db : DB) : DB := {|
  dim_campaign := dim_campaign db; dim_date := dim_date db;
  dim_age_group := dim_age_group db; dim_gender := dim_gender db;
  dim_region := dim_region db; fact_ads_performance := fact_ads_performance db;
  fact_ads_demographics := fact_ads_demographics db;
  fact_ads_regions := rows;
  seq_campaign := seq_campaign db; seq_age_group := seq_age_group db;
  seq_gender := seq_gender db; seq_region := seq_region db;
  seq_performance := seq_performance db; seq_demographics := seq_demographics db;
  seq_regions := seq;
  journal := journal db
|}.

(** *** The statements of the worker's resolvers *)

(** [SELECT campaign_id FROM dim_campaign WHERE campaign_name = ?], [first()]. *)
Definition select_campaign (name : string) : M (option dim_campaign_row) :=
  fun db =>
    (inr (List.find (fun r => String.eqb (campaign_name r) name) (dim_campaign db)),
     log (Select "dim_campaign") db).

(** [INSERT INTO dim_campaign (campaign_name, objective) VALUES (?, ?)
    RETURNING campaign_id]. *)
Definition insert_campaign (name objective : string) : M Z :=
  fun db =>
    if List.existsb (fun r => String.eqb (campaign_name r) name) (dim_campaign db)
    then (inl (constraint_failed "UNIQUE constraint failed: dim_campaign.campaign_name"), db)
    else
      let id := next_key campaign_id (dim_campaign db) (seq_campaign db) in
      let row := {| campaign_id := id; campaign_name := name;
                    platform := VText "Facebook"; objective := VText objective |} in
      (inr id, log (Insert "dim_campaign") (set_dim_campaign (dim_campaign db ++ [row]) id db)).

(** [SELECT date_key FROM dim_date WHERE date_key = ?], [first()]. *)
Definition select_date (key : sqlval) : M (option dim_date_row) :=
  fun db =>
    (inr (match as_integer key with
          | Some z => List.find (fun r => date_key r =? z) (dim_date db)
          | None => None
          end),
     log (Select "dim_date") db).

(** [INSERT INTO dim_date (...) VALUES (...)]: every column but
    [is_weekend] is [NOT NULL], [date_key] is the primary key (a [NULL]
    key is given the next row id), [full_date] is [UNIQUE]. *)
Definition insert_date (key : sqlval) (full : string)
    (yr qt mo : option Z) (mo_name : string) (wk dom dow : option Z)
    (d_name : string) (weekend : Z) : M unit :=
  fun db =>
    match yr, qt, mo, wk, dom, dow with
    | Some yr, Some qt, Some mo, Some wk, Some dom, Some dow =>
        match (match key with
               | VNull => Some (max_key date_key (dim_date db) + 1)
               | _ => as_integer key
               end) with
        | None => (inl (D1Error "D1_ERROR: datatype mismatch: SQLITE_MISMATCH"), db)
        | Some k =>
            if List.existsb (fun r => date_key r =? k) (dim_date db)
            then (inl (constraint_failed "UNIQUE constraint failed: dim_date.date_key"), db)
            else if List.existsb (fun r => String.eqb (full_date r) full) (dim_date db)
            then (inl (constraint_failed "UNIQUE constraint failed: dim_date.full_date"), db)
            else
              let row := {| date_key := k; full_date := full; year := yr; quarter := qt;
                            month := mo; month_name := mo_name; week_of_year := wk;
                            day_of_month := dom; day_of_week := dow; day_name := d_name;
                            is_weekend := weekend |} in
              (inr tt, log (Insert "dim_date") (set_dim_date (dim_date db ++ [row]) db))
        end
    | _, _, _, _, _, _ =>
        (inl (constraint_failed "NOT NULL constraint failed: dim_date"), db)
    end.

(** [SELECT age_id FROM dim_age_group WHERE age_range = ?], [first()]. *)
Definition select_age (label : string) : M (option dim_age_group_row) :=
  fun db =>
    (inr (List.find (fun r => String.eqb (age_range r) label) (dim_age_group db)),
     log (Select "dim_age_group") db).

(** [INSERT INTO dim_age_group (age_range) VALUES (?) RETURNING age_id]. *)
Definition insert_age (label : string) : M Z :=
  fun db =>
    if List.existsb (fun r => String.eqb (age_range r) label) (dim_age_group db)
    then (inl (constraint_failed "UNIQUE constraint failed: dim_age_group.age_range"), db)
    else
      let id := next_key age_id (dim_age_group db) (seq_age_group db) in
      (inr id, log (Insert "dim_age_group")
                 (set_dim_age_group (dim_age_group db ++ [{| age_id := id; age_range := label |}])
                    id db)).

(** [SELECT gender_id FROM dim_gender WHERE gender = ?], [first()]. *)
Definition select_gender (label : string) : M (option dim_gender_row) :=
  fun db =>
    (inr (List.find (fun r => String.eqb (gender r) label) (dim_gender db)),
     log (Select "dim_gender") db).

(** [INSERT INTO dim_gender (gender) VALUES (?) RETURNING gender_id]. *)
Definition insert_gender (label : string) : M Z :=
  fun db =>
    if List.existsb (fun r => String.eqb (gender r) label) (dim_gender db)
    then (inl (constraint_failed "UNIQUE constraint failed: dim_gender.gender"), db)
    else
      let id := next_key gender_id (dim_gender db) (seq_gender db) in
      (inr id, log (Insert "dim_gender")
                 (set_dim_gender (dim_gender db ++ [{| gender_id := id; gender := label |}])
                    id db)).

(** [SELECT region_id FROM dim_region WHERE region_name = ?], [first()]. *)
Definition select_region (name : string) : M (option dim_region_row) :=
  fun db =>
    (inr (List.find (fun r => String.eqb (region_name r) name) (dim_region db)),
     log (Select "dim_region") db).

(** [INSERT INTO dim_region (region_name, region_type) VALUES (?, ?)
    RETURNING region_id]. *)
Definition insert_region (name type : string) : M Z :=
  fun db =>
    if List.existsb (fun r => String.eqb (region_name r) name) (dim_region db)
    then (inl (constraint_failed "UNIQUE constraint failed: dim_region.region_name"), db)
    else
      let id := next_key region_id (dim_region db) (seq_region db) in
      let row := {| region_id := id; region_name := name; region_type := VText type |} in
      (inr id, log (Insert "dim_region") (set_dim_region (dim_region db ++ [row]) id db)).

(** *** The statements that insert facts

    A key column of a fact is [NOT NULL] and a foreign key: the value
    bound must be the key of a row of the dimension. *)

Definition references {R : Type} (key : R -> Z) (rows : list R) (v : sqlval) : bool :=
  match as_integer v with
  | Some z => List.existsb (fun r => key r =? z) rows
  | None => false
  end.

Definition key_of (v : sqlval) : Z := match as_integer v with Some z => z | None => 0 end.

Definition is_null (v : sqlval) : bool := match v with VNull => true | _ => false end.

(** [INSERT INTO fact_ads_performance (...) VALUES (?, ?, ?, ?, ?, ?, ?, ?, ?, ?)]:
    [id] is the next key, [created_at] the clock of the store. *)
Definition insert_performance (rt : Runtime) (dk cid adset ad indicator action amount
    results cpr impressions : sqlval) : M unit :=
  fun db =>
    if is_null dk
    then (inl (constraint_failed "NOT NULL constraint failed: fact_ads_performance.date_key"), db)
    else if is_null cid
    then (inl (constraint_failed "NOT NULL constraint failed: fact_ads_performance.campaign_id"), db)
    else if negb (references date_key (dim_date db) dk
                  && references campaign_id (dim_campaign db) cid)
    then (inl (constraint_failed "FOREIGN KEY constraint failed"), db)
    else
      let id := next_key pf_id (fact_ads_performance db) (seq_performance db) in
      let row := {| pf_id := id; pf_date_key := key_of dk; pf_campaign_id := key_of cid;
                    pf_adset_name := text_column rt adset;
                    pf_ad_name := text_column rt ad;
                    pf_indicator := text_column rt indicator;
                    pf_action_key := text_column rt action;
                    pf_amount_spent := real_column amount;
                    pf_results := integer_column results;
                    pf_cost_per_result := real_column cpr;
                    pf_impressions := integer_column impressions;
                    pf_created_at := datetime_now rt (List.length (journal db)) |} in
      (inr tt, log (Insert "fact_ads_performance")
                 (set_fact_ads_performance (fact_ads_performance db ++ [row]) id db)).

(** [INSERT INTO fact_ads_demographics (...) VALUES (?, ?, ?, ?, ?, ?, ?)]. *)
Definition insert_demographics (rt : Runtime) (dk cid action age gen spend
    impressions : sqlval) : M unit :=
  fun db =>
    if is_null dk
    then (inl (constraint_failed "NOT NULL constraint failed: fact_ads_demographics.date_key"), db)
    else if is_null cid
    then (inl (constraint_failed "NOT NULL constraint failed: fact_ads_demographics.campaign_id"), db)
    else if is_null age
    then (inl (constraint_failed "NOT NULL constraint failed: fact_ads_demographics.age_id"), db)
    else if is_null gen
    then (inl (constraint_failed "NOT NULL constraint failed: fact_ads_demographics.gender_id"), db)
    else if negb (references date_key (dim_date db) dk
                  && references campaign_id (dim_campaign db) cid
                  && references age_id (dim_age_group db) age
                  && references gender_id (dim_gender db) gen)
    then (inl (constraint_failed "FOREIGN KEY constraint failed"), db)
    else
      let id := next_key dm_id (fact_ads_demographics db) (seq_demographics db) in
      let row := {| dm_id := id; dm_date_key := key_of dk; dm_campaign_id := key_of cid;
                    dm_action_key := text_column rt action; dm_age_id := key_of age;
                    dm_gender_id := key_of gen; dm_spend := real_column spend;
                    dm_impressions := integer_column impressions;
                    dm_created_at := datetime_now rt (List.length (journal db)) |} in
      (inr tt, log (Insert "fact_ads_demographics")
                 (set_fact_ads_demographics (fact_ads_demographics db ++ [row]) id db)).

(** [INSERT INTO fact_ads_regions (...) VALUES (?, ?, ?, ?, ?)]. *)
Definition insert_regions (rt : Runtime) (dk cid region spend impressions : sqlval)
    : M unit :=
  fun db =>
    if is_null dk
    then (inl (constraint_failed "NOT NULL constraint failed: fact_ads_regions.date_key"), db)
    else if is_null cid
    then (inl (constraint_failed "NOT NULL constraint failed: fact_ads_regions.campaign_id"), db)
    else if is_null region
    then (inl (constraint_failed "NOT NULL constraint failed: fact_ads_regions.region_id"), db)
    else if negb (references date_key (dim_date db) dk
                  && references campaign_id (dim_campaign db) cid
                  && references region_id (dim_region db) region)
    then (inl (constraint_failed "FOREIGN KEY constraint failed"), db)
    else
      let id := next_key rg_id (fact_ads_regions db) (seq_regions db) in
      let row := {| rg_id := id; rg_date_key := key_of dk; rg_campaign_id := key_of cid;
                    rg_region_id := key_of region; rg_spend := real_column spend;
                    rg_impressions := integer_column impressions;
                    rg_created_at := datetime_now rt (List.length (journal db)) |} in
      (inr tt, log (Insert "fact_ads_regions")
                 (set_fact_ads_regions (fact_ads_regions db ++ [row]) id db)).

End D1.

Notation "x <- m ;; k" := (D1.bind m (fun x => k))
  (at level 61, m at next level, right associativity).

(** ** Statements read by the store: names and [LIKE] *)

Module Sql.

(** The tables of [schema.sql] that the worker's queries name, each with
    its columns in declaration order. *)
Definition schema_sql : list (string * list string) :=
  [ ("dim_date",
     ["date_key"; "full_date"; "year"; "quarter"; "month"; "month_name";
      "week_of_year"; "day_of_month"; "day_of_week"; "day_name"; "is_weekend"]);
    ("dim_campaign",
     ["campaign_id"; "campaign_name"; "platform"; "objective"; "created_at"]);
    ("dim_age_group", ["age_id"; "age_range"]);
    ("dim_gender", ["gender_id"; "gender"]);
    ("dim_region", ["region_id"; "region_name"; "region_type"]);
    ("fact_ads_performance",
     ["id"; "date_key"; "campaign_id"; "adset_name"; "ad_name"; "indicator";
      "action_key"; "amount_spent"; "results"; "cost_per_result"; "impressions";
      "created_at"]);
    ("fact_ads_demographics",
     ["id"; "date_key"; "campaign_id"; "action_key"; "age_id"; "gender_id";
      "spend"; "impressions"; "created_at"]);
    ("fact_ads_regions",
     ["id"; "date_key"; "campaign_id"; "region_id"; "spend"; "impressions";
      "created_at"]) ].

(** A [SELECT] statement as far as name resolution reads it: the text
    of the statement, the tables of [FROM] and of each [JOIN] with their
    aliases, and every column the statement names, qualified by an alias,
    in order of appearance. *)
Record select_stmt : Type := {
  sql_text : string;
  from_tables : list (string * string);
  named_columns : list (string * string)
}.

(** The offset in bytes of the first occurrence of [needle] in a text
    that starts at the offset [from]. *)
Fixpoint position (needle text : string) (from : Z) : option Z :=
  if Str.starts_with needle text then Some from
  else
    match text with
    | EmptyString => None
    | String _ rest => position needle rest (from + 1)
    end.

Fixpoint assoc {A : Type} (key : string) (l : list (string * A)) : option A :=
  match l with
  | [] => None
  | (k, v) :: rest => if String.eqb k key then Some v else assoc key rest
  end.

(** Two identifiers are the same name: SQL names are compared without
    regard to the case of ASCII letters. *)
Definition same_name (a b : string) : bool :=
  String.eqb (Str.map Str.lower_ascii a) (Str.map Str.lower_ascii b).

Fixpoint lookup {A : Type} (name : string) (l : list (string * A)) : option A :=
  match l with
  | [] => None
  | (k, v) :: rest => if same_name k name then Some v else lookup name rest
  end.

(** A column [alias.name] resolves when the alias is one of the
    statement's tables and the table has the column. *)
Definition resolves (schema : list (string * list string)) (stmt : select_stmt)
    (col : string * string) : bool :=
  match lookup (fst col) (List.map (fun ta => (snd ta, fst ta)) (from_tables stmt)) with
  | Some table =>
      match lookup table schema with
      | Some columns => List.existsb (same_name (snd col)) columns
      | None => false
      end
  | None => false
  end.

(** Preparing the statement: the first table the schema does not have,
    or the first column that does not resolve, is the error.  The text of
    the message follows the store's wording, which tells at which offset
    of the text of the statement the column is named. *)
Definition prepare (schema : list (string * list string)) (stmt : select_stmt)
    : exn + unit :=
  match List.find (fun ta => match lookup (fst ta) schema with Some _ => false | None => true end)
          (from_tables stmt) with
  | Some ta => inl (D1Error ("D1_ERROR: no such table: " ++ fst ta ++ ": SQLITE_ERROR"))
  | None =>
      match List.find (fun col => negb (resolves schema stmt col)) (named_columns stmt) with
      | Some col =>
          let name := (fst col ++ "." ++ snd col)%string in
          inl (D1Error ("D1_ERROR: no such column: " ++ name
                          ++ match position name (sql_text stmt) 0 with
                             | Some offset => " at offset " ++ D1.Z_to_string offset
                             | None => ""
                             end
                          ++ ": SQLITE_ERROR"))
      | None => inr tt
      end
  end.

(** *** [LIKE] *)

(** A continuation byte of a UTF-8 character. *)
Definition is_continuation (c : ascii) : bool :=
  (128 <=? Str.code c) && (Str.code c <? 192).

Definition at_character (text : string) : bool :=
  match text with
  | String c _ => negb (is_continuation c)
  | EmptyString => true
  end.

Fixpoint skip_continuation (text : string) : string :=
  match text with
  | String c r => if is_continuation c then skip_continuation r else text
  | EmptyString => text
  end.

(** The comparison of a text with a pattern of [LIKE], without [ESCAPE]:
    [%] is any run of characters, [_] is one character, any other byte is
    itself, the ASCII letters without regard to case. *)
Fixpoint pattern_compare (pattern text : string) : bool :=
  match pattern with
  | EmptyString => match text with EmptyString => true | String _ _ => false end
  | String p pattern' =>
      if Ascii.eqb p "%" then
        (fix any (t : string) : bool :=
           (at_character t && pattern_compare pattern' t)
           || match t with
              | EmptyString => false
              | String _ t' => any t'
              end) text
      else if Ascii.eqb p "_" then
        match text with
        | EmptyString => false
        | String _ t' => pattern_compare pattern' (skip_continuation t')
        end
      else
        match text with
        | EmptyString => false
        | String c t' =>
            Ascii.eqb (Str.lower_ascii p) (Str.lower_ascii c) && pattern_compare pattern' t'
        end
  end.

(** What the store reads of a text where it takes it as a string of C:
    the bytes before the first byte 0. *)
Fixpoint c_string (s : string) : string :=
  match s with
  | EmptyString => EmptyString
  | String c r => if Ascii.eqb c Str.nul then EmptyString else String c (c_string r)
  end.

(** [text LIKE pattern]: SQLite compares the two as strings of C, so that
    a text is matched up to its first byte 0 only. *)
Definition like (pattern text : string) : bool :=
  pattern_compare (c_string pattern) (c_string text).

(** The [CASE] expression of [getBreakdown] that names the channel of a
    campaign:
    [CASE WHEN n LIKE '%FB%' OR n LIKE '%Facebook%' THEN 'Facebook'
          WHEN n LIKE '%IG%' OR n LIKE '%Instagram%' THEN 'Instagram'
          ELSE 'Other' END]. *)
Definition channel (campaign_name : string) : string :=
  if like "%FB%" campaign_name || like "%Facebook%" campaign_name then "Facebook"
  else if like "%IG%" campaign_name || like "%Instagram%" campaign_name then "Instagram"
  else "Other".

(** A token of ASCII bytes that holds no wildcard of [LIKE]. *)
Fixpoint plain (token : string) : bool :=
  match token with
  | EmptyString => true
  | String c r =>
      Str.is_ascii c && negb (Ascii.eqb c "%") && negb (Ascii.eqb c "_") && plain r
  end.

(** The classification as the specification words it: a substring match
    without regard to the case of ASCII letters, Facebook tested first. *)
Definition contains_ignoring_case (name token : string) : bool :=
  Str.includes (Str.map Str.lower_ascii name) (Str.map Str.lower_ascii token).

Definition channel_by_substring (name : string) : string :=
  if contains_ignoring_case name "FB" || contains_ignoring_case name "Facebook"
  then "Facebook"
  else if contains_ignoring_case name "IG" || contains_ignoring_case name "Instagram"
  then "Instagram"
  else "Other".

End Sql.

(** ** The worker *)

(** The response of an operation: the status and the JSON document of the
    body.  The headers are the same on every response and are left out. *)
Record Response : Type := { status : Z; body : json }.

(** A row of an ingestion request: an object parsed from JSON whose
    members hold primitive values, in member order ([JSON.parse] leaves one
    member for each name). *)
Definition row : Type := list (string * jsval).

Module Worker.

Import D1.

(** [jsonResponse(data, status)]. *)
Definition jsonResponse (data : Json.prop) (status : Z) : Response := {|
  status := status;
  body := JsObj (Json.object
                   [ ("success", Some (JsBool ((200 <=? status) && (status <? 300))));
                     ("data", data) ])
|}.

(** *** Helper functions *)

(** [parseVietnameseNumber(value)]: [String(value)] throws on an object
    that cannot be converted, and nothing catches it here. *)
Definition parseVietnameseNumber (rt : Runtime) (value : JS.value) : exn + float :=
  if negb (JS.is_truthy value) then inr 0%float
  else
    match value with
    | JS.Prim (JNum f) => inr f
    | _ =>
        match JS.to_string rt value with
        | inl e => inl e
        | inr text =>
            let parsed :=
              Num.parseFloat (Str.replace_first "," "." (Str.remove_all "." text)) in
            inr (if JS.truthy (JNum parsed) then parsed else 0%float)
        end
    end.

(** [x || 0] on a number. *)
Definition number_or_zero (x : float) : float :=
  if is_nan x || is_zero x then 0%float else x.

(** A number written the Vietnamese way: the digits before the comma in
    groups set apart by dots, the comma, the digits after it. *)
Definition vietnamese (groups : list string) (fraction : string) : string :=
  String.concat "." groups ++ "," ++ fraction.

(** Every byte is a decimal digit. *)
Fixpoint all_digits (s : string) : bool :=
  match s with
  | EmptyString => true
  | String c r => Str.is_digit c && all_digits r
  end.

(** The number the digits denote in base ten, read after [acc]. *)
Fixpoint digits_number (s : string) (acc : Z) : Z :=
  match s with
  | EmptyString => acc
  | String c r => digits_number r (10 * acc + Str.digit c)
  end.

(** The double nearest to the decimal number with the digits [whole]
    before the point and the digits [fraction] after it. *)
Definition decimal (whole fraction : string) : float :=
  Num.of_decimal false (digits_number (whole ++ fraction) 0)
    (- Z.of_nat (String.length fraction)).

Definition getWeekOfYear (date : Date) : option Z :=
  let start := DateObj.jan_first (DateObj.getFullYear date) in
  let diff := DateObj.lift2 Z.sub date start in
  let oneWeek := 604800000 in
  DateObj.lift2 (fun diff day => Cal.ceil_div (diff + day * 86400000) oneWeek)
    diff (DateObj.getDay start).

Definition getDateKey (dateStr : jsval) : exn + jsval :=
  if negb (JS.truthy dateStr) then inr JNull
  else
    match dateStr with
    | JStr s => inr (JNum (Num.parseInt (Str.remove_all "-" s)))
    | _ => inl (TypeError "dateStr.replace is not a function")
    end.

Record period : Type := { startDate : string; endDate : string }.

Definition getPreviousPeriod (rt : Runtime) (startDate endDate : string)
    : exn + period :=
  let start := DateObj.of_string rt startDate in
  let end_ := DateObj.of_string rt endDate in
  let duration := DateObj.lift2 Z.sub end_ start in
  let prevEnd := DateObj.of_time (DateObj.lift2 Z.sub (DateObj.getTime start) (Some 86400000)) in
  let prevStart := DateObj.of_time (DateObj.lift2 Z.sub (DateObj.getTime prevEnd) duration) in
  match DateObj.toISOString prevStart with
  | inl e => inl e
  | inr s =>
      match DateObj.toISOString prevEnd with
      | inl e => inl e
      | inr e => inr {| startDate := DateObj.before_T s; endDate := DateObj.before_T e |}
      end
  end.

(** *** Dimension resolvers *)

Definition getOrCreateCampaign (name : jsval) : M jsval :=
  if negb (JS.truthy name) then ret JNull
  else
    match name with
    | JStr s =>
        let objective :=
          if Str.includes s "Impression" then "Impression"
          else if Str.includes s "Visit" then "Visit"
          else if Str.includes s "Mess" then "Message"
          else "Unknown" in
        existing <- select_campaign s ;;
        match existing with
        | Some r => ret (to_js (VInt (campaign_id r)))
        | None =>
            id <- insert_campaign s objective ;;
            ret (to_js (VInt id))
        end
    | _ => throw (TypeError "name.includes is not a function")
    end.

(** The objective a campaign name stands for, as [getOrCreateCampaign]
    derives it: the first of [Impression], [Visit] and [Mess] that occurs. *)
Definition objective_of (name : string) : string :=
  if Str.includes name "Impression" then "Impression"
  else if Str.includes name "Visit" then "Visit"
  else if Str.includes name "Mess" then "Message"
  else "Unknown".

Definition dayNames : list string :=
  ["Sunday"; "Monday"; "Tuesday"; "Wednesday"; "Thursday"; "Friday"; "Saturday"].

Definition monthNames : list string :=
  ["January"; "February"; "March"; "April"; "May"; "June";
   "July"; "August"; "September"; "October"; "November"; "December"].

(** [names[i]]: [undefined] when the index is [NaN] or out of range. *)
Definition index (names : list string) (i : option Z) : option string :=
  match i with
  | Some z => if z <? 0 then None else List.nth_error names (Z.to_nat z)
  | None => None
  end.

Definition getOrCreateDate (rt : Runtime) (dateStr : jsval) : M jsval :=
  if negb (JS.truthy dateStr) then ret JNull
  else
    match dateStr with
    | JStr s =>
        let date := DateObj.of_string rt s in
        let dateKey := Num.parseInt (Str.remove_all "-" s) in
        key <- lift (bind_value (JNum dateKey)) ;;
        existing <- select_date key ;;
        match existing with
        | Some r => ret (to_js (VInt (date_key r)))
        | None =>
            match index monthNames (DateObj.getMonth date),
                  index dayNames (DateObj.getDay date) with
            | Some month_name, Some day_name =>
                _ <- insert_date key s
                       (DateObj.getFullYear date)
                       (option_map (fun m => Cal.ceil_div (m + 1) 3) (DateObj.getMonth date))
                       (option_map (fun m => m + 1) (DateObj.getMonth date))
                       month_name
                       (getWeekOfYear date)
                       (DateObj.getDate date)
                       (option_map (fun d => if d =? 0 then 7 else d) (DateObj.getDay date))
                       day_name
                       (match DateObj.getDay date with
                        | Some d => if (d =? 0) || (d =? 6) then 1 else 0
                        | None => 0
                        end) ;;
                ret (JNum dateKey)
            | _, _ => _ <- lift (bind_value JUndefined) ;; ret (JNum dateKey)
            end
        end
    | _ => throw (TypeError "dateStr.replace is not a function")
    end.

Definition getOrCreateAge (rt : Runtime) (ageRange : jsval) : M jsval :=
  if negb (JS.truthy ageRange) then ret (JNum 1)
  else
    bound <- lift (bind_value ageRange) ;;
    existing <- select_age (text_affinity rt bound) ;;
    match existing with
    | Some r => ret (to_js (VInt (age_id r)))
    | None =>
        id <- insert_age (text_affinity rt bound) ;;
        ret (to_js (VInt id))
    end.

Definition getOrCreateGender (rt : Runtime) (gender : jsval) : M jsval :=
  if negb (JS.truthy gender) then ret (JNum 3)
  else
    match gender with
    | JStr s =>
        let normalized := JS.toLowerCase rt s in
        existing <- select_gender normalized ;;
        match existing with
        | Some r => ret (to_js (VInt (gender_id r)))
        | None =>
            id <- insert_gender normalized ;;
            ret (to_js (VInt id))
        end
    | _ => throw (TypeError "gender.toLowerCase is not a function")
    end.

Definition getOrCreateRegion (rt : Runtime) (regionName : jsval) : M jsval :=
  if negb (JS.truthy regionName) then ret JNull
  else
    bound <- lift (bind_value regionName) ;;
    existing <- select_region (text_affinity rt bound) ;;
    match existing with
    | Some r => ret (to_js (VInt (region_id r)))
    | None =>
        match regionName with
        | JStr s =>
            let regionType := if Str.includes s "City" then "City" else "Province" in
            id <- insert_region s regionType ;;
            ret (to_js (VInt id))
        | _ => throw (TypeError "regionName.includes is not a function")
        end
    end.

(** *** Ingestion *)

(** The body of the [try] block of [ingestPerformance] for one row. *)
Definition performance_row (rt : Runtime) (r : row) : M unit :=
  campaignId <- getOrCreateCampaign (JS.get r "Campaign") ;;
  dateKey <- getOrCreateDate rt (JS.get r "Date") ;;
  amountSpent <- lift (parseVietnameseNumber rt (JS.Prim (JS.get r "AmountSpent"))) ;;
  costPerResult <- lift (parseVietnameseNumber rt (JS.Prim (JS.get r "CostPerResult"))) ;;
  p1 <- lift (bind_value dateKey) ;;
  p2 <- lift (bind_value campaignId) ;;
  p3 <- lift (bind_value (JS.or_else (JS.get r "AdSet") JNull)) ;;
  p4 <- lift (bind_value (JS.or_else (JS.get r "Ad") JNull)) ;;
  p5 <- lift (bind_value (JS.or_else (JS.get r "Indicator") JNull)) ;;
  p6 <- lift (bind_value (JS.or_else (JS.get r "ActionKey") JNull)) ;;
  p7 <- lift (bind_value (JNum amountSpent)) ;;
  p8 <- lift (bind_value (JS.or_else (JNum (JS.parseInt rt (JS.get r "Results"))) (JNum 0))) ;;
  p9 <- lift (bind_value (JNum costPerResult)) ;;
  p10 <- lift (bind_value
                 (JS.or_else (JNum (JS.parseInt rt (JS.get r "Impressions"))) (JNum 0))) ;;
  insert_performance rt p1 p2 p3 p4 p5 p6 p7 p8 p9 p10.

(** The body of the [try] block of [ingestDemographics] for one row: the
    arguments of [bind] are evaluated before it is called. *)
Definition demographics_row (rt : Runtime) (r : row) : M unit :=
  campaignId <- getOrCreateCampaign (JS.get r "Campaign") ;;
  dateKey <- getOrCreateDate rt (JS.get r "Date") ;;
  ageId <- getOrCreateAge rt (JS.get r "Age") ;;
  genderId <- getOrCreateGender rt (JS.get r "Gender") ;;
  spend <- lift (parseVietnameseNumber rt (JS.Prim (JS.get r "Spend"))) ;;
  p1 <- lift (bind_value dateKey) ;;
  p2 <- lift (bind_value campaignId) ;;
  p3 <- lift (bind_value (JS.or_else (JS.get r "ActionKey") JNull)) ;;
  p4 <- lift (bind_value ageId) ;;
  p5 <- lift (bind_value genderId) ;;
  p6 <- lift (bind_value (JNum spend)) ;;
  p7 <- lift (bind_value
                (JS.or_else (JNum (JS.parseInt rt (JS.get r "Impressions"))) (JNum 0))) ;;
  insert_demographics rt p1 p2 p3 p4 p5 p6 p7.

(** The body of the [try] block of [ingestRegions] for one row. *)
Definition regions_row (rt : Runtime) (r : row) : M unit :=
  campaignId <- getOrCreateCampaign (JS.get r "Campaign") ;;
  dateKey <- getOrCreateDate rt (JS.get r "Date") ;;
  regionId <- getOrCreateRegion rt (JS.get r "Region") ;;
  spend <- lift (parseVietnameseNumber rt (JS.Prim (JS.get r "Spend"))) ;;
  p1 <- lift (bind_value dateKey) ;;
  p2 <- lift (bind_value campaignId) ;;
  p3 <- lift (bind_value regionId) ;;
  p4 <- lift (bind_value (JNum spend)) ;;
  p5 <- lift (bind_value
                (JS.or_else (JNum (JS.parseInt rt (JS.get r "Impressions"))) (JNum 0))) ;;
  insert_regions rt p1 p2 p3 p4 p5.

(** An entry of [errors]: [{ row: row, error: err.message }]. *)
Definition error_entry (r : row) (err : exn) : json :=
  JsObj (Json.object [ ("row", Some (Json.of_row r)); ("error", Some (JsStr (message err))) ]).

(** The loop [for (const row of data) { try { ... processed++ } catch (err)
    { errors.push(...) } }], the same in the three ingestion functions:
    [step] is the body of the [try] block. *)
Fixpoint ingest_loop (step : row -> M unit) (data : list row)
    (processed : Z) (errors : list json) (db : DB) : (Z * list json) * DB :=
  match data with
  | [] => ((processed, errors), db)
  | r :: rest =>
      match step r db with
      | (inr _, db') => ingest_loop step rest (processed + 1) errors db'
      | (inl err, db') => ingest_loop step rest processed (errors ++ [error_entry r err]) db'
      end
  end.

(** The response after the loop:
    [{ processed, errors: errors.length > 0 ? errors : null }]. *)
Definition ingest_response (processed : Z) (errors : list json) : Response :=
  jsonResponse
    (Some (JsObj (Json.object
                    [ ("processed", Some (JsNum (Num.of_Z processed)));
                      ("errors", Some (match errors with
                                       | [] => JsNull
                                       | _ :: _ => JsArr errors
                                       end)) ])))
    200.

(** The three ingestion functions on a parsed request body: [None] is a
    body that is not an array. *)
Definition ingest (step : row -> M unit) (data : option (list row)) (db : DB)
    : Response * DB :=
  match data with
  | None =>
      (jsonResponse
         (Some (JsObj (Json.object [("error", Some (JsStr "Data must be an array"))]))) 400,
       db)
  | Some rows =>
      let '((processed, errors), db') := ingest_loop step rows 0 [] db in
      (ingest_response processed errors, db')
  end.

Definition ingestPerformance (rt : Runtime) := ingest (performance_row rt).
Definition ingestDemographics (rt : Runtime) := ingest (demographics_row rt).
Definition ingestRegions (rt : Runtime) := ingest (regions_row rt).

(** *** Product lines *)

(** [productMapping], the same object in [getTopProducts] and in
    [getProductDaily]; [Object.entries] lists it in declaration order. *)
Definition productMapping : list (string * list string) :=
  [ ("DIRTY MILK", ["DIRTY MILK"]);
    ("MATCHA", ["MATCHA"]);
    ("LENGLINH", ["LENGLINH"]);
    ("WHITE CRUSH", ["WHITE CRUSH"]);
    ("CHOCO LOCO", ["CHOCO LOCO"]);
    ("GOLD JUICE", ["GOLD JUICE"]);
    ("EXTRAIT EXTREME", ["EXTRAIT"]);
    ("MAISON DE AMALRIC", ["MAISON DE AMALRIC"]);
    ("BLACK FRIDAY", ["BLACK FRIDAY"]);
    ("CHRISTMAS", ["GIÁNG SINH"; "CHRISTMAS"; "LỄ HỘI"; "MÙA LỄ"]) ].

(** The inner loop [for (const keyword of keywords)]: [Some productName]
    when it returns from the function. *)
Fixpoint scan_keywords (rt : Runtime) (upperName productName : string)
    (keywords : list string) : option string :=
  match keywords with
  | [] => None
  | keyword :: rest =>
      if Str.includes upperName (JS.toUpperCase rt keyword) then Some productName
      else scan_keywords rt upperName productName rest
  end.

(** The outer loop [for (const [productName, keywords] of ...)]. *)
Fixpoint scan_products (rt : Runtime) (upperName : string)
    (entries : list (string * list string)) : option string :=
  match entries with
  | [] => None
  | (productName, keywords) :: rest =>
      match scan_keywords rt upperName productName keywords with
      | Some found => Some found
      | None => scan_products rt upperName rest
      end
  end.

Definition extractProductLine (rt : Runtime) (adName : jsval) : exn + string :=
  if negb (JS.truthy adName) then inr "Mix Product"
  else
    match adName with
    | JStr s =>
        let upperName := JS.toUpperCase rt s in
        match scan_products rt upperName productMapping with
        | Some productName => inr productName
        | None => inr "Mix Product"
        end
    | _ => inl (TypeError "adName.toUpperCase is not a function")
    end.

(** *** Daily results by product line *)

(** The query of [getProductDaily]: the text between the back quotes,
    line by line. *)
Definition product_daily_query : Sql.select_stmt := {|
  Sql.sql_text :=
    String.concat (String (Str.chr 10) "")
      [ "";
        "    SELECT d.full_date, f.ad_name, SUM(f.results) as total_results";
        "    FROM fact_ads_performance f";
        "    JOIN dim_date d ON f.date_key = d.date_key";
        "    JOIN dim_campaign c ON f.campaign_id = c.campaign_id";
        "    WHERE f.date_key BETWEEN ? AND ?";
        "      AND c.channel = 'Facebook'";
        "      AND (c.objective = 'Message' OR c.campaign_name LIKE '%Mess%')";
        "      AND f.ad_name IS NOT NULL AND f.ad_name != ''";
        "    GROUP BY d.full_date, f.ad_name";
        "    ORDER BY d.full_date ASC";
        "  " ];
  Sql.from_tables :=
    [ ("fact_ads_performance", "f"); ("dim_date", "d"); ("dim_campaign", "c") ];
  Sql.named_columns :=
    [ ("d", "full_date"); ("f", "ad_name"); ("f", "results");
      ("f", "date_key"); ("d", "date_key");
      ("f", "campaign_id"); ("c", "campaign_id");
      ("f", "date_key");
      ("c", "channel");
      ("c", "objective"); ("c", "campaign_name");
      ("f", "ad_name"); ("f", "ad_name");
      ("d", "full_date"); ("f", "ad_name");
      ("d", "full_date") ]
|}.

(** A row of the result of that query: [total_results] is [None] when
    the sum is [NULL]. *)
Record daily_row : Type := {
  full_date : string;
  ad_name : jsval;
  total_results : option float
}.

(** The rows the store computes for a statement it could prepare. *)
Definition Engine : Type := Sql.select_stmt -> list sqlval -> DB -> list daily_row.

(** [db.prepare(query).bind(...).all()] on a store with the tables of
    [schema.sql]. *)
Definition all (engine : Engine) (stmt : Sql.select_stmt) (params : list jsval)
    : M (list daily_row) :=
  fun db =>
    match List.fold_right
            (fun v acc => match bind_value v, acc with
                          | inr b, inr bs => inr (b :: bs)
                          | inl e, _ => inl e
                          | _, inl e => inl e
                          end) (inr []) params with
    | inl e => (inl e, db)
    | inr bound =>
        match Sql.prepare Sql.schema_sql stmt with
        | inl e => (inl e, db)
        | inr _ => (inr (engine stmt bound db), log (Select "fact_ads_performance") db)
        end
    end.

(** [params.get(name)] on the search parameters of the request. *)
Definition params_get (params : list (string * string)) (name : string) : jsval :=
  match Sql.assoc name params with
  | Some v => JStr v
  | None => JNull
  end.

(** [d.setDate(n)]. *)
Definition setDate (d : Date) (n : option Z) : Date :=
  match d, n with
  | Some t, Some n =>
      Cal.TimeClip ((Cal.days_from_civil (Cal.YearFromTime t) (Cal.MonthFromTime t + 1) 1
                       + n - 1) * Cal.msPerDay + t mod Cal.msPerDay)
  | _, _ => None
  end.

(** The date part of [d.toISOString()]. *)
Definition iso_day (d : Date) : exn + string :=
  match DateObj.toISOString d with
  | inl e => inl e
  | inr s => inr (DateObj.before_T s)
  end.

(** [arr.slice(0, limit)]: a negative limit counts from the end, a limit
    that is no whole number is cut to one, [NaN] counts as 0. *)
Definition slice0 {A : Type} (l : list A) (limit : float) : list A :=
  match Num.to_Z limit with
  | Some z =>
      if z <? 0 then List.firstn (Z.to_nat (Z.of_nat (List.length l) + z)) l
      else List.firstn (Z.to_nat z) l
  | None =>
      match Num.truncate limit with
      | Some z =>
          if z <? 0 then List.firstn (Z.to_nat (Z.of_nat (List.length l) + z)) l
          else List.firstn (Z.to_nat z) l
      | None => if is_nan limit || PrimFloat.ltb limit 0 then [] else l
      end
  end.

(** [obj[key] = (obj[key] || 0) + x] on an object of numbers. *)
Fixpoint add_to (obj : list (string * float)) (key : string) (x : float)
    : list (string * float) :=
  match obj with
  | [] => [(key, (0 + x)%float)]
  | (k, v) :: rest =>
      if String.eqb k key
      then (k, ((if JS.truthy (JNum v) then v else 0) + x)%float) :: rest
      else (k, v) :: add_to rest key x
  end.

Definition or_zero (x : option float) : float :=
  match x with
  | Some f => if JS.truthy (JNum f) then f else 0%float
  | None => 0%float
  end.

(** A stable sort: [x] goes before the first element it must precede. *)
Fixpoint insert_sorted {A : Type} (before : A -> A -> bool) (x : A) (l : list A) : list A :=
  match l with
  | [] => [x]
  | y :: rest => if before x y then x :: l else y :: insert_sorted before x rest
  end.

Definition stable_sort {A : Type} (before : A -> A -> bool) (l : list A) : list A :=
  List.fold_left (fun acc x => insert_sorted before x acc) l [].

(** The loops of [getProductDaily] over the rows of the result. *)
Fixpoint product_totals (rt : Runtime) (rows : list daily_row)
    (totals : list (string * float)) : exn + list (string * float) :=
  match rows with
  | [] => inr totals
  | r :: rest =>
      match extractProductLine rt (ad_name r) with
      | inl e => inl e
      | inr product =>
          product_totals rt rest (add_to totals product (or_zero (total_results r)))
      end
  end.

Fixpoint update_day (map : list (string * list (string * float))) (date product : string)
    (x : float) : list (string * list (string * float)) :=
  match map with
  | [] => [(date, add_to [] product x)]
  | (d, products) :: rest =>
      if String.eqb d date then (d, add_to products product x) :: rest
      else (d, products) :: update_day rest date product x
  end.

Fixpoint date_product_map (rt : Runtime) (topProducts : list string) (rows : list daily_row)
    (map : list (string * list (string * float)))
    : exn + list (string * list (string * float)) :=
  match rows with
  | [] => inr map
  | r :: rest =>
      match extractProductLine rt (ad_name r) with
      | inl e => inl e
      | inr product =>
          if negb (List.existsb (String.eqb product) topProducts)
          then date_product_map rt topProducts rest map
          else date_product_map rt topProducts rest
                 (update_day map (full_date r) product (or_zero (total_results r)))
      end
  end.

Definition series_of (dates topProducts : list string)
    (map : list (string * list (string * float))) : list json :=
  List.map
    (fun product =>
       JsObj (Json.object
                [ ("name", Some (JsStr product));
                  ("data",
                   Some (JsArr
                           (List.map
                              (fun date =>
                                 Json.number
                                   (or_zero
                                      (match Sql.assoc date map with
                                       | Some products => Sql.assoc product products
                                       | None => None
                                       end)))
                              dates))) ]))
    topProducts.

(** [getProductDaily(env, params)]: [clock] holds the two readings of
    the clock ([end], then [start]) taken when a date is absent.  The
    result is [inl] if an exception leaves the function. *)
Definition getProductDaily (rt : Runtime) (engine : Engine) (clock : Z * Z)
    (params : list (string * string)) (db : DB) : (exn + Response) * DB :=
  let limit := JS.or_else (JNum (JS.parseInt rt (params_get params "limit"))) (JNum 5) in
  let range :=
    if negb (JS.truthy (params_get params "startDate"))
       || negb (JS.truthy (params_get params "endDate"))
    then
      let end_ := Cal.TimeClip (fst clock) in
      let start := Cal.TimeClip (snd clock) in
      let start := setDate start
                     (DateObj.lift2 Z.sub (DateObj.getDate start) (Some 30)) in
      match iso_day end_, iso_day start with
      | inr e, inr s => inr (JStr s, JStr e)
      | inl x, _ => inl x
      | _, inl x => inl x
      end
    else inr (params_get params "startDate", params_get params "endDate") in
  match range with
  | inl e => (inl e, db)
  | inr (startDate, endDate) =>
      match getDateKey startDate, getDateKey endDate with
      | inl e, _ => (inl e, db)
      | _, inl e => (inl e, db)
      | inr startKey, inr endKey =>
          (* try { ... } catch (e) { return jsonResponse({ error: e.message }, 500) } *)
          let attempt : M Response :=
            rows <- all engine product_daily_query [startKey; endKey] ;;
            totals <- lift (product_totals rt rows []) ;;
            let topProducts :=
              List.map fst
                (slice0 (stable_sort (fun a b => PrimFloat.ltb (snd b - snd a) 0) totals)
                        (match limit with JNum f => f | _ => 5%float end)) in
            dateProductMap <- lift (date_product_map rt topProducts rows []) ;;
            let dates := stable_sort String.ltb (List.map fst dateProductMap) in
            ret (jsonResponse
                   (Some (JsObj (Json.object
                                   [ ("dates", Some (JsArr (List.map JsStr dates)));
                                     ("series",
                                      Some (JsArr (series_of dates topProducts dateProductMap)));
                                     ("topProducts",
                                      Some (JsArr (List.map JsStr topProducts))) ])))
                   200) in
          match attempt db with
          | (inr response, db') => (inr response, db')
          | (inl e, db') =>
              (inr (jsonResponse
                      (Some (JsObj (Json.object [("error", Some (JsStr (message e)))]))) 500),
               db')
          end
      end
  end.

(** *** The run of an ingestion loop, row by row *)

(** Each row with what its [try] block did, and the store at the end. *)
Fixpoint outcomes (step : row -> M unit) (data : list row) (db : DB)
    : list (row * (exn + unit)) * DB :=
  match data with
  | [] => ([], db)
  | r :: rest =>
      let '(res, db') := step r db in
      let '(run, db'') := outcomes step rest db' in
      ((r, res) :: run, db'')
  end.

Definition succeeded (o : row * (exn + unit)) : bool :=
  match snd o with inr _ => true | inl _ => false end.

(** The rows whose [try] block completed, in order. *)
Definition successes (run : list (row * (exn + unit))) : list row :=
  List.map fst (List.filter succeeded run).

(** The entries of [errors] for the rows whose [try] block threw. *)
Fixpoint failures (run : list (row * (exn + unit))) : list json :=
  match run with
  | [] => []
  | (r, inl err) :: rest => error_entry r err :: failures rest
  | (_, inr _) :: rest => failures rest
  end.

(** The [data] member of a response body. *)
Definition data_of (resp : Response) : json :=
  match Json.field "data" (body resp) with
  | Some d => d
  | None => JsNull
  end.

(** The response reports the run: [processed] counts the rows that
    succeeded, and [errors] is a member of the response, [null] when no row
    failed and otherwise the list with the entry of each row that failed. *)
Definition reports (resp : Response) (run : list (row * (exn + unit))) : Prop :=
  Json.field "processed" (data_of resp)
  = Some (JsNum (Num.of_Z (Z.of_nat (List.length (successes run)))))
  /\ Json.field "errors" (data_of resp)
     = Some (match failures run with
             | [] => JsNull
             | _ :: _ => JsArr (failures run)
             end)
  /\ (forall r e, In (r, inl e) run -> In (error_entry r e) (failures run)).

(** The number of [INSERT] statements into a table among statements. *)
Definition inserts_into (table : string) (stmts : list statement) : nat :=
  List.length
    (List.filter (fun st => match st with
                            | Insert t => String.eqb t table
                            | Select _ => false
                            end) stmts).

(** The column keeps the value [v] as [kept]: [v] is bound, and the
    column makes [kept] of what arrives. *)
Definition stored (column : sqlval -> sqlval) (v : jsval) (kept : sqlval) : Prop :=
  exists p, bind_value v = inr p /\ kept = column p.

(** The number [parseVietnameseNumber] reads in a field is kept as [kept]. *)
Definition stored_number (rt : Runtime) (v : jsval) (kept : sqlval) : Prop :=
  exists x, parseVietnameseNumber rt (JS.Prim v) = inr x /\ stored real_column (JNum x) kept.

(** A fact of [fact_ads_performance] holds the row [r] in the store [db]:
    its campaign is the row of [dim_campaign] that has the name of the row,
    its date the row of [dim_date] under the key [getDateKey] computes for
    the date of the row, and its eight other columns keep what the row
    gives for them; [created_at] is a reading of the store's clock. *)
Definition persisted (rt : Runtime) (db : DB) (r : row) (f : fact_ads_performance_row)
    : Prop :=
  (exists name c,
     JS.get r "Campaign" = JStr name
     /\ List.find (fun c => String.eqb (campaign_name c) name) (dim_campaign db) = Some c
     /\ pf_campaign_id f = campaign_id c)
  /\ (exists key v d,
        getDateKey (JS.get r "Date") = inr key
        /\ bind_value key = inr v
        /\ as_integer v = Some (pf_date_key f)
        /\ List.find (fun d => date_key d =? pf_date_key f) (dim_date db) = Some d)
  /\ stored (text_column rt) (JS.or_else (JS.get r "AdSet") JNull) (pf_adset_name f)
  /\ stored (text_column rt) (JS.or_else (JS.get r "Ad") JNull) (pf_ad_name f)
  /\ stored (text_column rt) (JS.or_else (JS.get r "Indicator") JNull) (pf_indicator f)
  /\ stored (text_column rt) (JS.or_else (JS.get r "ActionKey") JNull) (pf_action_key f)
  /\ stored_number rt (JS.get r "AmountSpent") (pf_amount_spent f)
  /\ stored integer_column
       (JS.or_else (JNum (JS.parseInt rt (JS.get r "Results"))) (JNum 0)) (pf_results f)
  /\ stored_number rt (JS.get r "CostPerResult") (pf_cost_per_result f)
  /\ stored integer_column
       (JS.or_else (JNum (JS.parseInt rt (JS.get r "Impressions"))) (JNum 0))
       (pf_impressions f)
  /\ exists n, pf_created_at f = datetime_now rt n.

(** The keys [first], [first + 1], ... of [n] rows. *)
Definition consecutive (first : Z) (n : nat) : list Z :=
  List.map (fun i => first + Z.of_nat i) (List.seq 0 n).

(** The product line as the specification words it: the first entry of
    the table, in declaration order, one of whose keywords occurs in the
    upper-cased name. *)
Definition first_matching_product (rt : Runtime) (upperName : string) : option string :=
  option_map fst
    (List.find
       (fun entry =>
          List.existsb (fun keyword => Str.includes upperName (JS.toUpperCase rt keyword))
            (snd entry))
       productMapping).

End Worker.

(** A run time for the concrete runs below.  None of them reaches one of
    its first five functions: the strings are ASCII, the dates are ISO
    dates, no number is converted to a string, and the reals a [TEXT]
    column is handed are whole numbers.  The store's clock reads 08:00:00
    on 14 October 2025 and goes on by a second with each statement. *)
Definition sample_runtime : Runtime := {|
  unicode_upper := fun s => s;
  Number_toString := fun _ => "NaN";
  Date_parse_other := fun _ => None;
  unicode_lower := fun s => s;
  sqlite_real_text := fun _ => "NaN";
  datetime_now := fun n => "2025-10-14 08:" ++ Cal.pad 2 (Z.of_nat n / 60 mod 60)
                           ++ ":" ++ Cal.pad 2 (Z.of_nat n mod 60)
|}.

(** A row of a performance request. *)
Definition row_mess : row :=
  [ ("Campaign", JStr "Mess FB Perfume"); ("Date", JStr "2025-10-14");
    ("Ad", JStr "DIRTY MILK 50ml Promo"); ("AmountSpent", JStr "5.676,62");
    ("Results", JStr "12"); ("Impressions", JStr "1000") ].

(** The same row without a campaign. *)
Definition row_no_campaign : row :=
  [ ("Date", JStr "2025-10-14"); ("Ad", JStr "DIRTY MILK 50ml Promo");
    ("AmountSpent", JStr "5.676,62"); ("Results", JStr "12"); ("Impressions", JStr "1000") ].

(** A row whose ad set is a number and whose amount is beyond the
    doubles. *)
Definition row_numbers : row :=
  [ ("Campaign", JStr "Mess FB Perfume"); ("Date", JStr "2025-10-14");
    ("AdSet", JNum 7); ("AmountSpent", JStr "1e400") ].

Definition campaign_id_null : exn :=
  D1.constraint_failed "NOT NULL constraint failed: fact_ads_performance.campaign_id".

(** The store after [schema.sql], holding one campaign. *)
Definition store_with_campaign : D1.DB :=
  D1.set_dim_campaign
    [ {| D1.campaign_id := 1; D1.campaign_name := "Mess FB Perfume";
         D1.platform := VText "Facebook"; D1.objective := VText "Message" |} ]
    1 D1.seeded.

(** The row of the date dimension for 1 January 2025. *)
Definition row_2025_01_01 : D1.dim_date_row := {|
  D1.date_key := 20250101; D1.full_date := "2025-01-01"; D1.year := 2025;
  D1.quarter := 1; D1.month := 1; D1.month_name := "January"; D1.week_of_year := 1;
  D1.day_of_month := 1; D1.day_of_week := 3; D1.day_name := "Wednesday";
  D1.is_weekend := 0
|}.

(** ** Dates as numbers *)

Module Civil.

Import Cal.

(** The days of year [y] before its month [m] (1 to 12). *)
Definition days_before_month (y m : Z) : Z :=
  (if m <=? 1 then 0
   else if m =? 2 then 31
   else if m =? 3 then 59
   else if m =? 4 then 90
   else if m =? 5 then 120
   else if m =? 6 then 151
   else if m =? 7 then 181
   else if m =? 8 then 212
   else if m =? 9 then 243
   else if m =? 10 then 273
   else if m =? 11 then 304
   else 334)
  + (if (3 <=? m) && is_leap y then 1 else 0).

(** The digits [YYYYMMDD] of a date, read as one number in base ten: the
    format [schema.sql] gives for [dim_date.date_key]. *)
Definition yyyymmdd (y m d : Z) : Z := y * 10000 + m * 100 + d.

End Civil.

(** ** The row of a date *)

Module DateRow.

Import Cal Civil D1.

(** The values [getOrCreateDate] binds for the date [y]-[m]-[d], with
    the getters of [Date] evaluated: the key [YYYYMMDD], the string, the
    year, [Math.ceil(month / 3)], the month counted from 1 and its name, the
    week, the day of the month, the weekday with Sunday as 7 and its name,
    and 1 for a Saturday or a Sunday. *)
Definition of_date (y m d : Z) : dim_date_row :=
  let weekday := (days_from_civil y m d + 4) mod 7 in
  let jan_first := days_from_civil (DateObj.constructor_year y) 1 1 in
  {| date_key := yyyymmdd y m d;
     full_date := iso_date y m d;
     year := y;
     quarter := ceil_div m 3;
     month := m;
     month_name := List.nth (Z.to_nat (m - 1)) Worker.monthNames "";
     week_of_year := ceil_div (days_from_civil y m d - jan_first + (jan_first + 4) mod 7) 7;
     day_of_month := d;
     day_of_week := if weekday =? 0 then 7 else weekday;
     day_name := List.nth (Z.to_nat weekday) Worker.dayNames "";
     is_weekend := if (weekday =? 0) || (weekday =? 6) then 1 else 0 |}.

End DateRow.

(** ** States of the store compared *)

Module Store.

Import D1.

(** [l'] holds the rows of [l] in the same order, and maybe more after
    them. *)
Definition extends {A : Type} (l l' : list A) : Prop := exists new, l' = (l ++ new)%list.

(** From [db] to [db'] no row of any table was changed or removed. *)
Record grows (db db' : DB) : Prop := {
  grows_campaign : extends (dim_campaign db) (dim_campaign db');
  grows_date : extends (dim_date db) (dim_date db');
  grows_age_group : extends (dim_age_group db) (dim_age_group db');
  grows_gender : extends (dim_gender db) (dim_gender db');
  grows_region : extends (dim_region db) (dim_region db');
  grows_performance : extends (fact_ads_performance db) (fact_ads_performance db');
  grows_demographics : extends (fact_ads_demographics db) (fact_ads_demographics db');
  grows_regions : extends (fact_ads_regions db) (fact_ads_regions db')
}.

(** [m] takes every store to one that [R] relates to it, whether it
    returns or throws. *)
Definition steps {A : Type} (R : DB -> DB -> Prop) (m : M A) : Prop :=
  forall db, R db (snd (m db)).

(** The table has a row with the key. *)
Definition has_key {R : Type} (key : R -> Z) (rows : list R) (k : Z) : bool :=
  List.existsb (fun r => key r =? k) rows.

(** An integer a JavaScript number holds exactly, from 0 on: the worker
    reads every key into a number. *)
Definition safe_integer (k : Z) : bool := (0 <=? k) && (k <? 9007199254740992).

(** The keys of the campaigns and of the dates are such integers. *)
Definition safe_keys (db : DB) : bool :=
  List.forallb (fun c => safe_integer (campaign_id c)) (dim_campaign db)
  && List.forallb (fun d => safe_integer (date_key d)) (dim_date db).

(** The foreign keys of [schema.sql] hold: every fact names a date and a
    campaign of the dimensions, every demographic fact an age group and a
    gender besides, every regional fact a region. *)
Definition referential_integrity (db : DB) : bool :=
  List.forallb
    (fun f => has_key date_key (dim_date db) (pf_date_key f)
              && has_key campaign_id (dim_campaign db) (pf_campaign_id f))
    (fact_ads_performance db)
  && List.forallb
       (fun f => has_key date_key (dim_date db) (dm_date_key f)
                 && has_key campaign_id (dim_campaign db) (dm_campaign_id f)
                 && has_key age_id (dim_age_group db) (dm_age_id f)
                 && has_key gender_id (dim_gender db) (dm_gender_id f))
       (fact_ads_demographics db)
  && List.forallb
       (fun f => has_key date_key (dim_date db) (rg_date_key f)
                 && has_key campaign_id (dim_campaign db) (rg_campaign_id f)
                 && has_key region_id (dim_region db) (rg_region_id f))
       (fact_ads_regions db).

(** From [db] to [db'] the foreign keys were not broken. *)
Definition keeps_integrity (db db' : DB) : Prop :=
  referential_integrity db = true -> referential_integrity db' = true.

(** Calling [resolve] again on the store it left returns the same key
    and runs nothing but the [SELECT] on [table]. *)
Definition settles (resolve : M jsval) (table : string) (db : DB) : Prop :=
  exists id : Z,
    fst (resolve db) = inr (JNum (Num.of_Z id))
    /\ resolve (snd (resolve db))
       = (inr (JNum (Num.of_Z id)), log (Select table) (snd (resolve db))).

(** The tables a statement on [fact_ads_performance] and its two
    dimensions leaves alone, and likewise for the other two fact tables. *)
Definition beside_performance (db : DB) :=
  (dim_age_group db, dim_gender db, dim_region db,
   fact_ads_demographics db, fact_ads_regions db).

Definition beside_demographics (db : DB) :=
  (dim_region db, fact_ads_performance db, fact_ads_regions db).

Definition beside_regions (db : DB) :=
  (dim_age_group db, dim_gender db, fact_ads_performance db, fact_ads_demographics db).

End Store.

(** ** The fact of a performance row *)

Module Fact.

Import D1 Worker.

(** What the [try] block of [ingestPerformance] does once the campaign and
    the date of the row are resolved: the two numbers are parsed, the ten
    values are bound and the fact is inserted. *)
Definition performance_fact (rt : Runtime) (r : row) (campaignId dateKey : jsval) : M unit :=
  amountSpent <- lift (parseVietnameseNumber rt (JS.Prim (JS.get r "AmountSpent"))) ;;
  costPerResult <- lift (parseVietnameseNumber rt (JS.Prim (JS.get r "CostPerResult"))) ;;
  p1 <- lift (bind_value dateKey) ;;
  p2 <- lift (bind_value campaignId) ;;
  p3 <- lift (bind_value (JS.or_else (JS.get r "AdSet") JNull)) ;;
  p4 <- lift (bind_value (JS.or_else (JS.get r "Ad") JNull)) ;;
  p5 <- lift (bind_value (JS.or_else (JS.get r "Indicator") JNull)) ;;
  p6 <- lift (bind_value (JS.or_else (JS.get r "ActionKey") JNull)) ;;
  p7 <- lift (bind_value (JNum amountSpent)) ;;
  p8 <- lift (bind_value (JS.or_else (JNum (JS.parseInt rt (JS.get r "Results"))) (JNum 0))) ;;
  p9 <- lift (bind_value (JNum costPerResult)) ;;
  p10 <- lift (bind_value
                 (JS.or_else (JNum (JS.parseInt rt (JS.get r "Impressions"))) (JNum 0))) ;;
  insert_performance rt p1 p2 p3 p4 p5 p6 p7 p8 p9 p10.

(** The same fact under the next key, created at another reading of the
    store's clock. *)
Definition next_copy (created : string) (f : fact_ads_performance_row)
    : fact_ads_performance_row :=
  {| pf_id := pf_id f + 1; pf_date_key := pf_date_key f;
     pf_campaign_id := pf_campaign_id f; pf_adset_name := pf_adset_name f;
     pf_ad_name := pf_ad_name f; pf_indicator := pf_indicator f;
     pf_action_key := pf_action_key f; pf_amount_spent := pf_amount_spent f;
     pf_results := pf_results f; pf_cost_per_result := pf_cost_per_result f;
     pf_impressions := pf_impressions f; pf_created_at := created |}.

End Fact.

(** ** The objective filters of the queries *)

Module Filter.

Import D1.

(** [column = 'text'] on a stored value: true for that text and for
    nothing else ([NULL = 'text'] is not true). *)
Definition is_text (v : sqlval) (text : string) : bool :=
  match v with
  | VText t => String.eqb t text
  | _ => false
  end.

(** The tests [(c.objective = 'Message' OR c.campaign_name LIKE '%Mess%')],
    [(c.objective = 'Impression' OR c.campaign_name LIKE '%Impression%')]
    and [(c.objective = 'Visit' OR c.campaign_name LIKE '%Visit%')] of
    [getTopAds] and [getTopProducts] on a campaign: whether the row passes
    the [WHERE] clause as far as this test goes. *)
Definition messages (c : dim_campaign_row) : bool :=
  is_text (objective c) "Message" || Sql.like "%Mess%" (campaign_name c).

Definition impressions (c : dim_campaign_row) : bool :=
  is_text (objective c) "Impression" || Sql.like "%Impression%" (campaign_name c).

Definition visits (c : dim_campaign_row) : bool :=
  is_text (objective c) "Visit" || Sql.like "%Visit%" (campaign_name c).

End Filter.

Module Statements.

(** [currentQuery] of [getOverview]. *)
Definition currentQuery : string :=
  "
    SELECT 
      SUM(amount_spent) as total_spend,
    SUM(impressions) as total_impressions,
    SUM(results) as total_results,
    SUM(amount_spent) / NULLIF(SUM(results), 0) as cpr,
    (SUM(amount_spent) * 1000) / NULLIF(SUM(impressions), 0) as cpm
    FROM fact_ads_performance
    WHERE date_key BETWEEN ? AND ?
    ".

(** [prevQuery] of [getOverview]. *)
Definition prevQuery : string :=
  "
    SELECT 
      SUM(amount_spent) as total_spend,
    SUM(impressions) as total_impressions,
    SUM(results) as total_results,
    SUM(amount_spent) / NULLIF(SUM(results), 0) as cpr,
    (SUM(amount_spent) * 1000) / NULLIF(SUM(impressions), 0) as cpm
    FROM fact_ads_performance
    WHERE date_key BETWEEN ? AND ?
    ".

(** [query] of [getDailyTrend]. *)
Definition trendQuery : string :=
  "
    SELECT 
      d.full_date,
    SUM(f.amount_spent) as spend,
    SUM(f.impressions) as impressions
    FROM fact_ads_performance f
    JOIN dim_date d ON f.date_key = d.date_key
    WHERE f.date_key BETWEEN ? AND ?
    GROUP BY d.full_date
    ORDER BY d.full_date ASC
    ".

(** [query] of [getTopCampaigns]: the text holds the [WHERE] clause and the limit as they are. *)
Definition campaignsQuery (whereClause limit : string) : string :=
  "
    SELECT 
      c.campaign_name,
    c.objective,
    SUM(f.amount_spent) as total_spend,
    SUM(f.impressions) as total_impressions,
    SUM(f.results) as total_results,
    SUM(f.amount_spent) / NULLIF(SUM(f.results), 0) as cpr,
    (SUM(f.amount_spent) * 1000) / NULLIF(SUM(f.impressions), 0) as cpm
    FROM fact_ads_performance f
    JOIN dim_campaign c ON f.campaign_id = c.campaign_id
    " ++ whereClause ++ "
    GROUP BY c.campaign_name
    ORDER BY total_spend DESC
    LIMIT " ++ limit ++ "
    ".

(** [queryAge] of [getDemographics]. *)
Definition queryAge (whereClause : string) : string :=
  "
    SELECT
      a.age_range,
    SUM(f.spend) as spend,
    SUM(f.impressions) as impressions
    FROM fact_ads_demographics f
    JOIN dim_age_group a ON f.age_id = a.age_id
    " ++ whereClause ++ "
    GROUP BY a.age_range
    ORDER BY a.age_range ASC
    ".

(** [queryGender] of [getDemographics]. *)
Definition queryGender (whereClause : string) : string :=
  "
    SELECT
      g.gender,
    SUM(f.spend) as spend,
    SUM(f.impressions) as impressions
    FROM fact_ads_demographics f
    JOIN dim_gender g ON f.gender_id = g.gender_id
    " ++ whereClause ++ "
    GROUP BY g.gender_id, g.gender
    ".

(** [queryAgeGender] of [getDemographics]. *)
Definition queryAgeGender (whereClause : string) : string :=
  "
    SELECT
      a.age_range,
      g.gender,
      SUM(f.spend) as spend,
      SUM(f.impressions) as impressions
    FROM fact_ads_demographics f
    JOIN dim_age_group a ON f.age_id = a.age_id
    JOIN dim_gender g ON f.gender_id = g.gender_id
    " ++ whereClause ++ "
    GROUP BY a.age_range, g.gender
    ORDER BY a.age_range ASC, g.gender ASC
    ".

(** [query] of [getRegions]. *)
Definition regionsQuery (whereClause : string) : string :=
  "
    SELECT
      r.region_name,
      SUM(f.spend) as spend
    FROM fact_ads_regions f
    JOIN dim_region r ON f.region_id = r.region_id
    " ++ whereClause ++ "
    GROUP BY r.region_name
    ORDER BY spend DESC
    LIMIT ?
  ".

(** [query] of [getBreakdown]. *)
Definition breakdownQuery : string :=
  "
    SELECT
      c.campaign_name,
      c.objective,
      CASE
        WHEN c.campaign_name LIKE '%FB%' OR c.campaign_name LIKE '%Facebook%' THEN 'Facebook'
        WHEN c.campaign_name LIKE '%IG%' OR c.campaign_name LIKE '%Instagram%' THEN 'Instagram'
        ELSE 'Other'
      END as channel,
      SUM(f.amount_spent) as total_spend,
      SUM(f.impressions) as total_impressions,
      SUM(f.results) as total_results,
      SUM(f.amount_spent) / NULLIF(SUM(f.results), 0) as cpr,
      (SUM(f.amount_spent) * 1000) / NULLIF(SUM(f.impressions), 0) as cpm
    FROM fact_ads_performance f
    JOIN dim_campaign c ON f.campaign_id = c.campaign_id
    WHERE f.date_key BETWEEN ? AND ?
    GROUP BY c.campaign_name, c.objective
    ORDER BY total_spend DESC
  ".

(** [channelQuery] of [getBreakdown]. *)
Definition channelQuery : string :=
  "
    SELECT
      CASE
        WHEN c.campaign_name LIKE '%FB%' OR c.campaign_name LIKE '%Facebook%' THEN 'Facebook'
        WHEN c.campaign_name LIKE '%IG%' OR c.campaign_name LIKE '%Instagram%' THEN 'Instagram'
        ELSE 'Other'
      END as channel,
      SUM(f.amount_spent) as total_spend,
      SUM(f.impressions) as total_impressions,
      SUM(f.results) as total_results,
      SUM(f.amount_spent) / NULLIF(SUM(f.results), 0) as cpr,
      (SUM(f.amount_spent) * 1000) / NULLIF(SUM(f.impressions), 0) as cpm
    FROM fact_ads_performance f
    JOIN dim_campaign c ON f.campaign_id = c.campaign_id
    WHERE f.date_key BETWEEN ? AND ?
    GROUP BY channel
    ORDER BY total_spend DESC
  ".

(** [objectiveQuery] of [getBreakdown]. *)
Definition objectiveQuery : string :=
  "
    SELECT
      c.objective,
      SUM(f.amount_spent) as total_spend,
      SUM(f.impressions) as total_impressions,
      SUM(f.results) as total_results,
      SUM(f.amount_spent) / NULLIF(SUM(f.results), 0) as cpr,
      (SUM(f.amount_spent) * 1000) / NULLIF(SUM(f.impressions), 0) as cpm
    FROM fact_ads_performance f
    JOIN dim_campaign c ON f.campaign_id = c.campaign_id
    WHERE f.date_key BETWEEN ? AND ?
    GROUP BY c.objective
    ORDER BY total_spend DESC
  ".

(** [topMessagesFB] of [getTopAds]. *)
Definition topMessagesFB : string :=
  "
    SELECT f.ad_name, c.campaign_name, SUM(f.results) as total_results, SUM(f.amount_spent) as total_spend
    FROM fact_ads_performance f
    JOIN dim_campaign c ON f.campaign_id = c.campaign_id
    WHERE f.date_key BETWEEN ? AND ?
      AND (c.campaign_name LIKE '%FB%' OR c.campaign_name LIKE '%Facebook%')
      AND (c.objective = 'Message' OR c.campaign_name LIKE '%Mess%')
      AND f.ad_name IS NOT NULL AND f.ad_name != ''
    GROUP BY f.ad_name ORDER BY total_results DESC LIMIT ?
  ".

(** [topMessagesIG] of [getTopAds]. *)
Definition topMessagesIG : string :=
  "
    SELECT f.ad_name, c.campaign_name, SUM(f.results) as total_results, SUM(f.amount_spent) as total_spend
    FROM fact_ads_performance f
    JOIN dim_campaign c ON f.campaign_id = c.campaign_id
    WHERE f.date_key BETWEEN ? AND ?
      AND (c.campaign_name LIKE '%IG%' OR c.campaign_name LIKE '%Instagram%')
      AND (c.objective = 'Message' OR c.campaign_name LIKE '%Mess%')
      AND f.ad_name IS NOT NULL AND f.ad_name != ''
    GROUP BY f.ad_name ORDER BY total_results DESC LIMIT ?
  ".

(** [topImpressions] of [getTopAds]. *)
Definition topImpressions : string :=
  "
    SELECT f.ad_name, c.campaign_name, SUM(f.impressions) as total_impressions, SUM(f.amount_spent) as total_spend
    FROM fact_ads_performance f
    JOIN dim_campaign c ON f.campaign_id = c.campaign_id
    WHERE f.date_key BETWEEN ? AND ?
      AND (c.objective = 'Impression' OR c.campaign_name LIKE '%Impression%')
      AND f.ad_name IS NOT NULL AND f.ad_name != ''
    GROUP BY f.ad_name ORDER BY total_impressions DESC LIMIT ?
  ".

(** [topVisitIG] of [getTopAds]. *)
Definition topVisitIG : string :=
  "
    SELECT f.ad_name, c.campaign_name, SUM(f.results) as total_results, SUM(f.amount_spent) as total_spend
    FROM fact_ads_performance f
    JOIN dim_campaign c ON f.campaign_id = c.campaign_id
    WHERE f.date_key BETWEEN ? AND ?
      AND (c.objective = 'Visit' OR c.campaign_name LIKE '%Visit%')
      AND f.ad_name IS NOT NULL AND f.ad_name != ''
    GROUP BY f.ad_name ORDER BY total_results DESC LIMIT ?
  ".

(** [queryMessages] of [getTopProducts]. *)
Definition queryMessages : string :=
  "
    SELECT f.ad_name, SUM(f.results) as total_results, SUM(f.amount_spent) as total_spend
    FROM fact_ads_performance f
    JOIN dim_campaign c ON f.campaign_id = c.campaign_id
    WHERE f.date_key BETWEEN ? AND ?
      AND (c.objective = 'Message' OR c.campaign_name LIKE '%Mess%')
      AND f.ad_name IS NOT NULL AND f.ad_name != ''
    GROUP BY f.ad_name
    ORDER BY total_results DESC
  ".

(** [queryImpressions] of [getTopProducts]. *)
Definition queryImpressions : string :=
  "
    SELECT f.ad_name, SUM(f.impressions) as total_impressions, SUM(f.amount_spent) as total_spend
    FROM fact_ads_performance f
    JOIN dim_campaign c ON f.campaign_id = c.campaign_id
    WHERE f.date_key BETWEEN ? AND ?
      AND (c.objective = 'Impression' OR c.campaign_name LIKE '%Impression%')
      AND f.ad_name IS NOT NULL AND f.ad_name != ''
    GROUP BY f.ad_name
    ORDER BY total_impressions DESC
  ".

(** [queryVisits] of [getTopProducts]. *)
Definition queryVisits : string :=
  "
    SELECT f.ad_name, SUM(f.results) as total_results, SUM(f.amount_spent) as total_spend
    FROM fact_ads_performance f
    JOIN dim_campaign c ON f.campaign_id = c.campaign_id
    WHERE f.date_key BETWEEN ? AND ?
      AND (c.objective = 'Visit' OR c.campaign_name LIKE '%Visit%')
      AND f.ad_name IS NOT NULL AND f.ad_name != ''
    GROUP BY f.ad_name
    ORDER BY total_results DESC
  ".

End Statements.

(** ** The dashboard endpoints *)

Module Dashboard.

Import D1 Worker.

(** A row of a result as [all()] hands it to JavaScript: an object of
    primitive values. *)
Definition result_row : Type := list (string * jsval).

(** The row of the two queries of [getOverview]: each column is a sum or
    a quotient of sums, a number or [NULL] ([None]). *)
Record totals_row : Type := {
  total_spend : option float;
  total_impressions : option float;
  total_results : option float;
  cpr : option float;
  cpm : option float
}.

(** A row of a query of [getTopProducts]: the name of the ad, the sum the
    products are ranked by ([total_results] or [total_impressions]) and
    the sum of the amounts spent. *)
Record ad_row : Type := {
  ad_name : jsval;
  ad_value : option float;
  ad_spend : option float
}.

(** How the store evaluates a [SELECT]: from the text of the statement
    and the values bound, in a state of the store, to the rows or to the
    error it raises.  The evaluation of SQL is the store's and no part of
    the repository; the three functions differ in the shape of the rows
    they hand back. *)
Record Evaluator : Type := {
  eval_rows : string -> list sqlval -> DB -> exn + list result_row;
  eval_totals : string -> list sqlval -> DB -> exn + option totals_row;
  eval_ads : string -> list sqlval -> DB -> exn + list ad_row
}.

(** [bind(...params)]: every value is converted, the first that is
    refused is the error. *)
Fixpoint bind_all (params : list jsval) : exn + list sqlval :=
  match params with
  | [] => inr []
  | v :: rest =>
      match bind_value v with
      | inl e => inl e
      | inr b =>
          match bind_all rest with
          | inl e => inl e
          | inr bs => inr (b :: bs)
          end
      end
  end.

(** [db.prepare(sql).bind(...params).all()] (or [first()]) with the
    store's evaluation [eval]: the statement is journalled under the table
    of its [FROM] clause when it ran. *)
Definition run {A : Type} (eval : string -> list sqlval -> DB -> exn + A)
    (table sql : string) (params : list jsval) : M A :=
  fun db =>
    match bind_all params with
    | inl e => (inl e, db)
    | inr bound =>
        match eval sql bound db with
        | inl e => (inl e, db)
        | inr a => (inr a, log (Select table) db)
        end
    end.

(** [try { ... } catch (e) { return jsonResponse({ error: e.message }, 500) }]
    around the body of an endpoint. *)
Definition attempt (body : M Response) : M Response :=
  fun db =>
    match body db with
    | (inr response, db') => (inr response, db')
    | (inl e, db') =>
        (inr (jsonResponse
                (Some (JsObj (Json.object [("error", Some (JsStr (message e)))]))) 500),
         db')
    end.

(** The string of a search parameter that is present. *)
Definition text_of (v : jsval) : string :=
  match v with JStr s => s | _ => "" end.

(** The thirty days up to now: [const end = new Date(); const start = new
    Date(); start.setDate(start.getDate() - 30); endDate =
    end.toISOString().split('T')[0]; startDate =
    start.toISOString().split('T')[0];], where [clock] holds the two
    readings of the clock, for [end] and for [start].  The pair is
    [(startDate, endDate)]. *)
Definition last_thirty_days (clock : Z * Z) : exn + (string * string) :=
  let end_ := Cal.TimeClip (fst clock) in
  let start := Cal.TimeClip (snd clock) in
  let start := setDate start (DateObj.lift2 Z.sub (DateObj.getDate start) (Some 30)) in
  match iso_day end_, iso_day start with
  | inr e, inr s => inr (s, e)
  | inl x, _ => inl x
  | _, inl x => inl x
  end.

(** The dates an endpoint queries: [let startDate =
    params.get('startDate'); let endDate = params.get('endDate'); if
    (!startDate || !endDate) { ... }], the same lines in six endpoints. *)
Definition date_range (clock : Z * Z) (params : list (string * string))
    : exn + (string * string) :=
  let startDate := params_get params "startDate" in
  let endDate := params_get params "endDate" in
  if negb (JS.truthy startDate) || negb (JS.truthy endDate)
  then last_thirty_days clock
  else inr (text_of startDate, text_of endDate).

(** The key of a date string, as a value to bind; [getDateKey] cannot
    throw on a string. *)
Definition key_of_date (date : string) : jsval :=
  match getDateKey (JStr date) with
  | inr key => key
  | inl _ => JNull
  end.

(** The rows of a result, serialised. *)
Definition rows_json (rows : list result_row) : json := JsArr (List.map Json.of_row rows).

(** *** [getOverview] *)

(** [const safe = (val) => val || 0] on a column of the totals. *)
Definition safe (val : option float) : float := or_zero val.

(** [const growth = (curr, prev) => { if (!prev || prev === 0) return 100;
    return ((curr - prev) / prev) * 100; }]. *)
Definition growth (curr prev : float) : float :=
  if negb (JS.truthy (JNum prev)) || PrimFloat.eqb prev 0 then 100%float
  else ((curr - prev) / prev * 100)%float.

Definition null_total : exn :=
  TypeError "Cannot read properties of null (reading 'total_spend')".

Definition kpis (current previous : totals_row) (prev : period) : json :=
  JsObj (Json.object
    [ ("total_spend", Some (Json.number (safe (total_spend current))));
      ("total_impressions", Some (Json.number (safe (total_impressions current))));
      ("total_results", Some (Json.number (safe (total_results current))));
      ("avg_cpm", Some (Json.number (safe (cpm current))));
      ("avg_cpr", Some (Json.number (safe (cpr current))));
      ("growth_spend",
       Some (Json.number (growth (safe (total_spend current)) (safe (total_spend previous)))));
      ("growth_impressions",
       Some (Json.number (growth (safe (total_impressions current))
                            (safe (total_impressions previous)))));
      ("growth_results",
       Some (Json.number (growth (safe (total_results current))
                            (safe (total_results previous)))));
      ("growth_cpm", Some (Json.number (growth (safe (cpm current)) (safe (cpm previous)))));
      ("previous_period",
       Some (JsObj (Json.object [ ("start", Some (JsStr (startDate prev)));
                                  ("end", Some (JsStr (endDate prev))) ]))) ]).

(** [getOverview(env, params)].  The result is [inl] when an exception
    leaves the function: the previous period is computed before the [try]
    block. *)
Definition getOverview (rt : Runtime) (ev : Evaluator) (clock : Z * Z)
    (params : list (string * string)) (db : DB) : (exn + Response) * DB :=
  match date_range clock params with
  | inl e => (inl e, db)
  | inr (startDate, endDate) =>
      let startKey := key_of_date startDate in
      let endKey := key_of_date endDate in
      match getPreviousPeriod rt startDate endDate with
      | inl e => (inl e, db)
      | inr prev =>
          let prevStartKey := key_of_date (Worker.startDate prev) in
          let prevEndKey := key_of_date (Worker.endDate prev) in
          attempt
            (current <- run (eval_totals ev) "fact_ads_performance" Statements.currentQuery
                          [startKey; endKey] ;;
             previous <- run (eval_totals ev) "fact_ads_performance" Statements.prevQuery
                           [prevStartKey; prevEndKey] ;;
             match current, previous with
             | Some current, Some previous =>
                 ret (jsonResponse
                        (Some (JsObj (Json.object
                                        [("kpis", Some (kpis current previous prev))])))
                        200)
             | _, _ => throw null_total
             end)
            db
      end
  end.

(** *** [getDailyTrend] *)

Definition getDailyTrend (rt : Runtime) (ev : Evaluator) (clock : Z * Z)
    (params : list (string * string)) (db : DB) : (exn + Response) * DB :=
  match date_range clock params with
  | inl e => (inl e, db)
  | inr (startDate, endDate) =>
      let startKey := key_of_date startDate in
      let endKey := key_of_date endDate in
      attempt
        (results <- run (eval_rows ev) "fact_ads_performance" Statements.trendQuery
                      [startKey; endKey] ;;
         comparisonData <-
           (if JS.strict_eq (params_get params "compare") (JStr "true")
            then
              prev <- lift (getPreviousPeriod rt startDate endDate) ;;
              prevResults <- run (eval_rows ev) "fact_ads_performance" Statements.trendQuery
                               [ key_of_date (Worker.startDate prev);
                                 key_of_date (Worker.endDate prev) ] ;;
              ret (rows_json prevResults)
            else ret JsNull) ;;
         ret (jsonResponse
                (Some (JsObj (Json.object [ ("current", Some (rows_json results));
                                            ("comparison", Some comparisonData) ])))
                200))
        db
  end.

(** *** [getTopCampaigns], [getDemographics], [getRegions] *)

(** [let whereClause = ...; let bindings = []; if (startDate && endDate)
    { whereClause = ...; bindings = [getDateKey(startDate),
    getDateKey(endDate)]; }]: without both dates there is no [WHERE] clause
    and nothing to bind. *)
Definition date_filter (params : list (string * string)) : string * list jsval :=
  let startDate := params_get params "startDate" in
  let endDate := params_get params "endDate" in
  if JS.truthy startDate && JS.truthy endDate
  then ("WHERE f.date_key BETWEEN ? AND ?",
        [key_of_date (text_of startDate); key_of_date (text_of endDate)])
  else ("", []).

(** [params.get('limit') || n], and the text a template literal makes of
    it. *)
Definition limit_or (params : list (string * string)) (n : Z) : jsval :=
  JS.or_else (params_get params "limit") (JNum (Num.of_Z n)).

Definition limit_text (params : list (string * string)) (n : Z) : string :=
  match params_get params "limit" with
  | JStr s => if String.eqb s "" then Z_to_string n else s
  | _ => Z_to_string n
  end.

Definition getTopCampaigns (ev : Evaluator) (params : list (string * string)) (db : DB)
    : (exn + Response) * DB :=
  let '(whereClause, bindings) := date_filter params in
  attempt
    (results <- run (eval_rows ev) "fact_ads_performance"
                  (Statements.campaignsQuery whereClause (limit_text params 5)) bindings ;;
     ret (jsonResponse (Some (rows_json results)) 200))
    db.

Definition getDemographics (ev : Evaluator) (params : list (string * string)) (db : DB)
    : (exn + Response) * DB :=
  let '(whereClause, bindings) := date_filter params in
  attempt
    (ageResults <- run (eval_rows ev) "fact_ads_demographics"
                     (Statements.queryAge whereClause) bindings ;;
     genderResults <- run (eval_rows ev) "fact_ads_demographics"
                        (Statements.queryGender whereClause) bindings ;;
     ageGenderResults <- run (eval_rows ev) "fact_ads_demographics"
                           (Statements.queryAgeGender whereClause) bindings ;;
     ret (jsonResponse
            (Some (JsObj (Json.object [ ("by_age", Some (rows_json ageResults));
                                        ("by_gender", Some (rows_json genderResults));
                                        ("by_age_gender",
                                         Some (rows_json ageGenderResults)) ])))
            200))
    db.

Definition getRegions (ev : Evaluator) (params : list (string * string)) (db : DB)
    : (exn + Response) * DB :=
  let '(whereClause, bindings) := date_filter params in
  attempt
    (results <- run (eval_rows ev) "fact_ads_regions" (Statements.regionsQuery whereClause)
                  (bindings ++ [limit_or params 10]) ;;
     ret (jsonResponse (Some (rows_json results)) 200))
    db.

(** *** [getBreakdown], [getTopAds] *)

(** The statements of a [Promise.all] are taken in the order of the
    array: the store answers one statement after the other. *)
Definition getBreakdown (ev : Evaluator) (clock : Z * Z) (params : list (string * string))
    (db : DB) : (exn + Response) * DB :=
  match date_range clock params with
  | inl e => (inl e, db)
  | inr (startDate, endDate) =>
      let startKey := key_of_date startDate in
      let endKey := key_of_date endDate in
      attempt
        (campaignResults <- run (eval_rows ev) "fact_ads_performance"
                              Statements.breakdownQuery [startKey; endKey] ;;
         channelResults <- run (eval_rows ev) "fact_ads_performance"
                             Statements.channelQuery [startKey; endKey] ;;
         objectiveResults <- run (eval_rows ev) "fact_ads_performance"
                               Statements.objectiveQuery [startKey; endKey] ;;
         ret (jsonResponse
                (Some (JsObj (Json.object
                                [ ("by_campaign", Some (rows_json campaignResults));
                                  ("by_channel", Some (rows_json channelResults));
                                  ("by_objective", Some (rows_json objectiveResults)) ])))
                200))
        db
  end.

(** [parseInt(params.get('limit')) || n]. *)
Definition limit_number (rt : Runtime) (params : list (string * string)) (n : Z) : float :=
  match JS.or_else (JNum (JS.parseInt rt (params_get params "limit"))) (JNum (Num.of_Z n)) with
  | JNum f => f
  | _ => Num.of_Z n
  end.

Definition getTopAds (rt : Runtime) (ev : Evaluator) (clock : Z * Z)
    (params : list (string * string)) (db : DB) : (exn + Response) * DB :=
  let limit := JNum (limit_number rt params 3) in
  match date_range clock params with
  | inl e => (inl e, db)
  | inr (startDate, endDate) =>
      let startKey := key_of_date startDate in
      let endKey := key_of_date endDate in
      attempt
        (msgFB <- run (eval_rows ev) "fact_ads_performance" Statements.topMessagesFB
                    [startKey; endKey; limit] ;;
         msgIG <- run (eval_rows ev) "fact_ads_performance" Statements.topMessagesIG
                    [startKey; endKey; limit] ;;
         impressions <- run (eval_rows ev) "fact_ads_performance" Statements.topImpressions
                          [startKey; endKey; limit] ;;
         visitIG <- run (eval_rows ev) "fact_ads_performance" Statements.topVisitIG
                      [startKey; endKey; limit] ;;
         ret (jsonResponse
                (Some (JsObj (Json.object
                                [ ("top_messages_fb", Some (rows_json msgFB));
                                  ("top_messages_ig", Some (rows_json msgIG));
                                  ("top_impressions", Some (rows_json impressions));
                                  ("top_visit_ig", Some (rows_json visitIG)) ])))
                200))
        db
  end.

(** *** [getTopProducts] *)

(** An entry of [productMap]: [{ product_line, total, spend }]. *)
Record product_total : Type := {
  product_line : string;
  total : float;
  spend : float
}.

(** [if (!productMap[product]) { productMap[product] = { product_line:
    product, total: 0, spend: 0 }; } productMap[product].total += value;
    productMap[product].spend += spent;] on the entries in the order of
    their creation, which is the order of [Object.values]. *)
Fixpoint add_product (productMap : list product_total) (product : string)
    (value spent : float) : list product_total :=
  match productMap with
  | [] => [ {| product_line := product; total := (0 + value)%float;
               spend := (0 + spent)%float |} ]
  | entry :: rest =>
      if String.eqb (product_line entry) product
      then {| product_line := product_line entry; total := (total entry + value)%float;
              spend := (spend entry + spent)%float |} :: rest
      else entry :: add_product rest product value spent
  end.

(** The loop [for (const row of data)] of [aggregateByProduct]. *)
Fixpoint aggregate_rows (rt : Runtime) (data : list ad_row) (productMap : list product_total)
    : exn + list product_total :=
  match data with
  | [] => inr productMap
  | row :: rest =>
      match extractProductLine rt (ad_name row) with
      | inl e => inl e
      | inr product =>
          aggregate_rows rt rest
            (add_product productMap product (or_zero (ad_value row)) (or_zero (ad_spend row)))
      end
  end.

(** [aggregateByProduct(data, valueKey)]: the entries sorted by
    [(a, b) => b.total - a.total], the first [limit] of them. *)
Definition aggregateByProduct (rt : Runtime) (limit : float) (data : list ad_row)
    : exn + list product_total :=
  match aggregate_rows rt data [] with
  | inl e => inl e
  | inr productMap =>
      inr (slice0 (stable_sort (fun a b => PrimFloat.ltb (total b - total a) 0) productMap)
             limit)
  end.

Definition products_json (products : list product_total) : json :=
  JsArr (List.map
           (fun p => JsObj (Json.object [ ("product_line", Some (JsStr (product_line p)));
                                          ("total", Some (Json.number (total p)));
                                          ("spend", Some (Json.number (spend p))) ]))
           products).

Definition getTopProducts (rt : Runtime) (ev : Evaluator) (clock : Z * Z)
    (params : list (string * string)) (db : DB) : (exn + Response) * DB :=
  let limit := limit_number rt params 5 in
  match date_range clock params with
  | inl e => (inl e, db)
  | inr (startDate, endDate) =>
      let startKey := key_of_date startDate in
      let endKey := key_of_date endDate in
      attempt
        (messagesRes <- run (eval_ads ev) "fact_ads_performance" Statements.queryMessages
                          [startKey; endKey] ;;
         impressionsRes <- run (eval_ads ev) "fact_ads_performance"
                             Statements.queryImpressions [startKey; endKey] ;;
         visitsRes <- run (eval_ads ev) "fact_ads_performance" Statements.queryVisits
                        [startKey; endKey] ;;
         topMessageProducts <- lift (aggregateByProduct rt limit messagesRes) ;;
         topImpressionProducts <- lift (aggregateByProduct rt limit impressionsRes) ;;
         topVisitProducts <- lift (aggregateByProduct rt limit visitsRes) ;;
         ret (jsonResponse
                (Some (JsObj (Json.object
                                [ ("top_message_products",
                                   Some (products_json topMessageProducts));
                                  ("top_impression_products",
                                   Some (products_json topImpressionProducts));
                                  ("top_visit_products",
                                   Some (products_json topVisitProducts)) ])))
                200))
        db
  end.

(** *** [healthCheck] *)

Definition healthCheck (ev : Evaluator) (clock : Z * Z) (db : DB) : (exn + Response) * DB :=
  match run (eval_rows ev) "" "SELECT 1 as ok" [] db with
  | (inr _, db') =>
      match DateObj.toISOString (Cal.TimeClip (fst clock)) with
      | inr timestamp =>
          (inr (jsonResponse
                  (Some (JsObj (Json.object [ ("database", Some (JsStr "connected"));
                                              ("timestamp", Some (JsStr timestamp)) ])))
                  200),
           db')
      | inl err =>
          (inr (jsonResponse
                  (Some (JsObj (Json.object [ ("database", Some (JsStr "error"));
                                              ("error", Some (JsStr (message err))) ])))
                  500),
           db')
      end
  | (inl err, db') =>
      (inr (jsonResponse
              (Some (JsObj (Json.object [ ("database", Some (JsStr "error"));
                                          ("error", Some (JsStr (message err))) ])))
              500),
       db')
  end.

(** *** Answers *)

(** A response in the envelope of [jsonResponse], with status 200 or 500
    and the member [success] telling which. *)
Definition enveloped (r : Response) : Prop :=
  (status r = 200 \/ status r = 500)
  /\ exists data : json,
       body r = JsObj [ ("success", JsBool (status r =? 200)); ("data", data) ].

(** Whenever [m] returns a response, it is one of status 200 in the
    envelope. *)
Definition returns_ok (m : M Response) : Prop :=
  forall db r db', m db = (inr r, db') -> status r = 200 /\ enveloped r.

End Dashboard.

(** ** The router *)

Module Router.

Import D1 Worker Dashboard.

(** A request as [fetch] reads it: the method, the path of the URL, its
    search parameters, and what [request.json()] makes of the body: an
    exception when the body is not JSON, [None] for a document that is not
    an array, the rows of an array of objects. *)
Record Request : Type := {
  method : string;
  pathname : string;
  searchParams : list (string * string);
  json_body : exn + option (list row)
}.

(** What the worker runs in: the run time, the store's evaluation of
    queries (for [getProductDaily] and for the other endpoints) and the
    readings of the clock during the request. *)
Record Env : Type := {
  runtime : Runtime;
  engine : Engine;
  evaluator : Evaluator;
  clock : Z * Z
}.

(** The body of a response: none, a JSON document, or the page of
    [getDashboardHTML()], whose text is not reproduced. *)
Inductive payload : Type :=
| NoBody
| Document (doc : json)
| DashboardPage.

Record HttpResponse : Type := {
  code : Z;
  headers : list (string * string);
  content : payload
}.

Definition corsHeaders : list (string * string) :=
  [ ("Access-Control-Allow-Origin", "*");
    ("Access-Control-Allow-Methods", "GET, POST, PUT, DELETE, OPTIONS");
    ("Access-Control-Allow-Headers", "Content-Type, Authorization") ].

(** The [Response] object [jsonResponse] builds, with its headers. *)
Definition of_jsonResponse (r : Response) : HttpResponse := {|
  code := status r;
  headers := [ ("Access-Control-Allow-Origin", "*");
               ("Access-Control-Allow-Methods", "GET, POST, PUT, DELETE, OPTIONS");
               ("Access-Control-Allow-Headers", "Content-Type, Authorization");
               ("Content-Type", "application/json") ];
  content := Document (body r)
|}.

(** The functions the table [routes] names. *)
Inductive handler : Type :=
| GetOverview | GetDailyTrend | GetTopCampaigns | GetDemographics | GetRegions
| GetBreakdown | GetTopAds | GetTopProducts | GetProductDaily
| IngestPerformance | IngestDemographics | IngestRegions
| HealthCheck.

Definition routes : list (string * handler) :=
  [ ("GET /api/overview", GetOverview);
    ("GET /api/daily", GetDailyTrend);
    ("GET /api/campaigns", GetTopCampaigns);
    ("GET /api/demographics", GetDemographics);
    ("GET /api/regions", GetRegions);
    ("GET /api/breakdown", GetBreakdown);
    ("GET /api/top-ads", GetTopAds);
    ("GET /api/top-products", GetTopProducts);
    ("GET /api/product-daily", GetProductDaily);
    ("POST /api/ingest/performance", IngestPerformance);
    ("POST /api/ingest/demographics", IngestDemographics);
    ("POST /api/ingest/regions", IngestRegions);
    ("GET /api/health", HealthCheck) ].

(** An ingestion function on a request: [const data = await
    request.json()] comes before everything else and is not inside a [try]
    block. *)
Definition ingest_request (step : row -> M unit) (request : Request) (db : DB)
    : (exn + Response) * DB :=
  match json_body request with
  | inl e => (inl e, db)
  | inr data => let '(response, db') := ingest step data db in (inr response, db')
  end.

(** [handler()]: the call the table makes for a route. *)
Definition call (env : Env) (request : Request) (h : handler) (db : DB)
    : (exn + Response) * DB :=
  let rt := runtime env in
  let ev := evaluator env in
  let params := searchParams request in
  match h with
  | GetOverview => getOverview rt ev (clock env) params db
  | GetDailyTrend => getDailyTrend rt ev (clock env) params db
  | GetTopCampaigns => getTopCampaigns ev params db
  | GetDemographics => getDemographics ev params db
  | GetRegions => getRegions ev params db
  | GetBreakdown => getBreakdown ev (clock env) params db
  | GetTopAds => getTopAds rt ev (clock env) params db
  | GetTopProducts => getTopProducts rt ev (clock env) params db
  | GetProductDaily => getProductDaily rt (engine env) (clock env) params db
  | IngestPerformance => ingest_request (performance_row rt) request db
  | IngestDemographics => ingest_request (demographics_row rt) request db
  | IngestRegions => ingest_request (regions_row rt) request db
  | HealthCheck => healthCheck ev (clock env) db
  end.

(** [path.endsWith('.html')]. *)
Fixpoint endsWith (s suffix : string) : bool :=
  String.eqb s suffix ||
  match s with
  | EmptyString => false
  | String _ rest => endsWith rest suffix
  end.

(** [fetch(request, env, ctx)].  A key of [routes] holds a space, so the
    look-up never finds a member that an object inherits. *)
Definition fetch (env : Env) (request : Request) (db : DB) : HttpResponse * DB :=
  let path := pathname request in
  if String.eqb (method request) "OPTIONS"
  then ({| code := 200; headers := corsHeaders; content := NoBody |}, db)
  else
    let routeKey := method request ++ " " ++ path in
    match Sql.assoc routeKey routes with
    | Some h =>
        match call env request h db with
        | (inr response, db') => (of_jsonResponse response, db')
        | (inl error, db') =>
            ({| code := 500;
                headers := corsHeaders ++ [("Content-Type", "application/json")];
                content :=
                  Document
                    (JsObj (Json.object
                              [ ("error", Some (JsStr "Internal Server Error"));
                                ("message", Some (JsStr (message error))) ])) |},
             db')
        end
    | None =>
        if String.eqb path "/" || String.eqb path "/dashboard" || endsWith path ".html"
        then ({| code := 200;
                 headers := corsHeaders ++ [ ("Content-Type", "text/html; charset=utf-8");
                                             ("Cache-Control", "no-cache") ];
                 content := DashboardPage |},
              db)
        else ({| code := 404;
                 headers := corsHeaders ++ [("Content-Type", "application/json")];
                 content := Document (JsObj (Json.object
                                               [("error", Some (JsStr "Not Found"))])) |},
              db)
    end.

(** The endpoints whose code after reading the dates lies in a [try]
    block. *)
Definition guarded : list handler :=
  [ GetDailyTrend; GetTopCampaigns; GetDemographics; GetRegions; GetBreakdown;
    GetTopAds; GetTopProducts; HealthCheck ].

(** A sample environment: the store answers every query with no row. *)
Definition no_rows : Evaluator := {|
  eval_rows := fun _ _ _ => inr [];
  eval_totals := fun _ _ _ => inr None;
  eval_ads := fun _ _ _ => inr []
|}.

Definition sample_env : Env := {|
  runtime := sample_runtime;
  engine := fun _ _ _ => [];
  evaluator := no_rows;
  clock := (1760400000000, 1760400000000)
|}.

(** The answer of [fetch] to an exception: status 500, and a document
    outside the envelope of [jsonResponse]. *)
Definition internal_server_error (error : exn) : HttpResponse := {|
  code := 500;
  headers := corsHeaders ++ [("Content-Type", "application/json")];
  content := Document (JsObj [ ("error", JsStr "Internal Server Error");
                               ("message", JsStr (message error)) ])
|}.

End Router.

(* ================================================================= *)
(** * Part II: properties *)
(* ================================================================= *)

(** ** Generic facts about the store monad *)

Section Frames.

Import D1.

Context {X : Type} (f : DB -> X).

Lemma keeps_ret {A : Type} (a : A) : keeps f (ret a).
Proof. intro db. reflexivity. Qed.

Lemma keeps_throw {A : Type} (e : exn) : keeps f (@throw A e).
Proof. intro db. reflexivity. Qed.

Lemma keeps_lift {A : Type} (r : exn + A) : keeps f (lift r).
Proof. intro db. reflexivity. Qed.

Lemma keeps_bind {A B : Type} (m : M A) (k : A -> M B) :
  keeps f m -> (forall a, keeps f (k a)) -> keeps f (bind m k).
Proof.
  intros Hm Hk db. unfold bind.
  specialize (Hm db). destruct (m db) as [[e | a] db']; simpl in *.
  - exact Hm.
  - rewrite Hk. exact Hm.
Qed.

End Frames.

Ltac frame_step :=
  first
    [ apply keeps_ret | apply keeps_throw | apply keeps_lift
    | apply keeps_bind; [ | intro ]
    | match goal with
      | |- D1.keeps _ (if ?c then _ else _) => destruct c
      | |- D1.keeps _ (match ?x with _ => _ end) => destruct x
      end ].

Section Resolvers_frame.

Import D1 Worker.

Variable rt : Runtime.

(** No statement on a dimension touches a fact table. *)

Lemma select_campaign_facts name : keeps facts (select_campaign name).
Proof. intro db. reflexivity. Qed.

Lemma insert_campaign_facts name objective : keeps facts (insert_campaign name objective).
Proof. intro db. unfold insert_campaign. destruct (existsb _ _); reflexivity. Qed.

Lemma select_date_facts key : keeps facts (select_date key).
Proof. intro db. reflexivity. Qed.

Lemma insert_date_facts key full yr qt mo mn wk dom dow dn we :
  keeps facts (insert_date key full yr qt mo mn wk dom dow dn we).
Proof.
  intro db. unfold insert_date.
  destruct yr, qt, mo, wk, dom, dow; try reflexivity.
  destruct (match key with VNull => _ | _ => as_integer key end); try reflexivity.
  repeat (destruct (existsb _ _); try reflexivity).
Qed.

Lemma select_age_facts label : keeps facts (select_age label).
Proof. intro db. reflexivity. Qed.

Lemma insert_age_facts label : keeps facts (insert_age label).
Proof. intro db. unfold insert_age. destruct (existsb _ _); reflexivity. Qed.

Lemma select_gender_facts label : keeps facts (select_gender label).
Proof. intro db. reflexivity. Qed.

Lemma insert_gender_facts label : keeps facts (insert_gender label).
Proof. intro db. unfold insert_gender. destruct (existsb _ _); reflexivity. Qed.

Lemma select_region_facts name : keeps facts (select_region name).
Proof. intro db. reflexivity. Qed.

Lemma insert_region_facts name type : keeps facts (insert_region name type).
Proof. intro db. unfold insert_region. destruct (existsb _ _); reflexivity. Qed.

Lemma getOrCreateCampaign_facts name : keeps facts (getOrCreateCampaign name).
Proof.
  unfold getOrCreateCampaign.
  repeat frame_step; auto using select_campaign_facts, insert_campaign_facts.
Qed.

Lemma getOrCreateDate_facts dateStr : keeps facts (getOrCreateDate rt dateStr).
Proof.
  unfold getOrCreateDate.
  repeat frame_step; auto using select_date_facts, insert_date_facts.
Qed.

Lemma getOrCreateAge_facts ageRange : keeps facts (getOrCreateAge rt ageRange).
Proof.
  unfold getOrCreateAge.
  repeat frame_step; auto using select_age_facts, insert_age_facts.
Qed.

Lemma getOrCreateGender_facts gender : keeps facts (getOrCreateGender rt gender).
Proof.
  unfold getOrCreateGender.
  repeat frame_step; auto using select_gender_facts, insert_gender_facts.
Qed.

Lemma getOrCreateRegion_facts regionName : keeps facts (getOrCreateRegion rt regionName).
Proof.
  unfold getOrCreateRegion.
  repeat frame_step; auto using select_region_facts, insert_region_facts.
Qed.

End Resolvers_frame.

(** ** Ingestion: one row, then the loop *)

Section Ingestion.

Import D1 Worker.

Variable rt : Runtime.

(** The [try] block of [ingestPerformance] appends exactly one fact when
    it completes, and none when it throws. *)
Lemma performance_row_effect (r : row) (db : DB) :
  match performance_row rt r db with
  | (inr _, db') =>
      exists f, fact_ads_performance db' = (fact_ads_performance db ++ [f])%list
  | (inl _, db') => fact_ads_performance db' = fact_ads_performance db
  end.
Proof.
  unfold performance_row, bind.
  pose proof (getOrCreateCampaign_facts (JS.get r "Campaign") db) as F1.
  destruct (getOrCreateCampaign (JS.get r "Campaign") db) as [[e1 | campaignId] db1];
    cbn [snd] in F1; [exact (f_equal (fun t => fst (fst t)) F1) | ].
  pose proof (getOrCreateDate_facts rt (JS.get r "Date") db1) as F2.
  destruct (getOrCreateDate rt (JS.get r "Date") db1) as [[e2 | dateKey] db2];
    cbn [snd] in F2;
    [exact (f_equal (fun t => fst (fst t)) (eq_trans F2 F1)) | ].
  assert (F : fact_ads_performance db2 = fact_ads_performance db)
    by exact (f_equal (fun t => fst (fst t)) (eq_trans F2 F1)).
  clear F1 F2. unfold lift.
  repeat match goal with
         | |- context [match parseVietnameseNumber ?t ?v with _ => _ end] =>
             destruct (parseVietnameseNumber t v) as [? | ?]; [exact F | ]
         | |- context [match bind_value ?v with _ => _ end] =>
             destruct (bind_value v) as [? | ?]; [exact F | ]
         end.
  unfold insert_performance.
  repeat match goal with
         | |- context [if is_null ?v then _ else _] => destruct (is_null v); [exact F | ]
         end.
  destruct (negb _); [exact F | ].
  eexists. cbn [snd fact_ads_performance log set_fact_ads_performance].
  rewrite F. reflexivity.
Qed.

(** What the loop returns, read off the run. *)
Lemma ingest_loop_outcomes (step : row -> M unit) (data : list row) :
  forall processed errors db,
    ingest_loop step data processed errors db
    = ((processed + Z.of_nat (List.length (successes (fst (outcomes step data db)))),
        (errors ++ failures (fst (outcomes step data db)))%list),
       snd (outcomes step data db)).
Proof.
  induction data as [| r rest IH]; intros processed errors db; simpl.
  - rewrite Z.add_0_r, app_nil_r. reflexivity.
  - destruct (step r db) as [[err | []] db'] eqn:E.
    + rewrite IH. destruct (outcomes step rest db') as [run db''].
      cbn. rewrite <- app_assoc. reflexivity.
    + rewrite IH. destruct (outcomes step rest db') as [run db''].
      cbn [fst snd successes filter succeeded List.map List.length failures].
      rewrite Nat2Z.inj_succ. do 2 f_equal. lia.
Qed.

(** The run lists the rows of the batch in order. *)
Lemma outcomes_rows (step : row -> M unit) (data : list row) :
  forall db, List.map fst (fst (outcomes step data db)) = data.
Proof.
  induction data as [| r rest IH]; intro db; simpl; [reflexivity | ].
  destruct (step r db) as [res db']. specialize (IH db').
  destruct (outcomes step rest db') as [run db'']. simpl in *. now rewrite IH.
Qed.

(** A run in which one row failed and the others succeeded. *)
Lemma one_failure (pre post : list row) (rk : row) (err : exn) :
  forall run : list (row * (exn + unit)),
    List.map fst run = (pre ++ rk :: post)%list ->
    List.map snd run
    = (List.map (fun _ => inr tt) pre ++ inl err :: List.map (fun _ => inr tt) post)%list ->
    successes run = (pre ++ post)%list /\ failures run = [error_entry rk err].
Proof.
  induction pre as [| p pre IH]; intros run Hrows Hres.
  - destruct run as [| [r res] run]; [discriminate | ].
    simpl in Hrows, Hres. injection Hrows as -> Hrows. injection Hres as -> Hres.
    unfold successes. simpl.
    revert run Hrows Hres. induction post as [| q post IHp]; intros run Hrows Hres.
    + destruct run; [split; reflexivity | discriminate].
    + destruct run as [| [r res] run]; [discriminate | ].
      simpl in Hrows, Hres. injection Hrows as -> Hrows. injection Hres as -> Hres.
      destruct (IHp run Hrows Hres) as [Hs Hf]. simpl. split; [now rewrite Hs | exact Hf].
  - destruct run as [| [r res] run]; [discriminate | ].
    simpl in Hrows, Hres. injection Hrows as -> Hrows. injection Hres as -> Hres.
    destruct (IH run Hrows Hres) as [Hs Hf].
    unfold successes in *. simpl. split; [now rewrite Hs | exact Hf].
Qed.

Lemma data_of_jsonResponse (d : json) (st : Z) : data_of (jsonResponse (Some d) st) = d.
Proof. reflexivity. Qed.

Lemma ingest_some (step : row -> M unit) (rows : list row) (db : DB) :
  ingest step (Some rows) db
  = (ingest_response
       (Z.of_nat (List.length (successes (fst (outcomes step rows db)))))
       (failures (fst (outcomes step rows db))),
     snd (outcomes step rows db)).
Proof.
  unfold ingest. rewrite ingest_loop_outcomes. reflexivity.
Qed.

Lemma failures_successes (run : list (row * (exn + unit))) :
  (List.length (failures run) + List.length (successes run))%nat = List.length run.
Proof.
  induction run as [| [r [e | u]] run IH]; unfold successes in *; simpl; lia.
Qed.

Lemma failures_complete (run : list (row * (exn + unit))) (r : row) (e : exn) :
  In (r, inl e) run -> In (error_entry r e) (failures run).
Proof.
  induction run as [| [r' [e' | u]] run IH]; simpl; intros H.
  - exact H.
  - destruct H as [H | H]; [injection H as -> ->; now left | right; auto].
  - destruct H as [H | H]; [discriminate | auto].
Qed.

(** The [try] blocks of [ingestDemographics] and of [ingestRegions] add
    one fact to their table when they complete, and none when they throw. *)
Lemma demographics_row_effect (r : row) (db : DB) :
  match demographics_row rt r db with
  | (inr _, db') =>
      List.length (fact_ads_demographics db') = S (List.length (fact_ads_demographics db))
  | (inl _, db') => fact_ads_demographics db' = fact_ads_demographics db
  end.
Proof.
  unfold demographics_row, bind.
  pose proof (getOrCreateCampaign_facts (JS.get r "Campaign") db) as F1.
  destruct (getOrCreateCampaign (JS.get r "Campaign") db) as [[e1 | campaignId] db1];
    cbn [snd] in F1; [exact (f_equal (fun t => snd (fst t)) F1) | ].
  pose proof (getOrCreateDate_facts rt (JS.get r "Date") db1) as F2.
  rewrite F1 in F2. clear F1.
  destruct (getOrCreateDate rt (JS.get r "Date") db1) as [[e2 | dateKey] db2];
    cbn [snd] in F2; [exact (f_equal (fun t => snd (fst t)) F2) | ].
  pose proof (getOrCreateAge_facts rt (JS.get r "Age") db2) as F3.
  rewrite F2 in F3. clear F2.
  destruct (getOrCreateAge rt (JS.get r "Age") db2) as [[e3 | ageId] db3];
    cbn [snd] in F3; [exact (f_equal (fun t => snd (fst t)) F3) | ].
  pose proof (getOrCreateGender_facts rt (JS.get r "Gender") db3) as F4.
  rewrite F3 in F4. clear F3.
  destruct (getOrCreateGender rt (JS.get r "Gender") db3) as [[e4 | genderId] db4];
    cbn [snd] in F4; [exact (f_equal (fun t => snd (fst t)) F4) | ].
  assert (F : fact_ads_demographics db4 = fact_ads_demographics db)
    by exact (f_equal (fun t => snd (fst t)) F4).
  clear F4. unfold lift.
  repeat match goal with
         | |- context [match parseVietnameseNumber ?t ?v with _ => _ end] =>
             destruct (parseVietnameseNumber t v) as [? | ?]; [exact F | ]
         | |- context [match bind_value ?v with _ => _ end] =>
             destruct (bind_value v) as [? | ?]; [exact F | ]
         end.
  unfold insert_demographics.
  repeat match goal with
         | |- context [if is_null ?v then _ else _] => destruct (is_null v); [exact F | ]
         end.
  destruct (negb _); [exact F | ].
  cbn [snd fact_ads_demographics log set_fact_ads_demographics].
  rewrite length_app, F. cbn [List.length]. lia.
Qed.

Lemma regions_row_effect (r : row) (db : DB) :
  match regions_row rt r db with
  | (inr _, db') => List.length (fact_ads_regions db') = S (List.length (fact_ads_regions db))
  | (inl _, db') => fact_ads_regions db' = fact_ads_regions db
  end.
Proof.
  unfold regions_row, bind.
  pose proof (getOrCreateCampaign_facts (JS.get r "Campaign") db) as F1.
  destruct (getOrCreateCampaign (JS.get r "Campaign") db) as [[e1 | campaignId] db1];
    cbn [snd] in F1; [exact (f_equal snd F1) | ].
  pose proof (getOrCreateDate_facts rt (JS.get r "Date") db1) as F2.
  rewrite F1 in F2. clear F1.
  destruct (getOrCreateDate rt (JS.get r "Date") db1) as [[e2 | dateKey] db2];
    cbn [snd] in F2; [exact (f_equal snd F2) | ].
  pose proof (getOrCreateRegion_facts rt (JS.get r "Region") db2) as F3.
  rewrite F2 in F3. clear F2.
  destruct (getOrCreateRegion rt (JS.get r "Region") db2) as [[e3 | regionId] db3];
    cbn [snd] in F3; [exact (f_equal snd F3) | ].
  assert (F : fact_ads_regions db3 = fact_ads_regions db) by exact (f_equal snd F3).
  clear F3. unfold lift.
  repeat match goal with
         | |- context [match parseVietnameseNumber ?t ?v with _ => _ end] =>
             destruct (parseVietnameseNumber t v) as [? | ?]; [exact F | ]
         | |- context [match bind_value ?v with _ => _ end] =>
             destruct (bind_value v) as [? | ?]; [exact F | ]
         end.
  unfold insert_regions.
  repeat match goal with
         | |- context [if is_null ?v then _ else _] => destruct (is_null v); [exact F | ]
         end.
  destruct (negb _); [exact F | ].
  cbn [snd fact_ads_regions log set_fact_ads_regions].
  rewrite length_app, F. cbn [List.length]. lia.
Qed.

Lemma performance_row_count (r : row) (db : DB) :
  match performance_row rt r db with
  | (inr _, db') =>
      List.length (fact_ads_performance db') = S (List.length (fact_ads_performance db))
  | (inl _, db') => fact_ads_performance db' = fact_ads_performance db
  end.
Proof.
  pose proof (performance_row_effect r db) as H.
  destruct (performance_row rt r db) as [[e | u] db']; [exact H | ].
  destruct H as [f ->]. rewrite length_app. cbn [List.length]. lia.
Qed.

(** A table that gains one row with each row of the batch that succeeds
    and none with a row that fails has gained, at the end of the loop, as
    many rows as rows succeeded. *)
Lemma outcomes_count {R : Type} (table : DB -> list R) (step : row -> M unit) :
  (forall r db,
      match step r db with
      | (inr _, db') => List.length (table db') = S (List.length (table db))
      | (inl _, db') => table db' = table db
      end) ->
  forall rows db,
    List.length (table (snd (outcomes step rows db)))
    = (List.length (table db) + List.length (successes (fst (outcomes step rows db))))%nat.
Proof.
  intros Hstep rows. induction rows as [| r rest IH]; intro db; simpl.
  - unfold successes. simpl. lia.
  - specialize (Hstep r db). destruct (step r db) as [[e | u] db'].
    + specialize (IH db'). destruct (outcomes step rest db') as [run db''].
      unfold successes in *. simpl in *. rewrite IH, Hstep. reflexivity.
    + specialize (IH db'). destruct (outcomes step rest db') as [run db''].
      unfold successes in *. simpl in *. rewrite IH, Hstep. lia.
Qed.

(** What each of the three ingestion functions answers, in terms of the run. *)
Lemma ingest_reports (step : row -> M unit) (rows : list row) (db : DB) :
  reports (fst (ingest step (Some rows) db)) (fst (outcomes step rows db))
  /\ snd (ingest step (Some rows) db) = snd (outcomes step rows db)
  /\ (List.length (failures (fst (outcomes step rows db)))
      + List.length (successes (fst (outcomes step rows db))))%nat = List.length rows.
Proof.
  rewrite ingest_some. cbn [fst snd]. unfold reports, ingest_response.
  rewrite data_of_jsonResponse. repeat split.
  - apply failures_complete.
  - rewrite failures_successes.
    rewrite <- (outcomes_rows step rows db) at 2. now rewrite length_map.
Qed.

(** C3 (amended).  For every batch of each of the three ingestion
    functions, [processed] is the number of rows whose [try] block
    completed, which is the number of facts inserted; the member [errors]
    is always present in the response: it is [null] when no row failed, and
    otherwise the non-empty list with one entry for each row that failed. *)
Theorem ingest_reports_processed_and_errors (rows : list row) (db : DB) :
  (let result := ingestPerformance rt (Some rows) db in
   let run := fst (outcomes (performance_row rt) rows db) in
   reports (fst result) run
   /\ List.length (fact_ads_performance (snd result))
      = (List.length (fact_ads_performance db) + List.length (successes run))%nat
   /\ (List.length (failures run) + List.length (successes run))%nat = List.length rows)
  /\ (let result := ingestDemographics rt (Some rows) db in
      let run := fst (outcomes (demographics_row rt) rows db) in
      reports (fst result) run
      /\ List.length (fact_ads_demographics (snd result))
         = (List.length (fact_ads_demographics db) + List.length (successes run))%nat
      /\ (List.length (failures run) + List.length (successes run))%nat = List.length rows)
  /\ (let result := ingestRegions rt (Some rows) db in
      let run := fst (outcomes (regions_row rt) rows db) in
      reports (fst result) run
      /\ List.length (fact_ads_regions (snd result))
         = (List.length (fact_ads_regions db) + List.length (successes run))%nat
      /\ (List.length (failures run) + List.length (successes run))%nat = List.length rows).
Proof.
  unfold ingestPerformance, ingestDemographics, ingestRegions. cbv zeta.
  split; [ | split].
  - destruct (ingest_reports (performance_row rt) rows db) as (H1 & H2 & H3).
    split; [exact H1 | split; [ | exact H3]].
    rewrite H2. apply outcomes_count. apply performance_row_count.
  - destruct (ingest_reports (demographics_row rt) rows db) as (H1 & H2 & H3).
    split; [exact H1 | split; [ | exact H3]].
    rewrite H2. apply outcomes_count. apply demographics_row_effect.
  - destruct (ingest_reports (regions_row rt) rows db) as (H1 & H2 & H3).
    split; [exact H1 | split; [ | exact H3]].
    rewrite H2. apply outcomes_count. apply regions_row_effect.
Qed.

(** A request body that is not an array is refused with status 400 and
    the message of the worker, and nothing is written. *)
Theorem ingest_refuses_what_is_not_an_array (step : row -> M unit) (db : DB) :
  ingest step None db
  = ({| status := 400;
        body := JsObj [ ("success", JsBool false);
                        ("data", JsObj [ ("error", JsStr "Data must be an array") ]) ] |},
     db).
Proof. reflexivity. Qed.

End Ingestion.

(** ** The calendar *)

Section Calendar.

Import Cal.

Lemma year_of_era_range (doe : Z) :
  0 <= doe < 146097 ->
  let y := (doe - doe / 1460 + doe / 36524 - doe / 146096) / 365 in
  0 <= y < 400 /\ 0 <= doe - year_start y < 365 + (if long_year y then 1 else 0).
Proof.
  intros H y. subst y. unfold year_start, long_year.
  destruct (_ || _) eqn:E; Z.div_mod_to_equations; lia.
Qed.

Lemma year_start_step (y : Z) :
  0 <= y < 399 -> year_start (y + 1) = year_start y + 365 + (if long_year y then 1 else 0).
Proof.
  intros H. unfold year_start, long_year.
  destruct (_ || _) eqn:E; Z.div_mod_to_equations; lia.
Qed.

Lemma year_start_mono (y y' : Z) : 0 <= y <= y' -> year_start y <= year_start y'.
Proof. intros H. unfold year_start. Z.div_mod_to_equations; lia. Qed.

(** A day of an era lies in one year of the era only. *)
Lemma year_of_era_unique (y1 y2 d1 d2 : Z) :
  0 <= y1 < 400 -> 0 <= y2 < 400 ->
  0 <= d1 < 365 + (if long_year y1 then 1 else 0) ->
  0 <= d2 < 365 + (if long_year y2 then 1 else 0) ->
  year_start y1 + d1 = year_start y2 + d2 -> y1 = y2.
Proof.
  intros H1 H2 Hd1 Hd2 E.
  destruct (Z.lt_trichotomy y1 y2) as [L | [L | L]]; [ | exact L | ].
  - pose proof (year_start_step y1 ltac:(lia)).
    pose proof (year_start_mono (y1 + 1) y2 ltac:(lia)). lia.
  - pose proof (year_start_step y2 ltac:(lia)).
    pose proof (year_start_mono (y2 + 1) y1 ltac:(lia)). lia.
Qed.

Lemma valid_date_bounds (y m d : Z) :
  valid_date y m d = true ->
  1 <= m <= 12 /\ 1 <= d <= 31
  /\ (m = 4 \/ m = 6 \/ m = 9 \/ m = 11 -> d <= 30)
  /\ (m = 2 -> d <= 29 /\ (d = 29 -> y mod 4 = 0 /\ (y mod 100 <> 0 \/ y mod 400 = 0))).
Proof.
  unfold valid_date, days_in_month, is_leap. intros H.
  destruct (m =? 2) eqn:E2.
  - destruct ((y mod 4 =? 0) && (negb (y mod 100 =? 0) || (y mod 400 =? 0))) eqn:El; lia.
  - destruct ((m =? 4) || (m =? 6) || (m =? 9) || (m =? 11)) eqn:E30; lia.
Qed.

(** The day number of a civil date is the date again. *)
Lemma civil_days_civil (y m d : Z) :
  valid_date y m d = true -> civil_from_days (days_from_civil y m d) = (y, m, d).
Proof.
  intros H. apply valid_date_bounds in H. destruct H as (Hm & Hd & H30 & H29).
  unfold days_from_civil. cbv zeta.
  set (y' := if m <=? 2 then y - 1 else y).
  set (era := y' / 400).
  set (yoe := y' - era * 400).
  set (mp := if 2 <? m then m - 3 else m + 9).
  set (doy := (153 * mp + 2) / 5 + d - 1).
  set (doe := yoe * 365 + yoe / 4 - yoe / 100 + doy).
  assert (Hyoe : 0 <= yoe < 400)
    by (clear; subst yoe era; generalize y'; intro a; Z.div_mod_to_equations; lia).
  assert (Hmp : 0 <= mp < 12 /\ (m = if mp <? 10 then mp + 3 else mp - 9)).
  { subst mp. destruct (2 <? m) eqn:E;
      [destruct (m - 3 <? 10) eqn:E2 | destruct (m + 9 <? 10) eqn:E2]; lia. }
  assert (Hleap : m = 2 -> d = 29 -> long_year yoe = true).
  { intros H Hd29. destruct (H29 H) as [_ Hl]. specialize (Hl Hd29).
    unfold long_year. subst yoe era y'. destruct (m <=? 2) eqn:E; [ | lia].
    Z.div_mod_to_equations; lia. }
  assert (Hdoy : 0 <= doy /\ doy < 365 + (if long_year yoe then 1 else 0)
                 /\ d = doy - (153 * mp + 2) / 5 + 1 /\ mp = (5 * doy + 2) / 153).
  { assert (mp = 0 \/ mp = 1 \/ mp = 2 \/ mp = 3 \/ mp = 4 \/ mp = 5 \/ mp = 6
            \/ mp = 7 \/ mp = 8 \/ mp = 9 \/ mp = 10 \/ mp = 11) as Hc by lia.
    assert (Hmm : m = if mp <? 10 then mp + 3 else mp - 9) by tauto.
    assert (Hfeb : m = 2 -> d <= 29) by (intro Hm2; apply H29; exact Hm2).
    generalize dependent (long_year yoe). intros leap Hleap.
    clearbody mp. clear Hmp H29. subst doy.
    destruct Hc as [-> | [-> | [-> | [-> | [-> | [-> | [-> | [-> | [-> | [-> | [-> | ->]]]]]]]]]]];
      vm_compute in Hmm; subst m;
      match goal with
      | |- context [(?a * ?b + ?c) / 5] =>
          let v := eval vm_compute in ((a * b + c) / 5) in
          change ((a * b + c) / 5) with v
      end;
      (split; [lia | split; [ | split; [lia | Z.div_mod_to_equations; lia]]]);
      destruct leap; lia. }
  destruct Hdoy as (Hd0 & Hd1 & Hdd & Hmpe).
  assert (Hdoe_eq : doe = year_start yoe + doy) by (unfold year_start; subst doe; lia).
  assert (Hdoe : 0 <= doe < 146097).
  { rewrite Hdoe_eq.
    pose proof (year_start_mono 0 yoe ltac:(lia)) as Hlow.
    change (year_start 0) with 0 in Hlow.
    destruct (Z.eq_dec yoe 399) as [E | E].
    - rewrite E in Hd1 |- *. change (year_start 399) with 145731.
      destruct (long_year 399); lia.
    - pose proof (year_start_step yoe ltac:(lia)) as Hstep.
      pose proof (year_start_mono (yoe + 1) 399 ltac:(lia)) as Hmono.
      change (year_start 399) with 145731 in Hmono.
      destruct (long_year yoe); lia. }
  unfold civil_from_days. cbv zeta.
  replace (era * 146097 + doe - 719468 + 719468) with (doe + era * 146097) by lia.
  rewrite Z.div_add by lia. rewrite (Z.div_small doe) by lia. cbn [Z.add].
  replace (doe + era * 146097 - era * 146097) with doe by lia.
  assert (Hy : (doe - doe / 1460 + doe / 36524 - doe / 146096) / 365 = yoe).
  { destruct (year_of_era_range doe Hdoe) as [Hr1 Hr2].
    eapply year_of_era_unique; [exact Hr1 | exact Hyoe | exact Hr2 | | ].
    - split; [exact Hd0 | exact Hd1].
    - rewrite <- Hdoe_eq. lia. }
  rewrite Hy. fold doe.
  replace (doe - (365 * yoe + yoe / 4 - yoe / 100)) with doy by (subst doe; lia).
  rewrite <- Hmpe. rewrite <- Hdd.
  destruct Hmp as [Hmp0 Hmpm]. rewrite <- Hmpm.
  f_equal. f_equal. subst yoe y'. destruct (m <=? 2); lia.
Qed.

(** The civil date of a day number has that day number. *)
Lemma days_civil_days (z : Z) :
  let '(y, m, d) := civil_from_days z in days_from_civil y m d = z.
Proof.
  unfold civil_from_days, days_from_civil. cbv zeta.
  set (z' := z + 719468).
  set (era := z' / 146097).
  set (doe := z' - era * 146097).
  set (yoe := (doe - doe / 1460 + doe / 36524 - doe / 146096) / 365).
  set (doy := doe - (365 * yoe + yoe / 4 - yoe / 100)).
  set (mp := (5 * doy + 2) / 153).
  assert (Hdoe : 0 <= doe < 146097) by (subst doe era; Z.div_mod_to_equations; lia).
  destruct (year_of_era_range doe Hdoe) as [Hyoe Hdoy]. fold yoe in Hyoe, Hdoy.
  assert (Hdoy' : 0 <= doy < 366).
  { unfold year_start in Hdoy. subst doy. destruct (long_year yoe); lia. }
  assert (Hmp : 0 <= mp < 12) by (subst mp; Z.div_mod_to_equations; lia).
  destruct (mp <? 10) eqn:E1.
  - assert (H1 : (mp + 3 <=? 2) = false) by lia. rewrite H1.
    assert (H2 : (2 <? mp + 3) = true) by lia. rewrite H2.
    replace ((yoe + era * 400 + 0) / 400) with era by (Z.div_mod_to_equations; lia).
    replace (mp + 3 - 3) with mp by lia.
    subst doy mp; Z.div_mod_to_equations; lia.
  - assert (H1 : (mp - 9 <=? 2) = true) by lia. rewrite H1.
    assert (H2 : (2 <? mp - 9) = false) by lia. rewrite H2.
    replace ((yoe + era * 400 + 1 - 1) / 400) with era by (Z.div_mod_to_equations; lia).
    replace (mp - 9 + 9) with mp by lia.
    subst doy mp; Z.div_mod_to_equations; lia.
Qed.

Lemma valid_date_intro (y m d : Z) :
  1 <= m <= 12 -> 1 <= d <= 31 ->
  (m = 4 \/ m = 6 \/ m = 9 \/ m = 11 -> d <= 30) ->
  (m = 2 -> d <= 28 \/ (d = 29 /\ is_leap y = true)) ->
  valid_date y m d = true.
Proof.
  intros Hm Hd H30 H2. unfold valid_date, days_in_month.
  destruct (m =? 2) eqn:E2.
  - destruct (H2 ltac:(lia)) as [H | [H Hl]]; [destruct (is_leap y); lia | rewrite Hl; lia].
  - destruct ((m =? 4) || (m =? 6) || (m =? 9) || (m =? 11)) eqn:E30; lia.
Qed.

(** The civil date of a day number is a date of the calendar. *)
Lemma civil_from_days_valid (z : Z) :
  let '(y, m, d) := civil_from_days z in valid_date y m d = true.
Proof.
  unfold civil_from_days. cbv zeta.
  set (z' := z + 719468).
  set (era := z' / 146097).
  set (doe := z' - era * 146097).
  set (yoe := (doe - doe / 1460 + doe / 36524 - doe / 146096) / 365).
  set (doy := doe - (365 * yoe + yoe / 4 - yoe / 100)).
  set (mp := (5 * doy + 2) / 153).
  assert (Hdoe : 0 <= doe < 146097) by (subst doe era; Z.div_mod_to_equations; lia).
  destruct (year_of_era_range doe Hdoe) as [Hyoe Hdoy]. fold yoe in Hyoe, Hdoy.
  change (doe - year_start yoe) with doy in Hdoy.
  assert (Hleap : long_year yoe = true -> is_leap (yoe + era * 400 + 1) = true).
  { unfold long_year, is_leap. clear - Hyoe. intros H. Z.div_mod_to_equations; lia. }
  assert (Hmp : 0 <= mp < 12
                /\ (153 * mp + 2) / 5 <= doy
                /\ (mp < 11 -> doy < (153 * (mp + 1) + 2) / 5)).
  { subst mp. clearbody doy. clear - Hdoy. destruct (long_year yoe);
      Z.div_mod_to_equations; lia. }
  destruct Hmp as (Hmp & Hlo & Hhi).
  clearbody mp doy. clear Hdoe.
  assert (Hc : mp = 0 \/ mp = 1 \/ mp = 2 \/ mp = 3 \/ mp = 4 \/ mp = 5 \/ mp = 6
               \/ mp = 7 \/ mp = 8 \/ mp = 9 \/ mp = 10 \/ mp = 11) by lia.
  destruct (mp <? 10) eqn:E10.
  - assert (E2 : (mp + 3 <=? 2) = false) by lia. rewrite E2.
    apply valid_date_intro; try lia;
      destruct Hc as [-> | [-> | [-> | [-> | [-> | [-> | [-> | [-> | [-> | [-> | [-> | ->]]]]]]]]]]];
      try discriminate;
      repeat match goal with
             | H : context [(?a * ?b + ?c) / 5] |- _ =>
                 let v := eval vm_compute in ((a * b + c) / 5) in
                 change ((a * b + c) / 5) with v in H
             | |- context [(?a * ?b + ?c) / 5] =>
                 let v := eval vm_compute in ((a * b + c) / 5) in
                 change ((a * b + c) / 5) with v
             end; lia.
  - assert (E2 : (mp - 9 <=? 2) = true) by lia. rewrite E2.
    assert (Hcc : mp = 10 \/ mp = 11) by lia.
    assert (Hdoy' : doy < 366) by (destruct (long_year yoe); lia).
    apply valid_date_intro; try lia;
      destruct Hcc as [-> | ->];
      repeat match goal with
             | H : context [(?a * ?b + ?c) / 5] |- _ =>
                 let v := eval vm_compute in ((a * b + c) / 5) in
                 change ((a * b + c) / 5) with v in H
             | |- context [(?a * ?b + ?c) / 5] =>
                 let v := eval vm_compute in ((a * b + c) / 5) in
                 change ((a * b + c) / 5) with v
             end; try lia.
    intros _. destruct (long_year yoe) eqn:El.
    + destruct (Z.eq_dec (doy - 337 + 1) 29) as [E | E]; [right | left; lia].
      split; [exact E | apply Hleap; reflexivity].
    + left. lia.
Qed.

(** The year of a day number within a hundred million days of the epoch. *)
Lemma civil_from_days_year (z : Z) :
  -100000001 <= z <= 100000000 ->
  -999999 <= fst (fst (civil_from_days z)) <= 999999.
Proof.
  intros H. unfold civil_from_days. cbv zeta.
  set (z' := z + 719468).
  set (era := z' / 146097).
  set (doe := z' - era * 146097).
  set (yoe := (doe - doe / 1460 + doe / 36524 - doe / 146096) / 365).
  assert (Hdoe : 0 <= doe < 146097) by (subst doe era; Z.div_mod_to_equations; lia).
  destruct (year_of_era_range doe Hdoe) as [Hyoe _]. fold yoe in Hyoe.
  assert (He : -700 <= era <= 700) by (subst era z'; Z.div_mod_to_equations; lia).
  cbn [fst]. clearbody yoe era. destruct (_ <=? 2); lia.
Qed.

(** The day numbers of the years 0 to 9999. *)
Lemma days_from_civil_range (y m d : Z) :
  valid_date y m d = true -> 0 <= y <= 9999 ->
  -719528 <= days_from_civil y m d <= 2932896.
Proof.
  intros Hv Hy. apply valid_date_bounds in Hv. destruct Hv as (Hm & Hd & _).
  unfold days_from_civil. cbv zeta.
  destruct (m <=? 2) eqn:E1; destruct (2 <? m) eqn:E2; try lia;
    Z.div_mod_to_equations; lia.
Qed.

Lemma Day_of_days (n : Z) : Day (n * msPerDay) = n.
Proof. unfold Day, msPerDay. apply Z.div_mul. lia. Qed.

Lemma days_from_civil_day (y m d : Z) :
  days_from_civil y m d = days_from_civil y m 1 + d - 1.
Proof. unfold days_from_civil. cbv zeta. lia. Qed.

End Calendar.

(** ** ISO dates as strings *)

Section Iso_strings.

Import Cal.

Lemma code_chr (z : Z) : 0 <= z < 256 -> Str.code (Str.chr z) = z.
Proof.
  intros H. unfold Str.code, Str.chr.
  rewrite N_ascii_embedding by lia. lia.
Qed.

Lemma code_digit_char (n : Z) : Str.code (digit_char (n mod 10)) = 48 + n mod 10.
Proof.
  unfold digit_char. apply code_chr.
  pose proof (Z.mod_pos_bound n 10 ltac:(lia)). lia.
Qed.

Lemma is_digit_digit_char (n : Z) : Str.is_digit (digit_char (n mod 10)) = true.
Proof.
  unfold Str.is_digit. rewrite code_digit_char.
  pose proof (Z.mod_pos_bound n 10 ltac:(lia)). lia.
Qed.

Lemma digit_digit_char (n : Z) : Str.digit (digit_char (n mod 10)) = n mod 10.
Proof. unfold Str.digit. rewrite code_digit_char. lia. Qed.

(** A digit is none of the other bytes of the format. *)
Lemma digit_is_not (c x : ascii) :
  Str.is_digit c = true -> (Str.code x <? 48) || (57 <? Str.code x) = true ->
  Ascii.eqb c x = false.
Proof.
  intros Hc Hx. apply Ascii.eqb_neq. intros ->. unfold Str.is_digit in Hc. lia.
Qed.

Lemma append_assoc (a b c : string) : ((a ++ b) ++ c)%string = (a ++ (b ++ c))%string.
Proof. induction a as [| x a IH]; simpl; [reflexivity | now rewrite IH]. Qed.

Lemma append_nil_r (a : string) : (a ++ "")%string = a.
Proof. induction a as [| x a IH]; simpl; [reflexivity | now rewrite IH]. Qed.

Lemma length_append (a b : string) :
  String.length (a ++ b) = (String.length a + String.length b)%nat.
Proof. induction a as [| x a IH]; simpl; [reflexivity | now rewrite IH]. Qed.

Lemma length_pad (k : nat) : forall n, String.length (pad k n) = k.
Proof.
  induction k as [| k IH]; intro n; simpl; [reflexivity | ].
  rewrite length_append, IH. simpl. lia.
Qed.

Lemma take_append (a b : string) : take (String.length a) (a ++ b) = Some (a, b).
Proof. induction a as [| x a IH]; simpl; [reflexivity | now rewrite IH]. Qed.

Lemma digits_value_pad (k : nat) :
  forall n r acc,
    digits_value (pad k n ++ r) acc = digits_value r (acc * 10 ^ Z.of_nat k + n mod 10 ^ Z.of_nat k).
Proof.
  induction k as [| k IH]; intros n r acc.
  - simpl. rewrite Z.mod_1_r. f_equal. lia.
  - cbn [pad]. rewrite append_assoc. rewrite IH.
    cbn [append digits_value]. rewrite is_digit_digit_char, digit_digit_char.
    f_equal. rewrite Nat2Z.inj_succ, Z.pow_succ_r by lia.
    rewrite (Z.rem_mul_r n 10 (10 ^ Z.of_nat k)) by lia. ring.
Qed.

Lemma field_pad (k : nat) (n : Z) (r : string) :
  0 <= n < 10 ^ Z.of_nat k -> field k (pad k n ++ r) = Some (n, r).
Proof.
  intros H. unfold field.
  rewrite <- (length_pad k n) at 1. rewrite take_append.
  rewrite <- (append_nil_r (pad k n)) at 1. rewrite digits_value_pad.
  cbn [digits_value]. rewrite Z.mod_small by exact H.
  replace (0 * 10 ^ Z.of_nat k + n) with n by lia. reflexivity.
Qed.

Lemma pad_head (k : nat) (n : Z) :
  exists c r, pad (S k) n = String c r /\ Str.is_digit c = true.
Proof.
  revert n. induction k as [| k IH]; intro n.
  - exists (digit_char (n mod 10)), EmptyString. split; [reflexivity | ].
    apply is_digit_digit_char.
  - destruct (IH (n / 10)) as [c [r [E Hc]]].
    exists c, (r ++ String (digit_char (n mod 10)) EmptyString)%string.
    split; [ | exact Hc]. change (pad (S (S k)) n)
      with (pad (S k) (n / 10) ++ String (digit_char (n mod 10)) EmptyString)%string.
    now rewrite E.
Qed.

Lemma parse_year_iso_year (y : Z) (r : string) :
  -999999 <= y <= 999999 -> parse_year (iso_year y ++ r) = Some (y, r).
Proof.
  intros H. unfold iso_year.
  destruct ((0 <=? y) && (y <=? 9999)) eqn:E4.
  - destruct (pad_head 3 y) as [c [t [E Hc]]].
    unfold parse_year. rewrite E. cbn [append].
    rewrite (digit_is_not c "+" Hc eq_refl), (digit_is_not c "-" Hc eq_refl).
    change (String c (t ++ r)) with (String c t ++ r)%string. rewrite <- E.
    apply field_pad. change (10 ^ Z.of_nat 4) with 10000. lia.
  - destruct (y <? 0) eqn:En.
    + cbn [append parse_year]. change (Ascii.eqb "-" "+") with false.
      change (Ascii.eqb "-" "-") with true. cbv iota.
      rewrite field_pad by (change (10 ^ Z.of_nat 6) with 1000000; lia).
      assert (Hz : (- y =? 0) = false) by lia. rewrite Hz. do 2 f_equal. lia.
    + cbn [append parse_year]. change (Ascii.eqb "+" "+") with true. cbv iota.
      apply field_pad. change (10 ^ Z.of_nat 6) with 1000000. lia.
Qed.

(** Reading an ISO date gives back the date written. *)
Lemma parse_iso_date_iso_date (y m d : Z) :
  valid_date y m d = true -> -999999 <= y <= 999999 ->
  parse_iso_date (iso_date y m d) = Some (y, m, d).
Proof.
  intros Hv Hy. pose proof (valid_date_bounds y m d Hv) as (Hm & Hd & _).
  unfold parse_iso_date, iso_date.
  rewrite parse_year_iso_year by exact Hy.
  cbn [append expect]. change (Ascii.eqb "-" "-") with true. cbv iota.
  rewrite field_pad by (change (10 ^ Z.of_nat 2) with 100; lia).
  cbn [append expect]. change (Ascii.eqb "-" "-") with true. cbv iota.
  rewrite <- (append_nil_r (pad 2 d)).
  rewrite field_pad by (change (10 ^ Z.of_nat 2) with 100; lia).
  now rewrite Hv.
Qed.

Lemma no_T_append (a b : string) : DateObj.no_T (a ++ b) = DateObj.no_T a && DateObj.no_T b.
Proof. induction a as [| x a IH]; simpl; [reflexivity | now rewrite IH, andb_assoc]. Qed.

Lemma no_T_pad (k : nat) : forall n, DateObj.no_T (pad k n) = true.
Proof.
  induction k as [| k IH]; intro n; [reflexivity | ].
  cbn [pad]. rewrite no_T_append, IH. cbn [DateObj.no_T andb].
  rewrite (digit_is_not _ "T" (is_digit_digit_char n) eq_refl). reflexivity.
Qed.

Lemma no_T_iso_date (y m d : Z) : DateObj.no_T (iso_date y m d) = true.
Proof.
  unfold iso_date, iso_year.
  destruct ((0 <=? y) && (y <=? 9999)); [ | destruct (y <? 0)];
    repeat (rewrite ?no_T_append, ?no_T_pad; cbn [DateObj.no_T append]);
    rewrite ?no_T_append, ?no_T_pad; reflexivity.
Qed.

Lemma before_T_append (a r : string) :
  DateObj.no_T a = true -> DateObj.before_T (a ++ String "T" r) = a.
Proof.
  induction a as [| x a IH]; simpl; intros H; [reflexivity | ].
  apply andb_prop in H. destruct H as [Hx Ha].
  destruct (Ascii.eqb x "T"); [discriminate | ]. now rewrite IH.
Qed.

End Iso_strings.

(** ** [Date] objects of ISO dates *)

Section Dates.

Import Cal Worker.

Variable rt : Runtime.

Lemma TimeClip_days (n : Z) :
  -100000000 <= n <= 100000000 -> TimeClip (n * msPerDay) = Some (n * msPerDay).
Proof.
  intros H. unfold TimeClip, msPerDay.
  destruct (Z.abs (n * 86400000) <=? 8640000000000000) eqn:E; [reflexivity | lia].
Qed.

(** [new Date("YYYY-MM-DD")] is midnight UTC of that date. *)
Lemma of_string_iso_date (y m d : Z) :
  valid_date y m d = true -> 0 <= y <= 9999 ->
  DateObj.of_string rt (iso_date y m d) = Some (utc y m d).
Proof.
  intros Hv Hy. unfold DateObj.of_string.
  rewrite parse_iso_date_iso_date by (assumption || lia).
  unfold utc. apply TimeClip_days.
  pose proof (days_from_civil_range y m d Hv Hy). lia.
Qed.

Lemma before_T_toISOString (n : Z) :
  DateObj.before_T (Cal.toISOString (n * msPerDay)) = Cal.iso_of_day n.
Proof.
  unfold Cal.toISOString, Cal.iso_of_day. rewrite Day_of_days.
  destruct (civil_from_days n) as [[y m] d].
  cbn [append]. apply before_T_append. apply no_T_iso_date.
Qed.

(** Reading the date part back gives midnight UTC of the same day. *)
Lemma of_string_iso_of_day (n : Z) :
  -100000000 <= n <= 100000000 ->
  DateObj.of_string rt (Cal.iso_of_day n) = Some (n * msPerDay).
Proof.
  intros H. unfold Cal.iso_of_day, DateObj.of_string.
  pose proof (civil_from_days_valid n) as Hv.
  pose proof (civil_from_days_year n ltac:(lia)) as Hy.
  pose proof (days_civil_days n) as Hd.
  destruct (civil_from_days n) as [[y m] d]. cbn [fst] in Hy.
  rewrite parse_iso_date_iso_date by assumption.
  unfold utc. rewrite Hd. apply TimeClip_days. exact H.
Qed.

(** C4.  For valid ISO dates [startDate <= endDate] (years 0000 to 9999),
    [getPreviousPeriod] returns a window whose end is exactly one day
    before [startDate] and whose duration, end minus start, is the
    duration of the input window: read back as dates, the strings it
    returns are [start - 1 day] and [start - 1 day - (end - start)]. *)
Theorem previous_period_precedes (y1 m1 d1 y2 m2 d2 : Z) :
  valid_date y1 m1 d1 = true -> valid_date y2 m2 d2 = true ->
  0 <= y1 <= 9999 -> 0 <= y2 <= 9999 ->
  days_from_civil y1 m1 d1 <= days_from_civil y2 m2 d2 ->
  exists (p : period) (prevStart prevEnd : Z),
    getPreviousPeriod rt (iso_date y1 m1 d1) (iso_date y2 m2 d2) = inr p
    /\ DateObj.of_string rt (startDate p) = Some prevStart
    /\ DateObj.of_string rt (endDate p) = Some prevEnd
    /\ prevEnd = utc y1 m1 d1 - msPerDay
    /\ prevEnd - prevStart = utc y2 m2 d2 - utc y1 m1 d1
    /\ endDate p = Cal.iso_of_day (days_from_civil y1 m1 d1 - 1)
    /\ startDate p
       = Cal.iso_of_day (days_from_civil y1 m1 d1 - 1
                     - (days_from_civil y2 m2 d2 - days_from_civil y1 m1 d1)).
Proof.
  intros Hv1 Hv2 Hy1 Hy2 Hle.
  pose proof (days_from_civil_range y1 m1 d1 Hv1 Hy1) as Hr1.
  pose proof (days_from_civil_range y2 m2 d2 Hv2 Hy2) as Hr2.
  set (s := days_from_civil y1 m1 d1) in *.
  set (e := days_from_civil y2 m2 d2) in *.
  unfold getPreviousPeriod.
  rewrite !of_string_iso_date by assumption.
  unfold utc. fold s e.
  cbn [DateObj.lift2 DateObj.getTime DateObj.of_time].
  replace (s * msPerDay - 86400000) with ((s - 1) * msPerDay) by (unfold msPerDay; lia).
  rewrite TimeClip_days by lia.
  cbn [DateObj.lift2 DateObj.getTime DateObj.of_time].
  replace ((s - 1) * msPerDay - (e * msPerDay - s * msPerDay))
    with ((s - 1 - (e - s)) * msPerDay) by lia.
  rewrite TimeClip_days by lia.
  cbn [DateObj.toISOString]. rewrite !before_T_toISOString.
  eexists. exists ((s - 1 - (e - s)) * msPerDay), ((s - 1) * msPerDay).
  split; [reflexivity | ].
  cbn [startDate endDate].
  rewrite !of_string_iso_of_day by lia.
  repeat split; unfold msPerDay; lia.
Qed.

(** *** The fields of a date of the dimension *)

Lemma ceil_div_scale (a b c : Z) : 0 < b -> 0 < c -> ceil_div (a * c) (b * c) = ceil_div a b.
Proof.
  intros Hb Hc. unfold ceil_div.
  replace (- (a * c)) with ((- a) * c) by lia.
  rewrite Z.div_mul_cancel_r by lia. reflexivity.
Qed.

Lemma getters_of_iso_date (y m d : Z) :
  valid_date y m d = true ->
  DateObj.getFullYear (Some (utc y m d)) = Some y
  /\ DateObj.getMonth (Some (utc y m d)) = Some (m - 1)
  /\ DateObj.getDate (Some (utc y m d)) = Some d
  /\ DateObj.getDay (Some (utc y m d)) = Some ((days_from_civil y m d + 4) mod 7).
Proof.
  intros Hv.
  unfold DateObj.getFullYear, DateObj.getMonth, DateObj.getDate, DateObj.getDay,
    YearFromTime, MonthFromTime, DateFromTime, WeekDay, utc.
  cbn [option_map]. rewrite Day_of_days, civil_days_civil by exact Hv.
  repeat split.
Qed.

Lemma getWeekOfYear_iso_date (y m d : Z) :
  valid_date y m d = true -> 0 <= y <= 9999 ->
  getWeekOfYear (Some (utc y m d))
  = Some (ceil_div (days_from_civil y m d - days_from_civil (DateObj.constructor_year y) 1 1
                    + (days_from_civil (DateObj.constructor_year y) 1 1 + 4) mod 7) 7).
Proof.
  intros Hv Hy. unfold getWeekOfYear.
  destruct (getters_of_iso_date y m d Hv) as (-> & _).
  unfold DateObj.jan_first.
  assert (Hyr : 0 <= DateObj.constructor_year y <= 9999)
    by (unfold DateObj.constructor_year; destruct ((0 <=? y) && (y <=? 99)) eqn:E; lia).
  assert (Hv1 : valid_date (DateObj.constructor_year y) 1 1 = true) by reflexivity.
  pose proof (days_from_civil_range _ _ _ Hv1 Hyr) as Hr.
  destruct (getters_of_iso_date (DateObj.constructor_year y) 1 1 Hv1) as (_ & _ & _ & Hday).
  set (j := days_from_civil (DateObj.constructor_year y) 1 1) in *.
  set (n := days_from_civil y m d).
  change (utc (DateObj.constructor_year y) 1 1) with (j * msPerDay) in *.
  change (utc y m d) with (n * msPerDay).
  rewrite TimeClip_days by lia. rewrite Hday.
  cbn [DateObj.lift2]. f_equal.
  replace (n * msPerDay - j * msPerDay + (j + 4) mod 7 * 86400000)
    with ((n - j + (j + 4) mod 7) * 86400000) by (unfold msPerDay; lia).
  change 604800000 with (7 * 86400000).
  apply ceil_div_scale; lia.
Qed.

Lemma no_growth {A : Type} (l : list A) (x : A) : l = (l ++ [x])%list -> False.
Proof.
  intros H. apply (f_equal (@List.length A)) in H.
  rewrite length_app in H. simpl in H. lia.
Qed.

Lemma iso_date_truthy (y m d : Z) :
  0 <= y <= 9999 -> JS.truthy (JStr (iso_date y m d)) = true.
Proof.
  intros Hy. unfold iso_date, iso_year.
  assert (E : (0 <=? y) && (y <=? 9999) = true) by lia. rewrite E.
  destruct (pad_head 3 y) as [c [t [-> _]]]. reflexivity.
Qed.

(** The week and the weekday of the row [getOrCreateDate] inserts for
    an ISO date: the week counts from the 1 January that
    [new Date(year, 0, 1)] builds. *)
Lemma inserted_week_and_weekday (db : D1.DB) (y m d : Z) (row : D1.dim_date_row) :
  valid_date y m d = true -> 0 <= y <= 9999 ->
  D1.dim_date (snd (getOrCreateDate rt (JStr (iso_date y m d)) db))
  = (D1.dim_date db ++ [row])%list ->
  D1.week_of_year row
  = ceil_div (days_from_civil y m d - days_from_civil (DateObj.constructor_year y) 1 1
              + (days_from_civil (DateObj.constructor_year y) 1 1 + 4) mod 7) 7
  /\ D1.day_of_week row
     = (if (days_from_civil y m d + 4) mod 7 =? 0 then 7
        else (days_from_civil y m d + 4) mod 7).
Proof.
  intros Hv Hy. unfold getOrCreateDate.
  rewrite iso_date_truthy by exact Hy. cbn [negb].
  rewrite of_string_iso_date by assumption.
  rewrite getWeekOfYear_iso_date by assumption.
  destruct (getters_of_iso_date y m d Hv) as (-> & -> & -> & ->).
  unfold D1.bind, D1.lift.
  destruct (D1.bind_value (JNum _)) as [e | key];
    [cbn [snd]; intros H; destruct (no_growth _ _ H) | ].
  unfold D1.select_date.
  destruct (D1.as_integer key) as [z | ] eqn:Ek.
  - destruct (find _ (D1.dim_date db)) as [r | ];
      [cbn [snd fst D1.ret D1.log D1.dim_date]; intros H; destruct (no_growth _ _ H) | ].
    destruct (index monthNames _) as [month_name | ];
      [ | cbn [snd fst D1.ret D1.log D1.dim_date D1.bind_value];
          intros H; destruct (no_growth _ _ H) ].
    destruct (index dayNames _) as [day_name | ];
      [ | cbn [snd fst D1.ret D1.log D1.dim_date D1.bind_value];
          intros H; destruct (no_growth _ _ H) ].
    unfold D1.insert_date. cbn [option_map D1.log D1.dim_date].
    destruct (match key with VNull => _ | _ => D1.as_integer key end) as [k | ];
      [ | cbn [snd fst D1.ret D1.log D1.dim_date]; intros H; destruct (no_growth _ _ H) ].
    destruct (existsb _ _);
      [cbn [snd fst D1.ret D1.log D1.dim_date]; intros H; destruct (no_growth _ _ H) | ].
    destruct (existsb _ _);
      [cbn [snd fst D1.ret D1.log D1.dim_date]; intros H; destruct (no_growth _ _ H) | ].
    cbn [snd fst D1.ret D1.log D1.set_dim_date D1.dim_date].
    intros H. apply app_inv_head in H. injection H as <-.
    cbn [D1.week_of_year D1.day_of_week]. split; reflexivity.
  - destruct (index monthNames _) as [month_name | ];
      [ | cbn [snd fst D1.ret D1.log D1.dim_date D1.bind_value];
          intros H; destruct (no_growth _ _ H) ].
    destruct (index dayNames _) as [day_name | ];
      [ | cbn [snd fst D1.ret D1.log D1.dim_date D1.bind_value];
          intros H; destruct (no_growth _ _ H) ].
    unfold D1.insert_date. cbn [option_map D1.log D1.dim_date].
    destruct (match key with VNull => _ | _ => D1.as_integer key end) as [k | ];
      [ | cbn [snd fst D1.ret D1.log D1.dim_date]; intros H; destruct (no_growth _ _ H) ].
    destruct (existsb _ _);
      [cbn [snd fst D1.ret D1.log D1.dim_date]; intros H; destruct (no_growth _ _ H) | ].
    destruct (existsb _ _);
      [cbn [snd fst D1.ret D1.log D1.dim_date]; intros H; destruct (no_growth _ _ H) | ].
    cbn [snd fst D1.ret D1.log D1.set_dim_date D1.dim_date].
    intros H. apply app_inv_head in H. injection H as <-.
    cbn [D1.week_of_year D1.day_of_week]. split; reflexivity.
Qed.

(** C6 (amended).  When [getOrCreateDate] inserts a valid calendar date
    (an ISO date of the years 0000 to 9999) into the date dimension, the
    stored [day_of_week] is the weekday index with Sunday, 0, stored as 7
    (1 is Monday, 7 is Sunday); and for a date of the year 0100 or later
    the stored [week_of_year] is the number of days since 1 January of the
    date's year plus the weekday index of that 1 January (0 for Sunday),
    divided by 7 and rounded up. *)
Theorem date_dimension_week_and_weekday
    (db : D1.DB) (y m d : Z) (row : D1.dim_date_row) :
  valid_date y m d = true -> 0 <= y <= 9999 ->
  D1.dim_date (snd (getOrCreateDate rt (JStr (iso_date y m d)) db))
  = (D1.dim_date db ++ [row])%list ->
  (100 <= y ->
   D1.week_of_year row
   = ceil_div (days_from_civil y m d - days_from_civil y 1 1
               + (days_from_civil y 1 1 + 4) mod 7) 7)
  /\ D1.day_of_week row
     = (if (days_from_civil y m d + 4) mod 7 =? 0 then 7
        else (days_from_civil y m d + 4) mod 7).
Proof.
  intros Hv Hy H. destruct (inserted_week_and_weekday db y m d row Hv Hy H) as [W D].
  split; [ | exact D]. intros H100. rewrite W.
  assert (Ey : DateObj.constructor_year y = y).
  { unfold DateObj.constructor_year.
    destruct ((0 <=? y) && (y <=? 99)) eqn:E; [lia | reflexivity]. }
  now rewrite Ey.
Qed.

End Dates.

(** ** Dimension resolvers *)

Section Resolvers.

Import D1 Worker.

Variable rt : Runtime.

Lemma find_none_existsb {A : Type} (p : A -> bool) (l : list A) :
  List.find p l = None -> List.existsb p l = false.
Proof.
  induction l as [| a l IH]; simpl; [reflexivity | ].
  destruct (p a); [discriminate | exact IH].
Qed.

Lemma find_some_existsb {A : Type} (p : A -> bool) (l : list A) (a : A) :
  List.find p l = Some a -> List.existsb p l = true.
Proof.
  induction l as [| b l IH]; simpl; [discriminate | ].
  destruct (p b); [reflexivity | exact IH].
Qed.

Lemma find_app_new {A : Type} (p : A -> bool) (l : list A) (a : A) :
  List.find p l = None -> p a = true -> List.find p (l ++ [a]) = Some a.
Proof.
  induction l as [| b l IH]; simpl; intros Hn Ha.
  - now rewrite Ha.
  - destruct (p b); [discriminate | auto].
Qed.

Lemma inserts_into_app (table : string) (a b : list statement) :
  inserts_into table (a ++ b) = (inserts_into table a + inserts_into table b)%nat.
Proof. unfold inserts_into. now rewrite filter_app, length_app. Qed.

(** C5 (amended).  On a missing or empty natural key (any value that is
    not truthy: [undefined], [null], the empty string) the campaign, date
    and region resolvers return [null] and the age and gender resolvers
    return their default keys, 1 and 3; none of them touches the store. *)
Theorem resolvers_on_missing_key (v : jsval) (db : DB) :
  JS.truthy v = false ->
  getOrCreateCampaign v db = (inr JNull, db)
  /\ getOrCreateDate rt v db = (inr JNull, db)
  /\ getOrCreateRegion rt v db = (inr JNull, db)
  /\ getOrCreateAge rt v db = (inr (JNum 1), db)
  /\ getOrCreateGender rt v db = (inr (JNum 3), db).
Proof.
  intros H.
  unfold getOrCreateCampaign, getOrCreateDate, getOrCreateRegion, getOrCreateAge,
    getOrCreateGender.
  rewrite H. repeat split.
Qed.

(** C9 (amended).  Resolving a non-empty campaign name twice returns the
    same surrogate key both times.  The second resolve runs one [SELECT]
    and nothing else: it finds the row and leaves the table as it is.
    The first resolve inserts exactly one row when the name is not yet in
    the table and none when it is, so the two resolves together perform
    at most one insert. *)
Theorem campaign_resolution_idempotent (s : string) (db : DB) :
  s <> "" ->
  let first := getOrCreateCampaign (JStr s) db in
  let second := getOrCreateCampaign (JStr s) (snd first) in
  exists id : Z,
    fst first = inr (JNum (Num.of_Z id))
    /\ fst second = inr (JNum (Num.of_Z id))
    /\ dim_campaign (snd second) = dim_campaign (snd first)
    /\ journal (snd second) = (journal (snd first) ++ [Select "dim_campaign"])%list
    /\ (if List.existsb (fun r => String.eqb (campaign_name r) s) (dim_campaign db)
        then dim_campaign (snd first) = dim_campaign db
             /\ journal (snd first) = (journal db ++ [Select "dim_campaign"])%list
             /\ inserts_into "dim_campaign" (journal (snd second))
                = inserts_into "dim_campaign" (journal db)
        else (exists c, dim_campaign (snd first) = (dim_campaign db ++ [c])%list
                        /\ campaign_name c = s /\ campaign_id c = id)
             /\ journal (snd first)
                = (journal db ++ [Select "dim_campaign"; Insert "dim_campaign"])%list
             /\ inserts_into "dim_campaign" (journal (snd second))
                = S (inserts_into "dim_campaign" (journal db))).
Proof.
  intros Hs first second. subst first second.
  assert (Ht : JS.truthy (JStr s) = true).
  { simpl. apply String.eqb_neq in Hs. now rewrite Hs. }
  unfold getOrCreateCampaign. rewrite Ht. cbn [negb].
  set (objective := if Str.includes s "Impression" then _ else _).
  unfold bind, select_campaign.
  set (p := fun r => String.eqb (campaign_name r) s).
  destruct (List.find p (dim_campaign db)) as [r |] eqn:Hfind.
  - (* the name is in the table *)
    exists (campaign_id r). cbn [fst snd ret to_js log dim_campaign journal].
    rewrite Hfind. cbn [fst snd ret to_js log dim_campaign journal].
    rewrite (find_some_existsb _ _ _ Hfind).
    repeat split.
    rewrite !inserts_into_app. cbn. lia.
  - (* the name is new *)
    unfold insert_campaign.
    cbn [log dim_campaign journal seq_campaign].
    fold p. rewrite (find_none_existsb _ _ Hfind).
    set (id := next_key campaign_id (dim_campaign db) (seq_campaign db)).
    set (c := {| campaign_id := id; campaign_name := s;
                 platform := VText "Facebook"; objective := VText objective |}).
    exists id.
    cbn [fst snd ret to_js log set_dim_campaign dim_campaign journal seq_campaign].
    assert (Hnew : List.find p (dim_campaign db ++ [c]) = Some c).
    { apply find_app_new; [exact Hfind | ]. unfold p. simpl. apply String.eqb_refl. }
    rewrite Hnew.
    cbn [fst snd ret to_js log set_dim_campaign dim_campaign journal seq_campaign
         campaign_id].
    repeat split.
    + exists c. repeat split.
    + now rewrite <- app_assoc.
    + rewrite <- app_assoc. rewrite !inserts_into_app. cbn. lia.
Qed.

(** A campaign gets its objective when it is created, from its name, and
    keeps it: resolving a name that is in the table leaves the table as it
    is; resolving a new name appends one row whose objective is derived from
    the name and whose platform is the default. *)
Theorem campaign_objective_frozen_at_creation (s : string) (db : DB) :
  let db' := snd (getOrCreateCampaign (JStr s) db) in
  if String.eqb s "" then db' = db
  else if List.existsb (fun r => String.eqb (campaign_name r) s) (dim_campaign db)
       then dim_campaign db' = dim_campaign db
       else List.map (fun r => (campaign_name r, objective r, platform r)) (dim_campaign db')
            = (List.map (fun r => (campaign_name r, objective r, platform r)) (dim_campaign db)
               ++ [(s, VText (objective_of s), VText "Facebook")])%list.
Proof.
  cbv zeta. unfold getOrCreateCampaign. cbn [JS.truthy].
  destruct (String.eqb s "") eqn:Es; cbn [negb]; [reflexivity | ].
  unfold bind, select_campaign.
  destruct (List.find _ (dim_campaign db)) as [r | ] eqn:Hfind.
  - rewrite (find_some_existsb _ _ _ Hfind). reflexivity.
  - rewrite (find_none_existsb _ _ Hfind).
    unfold insert_campaign. cbn [log dim_campaign].
    rewrite (find_none_existsb _ _ Hfind).
    cbn [snd fst ret log set_dim_campaign dim_campaign].
    rewrite map_app. reflexivity.
Qed.

End Resolvers.

Lemma resolvers_on_missing_key_witness :
  JS.truthy (JStr "") = false
  /\ Worker.getOrCreateAge sample_runtime (JStr "") D1.seeded = (inr (JNum 1), D1.seeded).
Proof.
  split.
  - reflexivity.
  - exact (proj1 (proj2 (proj2 (proj2
             (resolvers_on_missing_key sample_runtime (JStr "") D1.seeded eq_refl))))).
Defined.

(** C5, as stated, fails: with no age range the age resolver returns the
    key 1, and with no gender the gender resolver returns the key 3;
    neither is [null]. *)
Lemma age_and_gender_default_keys :
  fst (Worker.getOrCreateAge sample_runtime JUndefined D1.seeded) = inr (JNum 1)
  /\ JS.strict_eq (JNum 1) JNull = false
  /\ fst (Worker.getOrCreateGender sample_runtime (JStr "") D1.seeded) = inr (JNum 3)
  /\ JS.strict_eq (JNum 3) JNull = false.
Proof. repeat split. Qed.

Lemma campaign_resolution_idempotent_witness :
  "Mess FB Perfume" <> ""
  /\ exists id : Z,
       fst (Worker.getOrCreateCampaign (JStr "Mess FB Perfume") D1.seeded)
       = inr (JNum (Num.of_Z id))
       /\ fst (Worker.getOrCreateCampaign (JStr "Mess FB Perfume")
                 (snd (Worker.getOrCreateCampaign (JStr "Mess FB Perfume") D1.seeded)))
          = inr (JNum (Num.of_Z id)).
Proof.
  assert (H : "Mess FB Perfume" <> "") by discriminate.
  split; [exact H | ].
  destruct (campaign_resolution_idempotent "Mess FB Perfume" D1.seeded H)
    as [id [H1 [H2 _]]].
  exists id. split; assumption.
Defined.

(** C9, as stated, fails: on a store that already holds the campaign, the
    two resolves return its key and perform no insert at all. *)
Lemma no_insert_when_campaign_exists :
  fst (Worker.getOrCreateCampaign (JStr "Mess FB Perfume") store_with_campaign)
  = inr (JNum (Num.of_Z 1))
  /\ fst (Worker.getOrCreateCampaign (JStr "Mess FB Perfume")
            (snd (Worker.getOrCreateCampaign (JStr "Mess FB Perfume") store_with_campaign)))
     = inr (JNum (Num.of_Z 1))
  /\ D1.journal
       (snd (Worker.getOrCreateCampaign (JStr "Mess FB Perfume")
               (snd (Worker.getOrCreateCampaign (JStr "Mess FB Perfume")
                       store_with_campaign))))
     = [Select "dim_campaign"; Select "dim_campaign"]
  /\ Worker.inserts_into "dim_campaign"
       (D1.journal
          (snd (Worker.getOrCreateCampaign (JStr "Mess FB Perfume")
                  (snd (Worker.getOrCreateCampaign (JStr "Mess FB Perfume")
                          store_with_campaign)))))
     = 0%nat.
Proof. repeat split. Qed.

(** ** Daily results by product line *)

Section Product_daily.

Import Cal Worker.

Variable rt : Runtime.

(** Preparing the query of [getProductDaily] against [schema.sql] fails:
    [dim_campaign] has no column [channel]. *)
Lemma product_daily_query_does_not_prepare :
  Sql.prepare Sql.schema_sql product_daily_query
  = inl (D1Error "D1_ERROR: no such column: c.channel at offset 251: SQLITE_ERROR").
Proof. vm_compute. reflexivity. Qed.

Lemma getDateKey_string (s : string) :
  exists k, getDateKey (JStr s) = inr k /\ exists b, D1.bind_value k = inr b.
Proof.
  unfold getDateKey. destruct (JS.truthy (JStr s)); cbn [negb].
  - eexists. split; [reflexivity | ]. cbn [D1.bind_value].
    destruct (_ || _); eexists; reflexivity.
  - exists JNull. split; [reflexivity | ]. eexists. reflexivity.
Qed.

Lemma all_product_daily_query_throws (engine : Engine) (k1 k2 : jsval) (b1 b2 : sqlval)
    (db : D1.DB) :
  D1.bind_value k1 = inr b1 -> D1.bind_value k2 = inr b2 ->
  all engine product_daily_query [k1; k2] db
  = (inl (D1Error "D1_ERROR: no such column: c.channel at offset 251: SQLITE_ERROR"), db).
Proof.
  intros H1 H2. unfold all. cbn [fold_right]. rewrite H1, H2.
  rewrite product_daily_query_does_not_prepare. reflexivity.
Qed.

(** Thirty days before a time value, by [setDate(getDate() - 30)]. *)
Lemma setDate_minus_30 (t : Z) :
  setDate (Some t) (DateObj.lift2 Z.sub (DateObj.getDate (Some t)) (Some 30))
  = TimeClip (t - 30 * msPerDay).
Proof.
  unfold setDate, DateObj.getDate, DateObj.lift2, YearFromTime, MonthFromTime,
    DateFromTime. cbn [option_map].
  pose proof (days_civil_days (Day t)) as H.
  destruct (civil_from_days (Day t)) as [[y m] d]. cbn [fst snd].
  replace (m - 1 + 1) with m by lia.
  rewrite days_from_civil_day in H. f_equal.
  unfold Day in *. pose proof (Z.div_mod t msPerDay ltac:(unfold msPerDay; lia)). lia.
Qed.

(** C1.  Whatever the parameters of the request and the state of the
    store, [getProductDaily] returns no data: its query names the column
    [c.channel], which [dim_campaign] of [schema.sql] does not have, so
    the store refuses the statement and the [catch] branch answers with
    the error envelope and status 500.  The store is left as it was.
    (The two clock readings are valid time values, the second at least
    thirty days after the earliest one.) *)
Theorem product_daily_always_fails
    (engine : Engine) (clock : Z * Z) (params : list (string * string)) (db : D1.DB) :
  Z.abs (fst clock) <= 8640000000000000 ->
  30 * msPerDay - 8640000000000000 <= snd clock <= 8640000000000000 ->
  getProductDaily rt engine clock params db
  = (inr {| status := 500;
            body := JsObj [ ("success", JsBool false);
                            ("data",
                             JsObj [ ("error",
                                      JsStr "D1_ERROR: no such column: c.channel at offset 251: SQLITE_ERROR") ]) ] |},
     db).
Proof.
  intros Hc1 Hc2. unfold getProductDaily.
  match goal with
  | |- context [match (if ?c then ?a else ?b) with inl _ => _ | inr _ => _ end] =>
      set (range := if c then a else b)
  end.
  assert (Hrange : exists s e, range = inr (JStr s, JStr e)).
  { subst range.
    destruct (negb (JS.truthy (params_get params "startDate"))
              || negb (JS.truthy (params_get params "endDate"))) eqn:E.
    - assert (H1 : TimeClip (fst clock) = Some (fst clock)).
      { unfold TimeClip. destruct (Z.abs (fst clock) <=? 8640000000000000) eqn:E1;
          [reflexivity | lia]. }
      assert (H2 : TimeClip (snd clock) = Some (snd clock)).
      { unfold TimeClip. destruct (Z.abs (snd clock) <=? 8640000000000000) eqn:E1;
          [reflexivity | unfold msPerDay in Hc2; lia]. }
      rewrite H1, H2. rewrite setDate_minus_30.
      assert (H3 : TimeClip (snd clock - 30 * msPerDay) = Some (snd clock - 30 * msPerDay)).
      { unfold TimeClip.
        destruct (Z.abs (snd clock - 30 * msPerDay) <=? 8640000000000000) eqn:E1;
          [reflexivity | unfold msPerDay in *; lia]. }
      rewrite H3. cbn [iso_day DateObj.toISOString]. eexists. eexists. reflexivity.
    - apply orb_false_elim in E. destruct E as [Es Ee].
      unfold params_get in *.
      destruct (Sql.assoc "startDate" params) as [s | ]; [ | discriminate].
      destruct (Sql.assoc "endDate" params) as [e | ]; [ | discriminate].
      exists s, e. reflexivity. }
  destruct Hrange as [s [e ->]].
  destruct (getDateKey_string s) as [k1 [-> [b1 Hb1]]].
  destruct (getDateKey_string e) as [k2 [-> [b2 Hb2]]].
  unfold D1.bind at 1.
  rewrite (all_product_daily_query_throws engine k1 k2 b1 b2 db Hb1 Hb2).
  reflexivity.
Qed.

End Product_daily.

(** ** Channel of a campaign: [LIKE] is a substring match *)

Section Channel.

Import Sql.

Lemma compare_any (pattern text : string) :
  pattern_compare (String "%" pattern) text
  = (at_character text && pattern_compare pattern text)
    || match text with
       | EmptyString => false
       | String _ text' => pattern_compare (String "%" pattern) text'
       end.
Proof. destruct text; reflexivity. Qed.

Lemma compare_literal (p : ascii) (pattern text : string) :
  Ascii.eqb p "%" = false -> Ascii.eqb p "_" = false ->
  pattern_compare (String p pattern) text
  = match text with
    | EmptyString => false
    | String c text' =>
        Ascii.eqb (Str.lower_ascii p) (Str.lower_ascii c) && pattern_compare pattern text'
    end.
Proof. intros H1 H2. cbn [pattern_compare]. rewrite H1, H2. reflexivity. Qed.

Lemma compare_percent (text : string) : pattern_compare "%" text = true.
Proof.
  induction text as [| c text IH]; [reflexivity | ].
  rewrite compare_any. rewrite IH. apply orb_true_r.
Qed.

Lemma code_lower_ascii (c : ascii) :
  Str.code (Str.lower_ascii c) = if (65 <=? Str.code c) && (Str.code c <=? 90)
                                 then Str.code c + 32 else Str.code c.
Proof.
  unfold Str.lower_ascii.
  destruct ((65 <=? Str.code c) && (Str.code c <=? 90)) eqn:E; [ | reflexivity].
  apply code_chr. lia.
Qed.

(** A token followed by [%] matches the strings that start with the
    token, letter case apart. *)
Lemma compare_token_prefix (token : string) :
  plain token = true ->
  forall text,
    pattern_compare (token ++ "%") text
    = Str.starts_with (Str.map Str.lower_ascii token) (Str.map Str.lower_ascii text).
Proof.
  induction token as [| p token IH]; intros Hp text.
  - cbn [append]. rewrite compare_percent. reflexivity.
  - cbn [plain] in Hp.
    apply andb_prop in Hp. destruct Hp as [Hp Hrest].
    apply andb_prop in Hp. destruct Hp as [Hp H2].
    apply andb_prop in Hp. destruct Hp as [Hp H1].
    apply negb_true_iff in H1, H2.
    cbn [append]. rewrite compare_literal by assumption.
    destruct text as [| c text]; [reflexivity | ].
    cbn [Str.map Str.starts_with]. rewrite IH by exact Hrest. reflexivity.
Qed.

(** A token does not start in the middle of a character. *)
Lemma no_match_inside_character (p c : ascii) (token text : string) :
  Str.is_ascii p = true -> is_continuation c = true ->
  Str.starts_with (Str.map Str.lower_ascii (String p token))
    (Str.map Str.lower_ascii (String c text)) = false.
Proof.
  intros Hp Hc. cbn [Str.map Str.starts_with].
  assert (E : Ascii.eqb (Str.lower_ascii p) (Str.lower_ascii c) = false).
  { apply Ascii.eqb_neq. intros H. apply (f_equal Str.code) in H.
    rewrite !code_lower_ascii in H.
    unfold Str.is_ascii in Hp. unfold is_continuation in Hc.
    destruct ((65 <=? Str.code p) && (Str.code p <=? 90)) eqn:E1;
      destruct ((65 <=? Str.code c) && (Str.code c <=? 90)) eqn:E2; lia. }
  rewrite E. reflexivity.
Qed.

(** The comparison with [%token%] is the substring test, letter case
    apart. *)
Lemma compare_contains (token : string) :
  plain token = true -> token <> "" ->
  forall name,
    pattern_compare ("%" ++ token ++ "%") name = contains_ignoring_case name token.
Proof.
  intros Hp Hne name. unfold contains_ignoring_case. cbn [append].
  induction name as [| c name IH].
  - rewrite compare_any. rewrite compare_token_prefix by exact Hp.
    cbn [at_character andb Str.map Str.includes]. now rewrite !orb_false_r.
  - rewrite compare_any. rewrite compare_token_prefix by exact Hp. rewrite IH.
    cbn [Str.map Str.includes]. f_equal.
    unfold at_character. destruct (is_continuation c) eqn:Ec; [ | reflexivity].
    cbn [negb andb]. destruct token as [| p token]; [congruence | ].
    symmetry. apply (no_match_inside_character p c token name); [ | exact Ec].
    cbn [plain] in Hp. now repeat (apply andb_prop in Hp; destruct Hp as [Hp _]).
Qed.

(** A text without the byte 0 is read whole. *)
Lemma c_string_whole (s : string) : Str.occurs Str.nul s = false -> c_string s = s.
Proof.
  induction s as [| c s IH]; [reflexivity | ].
  cbn [Str.occurs c_string]. intros H. apply orb_false_elim in H. destruct H as [Hc Hs].
  rewrite Hc, IH by exact Hs. reflexivity.
Qed.

(** On a name without the byte 0, [name LIKE '%token%'] is the substring
    test, letter case apart. *)
Lemma like_contains (token : string) :
  plain token = true -> token <> "" -> Str.occurs Str.nul token = false ->
  forall name,
    Str.occurs Str.nul name = false ->
    like ("%" ++ token ++ "%") name = contains_ignoring_case name token.
Proof.
  intros Hp Hne Ht name Hn. unfold like.
  rewrite (c_string_whole name Hn).
  assert (E : c_string ("%" ++ token ++ "%") = ("%" ++ token ++ "%")%string).
  { cbn [append c_string]. change (Ascii.eqb "%" Str.nul) with false. cbn iota. f_equal.
    clear Hp Hne. induction token as [| c token IH]; [reflexivity | ].
    cbn [Str.occurs] in Ht. apply orb_false_elim in Ht. destruct Ht as [Hc Ht].
    cbn [append c_string]. rewrite Hc, IH by exact Ht. reflexivity. }
  rewrite E. now apply compare_contains.
Qed.

(** For every campaign name that holds no character U+0000 the channel
    that the [CASE] expression of [getBreakdown] computes is the one of a
    substring match without regard to letter case, tested in a fixed order:
    Facebook when the name contains [FB] or [Facebook], otherwise Instagram
    when it contains [IG] or [Instagram], otherwise Other.  In particular a
    name that contains a Facebook token is Facebook whatever else it
    contains. *)
Theorem channel_is_ordered_substring_match (name : string) :
  Str.occurs Str.nul name = false ->
  channel name = channel_by_substring name
  /\ (contains_ignoring_case name "FB" || contains_ignoring_case name "Facebook" = true ->
      channel name = "Facebook")
  /\ (contains_ignoring_case name "FB" || contains_ignoring_case name "Facebook" = false ->
      contains_ignoring_case name "IG" || contains_ignoring_case name "Instagram" = true ->
      channel name = "Instagram")
  /\ (contains_ignoring_case name "FB" || contains_ignoring_case name "Facebook" = false ->
      contains_ignoring_case name "IG" || contains_ignoring_case name "Instagram" = false ->
      channel name = "Other").
Proof.
  intros Hn.
  assert (E : channel name = channel_by_substring name).
  { unfold channel, channel_by_substring.
    rewrite <- (like_contains "FB" eq_refl ltac:(discriminate) eq_refl name Hn).
    rewrite <- (like_contains "Facebook" eq_refl ltac:(discriminate) eq_refl name Hn).
    rewrite <- (like_contains "IG" eq_refl ltac:(discriminate) eq_refl name Hn).
    rewrite <- (like_contains "Instagram" eq_refl ltac:(discriminate) eq_refl name Hn).
    reflexivity. }
  split; [exact E | ]. rewrite E. unfold channel_by_substring.
  repeat split.
  - intros ->. reflexivity.
  - intros -> ->. reflexivity.
  - intros -> ->. reflexivity.
Qed.

(** C7.  The claim fails on a campaign name that holds the character
    U+0000, which a string of a JSON document can carry and
    [getOrCreateCampaign] stores as it is: the name [X], U+0000, [FB]
    contains the token [FB], so that the classification by substring is
    Facebook, but the [CASE] expression of [getBreakdown] answers Other,
    because [LIKE] reads the name up to the U+0000.  The objective of the
    same name, which [getOrCreateCampaign] derives with
    [String.prototype.includes], is read off the whole name. *)
Theorem channel_stops_at_the_first_nul :
  Str.includes (String "X" (String Str.nul "FB")) "FB" = true
  /\ channel_by_substring (String "X" (String Str.nul "FB")) = "Facebook"
  /\ channel (String "X" (String Str.nul "FB")) = "Other"
  /\ Worker.objective_of (String "X" (String Str.nul "Mess FB")) = "Message".
Proof. repeat split. Qed.

End Channel.

Lemma channel_is_ordered_substring_match_witness :
  Str.occurs Str.nul "IG story and fb feed" = false
  /\ Sql.channel "IG story and fb feed" = "Facebook".
Proof.
  destruct (channel_is_ordered_substring_match "IG story and fb feed" eq_refl)
    as (_ & F & _).
  split; [reflexivity | apply F; reflexivity].
Defined.

(** ** Product line of an ad *)

Section Product_line.

Import Worker.

Variable rt : Runtime.

Lemma scan_keywords_existsb (upperName productName : string) (keywords : list string) :
  scan_keywords rt upperName productName keywords
  = if List.existsb (fun keyword => Str.includes upperName (JS.toUpperCase rt keyword))
         keywords
    then Some productName else None.
Proof.
  induction keywords as [| k rest IH]; simpl; [reflexivity | ].
  destruct (Str.includes upperName (JS.toUpperCase rt k)); [reflexivity | exact IH].
Qed.

Lemma scan_products_find (upperName : string) (entries : list (string * list string)) :
  scan_products rt upperName entries
  = option_map fst
      (List.find
         (fun entry =>
            List.existsb (fun keyword => Str.includes upperName (JS.toUpperCase rt keyword))
              (snd entry))
         entries).
Proof.
  induction entries as [| [productName keywords] rest IH]; simpl; [reflexivity | ].
  rewrite scan_keywords_existsb.
  destruct (List.existsb _ keywords); [reflexivity | exact IH].
Qed.

(** A string that occurs in another has no byte the other lacks. *)
Lemma starts_with_occurs (sub s : string) (c : ascii) :
  Str.starts_with sub s = true -> Str.occurs c sub = true -> Str.occurs c s = true.
Proof.
  revert s. induction sub as [| a sub IH]; intros s H Hc; [discriminate | ].
  destruct s as [| b s]; [discriminate | ].
  simpl in H. apply andb_prop in H. destruct H as [Hab Hrest].
  apply Ascii.eqb_eq in Hab. subst b. simpl in Hc |- *.
  destruct (Ascii.eqb a c); [reflexivity | ]. simpl in *. eauto.
Qed.

Lemma includes_occurs (s sub : string) (c : ascii) :
  Str.includes s sub = true -> Str.occurs c sub = true -> Str.occurs c s = true.
Proof.
  induction s as [| a s IH]; intros H Hc.
  - simpl in H. rewrite orb_false_r in H. eapply starts_with_occurs; eassumption.
  - cbn [Str.includes] in H. apply orb_prop in H. destruct H as [H | H].
    + eapply starts_with_occurs; eassumption.
    + simpl. rewrite (IH H Hc). apply orb_true_r.
Qed.

Lemma occurs_append (c : ascii) (a b : string) :
  Str.occurs c (a ++ b) = Str.occurs c a || Str.occurs c b.
Proof. induction a as [| x a IH]; simpl; [reflexivity | now rewrite IH, orb_assoc]. Qed.

(** A keyword with a byte that the name lacks does not match. *)
Lemma no_match_without (c : ascii) (upperName keyword : string) :
  Str.occurs c upperName = false -> Str.occurs c keyword = true ->
  Str.includes upperName keyword = false.
Proof.
  intros Hn Hk. destruct (Str.includes upperName keyword) eqn:E; [ | reflexivity].
  rewrite (includes_occurs _ _ c E Hk) in Hn. discriminate.
Qed.

(** C8.  [extractProductLine] answers ["Mix Product"] for an empty or
    absent ad name, before any upper-casing (a value with no
    [toUpperCase], such as [null], would throw there).  For any other ad
    name it upper-cases the name and answers with the first product of the
    table, in declaration order, one of whose keywords occurs in it, and
    with ["Mix Product"] when no keyword of any product does.  So
    ["DIRTY MILK 50ml Promo"] is ["DIRTY MILK"] and ["Random Ad"] is
    ["Mix Product"]. *)
Theorem product_line_is_first_match (adName : jsval) :
  (JS.truthy adName = false -> extractProductLine rt adName = inr "Mix Product")
  /\ (forall s, adName = JStr s -> s <> "" ->
      extractProductLine rt adName
      = inr (match first_matching_product rt (JS.toUpperCase rt s) with
             | Some productName => productName
             | None => "Mix Product"
             end))
  /\ extractProductLine rt JUndefined = inr "Mix Product"
  /\ extractProductLine rt JNull = inr "Mix Product"
  /\ extractProductLine rt (JStr "") = inr "Mix Product"
  /\ extractProductLine rt (JStr "DIRTY MILK 50ml Promo") = inr "DIRTY MILK"
  /\ extractProductLine rt (JStr "Random Ad") = inr "Mix Product".
Proof.
  split; [ | split; [ | repeat split]].
  - intros H. unfold extractProductLine. rewrite H. reflexivity.
  - intros s -> Hs. unfold extractProductLine, first_matching_product.
    assert (Ht : JS.truthy (JStr s) = true).
    { simpl. apply String.eqb_neq in Hs. now rewrite Hs. }
    rewrite Ht. cbn [negb]. rewrite scan_products_find.
    destruct (List.find _ productMapping) as [[productName keywords] | ]; reflexivity.
  - unfold extractProductLine.
    change (JS.truthy (JStr "Random Ad")) with true. cbn [negb].
    change (JS.toUpperCase rt "Random Ad") with "RANDOM AD".
    rewrite scan_products_find. unfold productMapping.
    cbn [List.find List.existsb snd fst option_map].
    change (JS.toUpperCase rt "DIRTY MILK") with "DIRTY MILK".
    change (JS.toUpperCase rt "MATCHA") with "MATCHA".
    change (JS.toUpperCase rt "LENGLINH") with "LENGLINH".
    change (JS.toUpperCase rt "WHITE CRUSH") with "WHITE CRUSH".
    change (JS.toUpperCase rt "CHOCO LOCO") with "CHOCO LOCO".
    change (JS.toUpperCase rt "GOLD JUICE") with "GOLD JUICE".
    change (JS.toUpperCase rt "EXTRAIT") with "EXTRAIT".
    change (JS.toUpperCase rt "MAISON DE AMALRIC") with "MAISON DE AMALRIC".
    change (JS.toUpperCase rt "BLACK FRIDAY") with "BLACK FRIDAY".
    change (JS.toUpperCase rt "CHRISTMAS") with "CHRISTMAS".
    rewrite (no_match_without "I" "RANDOM AD" "DIRTY MILK" eq_refl eq_refl).
    rewrite (no_match_without "C" "RANDOM AD" "MATCHA" eq_refl eq_refl).
    rewrite (no_match_without "L" "RANDOM AD" "LENGLINH" eq_refl eq_refl).
    rewrite (no_match_without "W" "RANDOM AD" "WHITE CRUSH" eq_refl eq_refl).
    rewrite (no_match_without "C" "RANDOM AD" "CHOCO LOCO" eq_refl eq_refl).
    rewrite (no_match_without "G" "RANDOM AD" "GOLD JUICE" eq_refl eq_refl).
    rewrite (no_match_without "E" "RANDOM AD" "EXTRAIT" eq_refl eq_refl).
    rewrite (no_match_without "I" "RANDOM AD" "MAISON DE AMALRIC" eq_refl eq_refl).
    rewrite (no_match_without "B" "RANDOM AD" "BLACK FRIDAY" eq_refl eq_refl).
    rewrite (no_match_without "C" "RANDOM AD" "CHRISTMAS" eq_refl eq_refl).
    rewrite (no_match_without "G" "RANDOM AD" (JS.toUpperCase rt "GIÁNG SINH") eq_refl eq_refl).
    rewrite (no_match_without "L" "RANDOM AD" (JS.toUpperCase rt "LỄ HỘI") eq_refl eq_refl).
    rewrite (no_match_without "L" "RANDOM AD" (JS.toUpperCase rt "MÙA LỄ") eq_refl).
    + reflexivity.
    + unfold JS.toUpperCase. cbn [JS.upper_from Str.is_ascii Str.code].
      cbn. rewrite !occurs_append. cbn. now rewrite ?orb_true_r.
Qed.

End Product_line.

(** ** Concrete runs of the ingestion *)

(** C3, as stated, fails: in a batch in which no row fails the member
    [errors] is in the response, with the value [null]. *)
Lemma errors_member_present_when_no_row_fails :
  Worker.failures
    (fst (Worker.outcomes (Worker.performance_row sample_runtime) [row_mess] D1.empty))
  = []
  /\ Json.field "errors"
       (Worker.data_of
          (fst (Worker.ingestPerformance sample_runtime (Some [row_mess]) D1.empty)))
     = Some JsNull.
Proof. vm_compute. split; reflexivity. Qed.

(** ** Concrete runs of the calendar, the query and the parser *)

Lemma previous_period_precedes_witness :
  (Cal.valid_date 2025 12 1 = true /\ Cal.valid_date 2025 12 10 = true
   /\ Cal.days_from_civil 2025 12 1 <= Cal.days_from_civil 2025 12 10)
  /\ exists (p : Worker.period) (prevStart prevEnd : Z),
       Worker.getPreviousPeriod sample_runtime (Cal.iso_date 2025 12 1) (Cal.iso_date 2025 12 10)
       = inr p
       /\ DateObj.of_string sample_runtime (Worker.startDate p) = Some prevStart
       /\ DateObj.of_string sample_runtime (Worker.endDate p) = Some prevEnd
       /\ prevEnd = Cal.utc 2025 12 1 - Cal.msPerDay
       /\ prevEnd - prevStart = Cal.utc 2025 12 10 - Cal.utc 2025 12 1.
Proof.
  assert (H1 : Cal.valid_date 2025 12 1 = true) by reflexivity.
  assert (H2 : Cal.valid_date 2025 12 10 = true) by reflexivity.
  assert (H3 : Cal.days_from_civil 2025 12 1 <= Cal.days_from_civil 2025 12 10)
    by (vm_compute; discriminate).
  split; [repeat split; assumption | ].
  destruct (previous_period_precedes sample_runtime 2025 12 1 2025 12 10 H1 H2
              ltac:(lia) ltac:(lia) H3) as (p & ps & pe & Hp & Hs & He & Hend & Hdur & _).
  exists p, ps, pe. repeat split; assumption.
Defined.

Example previous_period_of_december :
  Worker.getPreviousPeriod sample_runtime "2025-12-01" "2025-12-10"
  = inr {| Worker.startDate := "2025-11-21"; Worker.endDate := "2025-11-30" |}.
Proof. vm_compute. reflexivity. Qed.

Lemma date_dimension_week_and_weekday_witness :
  D1.dim_date (snd (Worker.getOrCreateDate sample_runtime (JStr (Cal.iso_date 2025 1 1))
                      D1.seeded))
  = (D1.dim_date D1.seeded ++ [row_2025_01_01])%list
  /\ D1.week_of_year row_2025_01_01
     = Cal.ceil_div (Cal.days_from_civil 2025 1 1 - Cal.days_from_civil 2025 1 1
                     + (Cal.days_from_civil 2025 1 1 + 4) mod 7) 7.
Proof.
  assert (H : D1.dim_date
                (snd (Worker.getOrCreateDate sample_runtime (JStr (Cal.iso_date 2025 1 1))
                        D1.seeded))
              = (D1.dim_date D1.seeded ++ [row_2025_01_01])%list)
    by (vm_compute; reflexivity).
  split; [exact H | ].
  exact (proj1 (date_dimension_week_and_weekday sample_runtime D1.seeded 2025 1 1
                  row_2025_01_01 eq_refl ltac:(lia) H) ltac:(lia)).
Defined.

(** C6, as stated, fails: on 1 January 2025, a Wednesday, no day has
    passed since 1 January, so the days divided by 7 and rounded up are 0,
    and the week the worker stores is 1. *)
Lemma week_of_year_counts_the_weekday_of_jan_first :
  List.map D1.week_of_year
    (D1.dim_date (snd (Worker.getOrCreateDate sample_runtime (JStr "2025-01-01") D1.seeded)))
  = [1]
  /\ Cal.ceil_div (Cal.days_from_civil 2025 1 1 - Cal.days_from_civil 2025 1 1) 7 = 0.
Proof. vm_compute. split; reflexivity. Qed.

Lemma product_daily_always_fails_witness :
  (Z.abs 1762128000000 <= 8640000000000000
   /\ 30 * Cal.msPerDay - 8640000000000000 <= 1762128000001 <= 8640000000000000)
  /\ fst (Worker.getProductDaily sample_runtime (fun _ _ _ => [])
            (1762128000000, 1762128000001) [("limit", "3")] D1.seeded)
     = inr {| status := 500;
              body := JsObj [ ("success", JsBool false);
                              ("data",
                               JsObj [ ("error",
                                        JsStr "D1_ERROR: no such column: c.channel at offset 251: SQLITE_ERROR") ]) ] |}.
Proof.
  assert (H1 : Z.abs (fst (1762128000000, 1762128000001)) <= 8640000000000000)
    by (cbn [fst]; lia).
  assert (H2 : 30 * Cal.msPerDay - 8640000000000000 <= snd (1762128000000, 1762128000001)
               <= 8640000000000000)
    by (cbn [snd]; unfold Cal.msPerDay; lia).
  split; [split; [exact H1 | exact H2] | ].
  rewrite (product_daily_always_fails sample_runtime (fun _ _ _ => [])
             (1762128000000, 1762128000001) [("limit", "3")] D1.seeded H1 H2).
  reflexivity.
Defined.

(** The date key of an ISO date is its digits read as a number; an absent
    date has the key [null]. *)
Theorem getDateKey_examples :
  Worker.getDateKey (JStr "2025-10-14") = inr (JNum 20251014)
  /\ Worker.getDateKey JNull = inr JNull
  /\ Worker.getDateKey JUndefined = inr JNull
  /\ Worker.getDateKey (JStr "") = inr JNull.
Proof. repeat split; vm_compute; reflexivity. Qed.

(** The channels of the three campaign names of the specification. *)
Example channel_examples :
  Sql.channel "Impression FB Perfume" = "Facebook"
  /\ Sql.channel "Visit IG Launch" = "Instagram"
  /\ Sql.channel "Generic Promo" = "Other"
  /\ Sql.channel "instagram and facebook" = "Facebook".
Proof. repeat split. Qed.
(* ================================================================= *)
(** * Part III: further properties of the worker *)
(* ================================================================= *)

(** ** Integers as doubles *)

Section Integers_as_doubles.

Lemma digits2_pos_iter_xO (p d : positive) :
  digits2_pos (Pos.iter xO p d) = (digits2_pos p + d)%positive.
Proof.
  induction d as [ | d IH] using Pos.peano_ind.
  - cbn. lia.
  - rewrite Pos.iter_succ. cbn [digits2_pos]. rewrite IH. lia.
Qed.

Lemma Zpos_iter_xO (p d : positive) : Z.pos (Pos.iter xO p d) = Z.pos p * 2 ^ Z.pos d.
Proof.
  induction d as [ | d IH] using Pos.peano_ind.
  - cbn. lia.
  - rewrite Pos.iter_succ, Pos2Z.inj_succ, Z.pow_succ_r by lia.
    rewrite Pos2Z.inj_xO, IH. lia.
Qed.

Lemma digits2_pos_bounds (p : positive) :
  2 ^ (Z.pos (digits2_pos p) - 1) <= Z.pos p < 2 ^ Z.pos (digits2_pos p).
Proof.
  induction p as [p IH | p IH | ]; cbn [digits2_pos].
  - rewrite Pos2Z.inj_succ, Z.pow_succ_r by lia.
    replace (Z.succ (Z.pos (digits2_pos p)) - 1) with (Z.succ (Z.pos (digits2_pos p) - 1)) by lia.
    rewrite Z.pow_succ_r by lia. lia.
  - rewrite Pos2Z.inj_succ, Z.pow_succ_r by lia.
    replace (Z.succ (Z.pos (digits2_pos p)) - 1) with (Z.succ (Z.pos (digits2_pos p) - 1)) by lia.
    rewrite Z.pow_succ_r by lia. lia.
  - cbn. lia.
Qed.

(** Rounding leaves a mantissa of 53 bits with an exponent in range as
    it is. *)
Lemma binary_round_aux_canonical (s : bool) (m : positive) (e : Z) :
  Z.pos (digits2_pos m) = 53 -> -1074 <= e <= 971 ->
  binary_round_aux prec emax s (Z.pos m) e loc_Exact = S754_finite s m e.
Proof.
  intros Hd He.
  unfold binary_round_aux, shr_fexp, Zdigits2, fexp, emin, prec, emax.
  cbn [shr_record_of_loc]. rewrite Hd.
  replace (Z.max (53 + e - 53) (3 - 1024 - 53) - e) with 0 by lia.
  cbn [shr shr_m loc_of_shr_record round_nearest_even Zdigits2].
  rewrite Hd.
  replace (Z.max (53 + e - 53) (3 - 1024 - 53) - e) with 0 by lia.
  cbn [shr shr_m].
  destruct (Z.leb_spec e (1024 - 53)); [reflexivity | lia].
Qed.

(** The double of a positive integer below [2^53] is the integer itself,
    its mantissa shifted to 53 bits. *)
Lemma Prim2SF_of_Z (p : positive) :
  Z.pos p < 2 ^ 53 ->
  exists (m : positive) (e : Z),
    Prim2SF (Num.of_Z (Z.pos p)) = S754_finite false m e
    /\ -52 <= e <= 0 /\ Z.pos m = Z.pos p * 2 ^ (- e).
Proof.
  intros Hk. unfold Num.of_Z.
  pose proof (digits2_pos_bounds p) as Hb.
  assert (Hd : Z.pos (digits2_pos p) <= 53).
  { destruct (Z.le_gt_cases (Z.pos (digits2_pos p)) 53) as [ | Hgt]; [assumption | ].
    assert (2 ^ 53 <= 2 ^ (Z.pos (digits2_pos p) - 1)) by (apply Z.pow_le_mono_r; lia).
    lia. }
  unfold binary_normalize, binary_round, shl_align, fexp, emin, prec, emax.
  replace (Z.max (Z.pos (digits2_pos p) + 0 - 53) (3 - 1024 - 53) - 0)
    with (Z.pos (digits2_pos p) - 53) by lia.
  replace (Z.max (Z.pos (digits2_pos p) + 0 - 53) (3 - 1024 - 53))
    with (Z.pos (digits2_pos p) - 53) by lia.
  destruct (Z.pos (digits2_pos p) - 53) as [ | q | q] eqn:Hq; [ | lia | ].
  - change (binary_round_aux 53 1024) with (binary_round_aux prec emax).
    rewrite binary_round_aux_canonical by lia.
    exists p, 0. rewrite Prim2SF_SF2Prim.
    + repeat split; cbn; lia.
    + unfold valid_binary, bounded, canonical_mantissa, fexp, emin, prec, emax.
      apply andb_true_intro. split; [apply Z.eqb_eq; lia | apply Z.leb_le; lia].
  - change (binary_round_aux 53 1024) with (binary_round_aux prec emax).
    assert (Hdig : Z.pos (digits2_pos (Pos.iter xO p q)) = 53).
    { rewrite digits2_pos_iter_xO. lia. }
    rewrite binary_round_aux_canonical by lia.
    exists (Pos.iter xO p q), (Z.neg q). rewrite Prim2SF_SF2Prim.
    + repeat split; try lia. rewrite Zpos_iter_xO. reflexivity.
    + unfold valid_binary, bounded, canonical_mantissa, fexp, emin, prec, emax.
      rewrite Hdig.
      apply andb_true_intro. split; [apply Z.eqb_eq; lia | apply Z.leb_le; lia].
Qed.

(** An integer from 0 to [2^53] is read back from its double. *)
Lemma to_Z_of_Z (k : Z) : 0 <= k < 2 ^ 53 -> Num.to_Z (Num.of_Z k) = Some k.
Proof.
  intros Hk. destruct k as [ | p | p]; [reflexivity | | lia].
  destruct (Prim2SF_of_Z p ltac:(lia)) as (m & e & E & He & Hm).
  unfold Num.to_Z. rewrite E.
  destruct (Z.leb_spec 0 e).
  - assert (e = 0) as -> by lia. f_equal. cbn in Hm. lia.
  - rewrite Hm, Z.mod_mul, Z.eqb_refl, Z.div_mul by lia. f_equal; lia.
Qed.

Lemma SFeqb_finite (s : bool) (m : positive) (e : Z) :
  SFeqb (S754_finite s m e) (S754_finite s m e) = true.
Proof.
  unfold SFeqb, SFcompare. rewrite Z.compare_refl, Pos.compare_cont_refl.
  destruct s; reflexivity.
Qed.

Lemma of_Z_truthy (k : Z) : 0 < k < 2 ^ 53 -> JS.truthy (JNum (Num.of_Z k)) = true.
Proof.
  intros Hk. destruct k as [ | p | p]; [lia | | lia].
  destruct (Prim2SF_of_Z p ltac:(lia)) as (m & e & E & _).
  unfold JS.truthy, is_nan, is_zero.
  rewrite !FloatAxioms.eqb_spec, E, SFeqb_finite. reflexivity.
Qed.

Lemma of_Z_not_nan (k : Z) : 0 <= k < 2 ^ 53 -> is_nan (Num.of_Z k) = false.
Proof.
  intros Hk. destruct k as [ | p | p]; [reflexivity | | lia].
  destruct (Prim2SF_of_Z p ltac:(lia)) as (m & e & E & _).
  unfold is_nan. rewrite FloatAxioms.eqb_spec, E, SFeqb_finite. reflexivity.
Qed.

Lemma of_Z_finite (k : Z) : 0 <= k < 2 ^ 53 -> is_infinity (Num.of_Z k) = false.
Proof.
  intros Hk. destruct k as [ | p | p]; [reflexivity | | lia].
  destruct (Prim2SF_of_Z p ltac:(lia)) as (m & e & E & _).
  unfold is_infinity. rewrite FloatAxioms.eqb_spec, FloatAxioms.abs_spec, E. reflexivity.
Qed.

(** [bind] hands an integer from 0 to [2^53] to the store as a real, and
    the store reads that integer in it. *)
Lemma bind_value_of_Z (k : Z) :
  0 <= k < 2 ^ 53 -> D1.bind_value (JNum (Num.of_Z k)) = inr (VReal (Num.of_Z k)).
Proof.
  intros Hk. unfold D1.bind_value.
  now rewrite of_Z_not_nan, of_Z_finite.
Qed.

Lemma as_integer_of_Z (k : Z) :
  0 <= k < 2 ^ 53 -> D1.as_integer (VReal (Num.of_Z k)) = Some k.
Proof.
  intros Hk. unfold D1.as_integer. rewrite to_Z_of_Z by exact Hk.
  change (2 ^ 53) with 9007199254740992 in Hk.
  destruct (Z.ltb_spec (-9223372036854775808) k); [ | lia].
  destruct (Z.ltb_spec k 9223372036854775808); [reflexivity | lia].
Qed.

End Integers_as_doubles.

(** ** The order of the calendar *)

Section Civil_order.

Import Cal Civil.

Lemma leap_cases (y : Z) :
  (is_leap y = true /\ y mod 4 = 0 /\ (y mod 100 <> 0 \/ y mod 400 = 0))
  \/ (is_leap y = false /\ (y mod 4 <> 0 \/ (y mod 100 = 0 /\ y mod 400 <> 0))).
Proof.
  unfold is_leap.
  destruct (Z.eqb_spec (y mod 4) 0); destruct (Z.eqb_spec (y mod 100) 0);
    destruct (Z.eqb_spec (y mod 400) 0); cbn [andb orb negb]; intuition lia.
Qed.

Ltac month_cases m :=
  let C := fresh "C" in
  assert (C : m = 1 \/ m = 2 \/ m = 3 \/ m = 4 \/ m = 5 \/ m = 6 \/ m = 7 \/ m = 8
              \/ m = 9 \/ m = 10 \/ m = 11 \/ m = 12) by lia;
  repeat (destruct C as [C | C]); subst m.

Ltac small_tests :=
  cbn [Z.leb Z.ltb Z.eqb Pos.eqb Z.compare Pos.compare Pos.compare_cont andb orb] in *.

Lemma days_from_civil_month (y m : Z) :
  1 <= m <= 12 -> days_from_civil y m 1 = days_from_civil y 1 1 + days_before_month y m.
Proof.
  intros Hm. unfold days_before_month.
  destruct (leap_cases y) as [(-> & H4 & H100) | (-> & H4)];
    month_cases m; unfold days_from_civil; small_tests;
    Z.div_mod_to_equations; lia.
Qed.

Lemma days_from_civil_next_year (y : Z) :
  days_from_civil (y + 1) 1 1 = days_from_civil y 1 1 + 365 + (if is_leap y then 1 else 0).
Proof.
  destruct (leap_cases y) as [(-> & H4 & H100) | (-> & H4)];
    unfold days_from_civil; small_tests; Z.div_mod_to_equations; lia.
Qed.

Lemma days_from_civil_years (y y' : Z) :
  y <= y' -> days_from_civil y 1 1 + 365 * (y' - y) <= days_from_civil y' 1 1.
Proof.
  intros H. pattern y'.
  apply (Z.le_ind (fun z => days_from_civil y 1 1 + 365 * (z - y) <= days_from_civil z 1 1))
    with (n := y); try exact H.
  - intros a b ->. reflexivity.
  - lia.
  - intros z Hz IH. replace (Z.succ z) with (z + 1) by lia.
    rewrite days_from_civil_next_year. destruct (is_leap z); lia.
Qed.

(** A date is so many days after 1 January of its year. *)
Lemma days_from_civil_in_year (y m d : Z) :
  valid_date y m d = true ->
  days_from_civil y m d = days_from_civil y 1 1 + days_before_month y m + d - 1
  /\ 0 <= days_before_month y m + d - 1 <= 364 + (if is_leap y then 1 else 0).
Proof.
  intros Hv. pose proof Hv as Hv'.
  unfold valid_date, days_in_month in Hv'.
  assert (Hm : 1 <= m <= 12) by lia.
  split.
  - rewrite days_from_civil_day, days_from_civil_month by exact Hm. lia.
  - unfold days_before_month.
    month_cases m; small_tests; destruct (is_leap y); lia.
Qed.

(** The earlier of two dates has the smaller day number. *)
Lemma days_from_civil_lt (y1 m1 d1 y2 m2 d2 : Z) :
  valid_date y1 m1 d1 = true -> valid_date y2 m2 d2 = true ->
  yyyymmdd y1 m1 d1 < yyyymmdd y2 m2 d2 ->
  days_from_civil y1 m1 d1 < days_from_civil y2 m2 d2.
Proof.
  intros Hv1 Hv2 Hk. unfold yyyymmdd in Hk.
  destruct (days_from_civil_in_year _ _ _ Hv1) as [-> B1].
  destruct (days_from_civil_in_year _ _ _ Hv2) as [-> B2].
  pose proof (valid_date_bounds _ _ _ Hv1) as (Hm1 & Hd1 & _).
  pose proof (valid_date_bounds _ _ _ Hv2) as (Hm2 & Hd2 & _).
  assert (C : y1 < y2 \/ (y1 = y2 /\ (m1 < m2 \/ (m1 = m2 /\ d1 < d2)))) by lia.
  destruct C as [Hy | [-> [Hm | [-> Hd]]]].
  - pose proof (days_from_civil_years (y1 + 1) y2 ltac:(lia)) as H.
    rewrite days_from_civil_next_year in H. destruct (is_leap y1); lia.
  - clear Hk B1 B2. unfold valid_date, days_in_month in Hv1.
    unfold days_before_month.
    destruct (is_leap y2); month_cases m1; small_tests;
      repeat match goal with |- context [if ?c then _ else _] => destruct c eqn:? end; lia.
  - lia.
Qed.

Lemma yyyymmdd_order (y1 m1 d1 y2 m2 d2 : Z) :
  valid_date y1 m1 d1 = true -> valid_date y2 m2 d2 = true ->
  (yyyymmdd y1 m1 d1 <= yyyymmdd y2 m2 d2
   <-> days_from_civil y1 m1 d1 <= days_from_civil y2 m2 d2).
Proof.
  intros Hv1 Hv2. split; intros H.
  - destruct (Z.eq_dec (yyyymmdd y1 m1 d1) (yyyymmdd y2 m2 d2)) as [E | N].
    + pose proof (valid_date_bounds _ _ _ Hv1) as (Hm1 & Hd1 & _).
      pose proof (valid_date_bounds _ _ _ Hv2) as (Hm2 & Hd2 & _).
      unfold yyyymmdd in E.
      assert (y1 = y2 /\ m1 = m2 /\ d1 = d2) as (-> & -> & ->) by lia. lia.
    + pose proof (days_from_civil_lt _ _ _ _ _ _ Hv1 Hv2 ltac:(lia)). lia.
  - destruct (Z.le_gt_cases (yyyymmdd y1 m1 d1) (yyyymmdd y2 m2 d2)) as [ | G]; [assumption | ].
    pose proof (days_from_civil_lt _ _ _ _ _ _ Hv2 Hv1 ltac:(lia)). lia.
Qed.

Lemma yyyymmdd_range (y m d : Z) :
  valid_date y m d = true -> 0 <= y <= 9999 -> 101 <= yyyymmdd y m d <= 99991231.
Proof.
  intros Hv Hy. pose proof (valid_date_bounds _ _ _ Hv) as (Hm & Hd & _).
  unfold yyyymmdd. lia.
Qed.

(** The day numbers of the years 0000 to 9999 are those of dates of
    these years. *)
Lemma civil_from_days_years (n : Z) :
  -719528 <= n <= 2932896 -> 0 <= fst (fst (civil_from_days n)) <= 9999.
Proof.
  intros Hn.
  pose proof (civil_from_days_valid n) as Hv.
  pose proof (days_civil_days n) as Hd.
  destruct (civil_from_days n) as [[y m] d]. cbn [fst].
  pose proof (valid_date_bounds _ _ _ Hv) as (Hm & Hdd & _).
  assert (V0 : valid_date 0 1 1 = true) by reflexivity.
  assert (V9 : valid_date 9999 12 31 = true) by reflexivity.
  split.
  - destruct (Z.le_gt_cases 0 y) as [ | G]; [assumption | ].
    pose proof (days_from_civil_lt y m d 0 1 1 Hv V0 ltac:(unfold yyyymmdd; lia)) as L.
    change (days_from_civil 0 1 1) with (-719528) in L. lia.
  - destruct (Z.le_gt_cases y 9999) as [ | G]; [assumption | ].
    pose proof (days_from_civil_lt 9999 12 31 y m d V9 Hv ltac:(unfold yyyymmdd; lia)) as L.
    change (days_from_civil 9999 12 31) with 2932896 in L. lia.
Qed.

End Civil_order.

(** ** Date keys *)

Section Date_keys.

Import Cal Civil Worker.

Variable rt : Runtime.

Lemma remove_all_append (c : ascii) (a b : string) :
  Str.remove_all c (a ++ b) = (Str.remove_all c a ++ Str.remove_all c b)%string.
Proof.
  induction a as [ | x a IH]; [reflexivity | ].
  cbn [append Str.remove_all]. destruct (Ascii.eqb x c); cbn [append]; now rewrite IH.
Qed.

Lemma remove_dash_pad (k : nat) : forall n, Str.remove_all "-" (pad k n) = pad k n.
Proof.
  induction k as [ | k IH]; intro n; [reflexivity | ].
  cbn [pad]. rewrite remove_all_append, IH. cbn [Str.remove_all].
  now rewrite (digit_is_not _ "-" (is_digit_digit_char n) eq_refl).
Qed.

Lemma remove_dash_iso_date (y m d : Z) :
  0 <= y <= 9999 ->
  Str.remove_all "-" (iso_date y m d) = (pad 4 y ++ pad 2 m ++ pad 2 d)%string.
Proof.
  intros Hy. unfold iso_date, iso_year.
  assert (E : (0 <=? y) && (y <=? 9999) = true) by lia. rewrite E.
  rewrite !remove_all_append, !remove_dash_pad. reflexivity.
Qed.

Lemma read_digits_pad (k : nat) :
  forall n r acc cnt,
    Num.read_digits (pad k n ++ r) acc cnt
    = Num.read_digits r (acc * 10 ^ Z.of_nat k + n mod 10 ^ Z.of_nat k) (cnt + Z.of_nat k).
Proof.
  induction k as [ | k IH]; intros n r acc cnt.
  - cbn [pad append]. rewrite Z.mod_1_r. f_equal; cbn; lia.
  - cbn [pad]. rewrite append_assoc, IH.
    cbn [append Num.read_digits]. rewrite is_digit_digit_char, digit_digit_char.
    f_equal; [ | lia].
    rewrite Nat2Z.inj_succ, Z.pow_succ_r by lia.
    rewrite (Z.rem_mul_r n 10 (10 ^ Z.of_nat k)) by lia. ring.
Qed.

(** No white space starts with a digit. *)
Lemma white_space_heads :
  List.forallb (fun w => match w with
                         | String a _ => (Str.code a <? 48) || (57 <? Str.code a)
                         | EmptyString => false
                         end) Str.white_space = true.
Proof. vm_compute. reflexivity. Qed.

Lemma leading_space_digit (c : ascii) (t : string) :
  Str.is_digit c = true -> Str.leading_space (String c t) = None.
Proof.
  intros H. unfold Str.leading_space.
  destruct (List.find _ Str.white_space) as [w | ] eqn:F; [ | reflexivity].
  apply List.find_some in F. destruct F as [Hin Hs].
  pose proof (proj1 (List.forallb_forall _ _) white_space_heads w Hin) as Hw.
  destruct w as [ | a w']; [discriminate | ].
  cbn [Str.starts_with] in Hs.
  rewrite (Ascii.eqb_sym a c), (digit_is_not c a H Hw) in Hs. discriminate.
Qed.

Lemma trim_start_digit (c : ascii) (t : string) :
  Str.is_digit c = true -> Str.trim_start (String c t) = String c t.
Proof.
  intros H. unfold Str.trim_start. cbn [String.length Str.trim_start_fuel].
  now rewrite leading_space_digit.
Qed.

(** [parseInt] on a string that starts with two decimal digits reads the
    digits in base ten. *)
Lemma parseInt_digits (c1 c2 : ascii) (t : string) :
  Str.is_digit c1 = true -> Str.is_digit c2 = true ->
  Num.parseInt (String c1 (String c2 t))
  = let '(v, n, _) := Num.read_digits (String c1 (String c2 t)) 0 0 in
    if n =? 0 then nan else Num.signed false v.
Proof.
  intros H1 H2. unfold Num.parseInt. rewrite trim_start_digit by exact H1.
  assert (E : Num.read_sign (String c1 (String c2 t)) = (false, String c1 (String c2 t))).
  { unfold Num.read_sign.
    pose proof (digit_is_not c1 "-" H1 eq_refl) as Hm.
    pose proof (digit_is_not c1 "+" H1 eq_refl) as Hp.
    destruct c1 as [[] [] [] [] [] [] [] []]; try reflexivity; discriminate. }
  rewrite E. cbn [Str.starts_with].
  rewrite (Ascii.eqb_sym "x" c2), (digit_is_not c2 "x" H2 eq_refl).
  rewrite (Ascii.eqb_sym "X" c2), (digit_is_not c2 "X" H2 eq_refl).
  rewrite !andb_false_r. reflexivity.
Qed.

Lemma pad_head2 (k : nat) (n : Z) :
  exists c1 c2 t, pad (S (S k)) n = String c1 (String c2 t)
                  /\ Str.is_digit c1 = true /\ Str.is_digit c2 = true.
Proof.
  revert n. induction k as [ | k IH]; intro n.
  - exists (digit_char (n / 10 mod 10)), (digit_char (n mod 10)), EmptyString.
    repeat split; apply is_digit_digit_char.
  - destruct (IH (n / 10)) as (c1 & c2 & t & E & H1 & H2).
    exists c1, c2, (t ++ String (digit_char (n mod 10)) EmptyString)%string.
    split; [ | now split].
    change (pad (S (S (S k))) n)
      with (pad (S (S k)) (n / 10) ++ String (digit_char (n mod 10)) EmptyString)%string.
    now rewrite E.
Qed.

Lemma parseInt_date_digits (y m d : Z) :
  0 <= y <= 9999 -> 0 <= m <= 99 -> 0 <= d <= 99 -> 0 < yyyymmdd y m d ->
  Num.parseInt (pad 4 y ++ pad 2 m ++ pad 2 d) = Num.of_Z (yyyymmdd y m d).
Proof.
  intros Hy Hm Hd Hk.
  destruct (pad_head2 2 y) as (c1 & c2 & t & E & H1 & H2).
  pose proof (parseInt_digits c1 c2 (t ++ pad 2 m ++ pad 2 d) H1 H2) as P.
  change (String c1 (String c2 (t ++ pad 2 m ++ pad 2 d)))
    with (String c1 (String c2 t) ++ pad 2 m ++ pad 2 d)%string in P.
  rewrite <- E in P. rewrite P. clear P.
  rewrite read_digits_pad, read_digits_pad.
  rewrite <- (append_nil_r (pad 2 d)), read_digits_pad.
  cbn [Num.read_digits].
  change (10 ^ Z.of_nat 4) with 10000. change (10 ^ Z.of_nat 2) with 100.
  rewrite !Z.mod_small by lia.
  cbn [Z.of_nat Pos.of_succ_nat Pos.succ Z.add Pos.add Z.eqb].
  unfold Num.signed.
  replace ((0 * 10000 + y) * 100 + m) with (y * 100 + m) by lia.
  replace ((y * 100 + m) * 100 + d) with (yyyymmdd y m d) by (unfold yyyymmdd; lia).
  destruct (Z.eqb_spec (yyyymmdd y m d) 0); [lia | reflexivity].
Qed.

(** The key of an ISO date is the number its digits spell. *)
Lemma dateKey_of_iso_date (y m d : Z) :
  valid_date y m d = true -> 0 <= y <= 9999 ->
  Num.parseInt (Str.remove_all "-" (iso_date y m d)) = Num.of_Z (yyyymmdd y m d).
Proof.
  intros Hv Hy. pose proof (valid_date_bounds _ _ _ Hv) as (Hm & Hd & _).
  pose proof (yyyymmdd_range _ _ _ Hv Hy).
  rewrite remove_dash_iso_date, parseInt_date_digits by lia. reflexivity.
Qed.

Lemma getDateKey_iso_date (y m d : Z) :
  valid_date y m d = true -> 0 <= y <= 9999 ->
  getDateKey (JStr (iso_date y m d)) = inr (JNum (Num.of_Z (yyyymmdd y m d))).
Proof.
  intros Hv Hy. unfold getDateKey. rewrite iso_date_truthy by exact Hy. cbn [negb].
  now rewrite dateKey_of_iso_date.
Qed.

Lemma bind_date_key (y m d : Z) :
  valid_date y m d = true -> 0 <= y <= 9999 ->
  D1.bind_value (JNum (Num.of_Z (yyyymmdd y m d))) = inr (VReal (Num.of_Z (yyyymmdd y m d)))
  /\ D1.as_integer (VReal (Num.of_Z (yyyymmdd y m d))) = Some (yyyymmdd y m d).
Proof.
  intros Hv Hy. pose proof (yyyymmdd_range _ _ _ Hv Hy).
  split; [apply bind_value_of_Z | apply as_integer_of_Z];
    change (2 ^ 53) with 9007199254740992; lia.
Qed.

(** The key [getDateKey] computes for an ISO date (years 0000 to 9999) is
    the integer [YYYYMMDD], it reaches the store as a real in which the
    store reads that integer, and the keys of two dates compare as the
    dates do: a filter [date_key BETWEEN ? AND ?] selects the days of the
    window. *)
Theorem date_keys_order_dates (y1 m1 d1 y2 m2 d2 : Z) :
  valid_date y1 m1 d1 = true -> valid_date y2 m2 d2 = true ->
  0 <= y1 <= 9999 -> 0 <= y2 <= 9999 ->
  getDateKey (JStr (iso_date y1 m1 d1)) = inr (JNum (Num.of_Z (yyyymmdd y1 m1 d1)))
  /\ getDateKey (JStr (iso_date y2 m2 d2)) = inr (JNum (Num.of_Z (yyyymmdd y2 m2 d2)))
  /\ (D1.bind_value (JNum (Num.of_Z (yyyymmdd y1 m1 d1)))
      = inr (VReal (Num.of_Z (yyyymmdd y1 m1 d1)))
      /\ D1.as_integer (VReal (Num.of_Z (yyyymmdd y1 m1 d1))) = Some (yyyymmdd y1 m1 d1))
  /\ (D1.bind_value (JNum (Num.of_Z (yyyymmdd y2 m2 d2)))
      = inr (VReal (Num.of_Z (yyyymmdd y2 m2 d2)))
      /\ D1.as_integer (VReal (Num.of_Z (yyyymmdd y2 m2 d2))) = Some (yyyymmdd y2 m2 d2))
  /\ (yyyymmdd y1 m1 d1 <= yyyymmdd y2 m2 d2
      <-> days_from_civil y1 m1 d1 <= days_from_civil y2 m2 d2)
  /\ (yyyymmdd y1 m1 d1 = yyyymmdd y2 m2 d2 -> iso_date y1 m1 d1 = iso_date y2 m2 d2).
Proof.
  intros Hv1 Hv2 Hy1 Hy2.
  split; [now apply getDateKey_iso_date | ].
  split; [now apply getDateKey_iso_date | ].
  split; [now apply bind_date_key | ].
  split; [now apply bind_date_key | ].
  repeat split.
  - apply yyyymmdd_order; assumption.
  - apply yyyymmdd_order; assumption.
  - intros E.
    pose proof (valid_date_bounds _ _ _ Hv1) as (Hm1 & Hd1 & _).
    pose proof (valid_date_bounds _ _ _ Hv2) as (Hm2 & Hd2 & _).
    unfold yyyymmdd in E.
    assert (y1 = y2 /\ m1 = m2 /\ d1 = d2) as (-> & -> & ->) by lia. reflexivity.
Qed.

(** *** The window before a window *)

Lemma getPreviousPeriod_iso_dates (y1 m1 d1 y2 m2 d2 : Z) :
  valid_date y1 m1 d1 = true -> valid_date y2 m2 d2 = true ->
  0 <= y1 <= 9999 -> 0 <= y2 <= 9999 ->
  days_from_civil y1 m1 d1 <= days_from_civil y2 m2 d2 ->
  getPreviousPeriod rt (iso_date y1 m1 d1) (iso_date y2 m2 d2)
  = inr {| startDate := iso_of_day (days_from_civil y1 m1 d1 - 1
                                    - (days_from_civil y2 m2 d2 - days_from_civil y1 m1 d1));
           endDate := iso_of_day (days_from_civil y1 m1 d1 - 1) |}.
Proof.
  intros Hv1 Hv2 Hy1 Hy2 Hle.
  pose proof (days_from_civil_range y1 m1 d1 Hv1 Hy1) as Hr1.
  pose proof (days_from_civil_range y2 m2 d2 Hv2 Hy2) as Hr2.
  set (s := days_from_civil y1 m1 d1) in *.
  set (e := days_from_civil y2 m2 d2) in *.
  unfold getPreviousPeriod.
  rewrite !of_string_iso_date by assumption.
  unfold utc. fold s e.
  cbn [DateObj.lift2 DateObj.getTime DateObj.of_time].
  replace (s * msPerDay - 86400000) with ((s - 1) * msPerDay) by (unfold msPerDay; lia).
  rewrite TimeClip_days by lia.
  cbn [DateObj.lift2 DateObj.getTime DateObj.of_time].
  replace ((s - 1) * msPerDay - (e * msPerDay - s * msPerDay))
    with ((s - 1 - (e - s)) * msPerDay) by lia.
  rewrite TimeClip_days by lia.
  cbn [DateObj.toISOString]. rewrite !before_T_toISOString. reflexivity.
Qed.

(** The date of a day number of the years 0000 to 9999 and its key. *)
Lemma getDateKey_iso_of_day (n : Z) :
  -719528 <= n <= 2932896 ->
  exists y m d,
    iso_of_day n = iso_date y m d /\ valid_date y m d = true /\ 0 <= y <= 9999
    /\ days_from_civil y m d = n
    /\ getDateKey (JStr (iso_of_day n)) = inr (JNum (Num.of_Z (yyyymmdd y m d))).
Proof.
  intros Hn.
  pose proof (civil_from_days_valid n) as Hv.
  pose proof (days_civil_days n) as Hd.
  pose proof (civil_from_days_years n Hn) as Hy.
  unfold iso_of_day.
  destruct (civil_from_days n) as [[y m] d]. cbn [fst] in Hy.
  exists y, m, d. repeat split; try assumption; try lia.
  now apply getDateKey_iso_date.
Qed.

(** The comparison window that [getOverview] and [getDailyTrend] query
    lies wholly before the window asked for.  For ISO dates [startDate <=
    endDate] of the years 0000 to 9999 whose previous window does not start
    before the year 0000, the keys of the previous window are in order and
    its last key is below the key of [startDate]: no day is counted in both
    windows. *)
Theorem previous_window_keys_precede (y1 m1 d1 y2 m2 d2 : Z) :
  valid_date y1 m1 d1 = true -> valid_date y2 m2 d2 = true ->
  0 <= y1 <= 9999 -> 0 <= y2 <= 9999 ->
  days_from_civil y1 m1 d1 <= days_from_civil y2 m2 d2 ->
  -719528 <= days_from_civil y1 m1 d1 - 1
             - (days_from_civil y2 m2 d2 - days_from_civil y1 m1 d1) ->
  exists (p : period) (prevStartKey prevEndKey : Z),
    getPreviousPeriod rt (iso_date y1 m1 d1) (iso_date y2 m2 d2) = inr p
    /\ getDateKey (JStr (startDate p)) = inr (JNum (Num.of_Z prevStartKey))
    /\ getDateKey (JStr (endDate p)) = inr (JNum (Num.of_Z prevEndKey))
    /\ getDateKey (JStr (iso_date y1 m1 d1)) = inr (JNum (Num.of_Z (yyyymmdd y1 m1 d1)))
    /\ prevStartKey <= prevEndKey < yyyymmdd y1 m1 d1.
Proof.
  intros Hv1 Hv2 Hy1 Hy2 Hle Hlow.
  pose proof (days_from_civil_range y1 m1 d1 Hv1 Hy1) as Hr1.
  pose proof (days_from_civil_range y2 m2 d2 Hv2 Hy2) as Hr2.
  rewrite getPreviousPeriod_iso_dates by assumption.
  set (s := days_from_civil y1 m1 d1) in *.
  set (e := days_from_civil y2 m2 d2) in *.
  destruct (getDateKey_iso_of_day (s - 1 - (e - s)) ltac:(lia))
    as (ya & ma & da & Ea & Va & Ya & Da & Ka).
  destruct (getDateKey_iso_of_day (s - 1) ltac:(lia))
    as (yb & mb & db & Eb & Vb & Yb & Db & Kb).
  eexists. exists (yyyymmdd ya ma da), (yyyymmdd yb mb db).
  split; [reflexivity | ]. cbn [startDate endDate].
  split; [exact Ka | ]. split; [exact Kb | ].
  split; [now apply getDateKey_iso_date | ].
  split.
  - apply yyyymmdd_order; try assumption. lia.
  - destruct (Z.lt_ge_cases (yyyymmdd yb mb db) (yyyymmdd y1 m1 d1)) as [ | G]; [assumption | ].
    apply yyyymmdd_order in G; try assumption. fold s in G. lia.
Qed.

(** *** The week of the year *)

(** For a date of the years 0100 to 9999, [getWeekOfYear] is a number
    from 0 to 53, and it is 0 exactly on a 1 January that is a Sunday. *)
Theorem week_of_year_bounds (y m d : Z) :
  valid_date y m d = true -> 100 <= y <= 9999 ->
  exists w : Z,
    getWeekOfYear (Some (utc y m d)) = Some w
    /\ 0 <= w <= 53
    /\ (w = 0 <-> m = 1 /\ d = 1 /\ WeekDay (utc y 1 1) = 0).
Proof.
  intros Hv Hy.
  rewrite getWeekOfYear_iso_date by (assumption || lia).
  assert (Ec : DateObj.constructor_year y = y).
  { unfold DateObj.constructor_year. destruct ((0 <=? y) && (y <=? 99)) eqn:E; lia. }
  rewrite Ec. eexists. split; [reflexivity | ].
  destruct (days_from_civil_in_year _ _ _ Hv) as [-> B].
  unfold WeekDay, utc. rewrite Day_of_days.
  set (j := days_from_civil y 1 1) in *.
  set (o := days_before_month y m + d - 1) in *.
  replace (j + days_before_month y m + d - 1 - j) with o by (unfold o; lia).
  pose proof (Z.mod_pos_bound (j + 4) 7 ltac:(lia)) as Hw.
  assert (Ho : o = 0 <-> m = 1 /\ d = 1).
  { pose proof (valid_date_bounds _ _ _ Hv) as (Hm & Hd & _).
    unfold o, days_before_month.
    destruct (m <=? 1) eqn:E1.
    - assert (m = 1) as -> by lia. cbn [Z.leb Z.compare Pos.compare Pos.compare_cont andb]. lia.
    - repeat match goal with |- context [if ?c then _ else _] => destruct c end; lia. }
  unfold ceil_div.
  assert (Hb : o <= 365) by (destruct (is_leap y); lia).
  split; [Z.div_mod_to_equations; lia | ].
  split.
  - intros H0. assert (o + (j + 4) mod 7 = 0) by (Z.div_mod_to_equations; lia).
    assert (o = 0) by lia. split; [ | split]; try apply Ho; try assumption; lia.
  - intros (-> & -> & H0). assert (o = 0) by (apply Ho; split; reflexivity).
    rewrite H0. replace (o + 0) with 0 by lia. reflexivity.
Qed.

End Date_keys.

Lemma date_keys_order_dates_witness :
  Cal.valid_date 2025 10 14 = true /\ Cal.valid_date 2025 11 2 = true
  /\ Worker.getDateKey (JStr (Cal.iso_date 2025 10 14)) = inr (JNum (Num.of_Z 20251014))
  /\ (Civil.yyyymmdd 2025 10 14 <= Civil.yyyymmdd 2025 11 2
      <-> Cal.days_from_civil 2025 10 14 <= Cal.days_from_civil 2025 11 2).
Proof.
  pose proof (date_keys_order_dates 2025 10 14 2025 11 2
                eq_refl eq_refl ltac:(lia) ltac:(lia)) as (K1 & _ & _ & _ & O & _).
  repeat split; try reflexivity; try exact K1; apply O.
Defined.

Lemma previous_window_keys_precede_witness :
  exists (p : Worker.period) (prevStartKey prevEndKey : Z),
    Worker.getPreviousPeriod sample_runtime "2025-10-01" "2025-10-31" = inr p
    /\ Worker.getDateKey (JStr (Worker.startDate p)) = inr (JNum (Num.of_Z prevStartKey))
    /\ Worker.getDateKey (JStr (Worker.endDate p)) = inr (JNum (Num.of_Z prevEndKey))
    /\ prevStartKey <= prevEndKey < 20251001.
Proof.
  destruct (previous_window_keys_precede sample_runtime 2025 10 1 2025 10 31
              eq_refl eq_refl ltac:(lia) ltac:(lia) ltac:(vm_compute; discriminate)
              ltac:(vm_compute; discriminate))
    as (p & a & b & P & Ka & Kb & _ & O).
  exists p, a, b. repeat split; try assumption; apply O.
Defined.

Lemma week_of_year_bounds_witness :
  exists w : Z,
    Worker.getWeekOfYear (Some (Cal.utc 2023 1 1)) = Some w /\ 0 <= w <= 53
    /\ (w = 0 <-> 1 = 1 /\ 1 = 1 /\ Cal.WeekDay (Cal.utc 2023 1 1) = 0).
Proof. exact (week_of_year_bounds 2023 1 1 eq_refl ltac:(lia)). Defined.

(** ** Locale numbers *)

Section Locale_numbers.

Import Worker.

Variable rt : Runtime.

Lemma number_or_zero_not_nan (x : float) : is_nan (number_or_zero x) = false.
Proof.
  unfold number_or_zero. destruct (is_nan x || is_zero x) eqn:E; [reflexivity | ].
  apply orb_false_elim in E. exact (proj1 E).
Qed.

Lemma truthy_or_zero (x : float) :
  (if JS.truthy (JNum x) then x else 0%float) = number_or_zero x.
Proof.
  unfold number_or_zero. cbn [JS.truthy]. destruct (is_nan x || is_zero x); reflexivity.
Qed.

(** *** The conversion to a string *)

(** [String(value)] returns on every value in which it reads no object
    with a member [toString]. *)
Lemma to_string_convertible :
  forall value : JS.value,
    JS.convertible value = true -> exists text, JS.to_string rt value = inr text.
Proof.
  fix IH 1. intros [p | items | members] H.
  - eexists. reflexivity.
  - cbn [JS.to_string]. cbn [JS.convertible] in H.
    revert H. induction items as [ | x rest IHrest]; intros H.
    + eexists. reflexivity.
    + apply andb_prop in H. destruct H as [Hx Hrest].
      destruct (IH x Hx) as [s Es]. destruct (IHrest Hrest) as [t Et].
      assert (E : exists s', match x with
                            | JS.Prim JUndefined | JS.Prim JNull => inr ""
                            | _ => JS.to_string rt x
                            end = @inr exn string s').
      { destruct x as [[ | | b | f | s0] | | ]; eexists; try reflexivity; exact Es. }
      destruct E as [s' ->]. destruct rest as [ | y rest]; [eexists; reflexivity | ].
      rewrite Et. eexists. reflexivity.
  - cbn [JS.to_string]. cbn [JS.convertible] in H.
    destruct (JS.has_member "toString" members); [discriminate | ].
    eexists. reflexivity.
Qed.

(** *** Digits, dots and a comma *)

Lemma all_digits_append (a b : string) :
  all_digits a = true -> all_digits b = true -> all_digits (a ++ b) = true.
Proof.
  intros Ha Hb. induction a as [ | c a IH]; [exact Hb | ].
  cbn [append all_digits] in *. apply andb_prop in Ha. destruct Ha as [Hc Ha].
  now rewrite Hc, IH.
Qed.

Lemma all_digits_concat (groups : list string) :
  Forall (fun g => all_digits g = true) groups ->
  all_digits (String.concat "" groups) = true.
Proof.
  induction 1 as [ | g groups Hg _ IH]; [reflexivity | ].
  cbn [String.concat]. destruct groups as [ | g' groups]; [exact Hg | ].
  apply all_digits_append; [exact Hg | exact IH].
Qed.

(** Removing a character that is no digit leaves digits alone. *)
Lemma remove_all_digits (c : ascii) (s : string) :
  (Str.code c <? 48) || (57 <? Str.code c) = true ->
  all_digits s = true -> Str.remove_all c s = s.
Proof.
  intros Hc. induction s as [ | a s IH]; [reflexivity | ].
  cbn [all_digits Str.remove_all]. intros H. apply andb_prop in H. destruct H as [Ha Hs].
  now rewrite (digit_is_not a c Ha Hc), IH.
Qed.

(** Removing the dots joins the groups. *)
Lemma remove_dots_groups (groups : list string) :
  Forall (fun g => all_digits g = true) groups ->
  Str.remove_all "." (String.concat "." groups) = String.concat "" groups.
Proof.
  induction 1 as [ | g groups Hg _ IH]; [reflexivity | ].
  cbn [String.concat]. destruct groups as [ | g' groups].
  - now apply remove_all_digits.
  - rewrite !remove_all_append, IH. rewrite (remove_all_digits "." g eq_refl Hg).
    reflexivity.
Qed.

(** The first comma after digits is the one that is replaced. *)
Lemma replace_comma_digits (whole rest : string) :
  all_digits whole = true ->
  Str.replace_first "," "." (whole ++ String "," rest) = (whole ++ String "." rest)%string.
Proof.
  induction whole as [ | a whole IH]; [reflexivity | ].
  cbn [all_digits append Str.replace_first]. intros H. apply andb_prop in H.
  destruct H as [Ha Hw]. now rewrite (digit_is_not a "," Ha eq_refl), IH.
Qed.

Lemma digits_number_append (a b : string) :
  forall acc, digits_number (a ++ b) acc = digits_number b (digits_number a acc).
Proof.
  induction a as [ | c a IH]; intro acc; [reflexivity | ]. cbn [append digits_number]. apply IH.
Qed.

(** [read_digits] reads the digits up to a character that is none. *)
Lemma read_digits_all (digits rest : string) :
  all_digits digits = true ->
  match rest with String c _ => Str.is_digit c = false | EmptyString => True end ->
  forall acc n,
    Num.read_digits (digits ++ rest) acc n
    = (digits_number digits acc, n + Z.of_nat (String.length digits), rest).
Proof.
  intros Hd Hr. induction digits as [ | c digits IH]; intros acc n.
  - cbn [append digits_number String.length]. rewrite Z.add_0_r.
    destruct rest as [ | c rest]; [reflexivity | ]. cbn [Num.read_digits]. now rewrite Hr.
  - cbn [all_digits] in Hd. apply andb_prop in Hd. destruct Hd as [Hc Hd].
    cbn [append Num.read_digits digits_number String.length]. rewrite Hc, (IH Hd).
    f_equal. f_equal. lia.
Qed.

(** What [parseFloat] does before it reads digits leaves alone a string
    that starts with a digit or with a dot. *)
Lemma number_head (c : ascii) (t : string) :
  Str.is_digit c || Ascii.eqb c "." = true ->
  Str.trim_start (String c t) = String c t
  /\ Num.read_sign (String c t) = (false, String c t)
  /\ Str.starts_with "Infinity" (String c t) = false.
Proof.
  intros H.
  destruct c as [[] [] [] [] [] [] [] []]; vm_compute in H; try discriminate H;
    (split; [ | split]); reflexivity.
Qed.

(** [parseFloat] on digits, a dot and digits: the number they denote, or
    [NaN] when there is no digit at all. *)
Lemma parseFloat_decimal (whole fraction : string) :
  all_digits whole = true -> all_digits fraction = true ->
  Num.parseFloat (whole ++ String "." fraction)
  = if (String.length whole + String.length fraction =? 0)%nat then nan
    else decimal whole fraction.
Proof.
  intros Hw Hf.
  assert (Hh : exists c t, (whole ++ String "." fraction)%string = String c t
                           /\ Str.is_digit c || Ascii.eqb c "." = true).
  { destruct whole as [ | c whole]; [exists "."%char, fraction; split; reflexivity | ].
    exists c, (whole ++ String "." fraction)%string. split; [reflexivity | ].
    cbn [all_digits] in Hw. apply andb_prop in Hw. now rewrite (proj1 Hw). }
  destruct Hh as (c & t & E & Hc).
  destruct (number_head c t Hc) as (T & S & Inf).
  unfold Num.parseFloat. rewrite E, T, S, Inf. rewrite <- E.
  rewrite (read_digits_all whole (String "." fraction) Hw eq_refl).
  pose proof (read_digits_all fraction "" Hf Logic.I) as R.
  rewrite append_nil_r in R. rewrite R.
  replace (0 + Z.of_nat (String.length whole) + (0 + Z.of_nat (String.length fraction)) =? 0)
    with ((String.length whole + String.length fraction =? 0)%nat).
  - destruct (String.length whole + String.length fraction =? 0)%nat; [reflexivity | ].
    unfold decimal. rewrite digits_number_append. reflexivity.
  - destruct (Nat.eqb_spec (String.length whole + String.length fraction) 0);
      symmetry; [apply Z.eqb_eq | apply Z.eqb_neq]; lia.
Qed.

(** No digit at all denotes zero. *)
Lemma decimal_of_nothing : number_or_zero (decimal "" "") = number_or_zero nan.
Proof. reflexivity. Qed.

(** A number written the Vietnamese way is read as the number it
    denotes. *)
Lemma parse_vietnamese (groups : list string) (fraction : string) :
  Forall (fun g => all_digits g = true) groups -> all_digits fraction = true ->
  parseVietnameseNumber rt (JS.Prim (JStr (vietnamese groups fraction)))
  = inr (number_or_zero (decimal (String.concat "" groups) fraction)).
Proof.
  intros Hg Hf. unfold parseVietnameseNumber, vietnamese.
  assert (T : JS.is_truthy (JS.Prim (JStr (String.concat "." groups ++ "," ++ fraction)))
              = true).
  { cbn [JS.is_truthy JS.truthy].
    destruct (String.concat "." groups); reflexivity. }
  rewrite T. cbn [negb JS.to_string JS.String_].
  rewrite remove_all_append, (remove_dots_groups groups Hg).
  cbn [append Str.remove_all]. change (Ascii.eqb "," ".") with false. cbn iota.
  rewrite (remove_all_digits "." fraction eq_refl Hf).
  pose proof (all_digits_concat groups Hg) as Hw.
  rewrite (replace_comma_digits _ fraction Hw), (parseFloat_decimal _ _ Hw Hf).
  rewrite truthy_or_zero. f_equal.
  destruct (String.length (String.concat "" groups) + String.length fraction =? 0)%nat eqn:Z;
    [ | reflexivity].
  apply Nat.eqb_eq in Z.
  destruct (String.concat "" groups); [ | discriminate Z].
  destruct fraction; [ | discriminate Z]. reflexivity.
Qed.

(** C10 (amended).  [parseVietnameseNumber] returns a number, and never
    [NaN], on every value whose conversion to a string reads no object
    with a member [toString]: on every primitive value, and on the arrays
    and objects of a JSON document apart from those.  A number is returned
    as it is, unless it is [NaN] or a zero, which give 0.  A value that is
    missing, [null], [false] or the empty string gives 0.  Any other value
    is converted to a string, every dot of the string is removed and its
    first comma replaced by a dot, and the result is parsed as a float;
    0 is returned when the parse fails or gives zero.  So digits in groups
    set apart by dots, a comma and digits give the double nearest to the
    decimal number they denote.  In particular ["5.676,62"] gives 5676.62,
    [""] gives 0 and 42 gives 42; an object without members gives 0. *)
Theorem parseVietnameseNumber_spec (value : JS.value) :
  (JS.convertible value = true ->
   exists x, parseVietnameseNumber rt value = inr x /\ is_nan x = false)
  /\ (forall f, value = JS.Prim (JNum f) ->
      parseVietnameseNumber rt value = inr (number_or_zero f))
  /\ (JS.is_truthy value = false -> parseVietnameseNumber rt value = inr 0%float)
  /\ (forall text,
        JS.is_truthy value = true -> (forall f, value <> JS.Prim (JNum f)) ->
        JS.to_string rt value = inr text ->
        parseVietnameseNumber rt value
        = inr (number_or_zero
                 (Num.parseFloat (Str.replace_first "," "." (Str.remove_all "." text)))))
  /\ (forall groups fraction,
        Forall (fun g => all_digits g = true) groups -> all_digits fraction = true ->
        value = JS.Prim (JStr (vietnamese groups fraction)) ->
        parseVietnameseNumber rt value
        = inr (number_or_zero (decimal (String.concat "" groups) fraction)))
  /\ parseVietnameseNumber rt (JS.Prim (JStr "5.676,62")) = inr 5676.62%float
  /\ parseVietnameseNumber rt (JS.Prim (JStr "")) = inr 0%float
  /\ parseVietnameseNumber rt (JS.Prim (JNum 42)) = inr 42%float
  /\ parseVietnameseNumber rt (JS.Obj []) = inr 0%float.
Proof.
  assert (General : forall text,
             JS.is_truthy value = true -> (forall f, value <> JS.Prim (JNum f)) ->
             JS.to_string rt value = inr text ->
             parseVietnameseNumber rt value
             = inr (number_or_zero
                      (Num.parseFloat
                         (Str.replace_first "," "." (Str.remove_all "." text))))).
  { intros text T N E. unfold parseVietnameseNumber. rewrite T, E. cbn [negb].
    rewrite truthy_or_zero.
    destruct value as [[ | | b | f | s] | | ]; try reflexivity.
    exfalso. exact (N f eq_refl). }
  assert (Number : forall f, value = JS.Prim (JNum f) ->
                             parseVietnameseNumber rt value = inr (number_or_zero f)).
  { intros f ->. unfold parseVietnameseNumber, number_or_zero.
    cbn [JS.is_truthy JS.truthy]. destruct (is_nan f || is_zero f); reflexivity. }
  assert (Falsy : JS.is_truthy value = false -> parseVietnameseNumber rt value = inr 0%float).
  { intros T. unfold parseVietnameseNumber. now rewrite T. }
  split; [ | split; [exact Number | split; [exact Falsy | split; [exact General | split]]]].
  - intros C. destruct (JS.is_truthy value) eqn:T.
    + destruct value as [[ | | b | f | s] | items | members] eqn:V;
        try (rewrite (Number f eq_refl); eexists; split;
             [reflexivity | apply number_or_zero_not_nan]);
        (destruct (to_string_convertible value) as [text E];
         [ rewrite V; exact C
         | rewrite V in E; rewrite (General text eq_refl ltac:(discriminate) E);
           eexists; split; [reflexivity | apply number_or_zero_not_nan] ]).
    + rewrite (Falsy eq_refl). exists 0%float. split; reflexivity.
  - intros groups fraction Hg Hf ->. now apply parse_vietnamese.
  - repeat split; vm_compute; reflexivity.
Qed.

End Locale_numbers.

(** C10.  The claim fails on the value of a field [{"toString": 1}],
    which a row of a JSON document can carry: its conversion to a string
    raises a [TypeError], and nothing in [parseVietnameseNumber] catches
    it.  It fails on numbers, too: the number -0, which a JSON document
    can carry, and [NaN], are not returned as they are, but as 0. *)
Lemma parseVietnameseNumber_raises_and_drops_zeros :
  Worker.parseVietnameseNumber sample_runtime (JS.Obj [("toString", JS.Prim (JNum 1))])
  = inl (TypeError "Cannot convert object to primitive value")
  /\ Worker.parseVietnameseNumber sample_runtime (JS.Prim (JNum (-0)))
     = inr 0%float
  /\ Prim2SF (-0) <> Prim2SF 0
  /\ Worker.parseVietnameseNumber sample_runtime (JS.Prim (JNum nan)) = inr 0%float.
Proof. repeat split; try (vm_compute; reflexivity). vm_compute. discriminate. Qed.

(** ** The date dimension *)

Section Date_dimension.

Import Cal Civil D1 Worker.

Variable rt : Runtime.

Lemma existsb_false_find {A : Type} (p : A -> bool) (l : list A) :
  List.existsb p l = false -> List.find p l = None.
Proof.
  induction l as [ | a l IH]; [reflexivity | ].
  cbn [List.existsb List.find]. destruct (p a); [discriminate | exact IH].
Qed.

Lemma index_monthNames (m : Z) :
  1 <= m <= 12 ->
  index monthNames (Some (m - 1)) = Some (List.nth (Z.to_nat (m - 1)) monthNames "").
Proof.
  intros Hm.
  assert (C : m = 1 \/ m = 2 \/ m = 3 \/ m = 4 \/ m = 5 \/ m = 6 \/ m = 7 \/ m = 8
              \/ m = 9 \/ m = 10 \/ m = 11 \/ m = 12) by lia.
  repeat (destruct C as [C | C]); subst m; reflexivity.
Qed.

Lemma index_dayNames (w : Z) :
  0 <= w <= 6 -> index dayNames (Some w) = Some (List.nth (Z.to_nat w) dayNames "").
Proof.
  intros Hw.
  assert (C : w = 0 \/ w = 1 \/ w = 2 \/ w = 3 \/ w = 4 \/ w = 5 \/ w = 6) by lia.
  repeat (destruct C as [C | C]); subst w; reflexivity.
Qed.

(** [getOrCreateDate] on an ISO date, statement by statement. *)
Lemma getOrCreateDate_iso_date (y m d : Z) (db : DB) :
  valid_date y m d = true -> 0 <= y <= 9999 ->
  getOrCreateDate rt (JStr (iso_date y m d)) db
  = match List.find (fun r => date_key r =? yyyymmdd y m d) (dim_date db) with
    | Some r => (inr (JNum (Num.of_Z (date_key r))), log (Select "dim_date") db)
    | None =>
        if List.existsb (fun r => String.eqb (D1.full_date r) (iso_date y m d)) (dim_date db)
        then (inl (constraint_failed "UNIQUE constraint failed: dim_date.full_date"),
              log (Select "dim_date") db)
        else (inr (JNum (Num.of_Z (yyyymmdd y m d))),
              log (Insert "dim_date")
                (set_dim_date (dim_date db ++ [DateRow.of_date y m d])
                   (log (Select "dim_date") db)))
    end.
Proof.
  intros Hv Hy. pose proof (valid_date_bounds _ _ _ Hv) as (Hm & Hd & _).
  unfold getOrCreateDate.
  rewrite iso_date_truthy by exact Hy. cbn [negb].
  rewrite of_string_iso_date, getWeekOfYear_iso_date, dateKey_of_iso_date by assumption.
  destruct (getters_of_iso_date y m d Hv) as (-> & -> & -> & ->).
  destruct (bind_date_key y m d Hv Hy) as [Eb Ei].
  unfold bind, lift. rewrite Eb.
  unfold select_date. rewrite Ei.
  destruct (List.find _ (dim_date db)) as [r | ] eqn:F; [reflexivity | ].
  rewrite index_monthNames by exact Hm.
  rewrite index_dayNames
    by (pose proof (Z.mod_pos_bound (days_from_civil y m d + 4) 7 ltac:(lia)); lia).
  unfold insert_date. cbn [option_map log dim_date]. rewrite Ei.
  rewrite (find_none_existsb _ _ F).
  destruct (List.existsb _ (dim_date db)); [reflexivity | ].
  unfold ret, DateRow.of_date.
  replace (m - 1 + 1) with m by lia. reflexivity.
Qed.

(** Resolving an ISO date (years 0000 to 9999) that the date dimension
    does not hold returns the key [YYYYMMDD] and appends exactly one row:
    the key, the string, the year, the quarter, the month and its name,
    the week, the day of the month, the weekday (Monday 1 to Sunday 7) and
    its name, and the weekend flag.  Nothing else in the store changes but
    the journal, which gains the [SELECT] and the [INSERT]. *)
Theorem date_resolution_inserts_the_calendar_row (y m d : Z) (db : DB) :
  valid_date y m d = true -> 0 <= y <= 9999 ->
  List.existsb (fun r => date_key r =? yyyymmdd y m d) (dim_date db) = false ->
  List.existsb (fun r => String.eqb (D1.full_date r) (iso_date y m d)) (dim_date db) = false ->
  getOrCreateDate rt (JStr (iso_date y m d)) db
  = (inr (JNum (Num.of_Z (yyyymmdd y m d))),
     log (Insert "dim_date")
       (set_dim_date (dim_date db ++ [DateRow.of_date y m d]) (log (Select "dim_date") db))).
Proof.
  intros Hv Hy Hk Hf.
  rewrite getOrCreateDate_iso_date by assumption.
  rewrite (existsb_false_find _ _ Hk), Hf. reflexivity.
Qed.

(** Date resolution is idempotent where it succeeds: once an ISO date
    (years 0000 to 9999) has been resolved, resolving it again returns the
    same key, which is [YYYYMMDD], and only reads the store. *)
Theorem date_resolution_idempotent (y m d : Z) (db : DB) (key : jsval) :
  valid_date y m d = true -> 0 <= y <= 9999 ->
  fst (getOrCreateDate rt (JStr (iso_date y m d)) db) = inr key ->
  key = JNum (Num.of_Z (yyyymmdd y m d))
  /\ getOrCreateDate rt (JStr (iso_date y m d))
       (snd (getOrCreateDate rt (JStr (iso_date y m d)) db))
     = (inr key, log (Select "dim_date") (snd (getOrCreateDate rt (JStr (iso_date y m d)) db))).
Proof.
  intros Hv Hy. rewrite !getOrCreateDate_iso_date by assumption.
  destruct (List.find _ (dim_date db)) as [r | ] eqn:F.
  - cbn [fst snd]. intros E. injection E as <-.
    cbn [log dim_date]. rewrite F.
    apply List.find_some in F. destruct F as [_ F]. apply Z.eqb_eq in F. rewrite F.
    split; reflexivity.
  - destruct (List.existsb _ (dim_date db)); cbn [fst snd]; intros E; [discriminate | ].
    injection E as <-. split; [reflexivity | ].
    cbn [log set_dim_date dim_date].
    rewrite (find_app_new _ _ (DateRow.of_date y m d) F)
      by (cbn [DateRow.of_date D1.date_key]; apply Z.eqb_refl).
    reflexivity.
Qed.

End Date_dimension.

Lemma date_resolution_inserts_the_calendar_row_witness :
  Worker.getOrCreateDate sample_runtime (JStr "2025-01-01") D1.seeded
  = (inr (JNum (Num.of_Z 20250101)),
     D1.log (Insert "dim_date")
       (D1.set_dim_date [row_2025_01_01] (D1.log (Select "dim_date") D1.seeded))).
Proof.
  exact (date_resolution_inserts_the_calendar_row sample_runtime 2025 1 1 D1.seeded
           eq_refl ltac:(lia) eq_refl eq_refl).
Defined.

Lemma date_resolution_idempotent_witness :
  JNum (Num.of_Z 20250101) = JNum (Num.of_Z (Civil.yyyymmdd 2025 1 1))
  /\ Worker.getOrCreateDate sample_runtime (JStr "2025-01-01")
       (snd (Worker.getOrCreateDate sample_runtime (JStr "2025-01-01") D1.seeded))
     = (inr (JNum (Num.of_Z 20250101)),
        D1.log (Select "dim_date")
          (snd (Worker.getOrCreateDate sample_runtime (JStr "2025-01-01") D1.seeded))).
Proof.
  exact (date_resolution_idempotent sample_runtime 2025 1 1 D1.seeded
           (JNum (Num.of_Z 20250101)) eq_refl ltac:(lia) eq_refl).
Defined.

(** ** The other dimensions *)

Section Other_dimensions.

Import D1 Worker Store.

Variable rt : Runtime.

Lemma truthy_string (s : string) : s <> "" -> JS.truthy (JStr s) = true.
Proof.
  intros H. unfold JS.truthy. destruct (String.eqb_spec s ""); [contradiction | reflexivity].
Qed.

Lemma getOrCreateAge_settles (s : string) (db : DB) :
  s <> "" -> settles (getOrCreateAge rt (JStr s)) "dim_age_group" db.
Proof.
  intros Hs. unfold settles, getOrCreateAge.
  rewrite (truthy_string s Hs). cbn [negb]. unfold bind, lift. cbn [bind_value text_affinity].
  unfold select_age.
  destruct (List.find _ (dim_age_group db)) as [r | ] eqn:F.
  - exists (age_id r). cbn [fst snd to_js ret log dim_age_group]. rewrite F.
    split; reflexivity.
  - unfold insert_age. cbn [log dim_age_group seq_age_group].
    rewrite (find_none_existsb _ _ F).
    eexists. cbn [fst snd to_js ret log set_dim_age_group dim_age_group].
    split; [reflexivity | ].
    rewrite (find_app_new _ _ _ F) by (cbn [age_range]; apply String.eqb_refl).
    reflexivity.
Qed.

Lemma getOrCreateGender_settles (s : string) (db : DB) :
  s <> "" -> settles (getOrCreateGender rt (JStr s)) "dim_gender" db.
Proof.
  intros Hs. unfold settles, getOrCreateGender.
  rewrite (truthy_string s Hs). cbn [negb]. unfold bind.
  unfold select_gender.
  destruct (List.find _ (dim_gender db)) as [r | ] eqn:F.
  - exists (gender_id r). cbn [fst snd to_js ret log dim_gender]. rewrite F.
    split; reflexivity.
  - unfold insert_gender. cbn [log dim_gender seq_gender].
    rewrite (find_none_existsb _ _ F).
    eexists. cbn [fst snd to_js ret log set_dim_gender dim_gender].
    split; [reflexivity | ].
    rewrite (find_app_new _ _ _ F) by (cbn [gender]; apply String.eqb_refl).
    reflexivity.
Qed.

Lemma getOrCreateRegion_settles (s : string) (db : DB) :
  s <> "" -> settles (getOrCreateRegion rt (JStr s)) "dim_region" db.
Proof.
  intros Hs. unfold settles, getOrCreateRegion.
  rewrite (truthy_string s Hs). cbn [negb]. unfold bind, lift. cbn [bind_value text_affinity].
  unfold select_region.
  destruct (List.find _ (dim_region db)) as [r | ] eqn:F.
  - exists (region_id r). cbn [fst snd to_js ret log dim_region]. rewrite F.
    split; reflexivity.
  - unfold insert_region. cbn [log dim_region seq_region].
    rewrite (find_none_existsb _ _ F).
    eexists. cbn [fst snd to_js ret log set_dim_region dim_region].
    split; [reflexivity | ].
    rewrite (find_app_new _ _ _ F) by (cbn [region_name]; apply String.eqb_refl).
    reflexivity.
Qed.

(** Resolving an age group, a gender or a region by a non-empty string
    always returns a key, and is idempotent: resolving the same string
    again returns the same key and only runs the [SELECT]. *)
Theorem dimension_resolution_settles (s : string) (db : DB) :
  s <> "" ->
  settles (getOrCreateAge rt (JStr s)) "dim_age_group" db
  /\ settles (getOrCreateGender rt (JStr s)) "dim_gender" db
  /\ settles (getOrCreateRegion rt (JStr s)) "dim_region" db.
Proof.
  intros Hs. split; [ | split].
  - now apply getOrCreateAge_settles.
  - now apply getOrCreateGender_settles.
  - now apply getOrCreateRegion_settles.
Qed.

Lemma lower_ascii_idempotent (c : ascii) :
  Str.lower_ascii (Str.lower_ascii c) = Str.lower_ascii c.
Proof.
  unfold Str.lower_ascii at 2 3.
  destruct ((65 <=? Str.code c) && (Str.code c <=? 90)) eqn:E; [ | exact (f_equal (fun b : bool => if b then _ else c) E) ].
  unfold Str.lower_ascii. rewrite code_chr by lia.
  destruct ((65 <=? Str.code c + 32) && (Str.code c + 32 <=? 90)) eqn:E'; [lia | reflexivity].
Qed.

Lemma lower_ascii_is_ascii (c : ascii) :
  Str.is_ascii (Str.lower_ascii c) = Str.is_ascii c.
Proof.
  unfold Str.lower_ascii, Str.is_ascii.
  destruct ((65 <=? Str.code c) && (Str.code c <=? 90)) eqn:E; [ | reflexivity].
  rewrite code_chr by lia. lia.
Qed.

Lemma toLowerCase_ascii (s : string) :
  JS.all_ascii s = true ->
  JS.toLowerCase rt (Str.map Str.lower_ascii s) = JS.toLowerCase rt s.
Proof.
  intros H. unfold JS.toLowerCase. rewrite H.
  assert (E : JS.all_ascii (Str.map Str.lower_ascii s) = true).
  { revert H. induction s as [ | c s IH]; [reflexivity | ].
    cbn [JS.all_ascii Str.map]. rewrite lower_ascii_is_ascii.
    intros H. apply andb_prop in H. destruct H as [-> H]. now rewrite IH. }
  rewrite E. clear.
  induction s as [ | c s IH]; [reflexivity | ].
  cbn [Str.map]. now rewrite lower_ascii_idempotent, IH.
Qed.

(** Genders are told apart without regard to the case of ASCII letters:
    two ASCII spellings with the same lower-case form resolve to the same
    key, and the second one inserts nothing. *)
Theorem gender_resolution_ignores_case (s1 s2 : string) (db : DB) :
  s1 <> "" -> s2 <> "" -> JS.all_ascii s1 = true -> JS.all_ascii s2 = true ->
  Str.map Str.lower_ascii s1 = Str.map Str.lower_ascii s2 ->
  exists id : Z,
    fst (getOrCreateGender rt (JStr s1) db) = inr (JNum (Num.of_Z id))
    /\ getOrCreateGender rt (JStr s2) (snd (getOrCreateGender rt (JStr s1) db))
       = (inr (JNum (Num.of_Z id)),
          log (Select "dim_gender") (snd (getOrCreateGender rt (JStr s1) db))).
Proof.
  intros H1 H2 A1 A2 E.
  destruct (getOrCreateGender_settles s1 db H1) as (id & F & S).
  exists id. split; [exact F | ].
  rewrite <- S. unfold getOrCreateGender.
  rewrite (truthy_string _ H1), (truthy_string _ H2). cbn [negb].
  now rewrite <- (toLowerCase_ascii s1 A1), <- (toLowerCase_ascii s2 A2), E.
Qed.

End Other_dimensions.

Lemma dimension_resolution_settles_witness :
  Store.settles (Worker.getOrCreateAge sample_runtime (JStr "25-34")) "dim_age_group" D1.seeded
  /\ Store.settles (Worker.getOrCreateRegion sample_runtime (JStr "Ha Noi")) "dim_region"
       D1.seeded.
Proof.
  split.
  - exact (proj1 (dimension_resolution_settles sample_runtime "25-34" D1.seeded
                    ltac:(discriminate))).
  - exact (proj2 (proj2 (dimension_resolution_settles sample_runtime "Ha Noi" D1.seeded
                           ltac:(discriminate)))).
Defined.

Lemma gender_resolution_ignores_case_witness :
  exists id : Z,
    fst (Worker.getOrCreateGender sample_runtime (JStr "Male") D1.seeded)
    = inr (JNum (Num.of_Z id))
    /\ fst (Worker.getOrCreateGender sample_runtime (JStr "MALE")
              (snd (Worker.getOrCreateGender sample_runtime (JStr "Male") D1.seeded)))
       = inr (JNum (Num.of_Z id)).
Proof.
  destruct (gender_resolution_ignores_case sample_runtime "Male" "MALE" D1.seeded
              ltac:(discriminate) ltac:(discriminate) eq_refl eq_refl eq_refl)
    as (id & A & B).
  exists id. split; [exact A | now rewrite B].
Defined.

(** ** What a statement leaves of the store *)

Section Steps.

Import D1 Store.

Context (R : DB -> DB -> Prop).

Hypothesis R_refl : forall db, R db db.
Hypothesis R_trans : forall a b c, R a b -> R b c -> R a c.

Lemma steps_ret {A : Type} (a : A) : steps R (ret a).
Proof. intro db. apply R_refl. Qed.

Lemma steps_throw {A : Type} (e : exn) : steps R (@throw A e).
Proof. intro db. apply R_refl. Qed.

Lemma steps_lift {A : Type} (r : exn + A) : steps R (lift r).
Proof. intro db. apply R_refl. Qed.

Lemma steps_bind {A B : Type} (m : M A) (k : A -> M B) :
  steps R m -> (forall a, steps R (k a)) -> steps R (bind m k).
Proof.
  intros Hm Hk db. unfold bind.
  specialize (Hm db). destruct (m db) as [[e | a] db']; cbn [snd] in *.
  - exact Hm.
  - exact (R_trans _ _ _ Hm (Hk a db')).
Qed.

(** A loop of [try] blocks that each keep [R] keeps it. *)
Lemma outcomes_steps (step : row -> M unit) :
  (forall r, steps R (step r)) ->
  forall rows db, R db (snd (Worker.outcomes step rows db)).
Proof.
  intros Hs rows. induction rows as [ | r rows IH]; intro db; [apply R_refl | ].
  cbn [Worker.outcomes]. specialize (Hs r db).
  destruct (step r db) as [res db1]. cbn [snd] in Hs.
  specialize (IH db1). destruct (Worker.outcomes step rows db1) as [run db2].
  cbn [snd] in *. exact (R_trans _ _ _ Hs IH).
Qed.

Lemma ingest_steps (step : row -> M unit) (data : option (list row)) :
  (forall r, steps R (step r)) -> forall db, R db (snd (Worker.ingest step data db)).
Proof.
  intros Hs db. destruct data as [rows | ]; [ | apply R_refl].
  rewrite ingest_some. cbn [snd]. now apply outcomes_steps.
Qed.

End Steps.

Ltac steps_step R_refl R_trans :=
  first
    [ apply (steps_ret _ R_refl) | apply (steps_throw _ R_refl) | apply (steps_lift _ R_refl)
    | apply (steps_bind _ R_trans); [ | intro ]
    | match goal with
      | |- Store.steps _ (if ?c then _ else _) => destruct c
      | |- Store.steps _ (match ?x with _ => _ end) => destruct x
      end ].

Section Append_only.

Import D1 Worker Store.

Variable rt : Runtime.

Lemma extends_refl {A : Type} (l : list A) : extends l l.
Proof. exists []. now rewrite app_nil_r. Qed.

Lemma extends_trans {A : Type} (a b c : list A) : extends a b -> extends b c -> extends a c.
Proof. intros [x ->] [y ->]. exists (x ++ y)%list. now rewrite app_assoc. Qed.

Lemma extends_app {A : Type} (l new : list A) : extends l (l ++ new).
Proof. now exists new. Qed.

Lemma grows_refl (db : DB) : grows db db.
Proof. constructor; apply extends_refl. Qed.

Lemma grows_trans (a b c : DB) : grows a b -> grows b c -> grows a c.
Proof. intros [] []; constructor; eapply extends_trans; eassumption. Qed.

(** A statement of the worker either leaves the tables alone or appends
    one row to one of them. *)
Ltac statement_grows :=
  intro db; cbv beta delta [select_campaign insert_campaign select_date insert_date
                             select_age insert_age select_gender insert_gender
                             select_region insert_region insert_performance
                             insert_demographics insert_regions];
  repeat match goal with
         | |- context [match ?x with _ => _ end] => destruct x
         end;
  cbn [snd]; constructor;
  cbn [log set_dim_campaign set_dim_date set_dim_age_group set_dim_gender set_dim_region
       set_fact_ads_performance set_fact_ads_demographics set_fact_ads_regions
       dim_campaign dim_date dim_age_group dim_gender dim_region
       fact_ads_performance fact_ads_demographics fact_ads_regions];
  (apply extends_refl || apply extends_app).

Lemma select_campaign_grows name : steps grows (select_campaign name).
Proof. statement_grows. Qed.

Lemma insert_campaign_grows name objective : steps grows (insert_campaign name objective).
Proof. statement_grows. Qed.

Lemma select_date_grows key : steps grows (select_date key).
Proof. statement_grows. Qed.

Lemma insert_date_grows key full yr qt mo mn wk dom dow dn we :
  steps grows (insert_date key full yr qt mo mn wk dom dow dn we).
Proof. statement_grows. Qed.

Lemma select_age_grows label : steps grows (select_age label).
Proof. statement_grows. Qed.

Lemma insert_age_grows label : steps grows (insert_age label).
Proof. statement_grows. Qed.

Lemma select_gender_grows label : steps grows (select_gender label).
Proof. statement_grows. Qed.

Lemma insert_gender_grows label : steps grows (insert_gender label).
Proof. statement_grows. Qed.

Lemma select_region_grows name : steps grows (select_region name).
Proof. statement_grows. Qed.

Lemma insert_region_grows name type : steps grows (insert_region name type).
Proof. statement_grows. Qed.

Lemma insert_performance_grows t a b c d e f g h i j :
  steps grows (insert_performance t a b c d e f g h i j).
Proof. statement_grows. Qed.

Lemma insert_demographics_grows t a b c d e f g :
  steps grows (insert_demographics t a b c d e f g).
Proof. statement_grows. Qed.

Lemma insert_regions_grows t a b c d e : steps grows (insert_regions t a b c d e).
Proof. statement_grows. Qed.

Create HintDb grows discriminated.

Hint Resolve select_campaign_grows insert_campaign_grows select_date_grows insert_date_grows
  select_age_grows insert_age_grows select_gender_grows insert_gender_grows
  select_region_grows insert_region_grows insert_performance_grows
  insert_demographics_grows insert_regions_grows : grows.

Ltac grows_steps := repeat steps_step grows_refl grows_trans; auto with grows.

Lemma getOrCreateCampaign_grows name : steps grows (getOrCreateCampaign name).
Proof. unfold getOrCreateCampaign. grows_steps. Qed.

Lemma getOrCreateDate_grows dateStr : steps grows (getOrCreateDate rt dateStr).
Proof. unfold getOrCreateDate. grows_steps. Qed.

Lemma getOrCreateAge_grows ageRange : steps grows (getOrCreateAge rt ageRange).
Proof. unfold getOrCreateAge. grows_steps. Qed.

Lemma getOrCreateGender_grows gender : steps grows (getOrCreateGender rt gender).
Proof. unfold getOrCreateGender. grows_steps. Qed.

Lemma getOrCreateRegion_grows regionName : steps grows (getOrCreateRegion rt regionName).
Proof. unfold getOrCreateRegion. grows_steps. Qed.

Lemma performance_row_grows (r : row) : steps grows (performance_row rt r).
Proof.
  unfold performance_row, getOrCreateCampaign, getOrCreateDate. grows_steps.
Qed.

Lemma demographics_row_grows (r : row) : steps grows (demographics_row rt r).
Proof.
  unfold demographics_row, getOrCreateCampaign, getOrCreateDate, getOrCreateAge,
    getOrCreateGender.
  grows_steps.
Qed.

Lemma regions_row_grows (r : row) : steps grows (regions_row rt r).
Proof.
  unfold regions_row, getOrCreateCampaign, getOrCreateDate, getOrCreateRegion.
  grows_steps.
Qed.

End Append_only.

(** ** What ingestion keeps of the store *)

Section Ingestion_invariants.

Import D1 Worker Store.

Variable rt : Runtime.

(** *** Tables an ingestion function never writes *)

Ltac statement_keeps :=
  intro db; cbv beta delta [select_campaign insert_campaign select_date insert_date
                             select_age insert_age select_gender insert_gender
                             select_region insert_region insert_performance
                             insert_demographics insert_regions];
  repeat match goal with
         | |- context [match ?x with _ => _ end] => destruct x
         end;
  reflexivity.

Ltac keeps_steps :=
  repeat frame_step; try statement_keeps.

Lemma performance_row_beside (r : row) : keeps beside_performance (performance_row rt r).
Proof.
  unfold performance_row, getOrCreateCampaign, getOrCreateDate. keeps_steps.
Qed.

Lemma demographics_row_beside (r : row) : keeps beside_demographics (demographics_row rt r).
Proof.
  unfold demographics_row, getOrCreateCampaign, getOrCreateDate, getOrCreateAge,
    getOrCreateGender.
  keeps_steps.
Qed.

Lemma regions_row_beside (r : row) : keeps beside_regions (regions_row rt r).
Proof.
  unfold regions_row, getOrCreateCampaign, getOrCreateDate, getOrCreateRegion. keeps_steps.
Qed.

Lemma ingest_keeps {X : Type} (f : DB -> X) (step : row -> M unit) (data : option (list row)) :
  (forall r, keeps f (step r)) -> forall db, f (snd (ingest step data db)) = f db.
Proof.
  intros Hs db.
  apply (ingest_steps (fun a b => f b = f a)); try assumption.
  - reflexivity.
  - intros a b c H1 H2. now rewrite H2.
Qed.

(** Ingestion only ever appends.  Whatever the request body, each of the
    three ingestion functions leaves every row of every table in place and
    unchanged (rows are only added after them), and writes to no table but
    its own fact table and the dimensions its rows name: the other tables
    are left exactly as they were. *)
Theorem ingestion_only_appends (data : option (list row)) (db : DB) :
  (grows db (snd (ingestPerformance rt data db))
   /\ beside_performance (snd (ingestPerformance rt data db)) = beside_performance db)
  /\ (grows db (snd (ingestDemographics rt data db))
      /\ beside_demographics (snd (ingestDemographics rt data db)) = beside_demographics db)
  /\ (grows db (snd (ingestRegions rt data db))
      /\ beside_regions (snd (ingestRegions rt data db)) = beside_regions db).
Proof.
  unfold ingestPerformance, ingestDemographics, ingestRegions.
  split; [split | split; split].
  - apply (ingest_steps grows grows_refl grows_trans), performance_row_grows.
  - apply ingest_keeps, performance_row_beside.
  - apply (ingest_steps grows grows_refl grows_trans), demographics_row_grows.
  - apply ingest_keeps, demographics_row_beside.
  - apply (ingest_steps grows grows_refl grows_trans), regions_row_grows.
  - apply ingest_keeps, regions_row_beside.
Qed.

(** *** Foreign keys *)

Lemma has_key_extends {A : Type} (key : A -> Z) (l l' : list A) (k : Z) :
  extends l l' -> has_key key l k = true -> has_key key l' k = true.
Proof.
  intros [new ->] H. unfold has_key in *. rewrite existsb_app, H. reflexivity.
Qed.

Lemma forallb_impl {A : Type} (p q : A -> bool) (l : list A) :
  (forall x, p x = true -> q x = true) -> forallb p l = true -> forallb q l = true.
Proof.
  intros Hpq. induction l as [ | a l IH]; [reflexivity | ].
  cbn [forallb]. intros H. apply andb_prop in H. destruct H as [Ha Hl].
  now rewrite (Hpq a Ha), IH.
Qed.

Lemma keeps_integrity_refl (db : DB) : keeps_integrity db db.
Proof. intro H. exact H. Qed.

Lemma keeps_integrity_trans (a b c : DB) :
  keeps_integrity a b -> keeps_integrity b c -> keeps_integrity a c.
Proof. intros H1 H2 H. exact (H2 (H1 H)). Qed.

(** New rows in the dimensions break no foreign key. *)
Lemma new_dimension_rows_keep_integrity (db db' : DB) :
  grows db db' -> facts db' = facts db -> keeps_integrity db db'.
Proof.
  intros G F. unfold facts in F. injection F as F1 F2 F3.
  destruct G as [Gc Gd Ga Gg Gr _ _ _].
  unfold keeps_integrity, referential_integrity. rewrite F1, F2, F3.
  intros H. apply andb_prop in H. destruct H as [H H3].
  apply andb_prop in H. destruct H as [H1 H2].
  apply andb_true_intro. split; [apply andb_true_intro; split | ].
  - refine (forallb_impl _ _ _ _ H1). intros f Hf.
    apply andb_prop in Hf. destruct Hf as [Hd Hc].
    now rewrite (has_key_extends _ _ _ _ Gd Hd), (has_key_extends _ _ _ _ Gc Hc).
  - refine (forallb_impl _ _ _ _ H2). intros f Hf.
    apply andb_prop in Hf. destruct Hf as [Hf Hg].
    apply andb_prop in Hf. destruct Hf as [Hf Ha].
    apply andb_prop in Hf. destruct Hf as [Hd Hc].
    now rewrite (has_key_extends _ _ _ _ Gd Hd), (has_key_extends _ _ _ _ Gc Hc),
      (has_key_extends _ _ _ _ Ga Ha), (has_key_extends _ _ _ _ Gg Hg).
  - refine (forallb_impl _ _ _ _ H3). intros f Hf.
    apply andb_prop in Hf. destruct Hf as [Hf Hr].
    apply andb_prop in Hf. destruct Hf as [Hd Hc].
    now rewrite (has_key_extends _ _ _ _ Gd Hd), (has_key_extends _ _ _ _ Gc Hc),
      (has_key_extends _ _ _ _ Gr Hr).
Qed.

Lemma resolver_keeps_integrity {A : Type} (m : M A) :
  steps grows m -> keeps facts m -> steps keeps_integrity m.
Proof.
  intros G F db. apply new_dimension_rows_keep_integrity; [apply G | apply F].
Qed.

Lemma references_has_key {A : Type} (key : A -> Z) (rows : list A) (v : sqlval) :
  references key rows v = true -> has_key key rows (key_of v) = true.
Proof.
  unfold references, key_of, has_key. destruct (as_integer v); [ | discriminate].
  intros H. exact H.
Qed.

(** A fact is inserted only when the store finds its keys. *)
Lemma insert_performance_integrity t dk cid a b c d e f g h :
  steps keeps_integrity (insert_performance t dk cid a b c d e f g h).
Proof.
  intro db. unfold insert_performance.
  destruct (is_null dk); [apply keeps_integrity_refl | ].
  destruct (is_null cid); [apply keeps_integrity_refl | ].
  destruct (references date_key (dim_date db) dk) eqn:Rd;
    [ | apply keeps_integrity_refl].
  destruct (references campaign_id (dim_campaign db) cid) eqn:Rc;
    [ | apply keeps_integrity_refl].
  cbn [andb negb snd]. unfold keeps_integrity, referential_integrity.
  cbn [log set_fact_ads_performance dim_campaign dim_date dim_age_group dim_gender dim_region
       fact_ads_performance fact_ads_demographics fact_ads_regions].
  rewrite forallb_app. cbn [forallb pf_date_key pf_campaign_id].
  rewrite (references_has_key _ _ _ Rd), (references_has_key _ _ _ Rc).
  cbn [andb]. rewrite andb_true_r. intros H. exact H.
Qed.

Lemma insert_demographics_integrity t dk cid a age gen s i :
  steps keeps_integrity (insert_demographics t dk cid a age gen s i).
Proof.
  intro db. unfold insert_demographics.
  destruct (is_null dk); [apply keeps_integrity_refl | ].
  destruct (is_null cid); [apply keeps_integrity_refl | ].
  destruct (is_null age); [apply keeps_integrity_refl | ].
  destruct (is_null gen); [apply keeps_integrity_refl | ].
  destruct (references date_key (dim_date db) dk) eqn:Rd;
    [ | apply keeps_integrity_refl].
  destruct (references campaign_id (dim_campaign db) cid) eqn:Rc;
    [ | apply keeps_integrity_refl].
  destruct (references age_id (dim_age_group db) age) eqn:Ra;
    [ | apply keeps_integrity_refl].
  destruct (references gender_id (dim_gender db) gen) eqn:Rg;
    [ | apply keeps_integrity_refl].
  cbn [andb negb snd]. unfold keeps_integrity, referential_integrity.
  cbn [log set_fact_ads_demographics dim_campaign dim_date dim_age_group dim_gender dim_region
       fact_ads_performance fact_ads_demographics fact_ads_regions].
  rewrite forallb_app. cbn [forallb dm_date_key dm_campaign_id dm_age_id dm_gender_id].
  rewrite (references_has_key _ _ _ Rd), (references_has_key _ _ _ Rc),
    (references_has_key _ _ _ Ra), (references_has_key _ _ _ Rg).
  cbn [andb]. rewrite andb_true_r. intros H. exact H.
Qed.

Lemma insert_regions_integrity t dk cid reg s i :
  steps keeps_integrity (insert_regions t dk cid reg s i).
Proof.
  intro db. unfold insert_regions.
  destruct (is_null dk); [apply keeps_integrity_refl | ].
  destruct (is_null cid); [apply keeps_integrity_refl | ].
  destruct (is_null reg); [apply keeps_integrity_refl | ].
  destruct (references date_key (dim_date db) dk) eqn:Rd;
    [ | apply keeps_integrity_refl].
  destruct (references campaign_id (dim_campaign db) cid) eqn:Rc;
    [ | apply keeps_integrity_refl].
  destruct (references region_id (dim_region db) reg) eqn:Rr;
    [ | apply keeps_integrity_refl].
  cbn [andb negb snd]. unfold keeps_integrity, referential_integrity.
  cbn [log set_fact_ads_regions dim_campaign dim_date dim_age_group dim_gender dim_region
       fact_ads_performance fact_ads_demographics fact_ads_regions].
  rewrite forallb_app. cbn [forallb rg_date_key rg_campaign_id rg_region_id].
  rewrite (references_has_key _ _ _ Rd), (references_has_key _ _ _ Rc),
    (references_has_key _ _ _ Rr).
  cbn [andb]. rewrite andb_true_r. intros H. exact H.
Qed.

Ltac integrity_steps :=
  repeat match goal with
         | |- steps _ (bind _ _) => apply (steps_bind _ keeps_integrity_trans); [ | intro ]
         | |- steps _ (lift _) => apply (steps_lift _ keeps_integrity_refl)
         | |- steps _ (getOrCreateCampaign _) =>
             apply resolver_keeps_integrity;
             [apply getOrCreateCampaign_grows | apply getOrCreateCampaign_facts]
         | |- steps _ (getOrCreateDate _ _) =>
             apply resolver_keeps_integrity;
             [apply getOrCreateDate_grows | apply getOrCreateDate_facts]
         | |- steps _ (getOrCreateAge _ _) =>
             apply resolver_keeps_integrity;
             [apply getOrCreateAge_grows | apply getOrCreateAge_facts]
         | |- steps _ (getOrCreateGender _ _) =>
             apply resolver_keeps_integrity;
             [apply getOrCreateGender_grows | apply getOrCreateGender_facts]
         | |- steps _ (getOrCreateRegion _ _) =>
             apply resolver_keeps_integrity;
             [apply getOrCreateRegion_grows | apply getOrCreateRegion_facts]
         | |- steps _ (insert_performance _ _ _ _ _ _ _ _ _ _ _) =>
             apply insert_performance_integrity
         | |- steps _ (insert_demographics _ _ _ _ _ _ _ _) =>
             apply insert_demographics_integrity
         | |- steps _ (insert_regions _ _ _ _ _ _) => apply insert_regions_integrity
         end.

Lemma performance_row_integrity (r : row) : steps keeps_integrity (performance_row rt r).
Proof. unfold performance_row. integrity_steps. Qed.

Lemma demographics_row_integrity (r : row) : steps keeps_integrity (demographics_row rt r).
Proof. unfold demographics_row. integrity_steps. Qed.

Lemma regions_row_integrity (r : row) : steps keeps_integrity (regions_row rt r).
Proof. unfold regions_row. integrity_steps. Qed.

(** Ingestion keeps the foreign keys of [schema.sql]: in a store where
    every fact names rows of its dimensions, this still holds after any
    request to any of the three ingestion functions, whichever rows of it
    fail. *)
Theorem ingestion_keeps_referential_integrity (data : option (list row)) (db : DB) :
  referential_integrity db = true ->
  referential_integrity (snd (ingestPerformance rt data db)) = true
  /\ referential_integrity (snd (ingestDemographics rt data db)) = true
  /\ referential_integrity (snd (ingestRegions rt data db)) = true.
Proof.
  intros H. unfold ingestPerformance, ingestDemographics, ingestRegions.
  split; [ | split];
    refine (ingest_steps keeps_integrity keeps_integrity_refl keeps_integrity_trans
              _ data _ db H);
    [ apply performance_row_integrity | apply demographics_row_integrity
    | apply regions_row_integrity ].
Qed.

End Ingestion_invariants.

Lemma ingestion_keeps_referential_integrity_witness :
  Store.referential_integrity D1.seeded = true
  /\ Store.referential_integrity
       (snd (Worker.ingestPerformance sample_runtime (Some [row_mess; row_no_campaign])
               D1.seeded)) = true.
Proof.
  split; [reflexivity | ].
  exact (proj1 (ingestion_keeps_referential_integrity sample_runtime
                  (Some [row_mess; row_no_campaign]) D1.seeded eq_refl)).
Defined.

(** ** Rows that fail, rows sent twice *)

Section Rows.

Import Cal Civil D1 Worker Store.

Variable rt : Runtime.

(** [getOrCreateCampaign] on a string, statement by statement. *)
Lemma getOrCreateCampaign_string (s : string) (db : DB) :
  s <> "" ->
  getOrCreateCampaign (JStr s) db
  = match List.find (fun r => String.eqb (campaign_name r) s) (dim_campaign db) with
    | Some r => (inr (JNum (Num.of_Z (campaign_id r))), log (Select "dim_campaign") db)
    | None =>
        let id := next_key campaign_id (dim_campaign db) (seq_campaign db) in
        (inr (JNum (Num.of_Z id)),
         log (Insert "dim_campaign")
           (set_dim_campaign
              (dim_campaign db
               ++ [ {| campaign_id := id; campaign_name := s;
                       platform := VText "Facebook";
                       objective := VText (objective_of s) |} ])
              id (log (Select "dim_campaign") db)))
    end.
Proof.
  intros Hs. unfold getOrCreateCampaign. rewrite (truthy_string s Hs). cbn [negb].
  unfold bind, select_campaign.
  destruct (List.find _ (dim_campaign db)) as [r | ] eqn:F; [reflexivity | ].
  unfold insert_campaign. cbn [log dim_campaign seq_campaign].
  rewrite (find_none_existsb _ _ F). reflexivity.
Qed.

(** [bind] refuses [undefined] and nothing else. *)
Lemma bind_value_defined (v : jsval) :
  v <> JUndefined -> exists p, bind_value v = inr p.
Proof.
  destruct v as [ | | b | f | s]; intros H; try (eexists; reflexivity).
  - contradiction.
  - cbn [bind_value]. destruct (_ || _); eexists; reflexivity.
Qed.

(** [parseVietnameseNumber] returns on every primitive value. *)
Lemma parse_primitive (v : jsval) :
  exists x, parseVietnameseNumber rt (JS.Prim v) = inr x.
Proof.
  unfold parseVietnameseNumber. destruct (negb _); [eexists; reflexivity | ].
  destruct v; cbn [JS.to_string]; eexists; reflexivity.
Qed.

Lemma or_else_defined (a b : jsval) : b <> JUndefined -> JS.or_else a b <> JUndefined.
Proof.
  intros Hb. unfold JS.or_else. destruct (JS.truthy a) eqn:T; [ | exact Hb].
  intros ->. discriminate.
Qed.

Lemma bind_or_null (a : jsval) : exists p, bind_value (JS.or_else a JNull) = inr p.
Proof. apply bind_value_defined, or_else_defined. discriminate. Qed.

Lemma bind_or_zero (f : float) :
  exists p, bind_value (JS.or_else (JNum f) (JNum 0)) = inr p.
Proof. apply bind_value_defined, or_else_defined. discriminate. Qed.

Lemma bind_number (f : float) : exists p, bind_value (JNum f) = inr p.
Proof. apply bind_value_defined. discriminate. Qed.

(** Nothing is rolled back when a row fails.  A performance row that
    names a campaign the store does not hold yet, and that has no date, is
    rejected by the [NOT NULL] constraint on [date_key]; no fact is
    inserted, and the campaign that was created for the row stays. *)
Theorem rejected_row_leaves_its_campaign (r : row) (s : string) (db : DB) :
  JS.get r "Campaign" = JStr s -> s <> "" ->
  List.existsb (fun c => String.eqb (campaign_name c) s) (dim_campaign db) = false ->
  JS.truthy (JS.get r "Date") = false ->
  fst (performance_row rt r db)
  = inl (constraint_failed "NOT NULL constraint failed: fact_ads_performance.date_key")
  /\ facts (snd (performance_row rt r db)) = facts db
  /\ dim_campaign (snd (performance_row rt r db))
     = (dim_campaign db
        ++ [ {| campaign_id := next_key campaign_id (dim_campaign db) (seq_campaign db);
                campaign_name := s;
                platform := VText "Facebook";
                objective := VText (objective_of s) |} ])%list.
Proof.
  intros Hc Hs Hnew Hd.
  assert (E : performance_row rt r db
              = (inl (constraint_failed
                        "NOT NULL constraint failed: fact_ads_performance.date_key"),
                 log (Insert "dim_campaign")
                   (set_dim_campaign
                      (dim_campaign db
                       ++ [ {| campaign_id := next_key campaign_id (dim_campaign db)
                                                (seq_campaign db);
                               campaign_name := s;
                               platform := VText "Facebook";
                               objective := VText (objective_of s) |} ])
                      (next_key campaign_id (dim_campaign db) (seq_campaign db))
                      (log (Select "dim_campaign") db))));
    [ | rewrite E; split; [reflexivity | split; reflexivity] ].
  unfold performance_row. rewrite Hc.
  unfold bind at 1. rewrite getOrCreateCampaign_string by exact Hs.
  rewrite (existsb_false_find _ _ Hnew). cbv zeta.
  unfold bind at 1. unfold getOrCreateDate. rewrite Hd. cbn [negb ret].
  unfold bind, lift. change (bind_value JNull) with (@inr exn sqlval VNull).
  destruct (parse_primitive (JS.get r "AmountSpent")) as [amountSpent ->].
  destruct (parse_primitive (JS.get r "CostPerResult")) as [costPerResult ->].
  destruct (bind_number (Num.of_Z (next_key campaign_id (dim_campaign db) (seq_campaign db))))
    as [p2 ->].
  destruct (bind_or_null (JS.get r "AdSet")) as [p3 ->].
  destruct (bind_or_null (JS.get r "Ad")) as [p4 ->].
  destruct (bind_or_null (JS.get r "Indicator")) as [p5 ->].
  destruct (bind_or_null (JS.get r "ActionKey")) as [p6 ->].
  destruct (bind_number amountSpent) as [p7 ->].
  destruct (bind_or_zero (JS.parseInt rt (JS.get r "Results"))) as [p8 ->].
  destruct (bind_number costPerResult) as [p9 ->].
  destruct (bind_or_zero (JS.parseInt rt (JS.get r "Impressions"))) as [p10 ->].
  unfold insert_performance. cbn [is_null]. reflexivity.
Qed.

(** *** A row sent twice *)

Lemma performance_row_fact (r : row) :
  performance_row rt r
  = (campaignId <- getOrCreateCampaign (JS.get r "Campaign") ;;
     dateKey <- getOrCreateDate rt (JS.get r "Date") ;;
     Fact.performance_fact rt r campaignId dateKey).
Proof. reflexivity. Qed.

Lemma max_key_nonneg {A : Type} (key : A -> Z) (l : list A) : 0 <= max_key key l.
Proof. induction l as [ | a l IH]; cbn [max_key fold_right]; [lia | ]. fold (max_key key l). lia. Qed.

Lemma max_key_app {A : Type} (key : A -> Z) (l : list A) (x : A) :
  max_key key (l ++ [x]) = Z.max (max_key key l) (key x).
Proof.
  induction l as [ | a l IH].
  - cbn. lia.
  - cbn [app max_key fold_right]. fold (max_key key (l ++ [x])). fold (max_key key l).
    rewrite IH. lia.
Qed.

(** Inserting a fact that was just inserted succeeds again, under the
    next key and at the next reading of the clock. *)
Lemma insert_performance_again (p1 p2 p3 p4 p5 p6 p7 p8 p9 p10 : sqlval) (db db1 db' : DB) :
  insert_performance rt p1 p2 p3 p4 p5 p6 p7 p8 p9 p10 db = (inr tt, db1) ->
  dim_date db' = dim_date db -> dim_campaign db' = dim_campaign db ->
  fact_ads_performance db' = fact_ads_performance db1 ->
  seq_performance db' = seq_performance db1 ->
  exists f,
    fact_ads_performance db1 = (fact_ads_performance db ++ [f])%list
    /\ fst (insert_performance rt p1 p2 p3 p4 p5 p6 p7 p8 p9 p10 db') = inr tt
    /\ fact_ads_performance (snd (insert_performance rt p1 p2 p3 p4 p5 p6 p7 p8 p9 p10 db'))
       = (fact_ads_performance db
          ++ [f; Fact.next_copy (datetime_now rt (List.length (journal db'))) f])%list
    /\ dim_campaign (snd (insert_performance rt p1 p2 p3 p4 p5 p6 p7 p8 p9 p10 db'))
       = dim_campaign db'
    /\ dim_date (snd (insert_performance rt p1 p2 p3 p4 p5 p6 p7 p8 p9 p10 db'))
       = dim_date db'.
Proof.
  unfold insert_performance. intros H Ed Ec Ef Es. rewrite Ed, Ec.
  destruct (is_null p1); [discriminate | ].
  destruct (is_null p2); [discriminate | ].
  destruct (negb _); [discriminate | ].
  injection H as <-.
  cbn [log set_fact_ads_performance fact_ads_performance seq_performance] in Ef, Es.
  eexists. split; [reflexivity | ].
  cbn [fst snd log set_fact_ads_performance fact_ads_performance dim_campaign dim_date].
  split; [reflexivity | ]. split; [ | split; [exact Ec | exact Ed]].
  rewrite Ef, Es. rewrite <- app_assoc. cbn [app]. do 3 f_equal.
  unfold Fact.next_copy. cbn [pf_id pf_date_key pf_campaign_id pf_adset_name pf_ad_name
    pf_indicator pf_action_key pf_amount_spent pf_results pf_cost_per_result pf_impressions
    pf_created_at].
  f_equal. unfold next_key. rewrite max_key_app. cbn [pf_id]. unfold next_key.
  pose proof (max_key_nonneg pf_id (fact_ads_performance db)). lia.
Qed.

Lemma getOrCreateCampaign_ready (s : string) (db : DB) :
  s <> "" ->
  exists rc : dim_campaign_row,
    fst (getOrCreateCampaign (JStr s) db) = inr (JNum (Num.of_Z (campaign_id rc)))
    /\ List.find (fun c => String.eqb (campaign_name c) s)
         (dim_campaign (snd (getOrCreateCampaign (JStr s) db))) = Some rc
    /\ dim_date (snd (getOrCreateCampaign (JStr s) db)) = dim_date db
    /\ fact_ads_performance (snd (getOrCreateCampaign (JStr s) db)) = fact_ads_performance db
    /\ seq_performance (snd (getOrCreateCampaign (JStr s) db)) = seq_performance db.
Proof.
  intros Hs. rewrite getOrCreateCampaign_string by exact Hs.
  destruct (List.find _ (dim_campaign db)) as [rc | ] eqn:F.
  - exists rc. repeat split. exact F.
  - exists {| campaign_id := next_key campaign_id (dim_campaign db) (seq_campaign db);
              campaign_name := s; platform := VText "Facebook";
              objective := VText (objective_of s) |}.
    cbv zeta. split; [reflexivity | ].
    cbn [snd log set_dim_campaign dim_campaign dim_date fact_ads_performance seq_performance].
    split; [ | repeat split].
    apply (find_app_new _ _ _ F). cbn [campaign_name]. apply String.eqb_refl.
Qed.

Lemma getOrCreateCampaign_known (s : string) (db : DB) (rc : dim_campaign_row) :
  s <> "" ->
  List.find (fun c => String.eqb (campaign_name c) s) (dim_campaign db) = Some rc ->
  getOrCreateCampaign (JStr s) db
  = (inr (JNum (Num.of_Z (campaign_id rc))), log (Select "dim_campaign") db).
Proof. intros Hs F. rewrite getOrCreateCampaign_string by exact Hs. now rewrite F. Qed.

Lemma getOrCreateDate_ready (y m d : Z) (db : DB) (v : jsval) :
  valid_date y m d = true -> 0 <= y <= 9999 ->
  fst (getOrCreateDate rt (JStr (iso_date y m d)) db) = inr v ->
  v = JNum (Num.of_Z (yyyymmdd y m d))
  /\ (exists rd : dim_date_row,
        List.find (fun c => date_key c =? yyyymmdd y m d)
          (dim_date (snd (getOrCreateDate rt (JStr (iso_date y m d)) db))) = Some rd)
  /\ dim_campaign (snd (getOrCreateDate rt (JStr (iso_date y m d)) db)) = dim_campaign db
  /\ fact_ads_performance (snd (getOrCreateDate rt (JStr (iso_date y m d)) db))
     = fact_ads_performance db
  /\ seq_performance (snd (getOrCreateDate rt (JStr (iso_date y m d)) db))
     = seq_performance db.
Proof.
  intros Hv Hy. rewrite getOrCreateDate_iso_date by assumption.
  destruct (List.find _ (dim_date db)) as [rd | ] eqn:F.
  - cbn [fst snd]. intros E. injection E as <-.
    pose proof (List.find_some _ _ F) as [_ K]. apply Z.eqb_eq in K. rewrite K.
    split; [reflexivity | ]. split; [exists rd; exact F | repeat split].
  - destruct (List.existsb _ (dim_date db)); cbn [fst snd]; intros E; [discriminate | ].
    injection E as <-. split; [reflexivity | ].
    cbn [log set_dim_date dim_date dim_campaign fact_ads_performance seq_performance].
    split; [ | repeat split].
    eexists. apply (find_app_new _ _ _ F). cbn [DateRow.of_date D1.date_key].
    apply Z.eqb_refl.
Qed.

Lemma getOrCreateDate_known (y m d : Z) (db : DB) (rd : dim_date_row) :
  valid_date y m d = true -> 0 <= y <= 9999 ->
  List.find (fun c => date_key c =? yyyymmdd y m d) (dim_date db) = Some rd ->
  getOrCreateDate rt (JStr (iso_date y m d)) db
  = (inr (JNum (Num.of_Z (yyyymmdd y m d))), log (Select "dim_date") db).
Proof.
  intros Hv Hy F. rewrite getOrCreateDate_iso_date by assumption. rewrite F.
  pose proof (List.find_some _ _ F) as [_ K]. apply Z.eqb_eq in K. now rewrite K.
Qed.

(** The fact of a row goes into the store it runs on: a run that
    succeeds leaves the two dimensions as they were. *)
Lemma performance_fact_again (r : row) (cid dk : jsval) (db db1 db' : DB) :
  Fact.performance_fact rt r cid dk db = (inr tt, db1) ->
  dim_date db' = dim_date db1 -> dim_campaign db' = dim_campaign db1 ->
  fact_ads_performance db' = fact_ads_performance db1 ->
  seq_performance db' = seq_performance db1 ->
  dim_date db1 = dim_date db /\ dim_campaign db1 = dim_campaign db
  /\ exists f,
       fact_ads_performance db1 = (fact_ads_performance db ++ [f])%list
       /\ fst (Fact.performance_fact rt r cid dk db') = inr tt
       /\ fact_ads_performance (snd (Fact.performance_fact rt r cid dk db'))
          = (fact_ads_performance db
             ++ [f; Fact.next_copy (datetime_now rt (List.length (journal db'))) f])%list
       /\ dim_campaign (snd (Fact.performance_fact rt r cid dk db')) = dim_campaign db'
       /\ dim_date (snd (Fact.performance_fact rt r cid dk db')) = dim_date db'.
Proof.
  unfold Fact.performance_fact, bind, lift.
  repeat match goal with
         | |- context [match parseVietnameseNumber ?t ?v with _ => _ end] =>
             destruct (parseVietnameseNumber t v) as [? | ?x]; [discriminate | ]
         | |- context [match bind_value ?v with _ => _ end] =>
             destruct (bind_value v) as [? | ?p]; [discriminate | ]
         end.
  intros H Ed Ec Ef Es.
  assert (Same : dim_date db1 = dim_date db /\ dim_campaign db1 = dim_campaign db).
  { revert H. unfold insert_performance.
    repeat match goal with
           | |- context [if ?c then _ else _] => destruct c; [discriminate | ]
           end.
    intros H. injection H as <-. split; reflexivity. }
  destruct Same as [S1 S2]. split; [exact S1 | ]. split; [exact S2 | ].
  rewrite S1 in Ed. rewrite S2 in Ec.
  destruct (insert_performance_again _ _ _ _ _ _ _ _ _ _ db db1 db' H Ed Ec Ef Es)
    as (fact & Hf & H1 & H2 & H3 & H4).
  exists fact. repeat split; assumption.
Qed.

(** Ingestion is not idempotent on facts.  A performance row that names
    a campaign and an ISO date (years 0000 to 9999) and was stored is
    stored again when it is sent again: the second run creates no campaign
    and no date, and appends a second fact.  That fact has the next key,
    and its [created_at] is the reading of the store's clock at the second
    insert, which follows the two [SELECT]s of the second run; in every
    other column it is the first fact. *)
Theorem resent_row_is_stored_twice (r : row) (s : string) (y m d : Z) (db db1 : DB) :
  JS.get r "Campaign" = JStr s -> s <> "" ->
  JS.get r "Date" = JStr (iso_date y m d) -> valid_date y m d = true -> 0 <= y <= 9999 ->
  performance_row rt r db = (inr tt, db1) ->
  exists f : fact_ads_performance_row,
    fact_ads_performance db1 = (fact_ads_performance db ++ [f])%list
    /\ fst (performance_row rt r db1) = inr tt
    /\ fact_ads_performance (snd (performance_row rt r db1))
       = (fact_ads_performance db
          ++ [f; Fact.next_copy (datetime_now rt (List.length (journal db1) + 2)) f])%list
    /\ dim_campaign (snd (performance_row rt r db1)) = dim_campaign db1
    /\ dim_date (snd (performance_row rt r db1)) = dim_date db1.
Proof.
  intros Hc Hs Hd Hv Hy. rewrite !performance_row_fact, Hc, Hd.
  (* the first run *)
  unfold bind at 1.
  destruct (getOrCreateCampaign_ready s db Hs) as (rc & C1 & C2 & C3 & C4 & C5).
  destruct (getOrCreateCampaign (JStr s) db) as [[e | cid] dbc]; cbn [fst snd] in *;
    [discriminate | ].
  injection C1 as ->.
  unfold bind at 1.
  pose proof (getOrCreateDate_ready y m d dbc) as D.
  destruct (getOrCreateDate rt (JStr (iso_date y m d)) dbc) as [[e | dk] dbd];
    cbn [fst snd] in *; [discriminate | ].
  destruct (D dk Hv Hy eq_refl) as (-> & [rd D2] & D3 & D4 & D5). clear D.
  intros Hrun.
  (* the second run *)
  destruct (performance_fact_again r _ _ dbd db1
              (log (Select "dim_date") (log (Select "dim_campaign") db1)) Hrun)
    as (S1 & S2 & f & Hf & H1 & H2 & H3 & H4); try reflexivity.
  assert (F1 : List.find (fun c => String.eqb (campaign_name c) s) (dim_campaign db1) = Some rc)
    by (rewrite S2, D3; exact C2).
  assert (F2 : List.find (fun c => date_key c =? yyyymmdd y m d)
                 (dim_date (log (Select "dim_campaign") db1)) = Some rd)
    by (cbn [log dim_date]; rewrite S1; exact D2).
  unfold bind at 1 3 5 7.
  rewrite (getOrCreateCampaign_known s db1 rc Hs F1).
  unfold bind.
  rewrite (getOrCreateDate_known y m d _ rd Hv Hy F2).
  exists f. rewrite D4, C4 in *.
  replace (List.length (journal db1) + 2)%nat
    with (List.length (journal (log (Select "dim_date") (log (Select "dim_campaign") db1))))
    by (cbn [log journal]; rewrite !length_app; cbn [List.length]; lia).
  repeat split; assumption.
Qed.

End Rows.

Lemma rejected_row_leaves_its_campaign_witness :
  fst (Worker.performance_row sample_runtime [("Campaign", JStr "Mess FB Perfume")] D1.seeded)
  = inl (D1.constraint_failed "NOT NULL constraint failed: fact_ads_performance.date_key")
  /\ D1.dim_campaign
       (snd (Worker.performance_row sample_runtime [("Campaign", JStr "Mess FB Perfume")]
               D1.seeded))
     = [ {| D1.campaign_id := 1; D1.campaign_name := "Mess FB Perfume";
            D1.platform := VText "Facebook"; D1.objective := VText "Message" |} ].
Proof.
  destruct (rejected_row_leaves_its_campaign sample_runtime
              [("Campaign", JStr "Mess FB Perfume")] "Mess FB Perfume" D1.seeded
              eq_refl ltac:(discriminate) eq_refl eq_refl) as (E & _ & C).
  split; [exact E | exact C].
Defined.

Lemma resent_row_is_stored_twice_witness :
  exists f : D1.fact_ads_performance_row,
    D1.fact_ads_performance (snd (Worker.performance_row sample_runtime row_mess D1.seeded))
    = [f]
    /\ D1.fact_ads_performance
         (snd (Worker.performance_row sample_runtime row_mess
                 (snd (Worker.performance_row sample_runtime row_mess D1.seeded))))
       = [f; Fact.next_copy "2025-10-14 08:00:07" f].
Proof.
  destruct (resent_row_is_stored_twice sample_runtime row_mess "Mess FB Perfume" 2025 10 14
              D1.seeded (snd (Worker.performance_row sample_runtime row_mess D1.seeded))
              eq_refl ltac:(discriminate) eq_refl eq_refl ltac:(lia)
              ltac:(vm_compute; reflexivity))
    as (f & A & _ & B & _).
  exists f. split; [exact A | exact B].
Defined.

(** ** The facts of a batch *)

Section Persisted_rows.

Import Cal Civil D1 Worker Store.

Variable rt : Runtime.

(** *** What the two resolvers hand to the insert *)

Lemma getOrCreateCampaign_beside name :
  keeps (fun db => (dim_date db, fact_ads_performance db, seq_performance db))
    (getOrCreateCampaign name).
Proof.
  assert (S : forall s, keeps (fun db => (dim_date db, fact_ads_performance db,
                                          seq_performance db)) (select_campaign s))
    by (intros s db; reflexivity).
  assert (I : forall s o, keeps (fun db => (dim_date db, fact_ads_performance db,
                                            seq_performance db)) (insert_campaign s o))
    by (intros s o db; unfold insert_campaign; destruct (existsb _ _); reflexivity).
  unfold getOrCreateCampaign. repeat frame_step; auto.
Qed.

Lemma getOrCreateDate_beside dateStr :
  keeps (fun db => (dim_campaign db, fact_ads_performance db, seq_performance db))
    (getOrCreateDate rt dateStr).
Proof.
  assert (S : forall k, keeps (fun db => (dim_campaign db, fact_ads_performance db,
                                          seq_performance db)) (select_date k))
    by (intros k db; reflexivity).
  assert (I : forall key full yr qt mo mn wk dom dow dn we,
             keeps (fun db => (dim_campaign db, fact_ads_performance db, seq_performance db))
               (insert_date key full yr qt mo mn wk dom dow dn we)).
  { intros key full yr qt mo mn wk dom dow dn we db. unfold insert_date.
    destruct yr, qt, mo, wk, dom, dow; try reflexivity.
    destruct (match key with VNull => _ | _ => as_integer key end); try reflexivity.
    repeat (destruct (existsb _ _); try reflexivity). }
  unfold getOrCreateDate. repeat frame_step; auto.
Qed.

(** The key [getOrCreateCampaign] returns is [null], or the key of the
    campaign that has the name in the store it leaves. *)
Lemma campaign_resolved (name cid : jsval) (db : DB) :
  fst (getOrCreateCampaign name db) = inr cid ->
  cid = JNull
  \/ exists s rc,
       name = JStr s /\ cid = JNum (Num.of_Z (campaign_id rc))
       /\ List.find (fun c => String.eqb (campaign_name c) s)
            (dim_campaign (snd (getOrCreateCampaign name db))) = Some rc.
Proof.
  destruct (JS.truthy name) eqn:T.
  - destruct name as [ | | b | f | s];
      try (unfold getOrCreateCampaign; rewrite T; cbn [negb fst throw]; discriminate).
    assert (Hs : s <> "") by (intros ->; discriminate T).
    destruct (getOrCreateCampaign_ready s db Hs) as (rc & E & F & _).
    rewrite E. intros H. injection H as <-. right. exists s, rc. repeat split. exact F.
  - unfold getOrCreateCampaign. rewrite T. cbn [negb ret fst]. intros H.
    injection H as <-. now left.
Qed.

(** An [INSERT] into [dim_date] that succeeds appends one row, under the
    key bound or, when that is [NULL], under the next row id. *)
Lemma insert_date_done key full yr qt mo mn wk dom dow dn we (db db1 : DB) :
  insert_date key full yr qt mo mn wk dom dow dn we db = (inr tt, db1) ->
  exists k rd,
    match key with
    | VNull => Some (max_key date_key (dim_date db) + 1)
    | _ => as_integer key
    end = Some k
    /\ List.existsb (fun r => date_key r =? k) (dim_date db) = false
    /\ dim_date db1 = (dim_date db ++ [rd])%list /\ date_key rd = k.
Proof.
  unfold insert_date. destruct yr, qt, mo, wk, dom, dow; try discriminate.
  destruct (match key with VNull => _ | _ => as_integer key end) as [k | ];
    [ | discriminate].
  destruct (List.existsb (fun r => date_key r =? k) (dim_date db)) eqn:E; [discriminate | ].
  destruct (List.existsb (fun r => String.eqb (D1.full_date r) full) (dim_date db));
    [discriminate | ].
  cbv zeta. intros H. injection H as <-. eexists k, _. repeat split. exact E.
Qed.

(** The key [getOrCreateDate] returns is bound as [NULL], or the store
    it leaves has a date under the key [getDateKey] computes, and the key
    returned is that key, as computed or as read from the store. *)
Lemma date_resolved (dateStr dk : jsval) (db : DB) :
  fst (getOrCreateDate rt dateStr db) = inr dk ->
  bind_value dk = inr VNull
  \/ exists key v z rd,
       getDateKey dateStr = inr key /\ bind_value key = inr v /\ as_integer v = Some z
       /\ List.find (fun d => date_key d =? z)
            (dim_date (snd (getOrCreateDate rt dateStr db))) = Some rd
       /\ (dk = key \/ dk = JNum (Num.of_Z z)).
Proof.
  set (out := getOrCreateDate rt dateStr db).
  assert (E : getOrCreateDate rt dateStr db = out) by reflexivity.
  clearbody out. revert E.
  unfold getOrCreateDate, getDateKey. destruct (JS.truthy dateStr) eqn:T; cbn [negb].
  2: { intros <-. cbn [ret fst]. intros H. injection H as <-. now left. }
  destruct dateStr as [ | | b | f | s]; try (intros <-; cbn [throw fst]; discriminate).
  set (dateKey := Num.parseInt (Str.remove_all "-" s)).
  set (date := DateObj.of_string rt s).
  unfold bind at 1. unfold lift at 1.
  destruct (bind_value (JNum dateKey)) as [e | v] eqn:B;
    [intros <-; cbn [fst]; discriminate | ].
  unfold bind at 1. unfold select_date at 1.
  assert (Created :
    forall out,
      (match index monthNames (DateObj.getMonth date),
             index dayNames (DateObj.getDay date) with
       | Some month_name, Some day_name =>
           _ <- insert_date v s
                  (DateObj.getFullYear date)
                  (option_map (fun m => Cal.ceil_div (m + 1) 3) (DateObj.getMonth date))
                  (option_map (fun m => m + 1) (DateObj.getMonth date))
                  month_name
                  (getWeekOfYear date)
                  (DateObj.getDate date)
                  (option_map (fun d => if d =? 0 then 7 else d) (DateObj.getDay date))
                  day_name
                  (match DateObj.getDay date with
                   | Some d => if (d =? 0) || (d =? 6) then 1 else 0
                   | None => 0
                   end) ;;
           ret (JNum dateKey)
       | _, _ => _ <- lift (bind_value JUndefined) ;; ret (JNum dateKey)
       end) (log (Select "dim_date") db) = out ->
      fst out = inr dk ->
      dk = JNum dateKey
      /\ exists k rd,
           match v with
           | VNull => Some (max_key date_key (dim_date db) + 1)
           | _ => as_integer v
           end = Some k
           /\ List.existsb (fun r => date_key r =? k) (dim_date db) = false
           /\ dim_date (snd out) = (dim_date db ++ [rd])%list /\ date_key rd = k).
  { intros o.
    destruct (index monthNames (DateObj.getMonth date)) as [month_name | ];
      [ | destruct (index dayNames (DateObj.getDay date)); intros <-;
          cbn [bind lift bind_value fst]; discriminate].
    destruct (index dayNames (DateObj.getDay date)) as [day_name | ];
      [ | intros <-; cbn [bind lift bind_value fst]; discriminate].
    unfold bind.
    match goal with
    | |- context [insert_date ?a ?b ?c ?d ?e ?f ?g ?h ?i ?j ?k ?l] =>
        pose proof (insert_date_done a b c d e f g h i j k l) as I;
        destruct (insert_date a b c d e f g h i j k l) as [[e' | []] dbi]
    end; [intros <-; cbn [fst]; discriminate | ].
    intros <-. cbn [ret fst snd]. intros H. injection H as <-.
    split; [reflexivity | ]. exact (I dbi eq_refl). }
  destruct (as_integer v) as [z | ] eqn:Z.
  - destruct (List.find (fun r => date_key r =? z) (dim_date db)) as [rd | ] eqn:F.
    + intros <-. cbn [ret fst snd to_js log dim_date]. intros H. injection H as <-. right.
      pose proof (List.find_some _ _ F) as [_ K]. apply Z.eqb_eq in K.
      exists (JNum dateKey), v, z, rd. rewrite K. repeat split; auto.
    + cbv beta iota. intros Eo Ho.
      destruct (Created out Eo Ho) as (-> & k & rd & Hk & Hnew & Hdim & Hkey).
      assert (Ek : k = z) by (destruct v; try discriminate Z; congruence).
      rewrite Ek in Hkey.
      right. exists (JNum dateKey), v, z, rd. repeat split; auto.
      rewrite Hdim. apply (find_app_new _ _ _ F). rewrite Hkey. apply Z.eqb_refl.
  - cbv beta iota. intros Eo Ho.
    destruct (Created out Eo Ho) as (-> & k & rd & Hk & _).
    left. destruct v; try congruence.
Qed.

(** *** One row *)

Lemma safe_integer_bounds (k : Z) : safe_integer k = true -> 0 <= k < 2 ^ 53.
Proof.
  unfold safe_integer. change (2 ^ 53) with 9007199254740992. lia.
Qed.

Lemma safe_campaign (db : DB) (c : dim_campaign_row) :
  safe_keys db = true -> In c (dim_campaign db) -> 0 <= campaign_id c < 2 ^ 53.
Proof.
  unfold safe_keys. intros H Hin. apply andb_prop in H. destruct H as [H _].
  apply safe_integer_bounds. exact (proj1 (List.forallb_forall _ _) H c Hin).
Qed.

Lemma safe_date (db : DB) (d : dim_date_row) :
  safe_keys db = true -> In d (dim_date db) -> 0 <= date_key d < 2 ^ 53.
Proof.
  unfold safe_keys. intros H Hin. apply andb_prop in H. destruct H as [_ H].
  apply safe_integer_bounds. exact (proj1 (List.forallb_forall _ _) H d Hin).
Qed.

(** A row that fails leaves no fact, and the key of the next fact is
    what it was. *)
Lemma performance_row_failed (r : row) (e : exn) (db db1 : DB) :
  performance_row rt r db = (inl e, db1) ->
  fact_ads_performance db1 = fact_ads_performance db
  /\ seq_performance db1 = seq_performance db.
Proof.
  unfold performance_row. unfold bind at 1.
  pose proof (getOrCreateCampaign_beside (JS.get r "Campaign") db) as C.
  destruct (getOrCreateCampaign (JS.get r "Campaign") db) as [[e1 | cid] dbc];
    cbn [snd] in C.
  { intros H. injection H as _ <-. injection C as _ C1 C2. now split. }
  unfold bind at 1.
  pose proof (getOrCreateDate_beside (JS.get r "Date") dbc) as D.
  destruct (getOrCreateDate rt (JS.get r "Date") dbc) as [[e2 | dk] dbd]; cbn [snd] in D.
  { intros H. injection H as _ <-. injection C as _ C1 C2. injection D as _ D1 D2.
    split; congruence. }
  assert (F : fact_ads_performance dbd = fact_ads_performance db
              /\ seq_performance dbd = seq_performance db).
  { injection C as _ C1 C2. injection D as _ D1 D2. split; congruence. }
  clear C D. unfold bind, lift.
  repeat match goal with
         | |- context [match parseVietnameseNumber ?t ?v with _ => _ end] =>
             destruct (parseVietnameseNumber t v) as [? | ?x];
             [intros H; injection H as _ <-; exact F | ]
         | |- context [match bind_value ?v with _ => _ end] =>
             destruct (bind_value v) as [? | ?p];
             [intros H; injection H as _ <-; exact F | ]
         end.
  unfold insert_performance.
  repeat match goal with
         | |- context [if ?c then _ else _] =>
             destruct c; [intros H; injection H as _ <-; exact F | ]
         end.
  discriminate.
Qed.

(** A row that succeeds leaves one fact, under the next key, and the
    fact holds the row. *)
Lemma performance_row_persisted (r : row) (db db1 : DB) :
  performance_row rt r db = (inr tt, db1) -> safe_keys db1 = true ->
  exists f,
    fact_ads_performance db1 = (fact_ads_performance db ++ [f])%list
    /\ pf_id f = next_key pf_id (fact_ads_performance db) (seq_performance db)
    /\ seq_performance db1 = pf_id f
    /\ persisted rt db1 r f.
Proof.
  unfold performance_row. unfold bind at 1.
  pose proof (getOrCreateCampaign_beside (JS.get r "Campaign") db) as C.
  pose proof (campaign_resolved (JS.get r "Campaign")) as RC. specialize (RC) with (db := db).
  destruct (getOrCreateCampaign (JS.get r "Campaign") db) as [[e1 | cid] dbc];
    cbn [fst snd] in C, RC; [discriminate | ].
  specialize (RC cid eq_refl).
  unfold bind at 1.
  pose proof (getOrCreateDate_beside (JS.get r "Date") dbc) as D.
  pose proof (date_resolved (JS.get r "Date")) as RD. specialize (RD) with (db := dbc).
  destruct (getOrCreateDate rt (JS.get r "Date") dbc) as [[e2 | dk] dbd];
    cbn [fst snd] in D, RD; [discriminate | ].
  specialize (RD dk eq_refl).
  injection C as C0 C1 C2. injection D as D0 D1 D2.
  unfold bind, lift.
  destruct (parseVietnameseNumber rt (JS.Prim (JS.get r "AmountSpent")))
    as [? | amountSpent] eqn:N1; [discriminate | ].
  destruct (parseVietnameseNumber rt (JS.Prim (JS.get r "CostPerResult")))
    as [? | costPerResult] eqn:N2; [discriminate | ].
  destruct (bind_value dk) as [? | p1] eqn:B1; [discriminate | ].
  destruct (bind_value cid) as [? | p2] eqn:B2; [discriminate | ].
  destruct (bind_value (JS.or_else (JS.get r "AdSet") JNull)) as [? | p3] eqn:B3;
    [discriminate | ].
  destruct (bind_value (JS.or_else (JS.get r "Ad") JNull)) as [? | p4] eqn:B4;
    [discriminate | ].
  destruct (bind_value (JS.or_else (JS.get r "Indicator") JNull)) as [? | p5] eqn:B5;
    [discriminate | ].
  destruct (bind_value (JS.or_else (JS.get r "ActionKey") JNull)) as [? | p6] eqn:B6;
    [discriminate | ].
  destruct (bind_value (JNum amountSpent)) as [? | p7] eqn:B7; [discriminate | ].
  destruct (bind_value (JS.or_else (JNum (JS.parseInt rt (JS.get r "Results"))) (JNum 0)))
    as [? | p8] eqn:B8; [discriminate | ].
  destruct (bind_value (JNum costPerResult)) as [? | p9] eqn:B9; [discriminate | ].
  destruct (bind_value (JS.or_else (JNum (JS.parseInt rt (JS.get r "Impressions")))
                          (JNum 0))) as [? | p10] eqn:B10; [discriminate | ].
  unfold insert_performance.
  destruct (is_null p1) eqn:N1'; [discriminate | ].
  destruct (is_null p2) eqn:N2'; [discriminate | ].
  destruct (negb _); [discriminate | ].
  intros H Safe. injection H as <-.
  cbn [log set_fact_ads_performance dim_campaign dim_date] in Safe.
  assert (Sc : forall c, In c (dim_campaign dbd) -> 0 <= campaign_id c < 2 ^ 53)
    by (intros c Hin; apply (safe_campaign _ c Safe); exact Hin).
  assert (Sd : forall d, In d (dim_date dbd) -> 0 <= date_key d < 2 ^ 53)
    by (intros d Hin; apply (safe_date _ d Safe); exact Hin).
  eexists. split; [ | split; [ | split]].
  - cbn [log set_fact_ads_performance fact_ads_performance]. rewrite <- C1, <- D1.
    reflexivity.
  - cbn [pf_id]. now rewrite D1, D2, C1, C2.
  - reflexivity.
  - unfold persisted.
    cbn [log set_fact_ads_performance dim_campaign dim_date pf_date_key pf_campaign_id
         pf_adset_name pf_ad_name pf_indicator pf_action_key pf_amount_spent pf_results
         pf_cost_per_result pf_impressions pf_created_at].
    split; [ | split].
    + destruct RC as [-> | (s & rc & Hn & -> & F)];
        [cbn in B2; injection B2 as <-; discriminate N2' | ].
      rewrite <- D0 in F. pose proof (List.find_some _ _ F) as [Hin _].
      rewrite (bind_value_of_Z _ (Sc rc Hin)) in B2. injection B2 as <-.
      exists s, rc. split; [exact Hn | ]. split; [exact F | ].
      unfold key_of. now rewrite (as_integer_of_Z _ (Sc rc Hin)).
    + destruct RD as [Hnull | (key & v & z & rd & K & Bv & Z & F & Hdk)];
        [injection Hnull as ->; discriminate N1' | ].
      exists key, v, rd. split; [exact K | ]. split; [exact Bv | ].
      assert (Ek : key_of p1 = z).
      { destruct Hdk as [-> | ->].
        - rewrite Bv in B1. injection B1 as <-. unfold key_of. now rewrite Z.
        - pose proof (List.find_some _ _ F) as [Hin Hk]. apply Z.eqb_eq in Hk.
          pose proof (Sd rd Hin) as Hz. rewrite Hk in Hz.
          rewrite (bind_value_of_Z _ Hz) in B1. injection B1 as <-.
          unfold key_of. now rewrite (as_integer_of_Z _ Hz). }
      rewrite Ek. split; [exact Z | exact F].
    + repeat split;
        try (eexists; split; [eassumption | reflexivity]);
        try (eexists; split; [eassumption | eexists; split; [eassumption | reflexivity]]).
      eexists. reflexivity.
Qed.

(** *** The batch *)

Lemma find_app_found {A : Type} (p : A -> bool) (l new : list A) (a : A) :
  List.find p l = Some a -> List.find p (l ++ new) = Some a.
Proof.
  induction l as [ | b l IH]; cbn [List.find app]; [discriminate | ].
  destruct (p b); [auto | exact IH].
Qed.

(** A fact that holds a row goes on holding it while the store grows. *)
Lemma persisted_grows (db db' : DB) (r : row) (f : fact_ads_performance_row) :
  grows db db' -> persisted rt db r f -> persisted rt db' r f.
Proof.
  intros G (Hc & Hd & Rest). destruct (grows_campaign _ _ G) as [nc Ec].
  destruct (grows_date _ _ G) as [nd Ed].
  split; [ | split; [ | exact Rest]].
  - destruct Hc as (name & c & Hn & F & Hk). exists name, c.
    rewrite Ec. split; [exact Hn | ]. split; [now apply find_app_found | exact Hk].
  - destruct Hd as (key & v & d & K & B & Z & F). exists key, v, d.
    rewrite Ed. repeat split; try assumption. now apply find_app_found.
Qed.

Lemma safe_keys_grows (db db' : DB) :
  grows db db' -> safe_keys db' = true -> safe_keys db = true.
Proof.
  intros G. destruct (grows_campaign _ _ G) as [nc Ec].
  destruct (grows_date _ _ G) as [nd Ed].
  unfold safe_keys. rewrite Ec, Ed, !List.forallb_app.
  intros H. apply andb_prop in H. destruct H as [H1 H2].
  apply andb_prop in H1. apply andb_prop in H2. now rewrite (proj1 H1), (proj1 H2).
Qed.

Lemma consecutive_next (first : Z) (n : nat) :
  consecutive first (S n) = first :: consecutive (first + 1) n.
Proof.
  unfold consecutive. cbn [List.seq List.map]. rewrite Z.add_0_r. f_equal.
  rewrite <- List.seq_shift, List.map_map. apply List.map_ext. intros i. lia.
Qed.

Lemma fact_max_key (l : list fact_ads_performance_row) : 0 <= max_key pf_id l.
Proof.
  induction l as [ | a l IH]; cbn [max_key fold_right]; [lia | ].
  fold (max_key pf_id l). lia.
Qed.

Lemma fact_max_key_app (l : list fact_ads_performance_row) (x : fact_ads_performance_row) :
  max_key pf_id (l ++ [x]) = Z.max (max_key pf_id l) (pf_id x).
Proof.
  induction l as [ | a l IH].
  - cbn. lia.
  - cbn [app max_key fold_right]. fold (max_key pf_id (l ++ [x])). fold (max_key pf_id l).
    rewrite IH. lia.
Qed.

(** The facts a run appends are those of the rows that succeeded, in
    order and under consecutive keys. *)
Lemma outcomes_persisted (rows : list row) :
  forall db,
    safe_keys (snd (outcomes (performance_row rt) rows db)) = true ->
    exists new,
      fact_ads_performance (snd (outcomes (performance_row rt) rows db))
      = (fact_ads_performance db ++ new)%list
      /\ Forall2 (persisted rt (snd (outcomes (performance_row rt) rows db)))
           (successes (fst (outcomes (performance_row rt) rows db))) new
      /\ List.map pf_id new
         = consecutive (next_key pf_id (fact_ads_performance db) (seq_performance db))
             (List.length new).
Proof.
  induction rows as [ | r rows IH]; intros db Safe.
  - exists []. cbn [outcomes fst snd]. rewrite app_nil_r. repeat split. constructor.
  - cbn [outcomes] in *.
    destruct (performance_row rt r db) as [res db1] eqn:R.
    pose proof (outcomes_steps grows grows_refl grows_trans (performance_row rt)
                  (performance_row_grows rt) rows db1) as G.
    specialize (IH db1).
    destruct (outcomes (performance_row rt) rows db1) as [run dbf].
    cbn [fst snd] in *. destruct (IH Safe) as (new & Hnew & Hall & Hids).
    destruct res as [e | []].
    + destruct (performance_row_failed r e db db1 R) as [F S].
      exists new. rewrite <- F, <- S. repeat split; assumption.
    + destruct (performance_row_persisted r db db1 R (safe_keys_grows _ _ G Safe))
        as (f & Hf & Hid & Hseq & Hp).
      exists (f :: new). split; [ | split].
      * rewrite Hnew, Hf, <- app_assoc. reflexivity.
      * unfold successes. cbn [List.filter succeeded snd List.map fst].
        constructor; [exact (persisted_grows _ _ _ _ G Hp) | exact Hall].
      * cbn [List.map List.length]. rewrite consecutive_next, Hids, <- Hid. f_equal.
        f_equal. rewrite Hf, Hseq. unfold next_key. rewrite fact_max_key_app.
        pose proof (fact_max_key (fact_ads_performance db)). unfold next_key in Hid. lia.
Qed.

(** C2.  In a batch submitted to [ingestPerformance] in which one row
    fails (its [try] block throws [err]) and every other row succeeds, the
    failure is caught and recorded with the row and the message of the
    error, the loop goes on, and the response reports [processed = N - 1]
    and exactly one entry of [errors], for that row.  The fact table gains
    one fact for each of the other [N - 1] rows, in the order of the rows
    and under consecutive keys, and each fact holds its row: it names the
    campaign of the store that has the name of the row and the date of the
    store under the key of the date of the row, and every other column
    keeps what the row gives for it, as the store keeps a value bound to
    a column of its type.  The run is one that leaves the keys of the
    campaigns and of the dates of the store among the integers from 0 below
    [2^53]: the worker reads every key into a number, and those are the
    keys a number holds as they are. *)
Theorem ingest_isolates_one_failing_row
    (pre post : list row) (rk : row) (err : exn) (db : DB) :
  List.map snd (fst (outcomes (performance_row rt) (pre ++ rk :: post) db))
  = (List.map (fun _ => inr tt) pre ++ inl err :: List.map (fun _ => inr tt) post)%list ->
  safe_keys (snd (ingestPerformance rt (Some (pre ++ rk :: post)%list) db)) = true ->
  let result := ingestPerformance rt (Some (pre ++ rk :: post)%list) db in
  status (fst result) = 200
  /\ Json.field "processed" (data_of (fst result))
     = Some (JsNum (Num.of_Z (Z.of_nat (List.length (pre ++ rk :: post)) - 1)))
  /\ Json.field "errors" (data_of (fst result))
     = Some (JsArr [ JsObj [ ("row", Json.of_row rk); ("error", JsStr (message err)) ] ])
  /\ exists new,
       fact_ads_performance (snd result) = (fact_ads_performance db ++ new)%list
       /\ Forall2 (persisted rt (snd result)) (pre ++ post) new
       /\ List.map pf_id new
          = consecutive (next_key pf_id (fact_ads_performance db) (seq_performance db))
              (List.length (pre ++ post)).
Proof.
  intros Hrun Safe result. subst result. revert Safe. unfold ingestPerformance.
  rewrite ingest_some.
  destruct (one_failure pre post rk err _
              (outcomes_rows (performance_row rt) (pre ++ rk :: post) db) Hrun)
    as [Hs Hf].
  cbn [fst snd]. intros Safe. rewrite Hs, Hf.
  unfold ingest_response. rewrite data_of_jsonResponse.
  repeat split.
  - cbn. do 3 f_equal. rewrite !length_app. cbn [List.length]. lia.
  - destruct (outcomes_persisted (pre ++ rk :: post) db Safe) as (new & Hnew & Hall & Hids).
    rewrite Hs in Hall. exists new. split; [exact Hnew | ]. split; [exact Hall | ].
    rewrite (Forall2_length Hall). exact Hids.
Qed.

End Persisted_rows.

Lemma ingest_isolates_one_failing_row_witness :
  List.map snd
    (fst (Worker.outcomes (Worker.performance_row sample_runtime)
            [row_mess; row_no_campaign; row_numbers] D1.empty))
  = [inr tt; inl campaign_id_null; inr tt]
  /\ Store.safe_keys
       (snd (Worker.ingestPerformance sample_runtime
               (Some [row_mess; row_no_campaign; row_numbers]) D1.empty)) = true
  /\ Json.field "processed"
       (Worker.data_of
          (fst (Worker.ingestPerformance sample_runtime
                  (Some [row_mess; row_no_campaign; row_numbers]) D1.empty)))
     = Some (JsNum (Num.of_Z 2))
  /\ exists f g,
       D1.fact_ads_performance
         (snd (Worker.ingestPerformance sample_runtime
                 (Some [row_mess; row_no_campaign; row_numbers]) D1.empty))
       = [f; g]
       /\ D1.pf_id f = 1 /\ D1.pf_id g = 2
       /\ Worker.persisted sample_runtime
            (snd (Worker.ingestPerformance sample_runtime
                    (Some [row_mess; row_no_campaign; row_numbers]) D1.empty))
            row_numbers g.
Proof.
  assert (H : List.map snd
                (fst (Worker.outcomes (Worker.performance_row sample_runtime)
                        ([row_mess] ++ row_no_campaign :: [row_numbers]) D1.empty))
              = (List.map (fun _ => inr tt) [row_mess] ++ inl campaign_id_null
                   :: List.map (fun _ => inr tt) [row_numbers])%list)
    by (vm_compute; reflexivity).
  assert (S : Store.safe_keys
                (snd (Worker.ingestPerformance sample_runtime
                        (Some ([row_mess] ++ row_no_campaign :: [row_numbers])%list)
                        D1.empty)) = true)
    by (vm_compute; reflexivity).
  split; [exact H | ]. split; [exact S | ].
  destruct (ingest_isolates_one_failing_row sample_runtime
              [row_mess] [row_numbers] row_no_campaign campaign_id_null D1.empty H S)
    as (_ & P & _ & new & Hnew & Hall & Hids).
  split; [exact P | ].
  inversion Hall as [ | r1 f l1 l2 _ Hrest]; subst.
  inversion Hrest as [ | r2 g l3 l4 Hg Hnil]; subst.
  inversion Hnil; subst.
  exists f, g. split; [exact Hnew | ].
  cbn in Hids. injection Hids as I1 I2.
  split; [exact I1 | ]. split; [exact I2 | exact Hg].
Defined.

(** The store keeps the number 7 in a column of text as ['7.0'], and an
    amount beyond the doubles as [NULL]. *)
Example a_number_in_a_text_column :
  List.map (fun f => (D1.pf_adset_name f, D1.pf_amount_spent f))
    (D1.fact_ads_performance
       (snd (Worker.performance_row sample_runtime row_numbers D1.empty)))
  = [(VText "7.0", VNull)].
Proof. vm_compute. reflexivity. Qed.

(** ** Objectives: the column and the name *)

Section Objectives.

Import D1 Worker.

Lemma starts_with_map (f : ascii -> ascii) (p s : string) :
  Str.starts_with p s = true -> Str.starts_with (Str.map f p) (Str.map f s) = true.
Proof.
  revert s. induction p as [ | a p IH]; intros s H; [reflexivity | ].
  destruct s as [ | b s]; [discriminate | ].
  cbn [Str.starts_with Str.map] in *. apply andb_prop in H. destruct H as [Hab Hp].
  apply Ascii.eqb_eq in Hab. subst b. now rewrite Ascii.eqb_refl, IH.
Qed.

Lemma includes_map (f : ascii -> ascii) (s sub : string) :
  Str.includes s sub = true -> Str.includes (Str.map f s) (Str.map f sub) = true.
Proof.
  induction s as [ | a s IH]; cbn [Str.includes Str.map]; intros H.
  - rewrite orb_false_r in *. now apply starts_with_map with (s := EmptyString).
  - apply orb_prop in H. destruct H as [H | H].
    + apply (starts_with_map f) in H. cbn [Str.map] in H. now rewrite H.
    + rewrite (IH H). apply orb_true_r.
Qed.

(** A substring of a name without the character U+0000 is found again by
    [LIKE]. *)
Lemma includes_like (token name : string) :
  Sql.plain token = true -> token <> "" -> Str.occurs Str.nul token = false ->
  Str.occurs Str.nul name = false ->
  Str.includes name token = true -> Sql.like ("%" ++ token ++ "%") name = true.
Proof.
  intros Hp Hn Ht Hz H. rewrite (like_contains token Hp Hn Ht name Hz).
  unfold Sql.contains_ignoring_case. now apply includes_map.
Qed.

(** In [getTopAds] and [getTopProducts] the objective a campaign was
    given at creation does not decide when the name of the campaign holds
    no character U+0000: for every such campaign as [getOrCreateCampaign]
    stores it, each of the three tests [objective = ... OR campaign_name
    LIKE ...] holds exactly when its [LIKE] does.  The campaigns of an
    objective are then those whose name contains [mess], [impression] or
    [visit], in any case of the letters. *)
Theorem objective_filters_follow_the_name (c : dim_campaign_row) :
  objective c = VText (objective_of (campaign_name c)) ->
  Str.occurs Str.nul (campaign_name c) = false ->
  Filter.messages c = Sql.like "%Mess%" (campaign_name c)
  /\ Filter.impressions c = Sql.like "%Impression%" (campaign_name c)
  /\ Filter.visits c = Sql.like "%Visit%" (campaign_name c).
Proof.
  intros E Hz. unfold Filter.messages, Filter.impressions, Filter.visits. rewrite E.
  unfold objective_of, Filter.is_text.
  destruct (Str.includes (campaign_name c) "Impression") eqn:I.
  - pose proof (includes_like "Impression" _ eq_refl ltac:(discriminate) eq_refl Hz I) as L.
    change ("%" ++ "Impression" ++ "%")%string with "%Impression%" in L. rewrite L.
    repeat split; reflexivity.
  - destruct (Str.includes (campaign_name c) "Visit") eqn:V.
    + pose proof (includes_like "Visit" _ eq_refl ltac:(discriminate) eq_refl Hz V) as L.
      change ("%" ++ "Visit" ++ "%")%string with "%Visit%" in L. rewrite L.
      repeat split; reflexivity.
    + destruct (Str.includes (campaign_name c) "Mess") eqn:M.
      * pose proof (includes_like "Mess" _ eq_refl ltac:(discriminate) eq_refl Hz M) as L.
        change ("%" ++ "Mess" ++ "%")%string with "%Mess%" in L. rewrite L.
        repeat split; reflexivity.
      * repeat split; reflexivity.
Qed.

End Objectives.

Lemma objective_filters_follow_the_name_witness :
  Filter.messages
    {| D1.campaign_id := 1; D1.campaign_name := "IMPRESSION fb";
       D1.platform := VText "Facebook"; D1.objective := VText "Unknown" |}
  = false
  /\ Filter.impressions
       {| D1.campaign_id := 1; D1.campaign_name := "IMPRESSION fb";
          D1.platform := VText "Facebook"; D1.objective := VText "Unknown" |}
     = true.
Proof.
  destruct (objective_filters_follow_the_name
              {| D1.campaign_id := 1; D1.campaign_name := "IMPRESSION fb";
                 D1.platform := VText "Facebook"; D1.objective := VText "Unknown" |}
              eq_refl eq_refl) as (M & I & _).
  split; [exact M | exact I].
Defined.

(** ** The endpoints and the router *)

Section Endpoints.

Import Cal D1 Worker Dashboard Router.

(** *** The dates of a request *)

Lemma iso_day_TimeClip (t : Z) :
  Z.abs t <= 8640000000000000 -> iso_day (TimeClip t) = inr (DateObj.before_T (Cal.toISOString t)).
Proof.
  intros H. unfold TimeClip. destruct (Z.leb_spec (Z.abs t) 8640000000000000); [reflexivity | lia].
Qed.

(** With valid readings of the clock the default window is a window. *)
Lemma last_thirty_days_returns (clock : Z * Z) :
  Z.abs (fst clock) <= 8640000000000000 ->
  30 * msPerDay - 8640000000000000 <= snd clock <= 8640000000000000 ->
  last_thirty_days clock
  = inr (DateObj.before_T (Cal.toISOString (snd clock - 30 * msPerDay)),
         DateObj.before_T (Cal.toISOString (fst clock))).
Proof.
  intros H1 H2. unfold last_thirty_days.
  rewrite (iso_day_TimeClip _ H1).
  assert (E : TimeClip (snd clock) = Some (snd clock)).
  { unfold TimeClip, msPerDay in *.
    destruct (Z.leb_spec (Z.abs (snd clock)) 8640000000000000); [reflexivity | lia]. }
  rewrite E, setDate_minus_30, iso_day_TimeClip by (unfold msPerDay in *; lia).
  reflexivity.
Qed.

Lemma date_range_returns (clock : Z * Z) (params : list (string * string)) :
  Z.abs (fst clock) <= 8640000000000000 ->
  30 * msPerDay - 8640000000000000 <= snd clock <= 8640000000000000 ->
  exists startDate endDate, date_range clock params = inr (startDate, endDate).
Proof.
  intros H1 H2. unfold date_range.
  destruct (negb _ || negb _); [ | eexists; eexists; reflexivity].
  rewrite last_thirty_days_returns by assumption. eexists; eexists; reflexivity.
Qed.

(** *** Answers in the envelope *)

Lemma enveloped_200 (data : json) : enveloped (jsonResponse (Some data) 200).
Proof. split; [left; reflexivity | exists data; reflexivity]. Qed.

Lemma enveloped_500 (data : json) : enveloped (jsonResponse (Some data) 500).
Proof. split; [right; reflexivity | exists data; reflexivity]. Qed.

Lemma returns_ok_ret (data : json) : returns_ok (ret (jsonResponse (Some data) 200)).
Proof.
  intros db r db' H. injection H as <- _. split; [reflexivity | apply enveloped_200].
Qed.

Lemma returns_ok_throw (e : exn) : returns_ok (throw e).
Proof. intros db r db' H. discriminate. Qed.

Lemma returns_ok_bind {A : Type} (m : M A) (k : A -> M Response) :
  (forall a, returns_ok (k a)) -> returns_ok (bind m k).
Proof.
  intros Hk db r db' H. unfold bind in H.
  destruct (m db) as [[e | a] db1]; [discriminate | exact (Hk a db1 r db' H)].
Qed.

(** A [try] block with the [catch] of the endpoints always answers, in
    the envelope. *)
Lemma attempt_enveloped (body : M Response) (db : DB) :
  returns_ok body ->
  exists r, fst (attempt body db) = inr r /\ enveloped r.
Proof.
  intros Hb. unfold attempt. specialize (Hb db).
  destruct (body db) as [[e | r] db'].
  - eexists. split; [reflexivity | apply enveloped_500].
  - exists r. split; [reflexivity | exact (proj2 (Hb r db' eq_refl))].
Qed.

Ltac returns_ok_steps :=
  repeat match goal with
         | |- returns_ok (bind _ _) => apply returns_ok_bind; intro
         | |- returns_ok (ret (jsonResponse (Some _) 200)) => apply returns_ok_ret
         | |- returns_ok (throw _) => apply returns_ok_throw
         | |- returns_ok (match ?x with _ => _ end) => destruct x
         end.

(** Every endpoint whose queries lie in a [try] block answers in the
    envelope [{ success, data }], with status 200 and [success] true or
    with status 500 and [success] false: whatever the parameters of the
    request and whatever the store does with the statements, no exception
    leaves the endpoint, provided the clock is one a [Date] can hold thirty
    days before. *)
Theorem guarded_endpoints_answer_in_the_envelope
    (env : Env) (request : Request) (h : handler) (db : DB) :
  Z.abs (fst (clock env)) <= 8640000000000000 ->
  30 * msPerDay - 8640000000000000 <= snd (clock env) <= 8640000000000000 ->
  In h guarded ->
  exists r : Response,
    fst (call env request h db) = inr r
    /\ (status r = 200 \/ status r = 500)
    /\ exists data : json,
         body r = JsObj [ ("success", JsBool (status r =? 200)); ("data", data) ].
Proof.
  intros H1 H2 Hh.
  destruct (date_range_returns (clock env) (searchParams request) H1 H2) as (s & e & Hr).
  enough (exists r, fst (call env request h db) = inr r /\ enveloped r)
    as (r & Hr' & He) by (exists r; split; [exact Hr' | exact He]).
  unfold guarded in Hh. cbn [In] in Hh.
  repeat (destruct Hh as [<- | Hh]); [ .. | contradiction ]; cbn [call].
  - unfold getDailyTrend. rewrite Hr. apply attempt_enveloped. returns_ok_steps.
  - unfold getTopCampaigns. destruct (date_filter _) as [w b].
    apply attempt_enveloped. returns_ok_steps.
  - unfold getDemographics. destruct (date_filter _) as [w b].
    apply attempt_enveloped. returns_ok_steps.
  - unfold getRegions. destruct (date_filter _) as [w b].
    apply attempt_enveloped. returns_ok_steps.
  - unfold getBreakdown. rewrite Hr. apply attempt_enveloped. returns_ok_steps.
  - unfold getTopAds. rewrite Hr. apply attempt_enveloped. returns_ok_steps.
  - unfold getTopProducts. rewrite Hr. apply attempt_enveloped. returns_ok_steps.
  - unfold healthCheck.
    destruct (run _ _ _ _ db) as [[err | rows] db'].
    + eexists. split; [reflexivity | apply enveloped_500].
    + destruct (DateObj.toISOString _); eexists;
        (split; [reflexivity | first [apply enveloped_500 | apply enveloped_200]]).
Qed.

(** *** The router *)

(** Every response of [fetch] carries the three CORS headers, with any
    origin allowed: the answer to a preflight, the answers of the
    endpoints, the dashboard page, and the answers 404 and 500 alike. *)
Theorem every_response_allows_any_origin (env : Env) (request : Request) (db : DB) :
  incl corsHeaders (headers (fst (fetch env request db))).
Proof.
  unfold fetch.
  destruct (String.eqb (method request) "OPTIONS"); [apply incl_refl | ].
  destruct (Sql.assoc _ routes) as [h | ].
  - destruct (call env request h db) as [[error | response] db']; cbn [fst headers].
    + apply incl_appl, incl_refl.
    + unfold of_jsonResponse, corsHeaders. cbn [headers].
      intros a Ha. cbn [In] in *. tauto.
  - destruct (_ || _); cbn [fst headers]; apply incl_appl, incl_refl.
Qed.

(** A body that is not JSON sent to an ingestion endpoint is answered
    with status 500 and [{ error: "Internal Server Error", message }],
    outside the envelope, since [request.json()] is called outside any [try]
    block of the endpoint; a JSON body that is not an array is answered with
    status 400 in the envelope.  Neither touches the store. *)
Theorem ingestion_answers_a_bad_body (env : Env) (request : Request) (db : DB) :
  method request = "POST" ->
  pathname request = "/api/ingest/performance"
  \/ pathname request = "/api/ingest/demographics"
  \/ pathname request = "/api/ingest/regions" ->
  match json_body request with
  | inl error => fetch env request db = (internal_server_error error, db)
  | inr None =>
      fetch env request db
      = (of_jsonResponse
           {| status := 400;
              body := JsObj [ ("success", JsBool false);
                              ("data", JsObj [ ("error", JsStr "Data must be an array") ]) ] |},
         db)
  | inr (Some _) => code (fst (fetch env request db)) = 200
  end.
Proof.
  intros Hm Hp. unfold fetch. rewrite Hm.
  destruct Hp as [-> | [-> | ->]]; cbn [String.eqb Ascii.eqb Bool.eqb append Sql.assoc routes];
    cbn [call]; unfold ingest_request;
    destruct (json_body request) as [error | [rows | ]]; try reflexivity;
    rewrite ingest_some; reflexivity.
Qed.

(** Dates that [Date] cannot read.  When [startDate] or [endDate] is
    given and is no date, [getOverview] throws: the previous period is
    computed before its [try] block, so that [fetch] answers with status 500
    outside the envelope and no statement reaches the store.  In
    [getDailyTrend] the same computation is inside the [try] block: with
    [compare=true] the answer is status 500 in the envelope. *)
Theorem dates_that_are_no_dates (env : Env) (request : Request) (db : DB)
    (startDate endDate : string) :
  Sql.assoc "startDate" (searchParams request) = Some startDate -> startDate <> "" ->
  Sql.assoc "endDate" (searchParams request) = Some endDate -> endDate <> "" ->
  DateObj.of_string (runtime env) startDate = None
  \/ DateObj.of_string (runtime env) endDate = None ->
  call env request GetOverview db = (inl (RangeError "Invalid time value"), db)
  /\ (method request = "GET" -> pathname request = "/api/overview" ->
      fetch env request db = (internal_server_error (RangeError "Invalid time value"), db))
  /\ (Sql.assoc "compare" (searchParams request) = Some "true" ->
      exists r : Response,
        fst (call env request GetDailyTrend db) = inr r /\ status r = 500
        /\ exists msg, body r = JsObj [ ("success", JsBool false);
                                        ("data", JsObj [ ("error", JsStr msg) ]) ]).
Proof.
  intros Hs Hsn He Hen Hbad.
  assert (Hrange : date_range (clock env) (searchParams request) = inr (startDate, endDate)).
  { unfold date_range, params_get. rewrite Hs, He.
    rewrite (truthy_string _ Hsn), (truthy_string _ Hen). reflexivity. }
  assert (Hprev : getPreviousPeriod (runtime env) startDate endDate
                  = inl (RangeError "Invalid time value")).
  { unfold getPreviousPeriod.
    destruct Hbad as [-> | ->].
    - reflexivity.
    - destruct (DateObj.of_string (runtime env) startDate) as [t | ]; [ | reflexivity].
      cbn [DateObj.lift2 DateObj.getTime DateObj.of_time].
      destruct (TimeClip (t - 86400000)); reflexivity. }
  assert (Hover : call env request GetOverview db = (inl (RangeError "Invalid time value"), db)).
  { cbn [call]. unfold getOverview. now rewrite Hrange, Hprev. }
  split; [exact Hover | ]. split.
  - intros Hm Hp. unfold fetch. rewrite Hm, Hp.
    cbn [String.eqb Ascii.eqb Bool.eqb append Sql.assoc routes]. now rewrite Hover.
  - intros Hc. cbn [call]. unfold getDailyTrend. rewrite Hrange.
    unfold params_get. rewrite Hc. cbn [JS.strict_eq String.eqb Ascii.eqb Bool.eqb].
    unfold attempt, bind at 1.
    destruct (run _ _ _ _ db) as [[e | rows] db1].
    + eexists. split; [reflexivity | ]. split; [reflexivity | ]. eexists. reflexivity.
    + unfold bind at 1 2. unfold lift. rewrite Hprev.
      eexists. split; [reflexivity | ]. split; [reflexivity | ]. eexists. reflexivity.
Qed.

(** *** The default window *)

Lemma Day_minus_days (t n : Z) : Day (t - n * msPerDay) = Day t - n.
Proof.
  unfold Day, msPerDay. replace (t - n * 86400000) with (t + (- n) * 86400000) by lia.
  rewrite Z.div_add by lia. lia.
Qed.

Lemma before_T_toISOString_any (t : Z) :
  DateObj.before_T (Cal.toISOString t) = Cal.iso_of_day (Day t).
Proof.
  unfold Cal.toISOString, Cal.iso_of_day.
  destruct (civil_from_days (Day t)) as [[y m] d].
  cbn [append]. apply before_T_append. apply no_T_iso_date.
Qed.

(** An endpoint that is given only one of the two dates, or none, does
    not use the one it is given: it queries the thirty days up to the day
    of the clock, in UTC. *)
Theorem a_single_date_is_ignored (clock : Z * Z) (params : list (string * string)) :
  Z.abs (fst clock) <= 8640000000000000 ->
  30 * msPerDay - 8640000000000000 <= snd clock <= 8640000000000000 ->
  JS.truthy (params_get params "startDate") = false
  \/ JS.truthy (params_get params "endDate") = false ->
  date_range clock params
  = inr (Cal.iso_of_day (Day (snd clock) - 30), Cal.iso_of_day (Day (fst clock))).
Proof.
  intros H1 H2 Hmiss. unfold date_range.
  assert (E : negb (JS.truthy (params_get params "startDate"))
              || negb (JS.truthy (params_get params "endDate")) = true)
    by (destruct Hmiss as [-> | ->]; [reflexivity | apply orb_true_r]).
  rewrite E, last_thirty_days_returns by assumption.
  now rewrite !before_T_toISOString_any, Day_minus_days.
Qed.

End Endpoints.

Lemma guarded_endpoints_answer_in_the_envelope_witness :
  exists r : Response,
    fst (Router.call Router.sample_env
           {| Router.method := "GET"; Router.pathname := "/api/breakdown";
              Router.searchParams := [("startDate", "2025-10-01")];
              Router.json_body := inr None |}
           Router.GetBreakdown D1.seeded) = inr r
    /\ (status r = 200 \/ status r = 500)
    /\ exists data : json,
         body r
         = JsObj [ ("success", JsBool (status r =? 200)); ("data", data) ].
Proof.
  apply (guarded_endpoints_answer_in_the_envelope Router.sample_env).
  - vm_compute. discriminate.
  - split; vm_compute; discriminate.
  - unfold Router.guarded. cbn [In]. do 4 right. left. reflexivity.
Defined.


Lemma ingestion_answers_a_bad_body_witness :
  Router.fetch Router.sample_env
    {| Router.method := "POST"; Router.pathname := "/api/ingest/regions";
       Router.searchParams := []; Router.json_body := inr None |}
    D1.seeded
  = (Router.of_jsonResponse
       {| status := 400;
          body := JsObj [ ("success", JsBool false);
                                 ("data", JsObj [ ("error", JsStr "Data must be an array") ]) ] |},
     D1.seeded).
Proof.
  exact (ingestion_answers_a_bad_body Router.sample_env
           {| Router.method := "POST"; Router.pathname := "/api/ingest/regions";
              Router.searchParams := []; Router.json_body := inr None |}
           D1.seeded eq_refl (or_intror (or_intror eq_refl))).
Defined.


Lemma dates_that_are_no_dates_witness :
  Router.fetch Router.sample_env
    {| Router.method := "GET"; Router.pathname := "/api/overview";
       Router.searchParams := [("startDate", "yesterday"); ("endDate", "2025-10-14")];
       Router.json_body := inr None |}
    D1.seeded
  = (Router.internal_server_error (RangeError "Invalid time value"), D1.seeded).
Proof.
  destruct (dates_that_are_no_dates Router.sample_env
              {| Router.method := "GET"; Router.pathname := "/api/overview";
                 Router.searchParams := [("startDate", "yesterday"); ("endDate", "2025-10-14")];
                 Router.json_body := inr None |}
              D1.seeded "yesterday" "2025-10-14"
              eq_refl ltac:(discriminate) eq_refl ltac:(discriminate)
              (or_introl eq_refl)) as (_ & F & _).
  exact (F eq_refl eq_refl).
Defined.


Lemma a_single_date_is_ignored_witness :
  Dashboard.date_range (1760400000000, 1760400000000) [("startDate", "2025-01-01")]
  = inr ("2025-09-14", "2025-10-14").
Proof.
  assert (A : Z.abs (fst (1760400000000, 1760400000000)) <= 8640000000000000)
    by (vm_compute; discriminate).
  assert (B : 30 * Cal.msPerDay - 8640000000000000 <= snd (1760400000000, 1760400000000)
              <= 8640000000000000)
    by (split; vm_compute; discriminate).
  assert (C : JS.truthy (Worker.params_get [("startDate", "2025-01-01")] "startDate") = false
              \/ JS.truthy (Worker.params_get [("startDate", "2025-01-01")] "endDate") = false)
    by (right; vm_compute; reflexivity).
  pose proof (a_single_date_is_ignored (1760400000000, 1760400000000)
             [("startDate", "2025-01-01")] A B C) as E.
  rewrite E.
  vm_compute. reflexivity.
Defined.

(** ** Top products *)

Section Top_products.

Import D1 Worker Dashboard.

Variable rt : Runtime.

(** The names a product line can have. *)
Lemma extractProductLine_known (adName : jsval) (product : string) :
  extractProductLine rt adName = inr product ->
  In product (List.map fst productMapping ++ ["Mix Product"]).
Proof.
  unfold extractProductLine.
  destruct (negb (JS.truthy adName)).
  - intros H. injection H as <-. apply in_or_app. right. left. reflexivity.
  - destruct adName as [ | | b | f | s]; try discriminate.
    rewrite scan_products_find.
    destruct (List.find _ productMapping) as [entry | ] eqn:F; cbn [option_map]; intros H;
      injection H as <-; apply in_or_app.
    + left. apply in_map. exact (proj1 (List.find_some _ _ F)).
    + right. left. reflexivity.
Qed.

Lemma add_product_names (productMap : list product_total) (product : string)
    (value spent : float) (name : string) :
  In name (List.map product_line (add_product productMap product value spent))
  <-> name = product \/ In name (List.map product_line productMap).
Proof.
  induction productMap as [ | entry rest IH]; cbn [add_product List.map In].
  - cbn [product_line]. intuition congruence.
  - destruct (String.eqb_spec (product_line entry) product) as [E | N];
      cbn [List.map In product_line].
    + rewrite E. intuition congruence.
    + rewrite IH. intuition congruence.
Qed.

Lemma add_product_NoDup (productMap : list product_total) (product : string)
    (value spent : float) :
  NoDup (List.map product_line productMap) ->
  NoDup (List.map product_line (add_product productMap product value spent)).
Proof.
  induction productMap as [ | entry rest IH]; cbn [add_product List.map]; intros H.
  - constructor; [intros [] | constructor].
  - inversion H as [ | x l Hx Hl]; subst.
    destruct (String.eqb_spec (product_line entry) product) as [E | N];
      cbn [List.map product_line].
    + constructor; assumption.
    + constructor; [ | exact (IH Hl)].
      rewrite add_product_names. intros [E | I]; [congruence | contradiction].
Qed.

Lemma aggregate_rows_names (data : list ad_row) :
  forall productMap result,
    aggregate_rows rt data productMap = inr result ->
    NoDup (List.map product_line productMap) ->
    incl (List.map product_line productMap) (List.map fst productMapping ++ ["Mix Product"]) ->
    NoDup (List.map product_line result)
    /\ incl (List.map product_line result) (List.map fst productMapping ++ ["Mix Product"]).
Proof.
  induction data as [ | row rest IH]; intros productMap result; cbn [aggregate_rows].
  - intros H. injection H as <-. tauto.
  - destruct (extractProductLine rt (ad_name row)) as [e | product] eqn:E; [discriminate | ].
    intros H Hn Hi. apply (IH _ _ H).
    + now apply add_product_NoDup.
    + intros name Hin. apply add_product_names in Hin. destruct Hin as [-> | Hin].
      * exact (extractProductLine_known _ _ E).
      * exact (Hi name Hin).
Qed.

(** The sort rearranges: it neither drops nor repeats an entry. *)
Lemma insert_sorted_In {A : Type} (before : A -> A -> bool) (x y : A) (l : list A) :
  In y (insert_sorted before x l) <-> y = x \/ In y l.
Proof.
  induction l as [ | a l IH]; cbn [insert_sorted In]; [intuition congruence | ].
  destruct (before x a); cbn [In]; [intuition congruence | ].
  rewrite IH. intuition congruence.
Qed.

Lemma insert_sorted_NoDup {A B : Type} (f : A -> B) (before : A -> A -> bool) (x : A)
    (l : list A) :
  NoDup (List.map f (x :: l)) -> NoDup (List.map f (insert_sorted before x l)).
Proof.
  induction l as [ | a l IH]; cbn [insert_sorted]; intros H; [exact H | ].
  destruct (before x a); [exact H | ].
  cbn [List.map] in *.
  inversion H as [ | ? ? Hx Hl]; subst. inversion Hl as [ | ? ? Ha Hl']; subst.
  constructor.
  - intros Hin. apply in_map_iff in Hin. destruct Hin as (y & Ey & Hy).
    apply insert_sorted_In in Hy. destruct Hy as [-> | Hy].
    + apply Hx. left. symmetry. exact Ey.
    + apply Ha. rewrite <- Ey. now apply in_map.
  - apply IH. constructor; [ | exact Hl'].
    intros Hin. apply Hx. right. exact Hin.
Qed.

Lemma NoDup_app_disjoint {B : Type} (l1 l2 : list B) :
  NoDup (l1 ++ l2) -> forall b, In b l1 -> In b l2 -> False.
Proof.
  induction l1 as [ | a l1 IH]; cbn [app]; intros H b H1 H2; [contradiction | ].
  inversion H as [ | ? ? Ha Hl]; subst. destruct H1 as [-> | H1].
  - apply Ha. apply in_or_app. right. exact H2.
  - exact (IH Hl b H1 H2).
Qed.

Lemma stable_sort_spec {A B : Type} (f : A -> B) (before : A -> A -> bool) (l : list A) :
  forall acc,
    NoDup (List.map f (acc ++ l)) ->
    NoDup (List.map f (List.fold_left (fun acc x => insert_sorted before x acc) l acc))
    /\ (forall y, In y (List.fold_left (fun acc x => insert_sorted before x acc) l acc)
                  <-> In y (acc ++ l)).
Proof.
  induction l as [ | x l IH]; intros acc H; cbn [List.fold_left].
  - rewrite app_nil_r in *. split; [exact H | tauto].
  - assert (H' : NoDup (List.map f (insert_sorted before x acc ++ l))).
    { rewrite map_app in *. apply NoDup_app_remove_l in H as Hl. cbn [List.map] in Hl.
      inversion Hl as [ | ? ? Hx Hl']; subst.
      apply NoDup_app.
      - apply insert_sorted_NoDup. cbn [List.map].
        constructor.
        + intros Hin. apply (NoDup_remove_2 _ _ _ H). apply in_or_app. left. exact Hin.
        + exact (NoDup_app_remove_r _ _ H).
      - exact Hl'.
      - intros b Hb Hbl. apply in_map_iff in Hb. destruct Hb as (y & Ey & Hy).
        apply insert_sorted_In in Hy. destruct Hy as [-> | Hy].
        + rewrite Ey in Hx. exact (Hx Hbl).
        + apply (NoDup_app_disjoint _ _ (NoDup_remove_1 _ _ _ H) b); [ | exact Hbl].
          rewrite <- Ey. now apply in_map. }
    destruct (IH _ H') as [N I]. split; [exact N | ].
    intros y. rewrite I, !in_app_iff, insert_sorted_In. cbn [In]. intuition congruence.
Qed.

Lemma slice0_firstn {A : Type} (l : list A) (limit : float) :
  exists k : nat, slice0 l limit = List.firstn k l.
Proof.
  unfold slice0. destruct (Num.to_Z limit) as [z | ].
  - destruct (z <? 0); eexists; reflexivity.
  - destruct (Num.truncate limit) as [z | ].
    + destruct (z <? 0); eexists; reflexivity.
    + destruct (is_nan limit || PrimFloat.ltb limit 0).
      * exists 0%nat. reflexivity.
      * exists (List.length l). now rewrite firstn_all.
Qed.

Lemma firstn_NoDup {A : Type} (k : nat) (l : list A) : NoDup l -> NoDup (List.firstn k l).
Proof.
  revert l. induction k as [ | k IH]; intros l H; [constructor | ].
  destruct l as [ | a l]; [constructor | ]. cbn [List.firstn].
  inversion H as [ | ? ? Ha Hl]; subst. constructor; [ | exact (IH _ Hl)].
  intros Hin. apply Ha. revert Hin. clear. revert l.
  induction k as [ | k IHk]; intros l Hin; [contradiction | ].
  destruct l as [ | b l]; [contradiction | ]. cbn [List.firstn In] in *.
  destruct Hin as [-> | Hin]; [left; reflexivity | right; exact (IHk _ Hin)].
Qed.

Lemma firstn_incl {A : Type} (k : nat) (l : list A) : incl (List.firstn k l) l.
Proof.
  revert l. induction k as [ | k IH]; intros l a Hin; [contradiction | ].
  destruct l as [ | b l]; [contradiction | ]. cbn [List.firstn In] in *.
  destruct Hin as [-> | Hin]; [left; reflexivity | right; exact (IH _ _ Hin)].
Qed.

(** The limit of [getTopAds] and [getTopProducts] is a number that is
    neither [NaN] nor zero: a limit that is missing, not a number, or zero
    gives way to the default. *)
Lemma limit_number_truthy (params : list (string * string)) (n : Z) :
  0 < n < 2 ^ 53 -> JS.truthy (JNum (limit_number rt params n)) = true.
Proof.
  intros Hn. unfold limit_number, JS.or_else.
  destruct (JS.truthy (JNum (JS.parseInt rt (params_get params "limit")))) eqn:T.
  - exact T.
  - now apply of_Z_truthy.
Qed.

(** A list of top products names every product line at most once, names
    only the product lines of the table and [Mix Product], and so holds at
    most eleven entries; under a limit that is a whole number from zero on
    it holds no more entries than the limit.  The limit of the request is
    never zero: [limit=0] asks for the default of five. *)
Theorem top_products_are_distinct_known_lines
    (limit : float) (data : list ad_row) (products : list product_total) :
  aggregateByProduct rt limit data = inr products ->
  NoDup (List.map product_line products)
  /\ incl (List.map product_line products) (List.map fst productMapping ++ ["Mix Product"])
  /\ (List.length products <= 11)%nat
  /\ (forall n : Z, Num.to_Z limit = Some n -> 0 <= n ->
      (List.length products <= Z.to_nat n)%nat)
  /\ (forall params, JS.truthy (JNum (limit_number rt params 5)) = true).
Proof.
  unfold aggregateByProduct.
  destruct (aggregate_rows rt data []) as [e | productMap] eqn:E; [discriminate | ].
  intros H. injection H as <-.
  destruct (aggregate_rows_names data [] productMap E) as [N I];
    [constructor | intros a [] | ].
  set (before := fun a b : product_total => PrimFloat.ltb (total b - total a) 0).
  destruct (stable_sort_spec product_line before productMap []) as [Ns Is]; [exact N | ].
  fold (stable_sort before productMap) in Ns, Is.
  assert (Nsliced : NoDup (List.map product_line (slice0 (stable_sort before productMap) limit))
                    /\ incl (List.map product_line (slice0 (stable_sort before productMap) limit))
                         (List.map fst productMapping ++ ["Mix Product"])).
  { destruct (slice0_firstn (stable_sort before productMap) limit) as [k ->].
    rewrite <- firstn_map. split.
    - now apply firstn_NoDup.
    - intros name Hin. apply firstn_incl in Hin. apply in_map_iff in Hin.
      destruct Hin as (p & <- & Hp). apply Is in Hp. cbn [app] in Hp.
      apply I. now apply in_map. }
  destruct Nsliced as [Nf If]. split; [exact Nf | ]. split; [exact If | ]. split; [ | split].
  - rewrite <- (length_map product_line).
    exact (NoDup_incl_length Nf If).
  - intros n Hn Hpos. unfold slice0. rewrite Hn.
    destruct (Z.ltb_spec n 0); [lia | ]. apply firstn_le_length.
  - intros params. apply limit_number_truthy. change (2 ^ 53) with 9007199254740992. lia.
Qed.

End Top_products.

Lemma top_products_are_distinct_known_lines_witness :
  NoDup (List.map Dashboard.product_line
           [ {| Dashboard.product_line := "MATCHA"; Dashboard.total := 12;
                Dashboard.spend := 3 |} ])
  /\ (List.length [ {| Dashboard.product_line := "MATCHA"; Dashboard.total := 12;
                       Dashboard.spend := 3 |} ] <= 11)%nat.
Proof.
  destruct (top_products_are_distinct_known_lines sample_runtime 5
              [ {| Dashboard.ad_name := JStr "Matcha video"; Dashboard.ad_value := Some 5%float;
                   Dashboard.ad_spend := Some 1%float |};
                {| Dashboard.ad_name := JStr "matcha carousel";
                   Dashboard.ad_value := Some 7%float;
                   Dashboard.ad_spend := Some 2%float |} ]
              [ {| Dashboard.product_line := "MATCHA"; Dashboard.total := 12;
                   Dashboard.spend := 3 |} ]
              ltac:(vm_compute; reflexivity)) as (N & _ & L & _).
  split; [exact N | exact L].
Defined.

(** ** The growth figures of the overview *)

Section Growth.

Import D1 Worker Dashboard.

Lemma finite_number (x : float) :
  JS.truthy (JNum x) = true -> is_infinity x = false ->
  exists s m e, Prim2SF x = S754_finite s m e.
Proof.
  unfold JS.truthy, is_nan, is_zero, is_infinity.
  rewrite !FloatAxioms.eqb_spec, FloatAxioms.abs_spec.
  change (Prim2SF 0) with (S754_zero false).
  change (Prim2SF infinity) with (S754_infinity false).
  destruct (Prim2SF x) as [s | s | | s m e]; cbn; try discriminate.
  intros _ _. now exists s, m, e.
Qed.

Lemma zero_number (x : float) (s : bool) :
  Prim2SF x = S754_zero s -> Json.number x = JsNum 0.
Proof.
  intros E. unfold Json.number, is_nan, is_zero, is_infinity.
  rewrite !FloatAxioms.eqb_spec, FloatAxioms.abs_spec, E.
  change (Prim2SF 0) with (S754_zero false).
  change (Prim2SF infinity) with (S754_infinity false).
  destruct s; reflexivity.
Qed.

Lemma growth_of_no_change (x : float) :
  JS.truthy (JNum x) = true -> is_infinity x = false ->
  Json.number (growth x x) = JsNum 0.
Proof.
  intros T I. destruct (finite_number x T I) as (s & m & e & E).
  unfold growth. rewrite T. cbn [negb orb].
  assert (Z : PrimFloat.eqb x 0 = false).
  { unfold JS.truthy in T. apply negb_true_iff, orb_false_iff in T. exact (proj2 T). }
  rewrite Z.
  apply (zero_number _ (xorb (xorb false s) false)).
  rewrite FloatAxioms.mul_spec, FloatAxioms.div_spec, FloatAxioms.sub_spec, E.
  unfold SF64mul, SF64div, SF64sub, SFsub. cbv zeta.
  match goal with
  | |- context [binary_normalize _ _ ?z _ _] =>
      replace z with 0 by (symmetry; apply Z.sub_diag)
  end.
  cbn [binary_normalize SFdiv SFmul].
  change (Prim2SF 100) with (S754_finite false 7036874417766400 (-46)).
  reflexivity.
Qed.

Lemma growth_from_nothing (curr prev : float) :
  JS.truthy (JNum prev) = false -> Json.number (growth curr prev) = JsNum 100.
Proof. intros T. unfold growth. rewrite T. reflexivity. Qed.

Lemma safe_of_nothing (val : option float) :
  JS.truthy (JNum (safe val)) = false <-> (val = None \/ exists x, val = Some x /\ JS.truthy (JNum x) = false).
Proof.
  unfold safe, or_zero. destruct val as [x | ].
  - destruct (JS.truthy (JNum x)) eqn:T.
    + rewrite T. split; [discriminate | ]. intros [H | (y & H & Hy)]; [discriminate | ].
      injection H as <-. congruence.
    + split; [ | reflexivity]. intros _. right. now exists x.
  - split; [now left | reflexivity].
Qed.

(** Each growth figure of the overview is 100 when the previous window
    has no value for it, that is when its sum is [NULL], zero or no
    number, whatever the current window holds (also nothing); it is 0
    when both windows hold the same finite value other than zero. *)
Theorem growth_figures_at_the_edges
    (current previous : totals_row) (prev : period)
    (name : string) (column : totals_row -> option float) :
  In (name, column) [ ("growth_spend", total_spend);
                      ("growth_impressions", total_impressions);
                      ("growth_results", total_results);
                      ("growth_cpm", cpm) ] ->
  ((column previous = None
    \/ exists x, column previous = Some x /\ JS.truthy (JNum x) = false) ->
   Json.field name (kpis current previous prev) = Some (JsNum 100))
  /\ (forall x, column previous = Some x -> column current = Some x ->
      JS.truthy (JNum x) = true -> is_infinity x = false ->
      Json.field name (kpis current previous prev) = Some (JsNum 0)).
Proof.
  intros Hin.
  assert (F : Json.field name (kpis current previous prev)
              = Some (Json.number (growth (safe (column current)) (safe (column previous))))).
  { cbn [In] in Hin.
    destruct Hin as [H | [H | [H | [H | []]]]]; injection H as <- <-; reflexivity. }
  rewrite F. split.
  - intros H. apply safe_of_nothing in H. now rewrite growth_from_nothing.
  - intros x Hp Hc T I. rewrite Hp, Hc. unfold safe, or_zero. rewrite T.
    now rewrite growth_of_no_change.
Qed.

End Growth.

Lemma growth_figures_at_the_edges_witness :
  Json.field "growth_results"
    (Dashboard.kpis
       {| Dashboard.total_spend := None; Dashboard.total_impressions := None;
          Dashboard.total_results := None; Dashboard.cpr := None; Dashboard.cpm := None |}
       {| Dashboard.total_spend := None; Dashboard.total_impressions := None;
          Dashboard.total_results := None; Dashboard.cpr := None; Dashboard.cpm := None |}
       {| Worker.startDate := "2025-08-14"; Worker.endDate := "2025-09-13" |})
  = Some (JsNum 100).
Proof.
  apply (growth_figures_at_the_edges _ _ _ "growth_results" Dashboard.total_results).
  - cbn [In]. do 2 right. left. reflexivity.
  - left. reflexivity.
Defined.
